(** * HomeKit object graph: Characteristic, Service, Bridge

    A shallow embedding of [Characteristic.js], [lib/Service.js] and the
    Bridge module of the repository, and the properties of the
    specification that are stated about them.

    JavaScript objects live in a store indexed by locations; a method is a
    function from the store to an outcome (a result or a thrown error) and
    the store it leaves behind.  What the engine hands to integration code
    (callbacks, event listeners) is recorded in a trace, in the order in
    which the calls are made. *)

From Stdlib Require Import Floats Uint63 ZArith Ascii String List Lia.
From stdpp Require Import gmap strings list.

Open Scope string_scope.

(** ** JavaScript values *)

Definition loc := nat.

(** The identity of a JavaScript function supplied by integration code. *)
Definition fn := nat.

(** Numbers are IEEE 754 doubles.  A string is held as its UTF-8
    encoding, the bytes [new Buffer(s, 'utf8')] is made of (a string
    with an unpaired surrogate has no such encoding and is left out).  An
    object that is neither a Characteristic, a Service nor an Accessory
    is known by its identity only. *)
Inductive jsval :=
| JUndefined
| JNull
| JBool (b : bool)
| JNum (x : float)
| JStr (s : string)
| JObj (l : loc).

(** [v === undefined || v === null] *)
Definition nullish (v : jsval) : bool :=
  match v with
  | JUndefined | JNull => true
  | _ => false
  end.

(** ToBoolean, as in [if (err)] and [x || 0]. *)
Definition float_truthy (x : float) : bool :=
  negb (PrimFloat.eqb x 0 || PrimFloat.is_nan x).

Definition truthy (v : jsval) : bool :=
  match v with
  | JUndefined | JNull => false
  | JBool b => b
  | JNum x => float_truthy x
  | JStr s => negb (String.eqb s "")
  | JObj _ => true
  end.

(** [a === b]: no conversion; numbers by IEEE equality, so that NaN differs
    from itself and the two zeros are equal; objects by identity. *)
Definition strict_eq (a b : jsval) : bool :=
  match a, b with
  | JUndefined, JUndefined => true
  | JNull, JNull => true
  | JBool x, JBool y => Bool.eqb x y
  | JNum x, JNum y => PrimFloat.eqb x y
  | JStr x, JStr y => String.eqb x y
  | JObj x, JObj y => Nat.eqb x y
  | _, _ => false
  end.

Definition float_of_Z (z : Z) : float := PrimFloat.of_uint63 (Uint63.of_Z z).
Definition float_of_nat (n : nat) : float := float_of_Z (Z.of_nat n).

(** ** Built-ins of the host

    The functions of the JavaScript runtime that the repository calls and
    that are not repository code.  Nothing is assumed about them. *)
Class JSRuntime := {
  (** ToNumber of a string *)
  StringToNumber : string -> float;
  (** ToNumber of the primitive value of an object *)
  ObjectToNumber : loc -> float;
  parseInt : jsval -> float;
  parseFloat : jsval -> float;
  Math_round : float -> float;
  Math_pow : float -> float -> float;
  (** [''+num] *)
  NumberToString : float -> string;
  (** [new Buffer(v, 'utf8')] for a [v] that is not a string: the bytes of
      the buffer, or [None] when the constructor throws *)
  Buffer_of_nonstring : jsval -> option string
}.

Definition ToNumber `{JSRuntime} (v : jsval) : float :=
  match v with
  | JUndefined => nan
  | JNull => 0
  | JBool b => if b then 1 else 0
  | JNum x => x
  | JStr s => StringToNumber s
  | JObj l => ObjectToNumber l
  end.

(** [v < bound] and [v > bound] against a number: both sides go through
    ToNumber and a comparison with NaN is false. *)
Definition js_lt `{JSRuntime} (v : jsval) (bound : float) : bool :=
  PrimFloat.ltb (ToNumber v) bound.

Definition js_gt `{JSRuntime} (v : jsval) (bound : float) : bool :=
  PrimFloat.ltb bound (ToNumber v).

(** ** UTF-8, as [Buffer] decodes it

    [buf.toString('utf8', start, end)] decodes the bytes and puts U+FFFD
    in the place of every ill-formed sequence: one for each maximal
    prefix of a well-formed sequence, one for each byte that starts
    none. *)

Definition byte (a : ascii) : N := N_of_ascii a.

Definition in_range (lo hi : N) (a : ascii) : bool :=
  (lo <=? byte a)%N && (byte a <=? hi)%N.

Definition is_cont (a : ascii) : bool := in_range 128 191 a.

(** U+FFFD in UTF-8: EF BF BD *)
Definition REPLACEMENT : string :=
  String (ascii_of_N 239) (String (ascii_of_N 191) (String (ascii_of_N 189) "")).

(** For a lead byte: how many bytes follow it and the range of the first
    of them. *)
Definition lead_info (b : ascii) : option (nat * N * N) :=
  let n := byte b in
  if (n <? 194)%N then None
  else if (n <=? 223)%N then Some (1%nat, 128%N, 191%N)
  else if (n =? 224)%N then Some (2%nat, 160%N, 191%N)
  else if (n =? 237)%N then Some (2%nat, 128%N, 159%N)
  else if (n <=? 239)%N then Some (2%nat, 128%N, 191%N)
  else if (n =? 240)%N then Some (3%nat, 144%N, 191%N)
  else if (n <=? 243)%N then Some (3%nat, 128%N, 191%N)
  else if (n =? 244)%N then Some (3%nat, 128%N, 143%N)
  else None.

Fixpoint utf8_decode (s : string) : string :=
  match s with
  | EmptyString => ""
  | String b1 t1 =>
    if (byte b1 <? 128)%N then String b1 (utf8_decode t1)
    else
      match lead_info b1 with
      | None => REPLACEMENT ++ utf8_decode t1
      | Some (n, lo, hi) =>
        match t1 with
        | EmptyString => REPLACEMENT
        | String b2 t2 =>
          if negb (in_range lo hi b2) then REPLACEMENT ++ utf8_decode t1
          else
            match n with
            | 1 => String b1 (String b2 (utf8_decode t2))
            | _ =>
              match t2 with
              | EmptyString => REPLACEMENT
              | String b3 t3 =>
                if negb (is_cont b3) then REPLACEMENT ++ utf8_decode t2
                else
                  match n with
                  | 2 => String b1 (String b2 (String b3 (utf8_decode t3)))
                  | _ =>
                    match t3 with
                    | EmptyString => REPLACEMENT
                    | String b4 t4 =>
                      if negb (is_cont b4) then REPLACEMENT ++ utf8_decode t3
                      else String b1 (String b2 (String b3 (String b4 (utf8_decode t4))))
                    end
                  end
              end
            end
        end
      end
  end.

(** [buf.toString('utf8', 0, n)] *)
Definition Buffer_toString (buf : string) (n : nat) : string :=
  utf8_decode (substring 0 n buf).

(** ** The data model *)

(** A listener registered with [on].  Integration code registers its own
    functions; the engine registers the closures that carry events
    upwards. *)
Inductive Listener :=
| External (f : fn)
(** the closure [addCharacteristic] of Service [s] puts on a cell *)
| BubbleToService (s : loc)
(** the two closures [addBridgedAccessory] of Bridge [b] puts on a child *)
| BridgeCharacteristicChange (b : loc)
| BridgeConfigurationChange (b : loc).

(** The listeners of an emitter: event name and listener, in the order of
    registration. *)
Definition Listeners := list (string * Listener).

Definition listeners_of (event : string) (ls : Listeners) : list Listener :=
  map snd (List.filter (fun p => String.eqb (fst p) event) ls).

Module Characteristic.

(** [Characteristic.Formats] *)
Inductive Format :=
| BOOL | INT | FLOAT | STRING | ARRAY | DICTIONARY
| UINT8 | UINT16 | UINT32 | UINT64 | DATA | TLV8.

(** [Characteristic.Units] *)
Inductive Unit := CELSIUS | PERCENTAGE | ARC_DEGREE | LUX | SECONDS.

(** [Characteristic.Perms] *)
Inductive Perm := READ | WRITE | NOTIFY | HIDDEN.

Definition Format_str (f : Format) : string :=
  match f with
  | BOOL => "bool" | INT => "int" | FLOAT => "float" | STRING => "string"
  | ARRAY => "array" | DICTIONARY => "dictionary"
  | UINT8 => "uint8" | UINT16 => "uint16" | UINT32 => "uint32"
  | UINT64 => "uint64" | DATA => "data" | TLV8 => "tlv8"
  end.

Definition Unit_str (u : Unit) : string :=
  match u with
  | CELSIUS => "celsius" | PERCENTAGE => "percentage"
  | ARC_DEGREE => "arcdegrees" | LUX => "lux" | SECONDS => "seconds"
  end.

Definition Perm_str (p : Perm) : string :=
  match p with
  | READ => "pr" | WRITE => "pw" | NOTIFY => "ev" | HIDDEN => "hd"
  end.

Definition Perm_eqb (p q : Perm) : bool :=
  match p, q with
  | READ, READ | WRITE, WRITE | NOTIFY, NOTIFY | HIDDEN, HIDDEN => true
  | _, _ => false
  end.

(** [props], with the fields and the types of the comment above
    [setProps]; [None] is a field that is null or was never set. *)
Record Props := {
  format : option Format;
  unit : option Unit;
  minValue : option float;
  maxValue : option float;
  minStep : option float;
  perms : list Perm;
  validValues : option (list float);
  validValueRanges : option (list float)
}.

(** A Characteristic object: the fields the constructor sets, the
    listeners its EventEmitter holds, and the constructors on its
    prototype chain (what [instanceof] looks at). *)
Record t := {
  displayName : string;
  UUID : string;
  iid : jsval;
  value : jsval;
  props : Props;
  listeners : Listeners;
  classes : list nat
}.

Definition with_value (v : jsval) (c : t) : t :=
  {| displayName := displayName c; UUID := UUID c; iid := iid c; value := v;
     props := props c; listeners := listeners c; classes := classes c |}.

Definition with_iid (i : jsval) (c : t) : t :=
  {| displayName := displayName c; UUID := UUID c; iid := i; value := value c;
     props := props c; listeners := listeners c; classes := classes c |}.

Definition with_props (p : Props) (c : t) : t :=
  {| displayName := displayName c; UUID := UUID c; iid := iid c; value := value c;
     props := p; listeners := listeners c; classes := classes c |}.

Definition with_listeners (ls : Listeners) (c : t) : t :=
  {| displayName := displayName c; UUID := UUID c; iid := iid c; value := value c;
     props := props c; listeners := ls; classes := classes c |}.

(** One [key: value] pair of the object given to [setProps]. *)
Inductive PropAssign :=
| Set_format (v : option Format)
| Set_unit (v : option Unit)
| Set_minValue (v : option float)
| Set_maxValue (v : option float)
| Set_minStep (v : option float)
| Set_perms (v : list Perm)
| Set_validValues (v : option (list float))
| Set_validValueRanges (v : option (list float)).

(** [this.props[key] = props[key]] *)
Definition assign (p : Props) (a : PropAssign) : Props :=
  match a with
  | Set_format v =>
    {| format := v; unit := unit p; minValue := minValue p; maxValue := maxValue p;
       minStep := minStep p; perms := perms p; validValues := validValues p;
       validValueRanges := validValueRanges p |}
  | Set_unit v =>
    {| format := format p; unit := v; minValue := minValue p; maxValue := maxValue p;
       minStep := minStep p; perms := perms p; validValues := validValues p;
       validValueRanges := validValueRanges p |}
  | Set_minValue v =>
    {| format := format p; unit := unit p; minValue := v; maxValue := maxValue p;
       minStep := minStep p; perms := perms p; validValues := validValues p;
       validValueRanges := validValueRanges p |}
  | Set_maxValue v =>
    {| format := format p; unit := unit p; minValue := minValue p; maxValue := v;
       minStep := minStep p; perms := perms p; validValues := validValues p;
       validValueRanges := validValueRanges p |}
  | Set_minStep v =>
    {| format := format p; unit := unit p; minValue := minValue p; maxValue := maxValue p;
       minStep := v; perms := perms p; validValues := validValues p;
       validValueRanges := validValueRanges p |}
  | Set_perms v =>
    {| format := format p; unit := unit p; minValue := minValue p; maxValue := maxValue p;
       minStep := minStep p; perms := v; validValues := validValues p;
       validValueRanges := validValueRanges p |}
  | Set_validValues v =>
    {| format := format p; unit := unit p; minValue := minValue p; maxValue := maxValue p;
       minStep := minStep p; perms := perms p; validValues := v;
       validValueRanges := validValueRanges p |}
  | Set_validValueRanges v =>
    {| format := format p; unit := unit p; minValue := minValue p; maxValue := maxValue p;
       minStep := minStep p; perms := perms p; validValues := validValues p;
       validValueRanges := v |}
  end.

(** The [props] the constructor installs when it is given none. *)
Definition default_props : Props :=
  {| format := None; unit := None; minValue := None; maxValue := None;
     minStep := None; perms := []; validValues := None; validValueRanges := None |}.

(** A constructor of the registry, [Characteristic.On] and the like:
    [Characteristic.call(this, name, uuid); this.setProps({...});
    this.value = this.getDefaultValue()], with a static [UUID] beside it.
    [type_id] is the identity of the constructor function. *)
Record Ctor := {
  type_id : nat;
  static_UUID : option string;
  new_displayName : string;
  new_UUID : string;
  new_props : list PropAssign
}.

End Characteristic.

Module Service.

(** A Service object.  The two arrays hold references to Characteristic
    objects. *)
Record t := {
  displayName : jsval;
  UUID : string;
  subtype : jsval;
  iid : jsval;
  characteristics : list loc;
  optionalCharacteristics : list loc;
  isPrimaryService : jsval;
  classes : list nat
}.

Definition with_characteristics (cs : list loc) (s : t) : t :=
  {| displayName := displayName s; UUID := UUID s; subtype := subtype s; iid := iid s;
     characteristics := cs; optionalCharacteristics := optionalCharacteristics s;
     isPrimaryService := isPrimaryService s; classes := classes s |}.

Definition with_iid (i : jsval) (s : t) : t :=
  {| displayName := displayName s; UUID := UUID s; subtype := subtype s; iid := i;
     characteristics := characteristics s;
     optionalCharacteristics := optionalCharacteristics s;
     isPrimaryService := isPrimaryService s; classes := classes s |}.

Definition with_optionalCharacteristics (cs : list loc) (s : t) : t :=
  {| displayName := displayName s; UUID := UUID s; subtype := subtype s; iid := iid s;
     characteristics := characteristics s; optionalCharacteristics := cs;
     isPrimaryService := isPrimaryService s; classes := classes s |}.

End Service.

Module Accessory.

(** Modelled from the spec: [Accessory.js] is not among the sources.  A
    DeviceNode is "a named, UUID-identified collection of Groupings" that
    exposes "UUID, name, [isBridge], ordered Groupings, [...] [category],
    [reachable]"; the fields are those the Bridge module reads and
    writes.  A Bridge is an Accessory whose [_isBridge] is set and that
    has a [bridgedAccessories] array. *)
Record t := {
  displayName : string;
  UUID : string;
  _isBridge : bool;
  bridged : bool;
  reachable : jsval;
  category : jsval;
  services : list loc;
  bridgedAccessories : list loc;
  listeners : Listeners
}.

Definition with_bridgedAccessories (l : list loc) (a : t) : t :=
  {| displayName := displayName a; UUID := UUID a; _isBridge := _isBridge a;
     bridged := bridged a; reachable := reachable a; category := category a;
     services := services a; bridgedAccessories := l; listeners := listeners a |}.

Definition with_services (l : list loc) (a : t) : t :=
  {| displayName := displayName a; UUID := UUID a; _isBridge := _isBridge a;
     bridged := bridged a; reachable := reachable a; category := category a;
     services := l; bridgedAccessories := bridgedAccessories a; listeners := listeners a |}.

Definition with_listeners (ls : Listeners) (a : t) : t :=
  {| displayName := displayName a; UUID := UUID a; _isBridge := _isBridge a;
     bridged := bridged a; reachable := reachable a; category := category a;
     services := services a; bridgedAccessories := bridgedAccessories a; listeners := ls |}.

Definition with_bridged (b : bool) (a : t) : t :=
  {| displayName := displayName a; UUID := UUID a; _isBridge := _isBridge a;
     bridged := b; reachable := reachable a; category := category a;
     services := services a; bridgedAccessories := bridgedAccessories a;
     listeners := listeners a |}.

End Accessory.

(** ** The store, the trace and the monad *)

(** The function handed to [once] by [getValue] and by [setValue]: the
    variables it closes over. *)
Inductive Continuation :=
| GetK (this : loc) (callback : option fn) (context : jsval)
| SetK (this : loc) (newValue : jsval) (callback : option fn) (context : jsval).

(** The function [once] returns: the function it wraps and whether it was
    called. *)
Record Latch := {
  called : bool;
  body : Continuation
}.

(** What the engine does to the outside, in order: the calls of a
    callback, the calls of [emit], and the recomputation of the
    configuration of a Bridge.  A function of integration code is not
    run when the engine calls it: the call is recorded, and what the
    function does to the engine it does by calling a method, or a latch
    it was given, as a step of its own. *)
Inductive Event :=
| Call (f : fn) (args : list jsval)
| EmitGet (c : loc) (latch : loc) (context connectionID : jsval)
| EmitSet (c : loc) (newValue : jsval) (latch : loc) (context connectionID : jsval)
| EmitChange (c : loc) (oldValue newValue context : jsval)
| EmitCharacteristicChange (s : loc) (c : loc) (oldValue newValue context : jsval)
| EmitConfigurationChange (s : loc)
| UpdateConfiguration (b : loc).

Record World := {
  cells : gmap loc Characteristic.t;
  services : gmap loc Service.t;
  accessories : gmap loc Accessory.t;
  latches : gmap loc Latch;
  (** the next free location *)
  next : loc;
  trace : list Event
}.

Definition with_cells (m : gmap loc Characteristic.t) (w : World) : World :=
  {| cells := m; services := services w; accessories := accessories w;
     latches := latches w; next := next w; trace := trace w |}.

Definition with_services (m : gmap loc Service.t) (w : World) : World :=
  {| cells := cells w; services := m; accessories := accessories w;
     latches := latches w; next := next w; trace := trace w |}.

Definition with_accessories (m : gmap loc Accessory.t) (w : World) : World :=
  {| cells := cells w; services := services w; accessories := m;
     latches := latches w; next := next w; trace := trace w |}.

Definition with_latches (m : gmap loc Latch) (w : World) : World :=
  {| cells := cells w; services := services w; accessories := accessories w;
     latches := m; next := next w; trace := trace w |}.

Definition with_next (n : loc) (w : World) : World :=
  {| cells := cells w; services := services w; accessories := accessories w;
     latches := latches w; next := n; trace := trace w |}.

Definition with_trace (t : list Event) (w : World) : World :=
  {| cells := cells w; services := services w; accessories := accessories w;
     latches := latches w; next := next w; trace := t |}.

Inductive Exn :=
| Error (message : string)
| TypeError (message : string).

Inductive Result (A : Type) :=
| Ok (a : A)
| Throw (e : Exn).

Arguments Ok {A} a.
Arguments Throw {A} e.

(** A computation runs in a store and leaves a store, also when it throws:
    what was written before the [throw] stays written. *)
Definition M (A : Type) : Type := World -> Result A * World.

Definition ret {A} (a : A) : M A := fun w => (Ok a, w).

Definition bind {A B} (m : M A) (k : A -> M B) : M B :=
  fun w =>
    match m w with
    | (Ok a, w') => k a w'
    | (Throw e, w') => (Throw e, w')
    end.

Definition throw {A} (e : Exn) : M A := fun w => (Throw e, w).

Notation "'let!' x ':=' m 'in' k" := (bind m (fun x => k))
  (at level 10, x name, m at level 100, k at level 200).
Notation "'do!' m 'in' k" := (bind m (fun _ => k))
  (at level 10, m at level 100, k at level 200).

(** The type of a call that returns nothing. *)
Abbreviation void := Datatypes.unit (only parsing).

Definition get_cell (c : loc) : M Characteristic.t :=
  fun w =>
    match cells w !! c with
    | Some ch => (Ok ch, w)
    | None => (Throw (TypeError "not a Characteristic"), w)
    end.

Definition put_cell (c : loc) (ch : Characteristic.t) : M void :=
  fun w => (Ok tt, with_cells (<[c := ch]> (cells w)) w).

Definition get_service (s : loc) : M Service.t :=
  fun w =>
    match services w !! s with
    | Some sv => (Ok sv, w)
    | None => (Throw (TypeError "not a Service"), w)
    end.

Definition put_service (s : loc) (sv : Service.t) : M void :=
  fun w => (Ok tt, with_services (<[s := sv]> (services w)) w).

Definition get_accessory (a : loc) : M Accessory.t :=
  fun w =>
    match accessories w !! a with
    | Some ac => (Ok ac, w)
    | None => (Throw (TypeError "not an Accessory"), w)
    end.

Definition put_accessory (a : loc) (ac : Accessory.t) : M void :=
  fun w => (Ok tt, with_accessories (<[a := ac]> (accessories w)) w).

(** A new object: the next free location. *)
Definition alloc : M loc :=
  fun w => (Ok (next w), with_next (S (next w)) w).

Definition log (e : Event) : M void :=
  fun w => (Ok tt, with_trace (trace w ++ [e]) w).

(** [if (callback) callback(args)] *)
Definition call_if (callback : option fn) (args : list jsval) : M void :=
  match callback with
  | Some f => log (Call f args)
  | None => ret tt
  end.

Fixpoint for_each {A} (l : list A) (f : A -> M void) : M void :=
  match l with
  | [] => ret tt
  | x :: l' => do! f x in for_each l' f
  end.

(** ** Characteristic.js *)

Section CharacteristicMethods.
Context `{JSRuntime}.

Import Characteristic.

(** The identity of the constructor [Characteristic] itself. *)
Definition Characteristic_id : nat := 0.

(** [new Characteristic(displayName, UUID, props)]; [chain] is the
    prototype chain of the object under construction. *)
Definition Characteristic_new (displayName UUID : string) (props : option Props)
    (chain : list nat) : M loc :=
  let! this := alloc in
  do! put_cell this
        {| displayName := displayName;
           UUID := UUID;
           iid := JNull;
           value := JNull;
           props := match props with Some p => p | None => default_props end;
           listeners := [];
           classes := chain |} in
  ret this.

Definition Characteristic_setProps (this : loc) (props : list PropAssign) : M loc :=
  let! ch := get_cell this in
  do! put_cell this (with_props (fold_left assign props (Characteristic.props ch)) ch) in
  ret this.

(** [this.props.minValue || 0] *)
Definition minValue_or_0 (p : Props) : float :=
  match minValue p with
  | Some x => if float_truthy x then x else 0
  | None => 0
  end.

(** The array and the object are new objects at every call. *)
Definition Characteristic_getDefaultValue (this : loc) : M jsval :=
  let! ch := get_cell this in
  match format (props ch) with
  | Some BOOL => ret (JBool false)
  | Some STRING => ret (JStr "")
  | Some ARRAY => let! l := alloc in ret (JObj l)
  | Some DICTIONARY => let! l := alloc in ret (JObj l)
  | Some DATA => ret (JStr "")
  | Some TLV8 => ret (JStr "")
  | _ => ret (JNum (minValue_or_0 (props ch)))
  end.

(** [this.emit('change', {oldValue, newValue, context})]: the call is
    recorded, and the listeners that Services have put on the cell emit
    'characteristic-change' on their Service, in the order of
    registration. *)
Definition emit_change (this : loc) (oldValue newValue context : jsval) : M void :=
  let! ch := get_cell this in
  do! log (EmitChange this oldValue newValue context) in
  for_each (listeners_of "change" (listeners ch))
    (fun l =>
       match l with
       | BubbleToService s => log (EmitCharacteristicChange s this oldValue newValue context)
       | _ => ret tt
       end).

(** The three lines that follow the default-fill in [getValue],
    [setValue] and [updateValue]: store, call back, emit when the value
    is not [===] to the old one. *)
Definition store_and_notify (this : loc) (newValue : jsval) (callback : option fn)
    (args : list jsval) (context : jsval) : M void :=
  let! ch := get_cell this in
  let oldValue := value ch in
  do! put_cell this (with_value newValue ch) in
  do! call_if callback args in
  if negb (strict_eq oldValue newValue)
  then emit_change this oldValue newValue context
  else ret tt.

(** [if (newValue === undefined || newValue === null)
      newValue = this.getDefaultValue()] *)
Definition default_fill (this : loc) (newValue : jsval) : M jsval :=
  if nullish newValue then Characteristic_getDefaultValue this else ret newValue.

(** The function [getValue] wraps in [once]: [function(err, newValue)]. *)
Definition getValue_resolved (this : loc) (callback : option fn) (context : jsval)
    (err newValue : jsval) : M void :=
  if truthy err then call_if callback [err]
  else
    let! newValue := default_fill this newValue in
    store_and_notify this newValue callback [JNull; newValue] context.

(** The function [setValue] wraps in [once]: [function(err)]. *)
Definition setValue_resolved (this : loc) (newValue : jsval) (callback : option fn)
    (context : jsval) (err : jsval) : M void :=
  if truthy err then call_if callback [err]
  else
    let! newValue := default_fill this newValue in
    store_and_notify this newValue callback [] context.

Definition run_continuation (k : Continuation) (err newValue : jsval) : M void :=
  match k with
  | GetK this callback context => getValue_resolved this callback context err newValue
  | SetK this v callback context => setValue_resolved this v callback context err
  end.

(** Modelled from the spec: [lib/util/once] is not among the sources.  The
    specification calls what it returns a latch, a "single-resolution
    wrapper ensuring an override's callback is honored at most once", that
    "discards all resolutions after the first": "later resolutions are
    silently dropped, not surfaced as errors". *)
Definition once (f : Continuation) : M loc :=
  let! k := alloc in
  fun w => (Ok k, with_latches (<[k := {| called := false; body := f |}]> (latches w)) w).

(** Modelled from the spec: a call [latch(err, newValue)] of the function
    that [once] returned, by the override that was given it. *)
Definition Latch_call (k : loc) (err newValue : jsval) : M void :=
  fun w =>
    match latches w !! k with
    | None => (Throw (TypeError "not a function"), w)
    | Some l =>
      if called l then (Ok tt, w)
      else run_continuation (body l) err newValue
             (with_latches (<[k := {| called := true; body := body l |}]> (latches w)) w)
    end.

Definition Characteristic_getValue (this : loc) (callback : option fn)
    (context connectionID : jsval) : M void :=
  let! ch := get_cell this in
  match listeners_of "get" (listeners ch) with
  | _ :: _ =>
    let! k := once (GetK this callback context) in
    log (EmitGet this k context connectionID)
  | [] =>
    call_if callback [JNull; value ch]
  end.

Definition Characteristic_setValue (this : loc) (newValue : jsval) (callback : option fn)
    (context connectionID : jsval) : M loc :=
  let! ch := get_cell this in
  do! match listeners_of "set" (listeners ch) with
      | _ :: _ =>
        let! k := once (SetK this newValue callback context) in
        log (EmitSet this newValue k context connectionID)
      | [] =>
        let! newValue := default_fill this newValue in
        store_and_notify this newValue callback [] context
      end in
  ret this.

Definition Characteristic_updateValue (this : loc) (newValue : jsval) (callback : option fn)
    (context : jsval) : M loc :=
  let! newValue := default_fill this newValue in
  do! store_and_notify this newValue callback [] context in
  ret this.

(** [characteristic.on(event, listener)] *)
Definition Characteristic_on (this : loc) (event : string) (l : Listener) : M loc :=
  let! ch := get_cell this in
  do! put_cell this (with_listeners (listeners ch ++ [(event, l)])%list ch) in
  ret this.

(** [characteristic.removeAllListeners()] *)
Definition Characteristic_removeAllListeners (this : loc) : M loc :=
  let! ch := get_cell this in
  do! put_cell this (with_listeners [] ch) in
  ret this.

(** [new ty()] for a constructor of the registry. *)
Definition Characteristic_construct (ty : Ctor) : M loc :=
  let! this := Characteristic_new (new_displayName ty) (new_UUID ty) None
                 [type_id ty; Characteristic_id] in
  let! _ := Characteristic_setProps this (new_props ty) in
  let! v := Characteristic_getDefaultValue this in
  let! ch := get_cell this in
  do! put_cell this (with_value v ch) in
  ret this.

(** What an [identifierCache] answers to
    [getIID(accessoryName, serviceUUID, serviceSubtype, characteristicUUID)];
    the last argument is absent when a Service asks for itself. *)
Definition IdentifierCache := string -> string -> jsval -> option string -> jsval.

Definition Characteristic__assignID (this : loc) (identifierCache : IdentifierCache)
    (accessoryName serviceUUID : string) (serviceSubtype : jsval) : M void :=
  let! ch := get_cell this in
  put_cell this
    (with_iid (identifierCache accessoryName serviceUUID serviceSubtype (Some (UUID ch))) ch).

(** *** [decimalPlaces] *)

Definition is_digit (a : ascii) : bool := in_range 48 57 a.

(** The longest prefix of digits, and what follows it. *)
Fixpoint span_digits (s : string) : string * string :=
  match s with
  | EmptyString => ("", "")
  | String a t =>
    if is_digit a
    then let (d, r) := span_digits t in (String a d, r)
    else ("", s)
  end.

Fixpoint digits_value (s : string) (acc : Z) : Z :=
  match s with
  | EmptyString => acc
  | String a t => digits_value t (10 * acc + (Z.of_N (byte a) - 48))
  end.

(** [+s] for an [s] of the shape [[+-]?\d+] *)
Definition signed_value (s : string) : Z :=
  match s with
  | String "-" t => - digits_value t 0
  | String "+" t => digits_value t 0
  | _ => digits_value s 0
  end.

(** The regular expression [(?:\.(\d+))?(?:[eE]([+-]?\d+))?$] tried at the
    start of [s]: the two groups when the whole of [s] has that shape. *)
Definition match_here (s : string) : option (option string * option string) :=
  let '(g1, rest) :=
    match s with
    | String "." t =>
      let (d, r) := span_digits t in
      if String.eqb d "" then (None, s) else (Some d, r)
    | _ => (None, s)
    end in
  match rest with
  | EmptyString => Some (g1, None)
  | String e t =>
    if Ascii.eqb e "e" || Ascii.eqb e "E" then
      let '(sign, t') :=
        match t with
        | String "+" u => ("+", u)
        | String "-" u => ("-", u)
        | _ => ("", t)
        end in
      let (d, r) := span_digits t' in
      if negb (String.eqb d "") && String.eqb r "" then Some (g1, Some (sign ++ d)) else None
    else None
  end.

(** [str.match(re)]: the leftmost position at which the expression
    matches; it matches at the end of every string. *)
Fixpoint regexp_match (s : string) : option string * option string :=
  match match_here s with
  | Some groups => groups
  | None =>
    match s with
    | EmptyString => (None, None)
    | String _ t => regexp_match t
    end
  end.

Definition decimalPlaces (num : float) : Z :=
  let (m1, m2) := regexp_match (NumberToString num) in
  Z.max 0
    (match m1 with Some d => Z.of_nat (String.length d) | None => 0 end
     - match m2 with Some e => signed_value e | None => 0 end).

(** *** [toHAP] *)

(** The object [toHAP] returns, by key.  A field holds a value or an array
    of values. *)
Inductive hapval :=
| HVal (v : jsval)
| HArr (l : list jsval).

Record Options := {
  omitValues : jsval
}.

(** "ensure our value fits within our constraints if present" *)
Definition toHAP_constrain (p : Props) (value : jsval) : jsval :=
  let value :=
    match minValue p with
    | Some lo => if js_lt value lo then JNum lo else value
    | None => value
    end in
  match maxValue p with
  | Some hi => if js_gt value hi then JNum hi else value
  | None => value
  end.

(** The coercion by format. *)
Definition toHAP_coerce (p : Props) (value : jsval) : jsval :=
  match format p with
  | Some INT | Some UINT8 | Some UINT16 | Some UINT32 | Some UINT64 =>
    JNum (parseInt value)
  | Some FLOAT =>
    let x := parseFloat value in
    match minStep p with
    | Some step =>
      let pow := Math_pow 10 (float_of_Z (decimalPlaces step)) in
      JNum (Math_round (x * pow) / pow)
    | None => JNum x
    end
  | _ => value
  end.

(** [new Buffer(value, 'utf8')] *)
Definition Buffer_new (value : jsval) : M string :=
  match value with
  | JStr s => ret s
  | _ =>
    match Buffer_of_nonstring value with
    | Some bytes => ret bytes
    | None => throw (TypeError "First argument must be a string, Buffer, ArrayBuffer, Array, or array-like object.")
    end
  end.

Definition has_READ (p : Props) : bool := existsb (Perm_eqb READ) (perms p).

Definition nonempty {A} (o : option (list A)) : bool :=
  match o with
  | Some (_ :: _) => true
  | _ => false
  end.

(** The object literal, the valid values and the "extra properties". *)
Definition toHAP_object (ch : Characteristic.t) (value : jsval) : gmap string hapval :=
  let p := props ch in
  let hap : gmap string hapval :=
    <["description" := HVal (JStr (displayName ch))]>
    (<["value" := HVal value]>
    (<["format" := HVal (match format p with Some f => JStr (Format_str f) | None => JNull end)]>
    (<["perms" := HArr (map (fun q => JStr (Perm_str q)) (perms p))]>
    (<["type" := HVal (JStr (UUID ch))]>
    (<["iid" := HVal (iid ch)]> ∅))))) in
  let hap :=
    if nonempty (validValues p)
    then <["valid-values" := HArr (map JNum (default [] (validValues p)))]> hap
    else hap in
  let hap :=
    if nonempty (validValueRanges p)
       && Nat.even (length (default [] (validValueRanges p)))
    then <["valid-values-range" := HArr (map JNum (default [] (validValueRanges p)))]> hap
    else hap in
  let hap := match unit p with Some u => <["unit" := HVal (JStr (Unit_str u))]> hap | None => hap end in
  let hap := match maxValue p with Some x => <["maxValue" := HVal (JNum x)]> hap | None => hap end in
  let hap := match minValue p with Some x => <["minValue" := HVal (JNum x)]> hap | None => hap end in
  match minStep p with Some x => <["minStep" := HVal (JNum x)]> hap | None => hap end.

(** "add maxLen if string length is > 64 bytes and trim to max 256 bytes" *)
Definition toHAP_maxLen (p : Props) (value : jsval) (hap : gmap string hapval)
    : M (gmap string hapval) :=
  match format p with
  | Some STRING =>
    let! str := Buffer_new value in
    let len := String.length str in
    if (256 <? len)%nat
    then ret (<["maxLen" := HVal (JNum 256)]>
              (<["value" := HVal (JStr (Buffer_toString str 256))]> hap))
    else if (64 <? len)%nat
    then ret (<["maxLen" := HVal (JNum (float_of_nat len))]> hap)
    else ret hap
  | _ => ret hap
  end.

(** The two [delete hap.value]. *)
Definition toHAP_omit (p : Props) (opt : option Options) (hap : gmap string hapval)
    : gmap string hapval :=
  let hap := if negb (has_READ p) then delete "value" hap else hap in
  match opt with
  | Some o => if truthy (omitValues o) then delete "value" hap else hap
  | None => hap
  end.

Definition Characteristic_toHAP (this : loc) (opt : option Options)
    : M (gmap string hapval) :=
  let! ch := get_cell this in
  let p := props ch in
  let value := toHAP_coerce p (toHAP_constrain p (value ch)) in
  let! hap := toHAP_maxLen p value (toHAP_object ch value) in
  ret (toHAP_omit p opt hap).

End CharacteristicMethods.

(** ** lib/Service.js *)

Module ServiceType.

(** A constructor of the registry, [Service.BridgingState] and the like:
    [Service.call(this, displayName, uuid, subtype)], one
    [addCharacteristic] for each required type, one
    [addOptionalCharacteristic] for each optional type, and a static
    [UUID]. *)
Record t := {
  type_id : nat;
  static_UUID : option string;
  new_UUID : string;
  required : list Characteristic.Ctor;
  optional : list Characteristic.Ctor
}.

End ServiceType.

(** The first index at which [f] holds. *)
Fixpoint index_where {A} (f : A -> bool) (l : list A) : option nat :=
  match l with
  | [] => None
  | x :: l' => if f x then Some 0 else S <$> index_where f l'
  end.

Section ServiceMethods.
Context `{JSRuntime}.

(** What is given to [addCharacteristic]: an object, or a constructor. *)
Inductive CharacteristicArg :=
| Instance (c : loc)
| Constructor (ty : Characteristic.Ctor).

(** What is given to [getCharacteristic]: a display name, or a
    constructor. *)
Inductive Selector :=
| ByName (name : string)
| ByType (ty : Characteristic.Ctor).

(** [characteristic instanceof ty] *)
Definition instanceof (ch : Characteristic.t) (ty : Characteristic.Ctor) : bool :=
  existsb (Nat.eqb (Characteristic.type_id ty)) (Characteristic.classes ch).

(** [ty.UUID === characteristic.UUID] *)
Definition static_UUID_is (ty : Characteristic.Ctor) (uuid : string) : bool :=
  match Characteristic.static_UUID ty with
  | Some u => String.eqb u uuid
  | None => false
  end.

(** The test of the two loops of [getCharacteristic] and of the loop of
    [testCharacteristic]. *)
Definition selects (name : Selector) (ch : Characteristic.t) : bool :=
  match name with
  | ByName n => String.eqb (Characteristic.displayName ch) n
  | ByType ty => instanceof ch ty || static_UUID_is ty (Characteristic.UUID ch)
  end.

(** [for (index in array)] with a [return] at the first element on which
    the test holds. *)
Fixpoint find_cell (f : Characteristic.t -> bool) (l : list loc) : M (option loc) :=
  match l with
  | [] => ret None
  | c :: l' =>
    let! ch := get_cell c in
    if f ch then ret (Some c) else find_cell f l'
  end.

(** The loop of [addCharacteristic]: "check for UUID conflict". *)
Definition check_UUID_conflict (uuid : string) (l : list loc) : M void :=
  for_each l
    (fun e =>
       let! existing := get_cell e in
       if String.eqb (Characteristic.UUID existing) uuid
       then throw (Error ("Cannot add a Characteristic with the same UUID as another Characteristic in this Service: "
                          ++ Characteristic.UUID existing))
       else ret tt).

Definition Service_addCharacteristic (this : loc) (characteristic : CharacteristicArg)
    : M loc :=
  let! characteristic :=
    match characteristic with
    | Constructor ty => Characteristic_construct ty
    | Instance c => ret c
    end in
  let! sv := get_service this in
  let! new := get_cell characteristic in
  do! check_UUID_conflict (Characteristic.UUID new) (Service.characteristics sv) in
  let! _ := Characteristic_on characteristic "change" (BubbleToService this) in
  do! put_service this
        (Service.with_characteristics (Service.characteristics sv ++ [characteristic]) sv) in
  do! log (EmitConfigurationChange this) in
  ret characteristic.

(** [array.splice(i, 1)] *)
Definition splice1 {A} (i : nat) (l : list A) : list A := take i l ++ drop (S i) l.

(** The index found by the loop is a property name, a string that is not
    empty: [if (targetCharacteristicIndex)] holds whenever the object was
    found. *)
Definition Service_removeCharacteristic (this : loc) (characteristic : loc) : M void :=
  let! sv := get_service this in
  match index_where (Nat.eqb characteristic) (Service.characteristics sv) with
  | Some targetCharacteristicIndex =>
    do! put_service this
          (Service.with_characteristics
             (splice1 targetCharacteristicIndex (Service.characteristics sv)) sv) in
    let! _ := Characteristic_removeAllListeners characteristic in
    log (EmitConfigurationChange this)
  | None => ret tt
  end.

(** [None] is [undefined], what a function returns when it ends without
    [return]. *)
Definition Service_getCharacteristic (this : loc) (name : Selector) : M (option loc) :=
  let! sv := get_service this in
  let! found := find_cell (selects name) (Service.characteristics sv) in
  match found with
  | Some c => ret (Some c)
  | None =>
    match name with
    | ByType ty =>
      let! template := find_cell (selects (ByType ty)) (Service.optionalCharacteristics sv) in
      match template with
      | Some _ =>
        let! c := Service_addCharacteristic this (Constructor ty) in
        ret (Some c)
      | None => ret None
      end
    | ByName _ => ret None
    end
  end.

Definition Service_testCharacteristic (this : loc) (name : Selector) : M bool :=
  let! sv := get_service this in
  let! found := find_cell (selects name) (Service.characteristics sv) in
  ret (bool_decide (is_Some found)).

(** [this.getCharacteristic(name).setValue(value)] *)
Definition Service_setCharacteristic (this : loc) (name : Selector) (value : jsval) : M loc :=
  let! c := Service_getCharacteristic this name in
  match c with
  | Some c =>
    let! _ := Characteristic_setValue c value None JUndefined JUndefined in
    ret this
  | None => throw (TypeError "Cannot read property 'setValue' of undefined")
  end.

Definition Service_updateCharacteristic (this : loc) (name : Selector) (value : jsval)
    : M loc :=
  let! c := Service_getCharacteristic this name in
  match c with
  | Some c =>
    let! _ := Characteristic_updateValue c value None JUndefined in
    ret this
  | None => throw (TypeError "Cannot read property 'updateValue' of undefined")
  end.

Definition Service_addOptionalCharacteristic (this : loc) (characteristic : CharacteristicArg)
    : M void :=
  let! characteristic :=
    match characteristic with
    | Constructor ty => Characteristic_construct ty
    | Instance c => ret c
    end in
  let! sv := get_service this in
  put_service this
    (Service.with_optionalCharacteristics
       (Service.optionalCharacteristics sv ++ [characteristic]) sv).

Definition Service_getCharacteristicByIID (this : loc) (iid : jsval) : M (option loc) :=
  let! sv := get_service this in
  find_cell (fun ch => strict_eq (Characteristic.iid ch) iid) (Service.characteristics sv).

(** "the Accessory Information service must have a (reserved by
    IdentifierCache) ID of 1" *)
Definition Service__assignIDs (this : loc) (identifierCache : IdentifierCache)
    (accessoryName : string) : M void :=
  let! sv := get_service this in
  let iid :=
    if String.eqb (Service.UUID sv) "0000003E-0000-1000-8000-0026BB765291"
    then JNum 1
    else identifierCache accessoryName (Service.UUID sv) (Service.subtype sv) None in
  do! put_service this (Service.with_iid iid sv) in
  for_each (Service.characteristics sv)
    (fun c =>
       Characteristic__assignID c identifierCache accessoryName (Service.UUID sv)
         (Service.subtype sv)).

(** The object [Service.prototype.toHAP] returns. *)
Record ServiceHAP := {
  hap_iid : jsval;
  hap_type : string;
  hap_characteristics : list (gmap string hapval);
  hap_primary : option jsval
}.

Fixpoint map_m {A B} (f : A -> M B) (l : list A) : M (list B) :=
  match l with
  | [] => ret []
  | x :: l' =>
    let! y := f x in
    let! ys := map_m f l' in
    ret (y :: ys)
  end.

Definition Service_toHAP (this : loc) (opt : option Options) : M ServiceHAP :=
  let! sv := get_service this in
  let! characteristicsHAP :=
    map_m (fun c => Characteristic_toHAP c opt) (Service.characteristics sv) in
  ret {| hap_iid := Service.iid sv;
         hap_type := Service.UUID sv;
         hap_characteristics := characteristicsHAP;
         hap_primary :=
           match Service.isPrimaryService sv with
           | JUndefined => None
           | v => Some v
           end |}.

Definition Service__setupCharacteristic (this : loc) (characteristic : loc) : M void :=
  let! _ := Characteristic_on characteristic "change" (BubbleToService this) in
  ret tt.

Definition Service__sideloadCharacteristics (this : loc) (targetCharacteristics : list loc)
    : M void :=
  do! for_each targetCharacteristics (Service__setupCharacteristic this) in
  let! sv := get_service this in
  put_service this (Service.with_characteristics targetCharacteristics sv).

(** [Characteristic.Name] *)
Definition Characteristic_Name : Characteristic.Ctor :=
  {| Characteristic.type_id := 1;
     Characteristic.static_UUID := Some "00000023-0000-1000-8000-0026BB765291";
     Characteristic.new_displayName := "Name";
     Characteristic.new_UUID := "00000023-0000-1000-8000-0026BB765291";
     Characteristic.new_props :=
       [Characteristic.Set_format (Some Characteristic.STRING);
        Characteristic.Set_perms [Characteristic.READ]] |}.

(** The identity of the constructor [Service] itself. *)
Definition Service_id : nat := 0.

(** [new Service(displayName, UUID, subtype)]; [chain] is the prototype
    chain of the object under construction. *)
Definition Service_new (displayName : jsval) (UUID : string) (subtype : jsval)
    (chain : list nat) : M loc :=
  if String.eqb UUID "" then throw (Error "Services must be created with a valid UUID.")
  else
    let! this := alloc in
    do! put_service this
          {| Service.displayName := displayName;
             Service.UUID := UUID;
             Service.subtype := subtype;
             Service.iid := JNull;
             Service.characteristics := [];
             Service.optionalCharacteristics := [];
             Service.isPrimaryService := JUndefined;
             Service.classes := chain |} in
    do! (if truthy displayName then
           let! found := Service_getCharacteristic this (ByType Characteristic_Name) in
           let! nameCharacteristic :=
             match found with
             | Some c => ret c
             | None => Service_addCharacteristic this (Constructor Characteristic_Name)
             end in
           let! _ := Characteristic_setValue nameCharacteristic displayName None
                       JUndefined JUndefined in
           ret tt
         else ret tt) in
    ret this.

(** [new ty(displayName, subtype)] for a constructor of the registry. *)
Definition Service_construct (ty : ServiceType.t) (displayName subtype : jsval) : M loc :=
  let! this := Service_new displayName (ServiceType.new_UUID ty) subtype
                 [ServiceType.type_id ty; Service_id] in
  do! for_each (ServiceType.required ty)
        (fun c => let! _ := Service_addCharacteristic this (Constructor c) in ret tt) in
  do! for_each (ServiceType.optional ty)
        (fun c => Service_addOptionalCharacteristic this (Constructor c)) in
  ret this.

End ServiceMethods.

(** ** The Bridge module *)

Section BridgeMethods.
Context `{JSRuntime}.

(** [Characteristic.Reachable] *)
Definition Characteristic_Reachable : Characteristic.Ctor :=
  {| Characteristic.type_id := 2;
     Characteristic.static_UUID := Some "00000063-0000-1000-8000-0026BB765291";
     Characteristic.new_displayName := "Reachable";
     Characteristic.new_UUID := "00000063-0000-1000-8000-0026BB765291";
     Characteristic.new_props :=
       [Characteristic.Set_format (Some Characteristic.BOOL);
        Characteristic.Set_perms [Characteristic.READ; Characteristic.NOTIFY]] |}.

(** [Characteristic.LinkQuality] *)
Definition Characteristic_LinkQuality : Characteristic.Ctor :=
  {| Characteristic.type_id := 3;
     Characteristic.static_UUID := Some "0000009C-0000-1000-8000-0026BB765291";
     Characteristic.new_displayName := "Link Quality";
     Characteristic.new_UUID := "0000009C-0000-1000-8000-0026BB765291";
     Characteristic.new_props :=
       [Characteristic.Set_format (Some Characteristic.UINT8);
        Characteristic.Set_maxValue (Some 4%float);
        Characteristic.Set_minValue (Some 1%float);
        Characteristic.Set_minStep (Some 1%float);
        Characteristic.Set_perms [Characteristic.READ; Characteristic.NOTIFY]] |}.

(** [Characteristic.AccessoryIdentifier] *)
Definition Characteristic_AccessoryIdentifier : Characteristic.Ctor :=
  {| Characteristic.type_id := 4;
     Characteristic.static_UUID := Some "00000057-0000-1000-8000-0026BB765291";
     Characteristic.new_displayName := "Accessory Identifier";
     Characteristic.new_UUID := "00000057-0000-1000-8000-0026BB765291";
     Characteristic.new_props :=
       [Characteristic.Set_format (Some Characteristic.STRING);
        Characteristic.Set_perms [Characteristic.READ]] |}.

(** [Characteristic.Category] *)
Definition Characteristic_Category : Characteristic.Ctor :=
  {| Characteristic.type_id := 5;
     Characteristic.static_UUID := Some "000000A3-0000-1000-8000-0026BB765291";
     Characteristic.new_displayName := "Category";
     Characteristic.new_UUID := "000000A3-0000-1000-8000-0026BB765291";
     Characteristic.new_props :=
       [Characteristic.Set_format (Some Characteristic.UINT16);
        Characteristic.Set_maxValue (Some 16%float);
        Characteristic.Set_minValue (Some 1%float);
        Characteristic.Set_minStep (Some 1%float);
        Characteristic.Set_perms [Characteristic.READ; Characteristic.NOTIFY]] |}.

(** [Service.BridgingState] *)
Definition Service_BridgingState : ServiceType.t :=
  {| ServiceType.type_id := 1;
     ServiceType.static_UUID := Some "00000062-0000-1000-8000-0026BB765291";
     ServiceType.new_UUID := "00000062-0000-1000-8000-0026BB765291";
     ServiceType.required :=
       [Characteristic_Reachable; Characteristic_LinkQuality;
        Characteristic_AccessoryIdentifier; Characteristic_Category];
     ServiceType.optional := [Characteristic_Name] |}.

Fixpoint find_service (f : Service.t -> bool) (l : list loc) : M (option loc) :=
  match l with
  | [] => ret None
  | s :: l' =>
    let! sv := get_service s in
    if f sv then ret (Some s) else find_service f l'
  end.

(** Modelled from the spec: [Accessory.prototype.getService] is not among
    the sources.  A DeviceNode offers "lookup by type/name" over its
    "ordered Groupings"; the Bridge looks up by type, which is matched
    as [getCharacteristic] matches a type: by constructor or by UUID. *)
Definition Accessory_getService (this : loc) (ty : ServiceType.t) : M (option loc) :=
  let! ac := get_accessory this in
  find_service
    (fun sv =>
       existsb (Nat.eqb (ServiceType.type_id ty)) (Service.classes sv)
       || match ServiceType.static_UUID ty with
          | Some u => String.eqb u (Service.UUID sv)
          | None => false
          end)
    (Accessory.services ac).

(** Modelled from the spec: [Accessory.prototype.addService] is not among
    the sources.  The Grouping is made from its constructor and becomes
    the last of the "ordered Groupings" of the DeviceNode. *)
Definition Accessory_addService (this : loc) (ty : ServiceType.t) : M loc :=
  let! service := Service_construct ty JUndefined JUndefined in
  let! ac := get_accessory this in
  do! put_accessory this (Accessory.with_services (Accessory.services ac ++ [service]) ac) in
  ret service.

(** Modelled from the spec: [_updateConfiguration] is not among the
    sources.  It "recomputes the externally-visible configuration
    signature (the transport layer's cue that the device tree changed)". *)
Definition Accessory__updateConfiguration (this : loc) : M void :=
  log (UpdateConfiguration this).

(** [accessory.getService(Service.BridgingState).getCharacteristic(ty)
      .setValue(value)] *)
Definition seed_BridgingState (accessory : loc) (ty : Characteristic.Ctor) (value : jsval)
    : M void :=
  let! service := Accessory_getService accessory Service_BridgingState in
  match service with
  | None => throw (TypeError "Cannot read property 'getCharacteristic' of undefined")
  | Some service =>
    let! c := Service_getCharacteristic service (ByType ty) in
    match c with
    | None => throw (TypeError "Cannot read property 'setValue' of undefined")
    | Some c =>
      let! _ := Characteristic_setValue c value None JUndefined JUndefined in
      ret tt
    end
  end.

(** The loop of [addBridgedAccessory]: "check for UUID conflict". *)
Definition check_bridged_UUID_conflict (uuid : string) (l : list loc) : M void :=
  for_each l
    (fun e =>
       let! existing := get_accessory e in
       if String.eqb (Accessory.UUID existing) uuid
       then throw (Error ("Cannot add a bridged Accessory with the same UUID as another bridged Accessory: "
                          ++ Accessory.UUID existing))
       else ret tt).

Definition Accessory_on (this : loc) (event : string) (l : Listener) : M void :=
  let! ac := get_accessory this in
  put_accessory this
    (Accessory.with_listeners (Accessory.listeners ac ++ [(event, l)])%list ac).

Definition Accessory_removeAllListeners (this : loc) : M void :=
  let! ac := get_accessory this in
  put_accessory this (Accessory.with_listeners [] ac).

Definition Bridge_addBridgedAccessory (this : loc) (accessory : loc) (deferUpdate : jsval)
    : M loc :=
  let! ac := get_accessory accessory in
  if Accessory._isBridge ac then throw (Error "Cannot Bridge another Bridge!")
  else
    let! br := get_accessory this in
    do! check_bridged_UUID_conflict (Accessory.UUID ac) (Accessory.bridgedAccessories br) in
    let! bridgingState := Accessory_getService accessory Service_BridgingState in
    do! match bridgingState with
        | None => let! _ := Accessory_addService accessory Service_BridgingState in ret tt
        | Some _ => ret tt
        end in
    do! seed_BridgingState accessory Characteristic_AccessoryIdentifier
          (JStr (Accessory.UUID ac)) in
    do! seed_BridgingState accessory Characteristic_Reachable (Accessory.reachable ac) in
    do! seed_BridgingState accessory Characteristic_Category (Accessory.category ac) in
    do! Accessory_on accessory "service-characteristic-change" (BridgeCharacteristicChange this) in
    do! Accessory_on accessory "service-configurationChange" (BridgeConfigurationChange this) in
    let! ac := get_accessory accessory in
    do! put_accessory accessory (Accessory.with_bridged true ac) in
    let! br := get_accessory this in
    do! put_accessory this
          (Accessory.with_bridgedAccessories (Accessory.bridgedAccessories br ++ [accessory]) br) in
    do! (if negb (truthy deferUpdate) then Accessory__updateConfiguration this else ret tt) in
    ret accessory.

Definition Bridge_addBridgedAccessories (this : loc) (accessories : list loc) : M void :=
  do! for_each accessories
        (fun accessory =>
           let! _ := Bridge_addBridgedAccessory this accessory (JBool true) in ret tt) in
  Accessory__updateConfiguration this.

(** The loop of [removeBridgedAccessory]: the index of the first child
    with the UUID. *)
Fixpoint find_bridged (uuid : string) (l : list loc) : M (option nat) :=
  match l with
  | [] => ret None
  | e :: l' =>
    let! existing := get_accessory e in
    if String.eqb (Accessory.UUID existing) uuid then ret (Some 0)
    else
      let! r := find_bridged uuid l' in
      ret (S <$> r)
  end.

Definition Bridge_removeBridgedAccessory (this : loc) (accessory : loc) (deferUpdate : jsval)
    : M void :=
  let! ac := get_accessory accessory in
  if Accessory._isBridge ac then throw (Error "Cannot Bridge another Bridge!")
  else
    let! br := get_accessory this in
    let! found := find_bridged (Accessory.UUID ac) (Accessory.bridgedAccessories br) in
    match found with
    | None => throw (Error "Cannot find the bridged Accessory to remove.")
    | Some index =>
      do! put_accessory this
            (Accessory.with_bridgedAccessories
               (splice1 index (Accessory.bridgedAccessories br)) br) in
      do! Accessory_removeAllListeners accessory in
      if negb (truthy deferUpdate) then Accessory__updateConfiguration this else ret tt
    end.

Definition Bridge_removeBridgedAccessories (this : loc) (accessories : list loc) : M void :=
  do! for_each accessories
        (fun accessory => Bridge_removeBridgedAccessory this accessory (JBool true)) in
  Accessory__updateConfiguration this.

End BridgeMethods.

(** ** What the properties are stated with *)

(** [m] reads the store and writes nothing. *)
Definition readonly {A} (m : M A) : Prop := forall w, snd (m w) = w.

(** What [emit_change] adds to the trace. *)
Definition change_events (ch : Characteristic.t) (this : loc)
    (oldValue newValue context : jsval) : list Event :=
  EmitChange this oldValue newValue context
  :: flat_map (fun l => match l with
                        | BubbleToService s =>
                          [EmitCharacteristicChange s this oldValue newValue context]
                        | _ => []
                        end)
       (listeners_of "change" (Characteristic.listeners ch)).

(** What [call_if] adds to the trace. *)
Definition call_events (callback : option fn) (args : list jsval) : list Event :=
  match callback with
  | Some f => [Call f args]
  | None => []
  end.

Definition is_change_of (c : loc) (e : Event) : bool :=
  match e with
  | EmitChange c' _ _ _ => Nat.eqb c c'
  | _ => false
  end.

(** The 'change' events of cell [c] among what was added to the trace
    between the store [w] and the later store [w']. *)
Definition changes_since (w w' : World) (c : loc) : list Event :=
  List.filter (is_change_of c) (drop (length (trace w)) (trace w')).

(** The value [getDefaultValue] returns for a format whose default has no
    identity of its own. *)
Definition scalar_default (p : Characteristic.Props) : jsval :=
  match Characteristic.format p with
  | Some Characteristic.BOOL => JBool false
  | Some Characteristic.STRING | Some Characteristic.DATA | Some Characteristic.TLV8 => JStr ""
  | _ => JNum (minValue_or_0 p)
  end.

(** The formats for which [getDefaultValue] makes a new object. *)
Definition allocates_default (p : Characteristic.Props) : bool :=
  match Characteristic.format p with
  | Some Characteristic.ARRAY | Some Characteristic.DICTIONARY => true
  | _ => false
  end.

Definition is_call (e : Event) : bool :=
  match e with
  | Call _ _ => true
  | _ => false
  end.

(** How many times the engine has called a callback. *)
Definition count_calls (t : list Event) : nat := length (List.filter is_call t).

(** The override calls the function it was given once for each element of
    [rs], whatever each call does. *)
Fixpoint resolve_all (k : loc) (rs : list (jsval * jsval)) (w : World) : World :=
  match rs with
  | [] => w
  | (err, newValue) :: rs' => resolve_all k rs' (snd (Latch_call k err newValue w))
  end.

Definition callback_of (f : Continuation) : option fn :=
  match f with
  | GetK _ callback _ => callback
  | SetK _ _ callback _ => callback
  end.

(** [m] adds to the trace only, and at most [n] calls of a callback. *)
Definition adds_calls {A} (n : nat) (m : M A) : Prop :=
  forall w, exists evs,
    trace (snd (m w)) = (trace w ++ evs)%list /\ count_calls evs <= n.

(** [m] leaves the latches as they are. *)
Definition keeps_latches {A} (m : M A) : Prop :=
  forall w, latches (snd (m w)) = latches w.

(** The latch [k] no longer runs the function it wraps. *)
Definition spent (k : loc) (w : World) : Prop :=
  match latches w !! k with
  | Some l => called l = true
  | None => True
  end.

(** Every Characteristic of the store was allocated: its location is below
    [next]. *)
Definition cells_below_next (w : World) : Prop :=
  map_Forall (fun l _ => l < next w) (cells w).

(** ** A store for the examples *)

(** A host for the examples.  It does what Node does where the examples
    reach it: [parseInt] and [parseFloat] of a number that is an integer,
    [Math.round] of an integer, [''+1] and [Math.pow(10, 0)].  The
    examples reach it nowhere else. *)
Definition example_runtime : JSRuntime :=
  {| StringToNumber := fun _ => nan;
     ObjectToNumber := fun _ => nan;
     parseInt := fun v => match v with JNum x => x | _ => nan end;
     parseFloat := fun v => match v with JNum x => x | _ => nan end;
     Math_round := fun x => x;
     Math_pow := fun _ _ => 1%float;
     NumberToString := fun _ => "1";
     Buffer_of_nonstring := fun _ => None |}.

(** [Characteristic.On] *)
Definition Characteristic_On : Characteristic.Ctor :=
  {| Characteristic.type_id := 6;
     Characteristic.static_UUID := Some "00000025-0000-1000-8000-0026BB765291";
     Characteristic.new_displayName := "On";
     Characteristic.new_UUID := "00000025-0000-1000-8000-0026BB765291";
     Characteristic.new_props :=
       [Characteristic.Set_format (Some Characteristic.BOOL);
        Characteristic.Set_perms
          [Characteristic.READ; Characteristic.WRITE; Characteristic.NOTIFY]] |}.

(** [Characteristic.Brightness] *)
Definition Characteristic_Brightness : Characteristic.Ctor :=
  {| Characteristic.type_id := 7;
     Characteristic.static_UUID := Some "00000008-0000-1000-8000-0026BB765291";
     Characteristic.new_displayName := "Brightness";
     Characteristic.new_UUID := "00000008-0000-1000-8000-0026BB765291";
     Characteristic.new_props :=
       [Characteristic.Set_format (Some Characteristic.INT);
        Characteristic.Set_unit (Some Characteristic.PERCENTAGE);
        Characteristic.Set_maxValue (Some 100%float);
        Characteristic.Set_minValue (Some 0%float);
        Characteristic.Set_minStep (Some 1%float);
        Characteristic.Set_perms
          [Characteristic.READ; Characteristic.WRITE; Characteristic.NOTIFY]] |}.

(** [Characteristic.Hue] *)
Definition Characteristic_Hue : Characteristic.Ctor :=
  {| Characteristic.type_id := 8;
     Characteristic.static_UUID := Some "00000013-0000-1000-8000-0026BB765291";
     Characteristic.new_displayName := "Hue";
     Characteristic.new_UUID := "00000013-0000-1000-8000-0026BB765291";
     Characteristic.new_props :=
       [Characteristic.Set_format (Some Characteristic.FLOAT);
        Characteristic.Set_unit (Some Characteristic.ARC_DEGREE);
        Characteristic.Set_maxValue (Some 360%float);
        Characteristic.Set_minValue (Some 0%float);
        Characteristic.Set_minStep (Some 1%float);
        Characteristic.Set_perms
          [Characteristic.READ; Characteristic.WRITE; Characteristic.NOTIFY]] |}.

(** [Characteristic.Identify] *)
Definition Characteristic_Identify : Characteristic.Ctor :=
  {| Characteristic.type_id := 9;
     Characteristic.static_UUID := Some "00000014-0000-1000-8000-0026BB765291";
     Characteristic.new_displayName := "Identify";
     Characteristic.new_UUID := "00000014-0000-1000-8000-0026BB765291";
     Characteristic.new_props :=
       [Characteristic.Set_format (Some Characteristic.BOOL);
        Characteristic.Set_perms [Characteristic.WRITE]] |}.

(** The object [new ty()] makes, before anything is done to it; for a
    format whose default has no identity of its own. *)
Definition fresh_cell (ty : Characteristic.Ctor) : Characteristic.t :=
  let p := fold_left Characteristic.assign (Characteristic.new_props ty)
             Characteristic.default_props in
  {| Characteristic.displayName := Characteristic.new_displayName ty;
     Characteristic.UUID := Characteristic.new_UUID ty;
     Characteristic.iid := JNull;
     Characteristic.value := scalar_default p;
     Characteristic.props := p;
     Characteristic.listeners := [];
     Characteristic.classes := [Characteristic.type_id ty; Characteristic_id] |}.

Fixpoint repeat_string (n : nat) (s : string) : string :=
  match n with
  | 0 => ""
  | S n' => s ++ repeat_string n' s
  end.

(** U+00E9 in UTF-8: C3 A9 *)
Definition e_acute : string := String (ascii_of_N 195) (String (ascii_of_N 169) "").

(** 255 letters and two accented letters: 259 bytes, of which the 256th is
    the first byte of a two-byte character. *)
Definition long_name : string := repeat_string 255 "a" ++ e_acute ++ e_acute.

(** "On", in Service 5, with an override for reading and one for
    writing. *)
Definition example_On : Characteristic.t :=
  Characteristic.with_listeners
    [("change", BubbleToService 5); ("get", External 100); ("set", External 101)]
    (fresh_cell Characteristic_On).

(** "Brightness", in Service 5, after [updateValue(150)]. *)
Definition example_Brightness : Characteristic.t :=
  Characteristic.with_value (JNum 150)
    (Characteristic.with_listeners [("change", BubbleToService 5)]
       (fresh_cell Characteristic_Brightness)).

(** "Identify", which cannot be read. *)
Definition example_Identify : Characteristic.t := fresh_cell Characteristic_Identify.

(** "Name", after [updateValue(long_name)]. *)
Definition example_Name : Characteristic.t :=
  Characteristic.with_value (JStr long_name) (fresh_cell Characteristic_Name).

(** The template of "Hue" among the optional Characteristics of Service 5. *)
Definition example_Hue : Characteristic.t := fresh_cell Characteristic_Hue.

(** A second "On", in no Service. *)
Definition example_On' : Characteristic.t := fresh_cell Characteristic_On.

(** A custom Characteristic, made with [new Characteristic(name, uuid)]
    and [setProps], whose bounds are the wrong way round. *)
Definition example_inverted : Characteristic.t :=
  {| Characteristic.displayName := "Level";
     Characteristic.UUID := "11111111-0000-1000-8000-0026BB765291";
     Characteristic.iid := JNull;
     Characteristic.value := JNum 0;
     Characteristic.props :=
       {| Characteristic.format := None;
          Characteristic.unit := None;
          Characteristic.minValue := Some 10%float;
          Characteristic.maxValue := Some 5%float;
          Characteristic.minStep := None;
          Characteristic.perms := [Characteristic.READ];
          Characteristic.validValues := None;
          Characteristic.validValueRanges := None |};
     Characteristic.listeners := [];
     Characteristic.classes := [Characteristic_id] |}.

(** A Lightbulb with "On" and "Brightness", and "Hue" to be had. *)
Definition example_Lightbulb : Service.t :=
  {| Service.displayName := JUndefined;
     Service.UUID := "00000043-0000-1000-8000-0026BB765291";
     Service.subtype := JUndefined;
     Service.iid := JNull;
     Service.characteristics := [1; 2];
     Service.optionalCharacteristics := [6];
     Service.isPrimaryService := JUndefined;
     Service.classes := [2; Service_id] |}.

Definition example_accessory (displayName UUID : string) (isBridge : bool)
    (children : list loc) : Accessory.t :=
  {| Accessory.displayName := displayName;
     Accessory.UUID := UUID;
     Accessory._isBridge := isBridge;
     Accessory.bridged := false;
     Accessory.reachable := JBool true;
     Accessory.category := JNum 1;
     Accessory.services := [];
     Accessory.bridgedAccessories := children;
     Accessory.listeners := [] |}.

(** A Bridge, 8, with one child, 9; an Accessory, 11, with the UUID of
    that child; an Accessory, 12, with a UUID of its own. *)
Definition example_store : World :=
  {| cells :=
       <[1 := example_On]>
       (<[2 := example_Brightness]>
       (<[3 := example_Identify]>
       (<[4 := example_Name]>
       (<[6 := example_Hue]>
       (<[7 := example_On']>
       (<[13 := example_inverted]> ∅))))));
     services := <[5 := example_Lightbulb]> ∅;
     accessories :=
       <[8 := example_accessory "Bridge" "bridge" true [9]]>
       (<[9 := example_accessory "Lamp" "lamp" false []]>
       (<[11 := example_accessory "Lamp again" "lamp" false []]>
       (<[12 := example_accessory "Fan" "fan" false []]> ∅)));
     latches := ∅;
     next := 20;
     trace := [] |}.

(** ** The registries

    The constructors that follow the engine in Characteristic.js and in
    lib/Service.js, each from its own text.  A decimal literal is read as
    JavaScript reads it: as the nearest double.  The numbered constants
    that follow some constructors ([Characteristic.Active.ACTIVE = 1] and
    the like) name values for integration code; the engine reads none of
    them.  [Characteristic.Version] is assigned twice, with the same text;
    the name denotes the function of the second assignment. *)

Set Warnings "-inexact-float".

(** [Characteristic.AccessoryFlags] *)
Definition Characteristic_AccessoryFlags : Characteristic.Ctor :=
  {| Characteristic.type_id := 10;
     Characteristic.static_UUID := Some "000000A6-0000-1000-8000-0026BB765291";
     Characteristic.new_displayName := "Accessory Flags";
     Characteristic.new_UUID := "000000A6-0000-1000-8000-0026BB765291";
     Characteristic.new_props :=
       [Characteristic.Set_format (Some Characteristic.UINT32);
        Characteristic.Set_perms [Characteristic.READ; Characteristic.NOTIFY]] |}.

(** [Characteristic.Active] *)
Definition Characteristic_Active : Characteristic.Ctor :=
  {| Characteristic.type_id := 11;
     Characteristic.static_UUID := Some "000000B0-0000-1000-8000-0026BB765291";
     Characteristic.new_displayName := "Active";
     Characteristic.new_UUID := "000000B0-0000-1000-8000-0026BB765291";
     Characteristic.new_props :=
       [Characteristic.Set_format (Some Characteristic.UINT8);
        Characteristic.Set_perms
          [Characteristic.READ; Characteristic.WRITE; Characteristic.NOTIFY]] |}.

(** [Characteristic.AdministratorOnlyAccess] *)
Definition Characteristic_AdministratorOnlyAccess : Characteristic.Ctor :=
  {| Characteristic.type_id := 12;
     Characteristic.static_UUID := Some "00000001-0000-1000-8000-0026BB765291";
     Characteristic.new_displayName := "Administrator Only Access";
     Characteristic.new_UUID := "00000001-0000-1000-8000-0026BB765291";
     Characteristic.new_props :=
       [Characteristic.Set_format (Some Characteristic.BOOL);
        Characteristic.Set_perms
          [Characteristic.READ; Characteristic.WRITE; Characteristic.NOTIFY]] |}.

(** [Characteristic.AirParticulateDensity] *)
Definition Characteristic_AirParticulateDensity : Characteristic.Ctor :=
  {| Characteristic.type_id := 13;
     Characteristic.static_UUID := Some "00000064-0000-1000-8000-0026BB765291";
     Characteristic.new_displayName := "Air Particulate Density";
     Characteristic.new_UUID := "00000064-0000-1000-8000-0026BB765291";
     Characteristic.new_props :=
       [Characteristic.Set_format (Some Characteristic.FLOAT);
        Characteristic.Set_maxValue (Some 1000%float);
        Characteristic.Set_minValue (Some 0%float);
        Characteristic.Set_minStep (Some 1%float);
        Characteristic.Set_perms [Characteristic.READ; Characteristic.NOTIFY]] |}.

(** [Characteristic.AirParticulateSize] *)
Definition Characteristic_AirParticulateSize : Characteristic.Ctor :=
  {| Characteristic.type_id := 14;
     Characteristic.static_UUID := Some "00000065-0000-1000-8000-0026BB765291";
     Characteristic.new_displayName := "Air Particulate Size";
     Characteristic.new_UUID := "00000065-0000-1000-8000-0026BB765291";
     Characteristic.new_props :=
       [Characteristic.Set_format (Some Characteristic.UINT8);
        Characteristic.Set_perms [Characteristic.READ; Characteristic.NOTIFY]] |}.

(** [Characteristic.AirQuality] *)
Definition Characteristic_AirQuality : Characteristic.Ctor :=
  {| Characteristic.type_id := 15;
     Characteristic.static_UUID := Some "00000095-0000-1000-8000-0026BB765291";
     Characteristic.new_displayName := "Air Quality";
     Characteristic.new_UUID := "00000095-0000-1000-8000-0026BB765291";
     Characteristic.new_props :=
       [Characteristic.Set_format (Some Characteristic.UINT8);
        Characteristic.Set_perms [Characteristic.READ; Characteristic.NOTIFY]] |}.

(** [Characteristic.AppMatchingIdentifier] *)
Definition Characteristic_AppMatchingIdentifier : Characteristic.Ctor :=
  {| Characteristic.type_id := 16;
     Characteristic.static_UUID := Some "000000A4-0000-1000-8000-0026BB765291";
     Characteristic.new_displayName := "App Matching Identifier";
     Characteristic.new_UUID := "000000A4-0000-1000-8000-0026BB765291";
     Characteristic.new_props :=
       [Characteristic.Set_format (Some Characteristic.TLV8);
        Characteristic.Set_perms [Characteristic.READ]] |}.

(** [Characteristic.AudioFeedback] *)
Definition Characteristic_AudioFeedback : Characteristic.Ctor :=
  {| Characteristic.type_id := 17;
     Characteristic.static_UUID := Some "00000005-0000-1000-8000-0026BB765291";
     Characteristic.new_displayName := "Audio Feedback";
     Characteristic.new_UUID := "00000005-0000-1000-8000-0026BB765291";
     Characteristic.new_props :=
       [Characteristic.Set_format (Some Characteristic.BOOL);
        Characteristic.Set_perms
          [Characteristic.READ; Characteristic.WRITE; Characteristic.NOTIFY]] |}.

(** [Characteristic.BatteryLevel] *)
Definition Characteristic_BatteryLevel : Characteristic.Ctor :=
  {| Characteristic.type_id := 18;
     Characteristic.static_UUID := Some "00000068-0000-1000-8000-0026BB765291";
     Characteristic.new_displayName := "Battery Level";
     Characteristic.new_UUID := "00000068-0000-1000-8000-0026BB765291";
     Characteristic.new_props :=
       [Characteristic.Set_format (Some Characteristic.UINT8);
        Characteristic.Set_unit (Some Characteristic.PERCENTAGE);
        Characteristic.Set_maxValue (Some 100%float);
        Characteristic.Set_minValue (Some 0%float);
        Characteristic.Set_minStep (Some 1%float);
        Characteristic.Set_perms [Characteristic.READ; Characteristic.NOTIFY]] |}.

(** [Characteristic.CarbonDioxideDetected] *)
Definition Characteristic_CarbonDioxideDetected : Characteristic.Ctor :=
  {| Characteristic.type_id := 19;
     Characteristic.static_UUID := Some "00000092-0000-1000-8000-0026BB765291";
     Characteristic.new_displayName := "Carbon Dioxide Detected";
     Characteristic.new_UUID := "00000092-0000-1000-8000-0026BB765291";
     Characteristic.new_props :=
       [Characteristic.Set_format (Some Characteristic.UINT8);
        Characteristic.Set_perms [Characteristic.READ; Characteristic.NOTIFY]] |}.

(** [Characteristic.CarbonDioxideLevel] *)
Definition Characteristic_CarbonDioxideLevel : Characteristic.Ctor :=
  {| Characteristic.type_id := 20;
     Characteristic.static_UUID := Some "00000093-0000-1000-8000-0026BB765291";
     Characteristic.new_displayName := "Carbon Dioxide Level";
     Characteristic.new_UUID := "00000093-0000-1000-8000-0026BB765291";
     Characteristic.new_props :=
       [Characteristic.Set_format (Some Characteristic.FLOAT);
        Characteristic.Set_maxValue (Some 100000%float);
        Characteristic.Set_minValue (Some 0%float);
        Characteristic.Set_minStep (Some 100%float);
        Characteristic.Set_perms [Characteristic.READ; Characteristic.NOTIFY]] |}.

(** [Characteristic.CarbonDioxidePeakLevel] *)
Definition Characteristic_CarbonDioxidePeakLevel : Characteristic.Ctor :=
  {| Characteristic.type_id := 21;
     Characteristic.static_UUID := Some "00000094-0000-1000-8000-0026BB765291";
     Characteristic.new_displayName := "Carbon Dioxide Peak Level";
     Characteristic.new_UUID := "00000094-0000-1000-8000-0026BB765291";
     Characteristic.new_props :=
       [Characteristic.Set_format (Some Characteristic.FLOAT);
        Characteristic.Set_maxValue (Some 100000%float);
        Characteristic.Set_minValue (Some 0%float);
        Characteristic.Set_minStep (Some 100%float);
        Characteristic.Set_perms [Characteristic.READ; Characteristic.NOTIFY]] |}.

(** [Characteristic.CarbonMonoxideDetected] *)
Definition Characteristic_CarbonMonoxideDetected : Characteristic.Ctor :=
  {| Characteristic.type_id := 22;
     Characteristic.static_UUID := Some "00000069-0000-1000-8000-0026BB765291";
     Characteristic.new_displayName := "Carbon Monoxide Detected";
     Characteristic.new_UUID := "00000069-0000-1000-8000-0026BB765291";
     Characteristic.new_props :=
       [Characteristic.Set_format (Some Characteristic.UINT8);
        Characteristic.Set_perms [Characteristic.READ; Characteristic.NOTIFY]] |}.

(** [Characteristic.CarbonMonoxideLevel] *)
Definition Characteristic_CarbonMonoxideLevel : Characteristic.Ctor :=
  {| Characteristic.type_id := 23;
     Characteristic.static_UUID := Some "00000090-0000-1000-8000-0026BB765291";
     Characteristic.new_displayName := "Carbon Monoxide Level";
     Characteristic.new_UUID := "00000090-0000-1000-8000-0026BB765291";
     Characteristic.new_props :=
       [Characteristic.Set_format (Some Characteristic.FLOAT);
        Characteristic.Set_maxValue (Some 100%float);
        Characteristic.Set_minValue (Some 0%float);
        Characteristic.Set_minStep (Some 0.1%float);
        Characteristic.Set_perms [Characteristic.READ; Characteristic.NOTIFY]] |}.

(** [Characteristic.CarbonMonoxidePeakLevel] *)
Definition Characteristic_CarbonMonoxidePeakLevel : Characteristic.Ctor :=
  {| Characteristic.type_id := 24;
     Characteristic.static_UUID := Some "00000091-0000-1000-8000-0026BB765291";
     Characteristic.new_displayName := "Carbon Monoxide Peak Level";
     Characteristic.new_UUID := "00000091-0000-1000-8000-0026BB765291";
     Characteristic.new_props :=
       [Characteristic.Set_format (Some Characteristic.FLOAT);
        Characteristic.Set_maxValue (Some 100%float);
        Characteristic.Set_minValue (Some 0%float);
        Characteristic.Set_minStep (Some 0.1%float);
        Characteristic.Set_perms [Characteristic.READ; Characteristic.NOTIFY]] |}.

(** [Characteristic.ChargingState] *)
Definition Characteristic_ChargingState : Characteristic.Ctor :=
  {| Characteristic.type_id := 25;
     Characteristic.static_UUID := Some "0000008F-0000-1000-8000-0026BB765291";
     Characteristic.new_displayName := "Charging State";
     Characteristic.new_UUID := "0000008F-0000-1000-8000-0026BB765291";
     Characteristic.new_props :=
       [Characteristic.Set_format (Some Characteristic.UINT8);
        Characteristic.Set_maxValue (Some 2%float);
        Characteristic.Set_perms [Characteristic.READ; Characteristic.NOTIFY]] |}.

(** [Characteristic.ContactSensorState] *)
Definition Characteristic_ContactSensorState : Characteristic.Ctor :=
  {| Characteristic.type_id := 26;
     Characteristic.static_UUID := Some "0000006A-0000-1000-8000-0026BB765291";
     Characteristic.new_displayName := "Contact Sensor State";
     Characteristic.new_UUID := "0000006A-0000-1000-8000-0026BB765291";
     Characteristic.new_props :=
       [Characteristic.Set_format (Some Characteristic.UINT8);
        Characteristic.Set_perms [Characteristic.READ; Characteristic.NOTIFY]] |}.

(** [Characteristic.CoolingThresholdTemperature] *)
Definition Characteristic_CoolingThresholdTemperature : Characteristic.Ctor :=
  {| Characteristic.type_id := 27;
     Characteristic.static_UUID := Some "0000000D-0000-1000-8000-0026BB765291";
     Characteristic.new_displayName := "Cooling Threshold Temperature";
     Characteristic.new_UUID := "0000000D-0000-1000-8000-0026BB765291";
     Characteristic.new_props :=
       [Characteristic.Set_format (Some Characteristic.FLOAT);
        Characteristic.Set_unit (Some Characteristic.CELSIUS);
        Characteristic.Set_maxValue (Some 35%float);
        Characteristic.Set_minValue (Some 10%float);
        Characteristic.Set_minStep (Some 0.1%float);
        Characteristic.Set_perms
          [Characteristic.READ; Characteristic.WRITE; Characteristic.NOTIFY]] |}.

(** [Characteristic.CurrentAirPurifierState] *)
Definition Characteristic_CurrentAirPurifierState : Characteristic.Ctor :=
  {| Characteristic.type_id := 28;
     Characteristic.static_UUID := Some "000000A9-0000-1000-8000-0026BB765291";
     Characteristic.new_displayName := "Current Air Purifier State";
     Characteristic.new_UUID := "000000A9-0000-1000-8000-0026BB765291";
     Characteristic.new_props :=
       [Characteristic.Set_format (Some Characteristic.UINT8);
        Characteristic.Set_perms [Characteristic.READ; Characteristic.NOTIFY]] |}.

(** [Characteristic.CurrentAmbientLightLevel] *)
Definition Characteristic_CurrentAmbientLightLevel : Characteristic.Ctor :=
  {| Characteristic.type_id := 29;
     Characteristic.static_UUID := Some "0000006B-0000-1000-8000-0026BB765291";
     Characteristic.new_displayName := "Current Ambient Light Level";
     Characteristic.new_UUID := "0000006B-0000-1000-8000-0026BB765291";
     Characteristic.new_props :=
       [Characteristic.Set_format (Some Characteristic.FLOAT);
        Characteristic.Set_unit (Some Characteristic.LUX);
        Characteristic.Set_maxValue (Some 100000%float);
        Characteristic.Set_minValue (Some 0.0001%float);
        Characteristic.Set_minStep (Some 0.0001%float);
        Characteristic.Set_perms [Characteristic.READ; Characteristic.NOTIFY]] |}.

(** [Characteristic.CurrentDoorState] *)
Definition Characteristic_CurrentDoorState : Characteristic.Ctor :=
  {| Characteristic.type_id := 30;
     Characteristic.static_UUID := Some "0000000E-0000-1000-8000-0026BB765291";
     Characteristic.new_displayName := "Current Door State";
     Characteristic.new_UUID := "0000000E-0000-1000-8000-0026BB765291";
     Characteristic.new_props :=
       [Characteristic.Set_format (Some Characteristic.UINT8);
        Characteristic.Set_perms [Characteristic.READ; Characteristic.NOTIFY]] |}.

(** [Characteristic.CurrentFanState] *)
Definition Characteristic_CurrentFanState : Characteristic.Ctor :=
  {| Characteristic.type_id := 31;
     Characteristic.static_UUID := Some "000000AF-0000-1000-8000-0026BB765291";
     Characteristic.new_displayName := "Current Fan State";
     Characteristic.new_UUID := "000000AF-0000-1000-8000-0026BB765291";
     Characteristic.new_props :=
       [Characteristic.Set_format (Some Characteristic.UINT8);
        Characteristic.Set_perms [Characteristic.READ; Characteristic.NOTIFY]] |}.

(** [Characteristic.CurrentHeaterCoolerState] *)
Definition Characteristic_CurrentHeaterCoolerState : Characteristic.Ctor :=
  {| Characteristic.type_id := 32;
     Characteristic.static_UUID := Some "000000B1-0000-1000-8000-0026BB765291";
     Characteristic.new_displayName := "Current Heater Cooler State";
     Characteristic.new_UUID := "000000B1-0000-1000-8000-0026BB765291";
     Characteristic.new_props :=
       [Characteristic.Set_format (Some Characteristic.UINT8);
        Characteristic.Set_perms [Characteristic.READ; Characteristic.NOTIFY]] |}.

(** [Characteristic.CurrentHeatingCoolingState] *)
Definition Characteristic_CurrentHeatingCoolingState : Characteristic.Ctor :=
  {| Characteristic.type_id := 33;
     Characteristic.static_UUID := Some "0000000F-0000-1000-8000-0026BB765291";
     Characteristic.new_displayName := "Current Heating Cooling State";
     Characteristic.new_UUID := "0000000F-0000-1000-8000-0026BB765291";
     Characteristic.new_props :=
       [Characteristic.Set_format (Some Characteristic.UINT8);
        Characteristic.Set_perms [Characteristic.READ; Characteristic.NOTIFY]] |}.

(** [Characteristic.CurrentHorizontalTiltAngle] *)
Definition Characteristic_CurrentHorizontalTiltAngle : Characteristic.Ctor :=
  {| Characteristic.type_id := 34;
     Characteristic.static_UUID := Some "0000006C-0000-1000-8000-0026BB765291";
     Characteristic.new_displayName := "Current Horizontal Tilt Angle";
     Characteristic.new_UUID := "0000006C-0000-1000-8000-0026BB765291";
     Characteristic.new_props :=
       [Characteristic.Set_format (Some Characteristic.INT);
        Characteristic.Set_unit (Some Characteristic.ARC_DEGREE);
        Characteristic.Set_maxValue (Some 90%float);
        Characteristic.Set_minValue (Some (-90)%float);
        Characteristic.Set_minStep (Some 1%float);
        Characteristic.Set_perms [Characteristic.READ; Characteristic.NOTIFY]] |}.

(** [Characteristic.CurrentHumidifierDehumidifierState] *)
Definition Characteristic_CurrentHumidifierDehumidifierState : Characteristic.Ctor :=
  {| Characteristic.type_id := 35;
     Characteristic.static_UUID := Some "000000B3-0000-1000-8000-0026BB765291";
     Characteristic.new_displayName := "Current Humidifier Dehumidifier State";
     Characteristic.new_UUID := "000000B3-0000-1000-8000-0026BB765291";
     Characteristic.new_props :=
       [Characteristic.Set_format (Some Characteristic.UINT8);
        Characteristic.Set_perms [Characteristic.READ; Characteristic.NOTIFY]] |}.

(** [Characteristic.CurrentPosition] *)
Definition Characteristic_CurrentPosition : Characteristic.Ctor :=
  {| Characteristic.type_id := 36;
     Characteristic.static_UUID := Some "0000006D-0000-1000-8000-0026BB765291";
     Characteristic.new_displayName := "Current Position";
     Characteristic.new_UUID := "0000006D-0000-1000-8000-0026BB765291";
     Characteristic.new_props :=
       [Characteristic.Set_format (Some Characteristic.UINT8);
        Characteristic.Set_unit (Some Characteristic.PERCENTAGE);
        Characteristic.Set_maxValue (Some 100%float);
        Characteristic.Set_minValue (Some 0%float);
        Characteristic.Set_minStep (Some 1%float);
        Characteristic.Set_perms [Characteristic.READ; Characteristic.NOTIFY]] |}.

(** [Characteristic.CurrentRelativeHumidity] *)
Definition Characteristic_CurrentRelativeHumidity : Characteristic.Ctor :=
  {| Characteristic.type_id := 37;
     Characteristic.static_UUID := Some "00000010-0000-1000-8000-0026BB765291";
     Characteristic.new_displayName := "Current Relative Humidity";
     Characteristic.new_UUID := "00000010-0000-1000-8000-0026BB765291";
     Characteristic.new_props :=
       [Characteristic.Set_format (Some Characteristic.FLOAT);
        Characteristic.Set_unit (Some Characteristic.PERCENTAGE);
        Characteristic.Set_maxValue (Some 100%float);
        Characteristic.Set_minValue (Some 0%float);
        Characteristic.Set_minStep (Some 1%float);
        Characteristic.Set_perms [Characteristic.READ; Characteristic.NOTIFY]] |}.

(** [Characteristic.CurrentSlatState] *)
Definition Characteristic_CurrentSlatState : Characteristic.Ctor :=
  {| Characteristic.type_id := 38;
     Characteristic.static_UUID := Some "000000AA-0000-1000-8000-0026BB765291";
     Characteristic.new_displayName := "Current Slat State";
     Characteristic.new_UUID := "000000AA-0000-1000-8000-0026BB765291";
     Characteristic.new_props :=
       [Characteristic.Set_format (Some Characteristic.UINT8);
        Characteristic.Set_perms [Characteristic.READ; Characteristic.NOTIFY]] |}.

(** [Characteristic.CurrentTemperature] *)
Definition Characteristic_CurrentTemperature : Characteristic.Ctor :=
  {| Characteristic.type_id := 39;
     Characteristic.static_UUID := Some "00000011-0000-1000-8000-0026BB765291";
     Characteristic.new_displayName := "Current Temperature";
     Characteristic.new_UUID := "00000011-0000-1000-8000-0026BB765291";
     Characteristic.new_props :=
       [Characteristic.Set_format (Some Characteristic.FLOAT);
        Characteristic.Set_unit (Some Characteristic.CELSIUS);
        Characteristic.Set_maxValue (Some 100%float);
        Characteristic.Set_minValue (Some 0%float);
        Characteristic.Set_minStep (Some 0.1%float);
        Characteristic.Set_perms [Characteristic.READ; Characteristic.NOTIFY]] |}.

(** [Characteristic.CurrentTiltAngle] *)
Definition Characteristic_CurrentTiltAngle : Characteristic.Ctor :=
  {| Characteristic.type_id := 40;
     Characteristic.static_UUID := Some "000000C1-0000-1000-8000-0026BB765291";
     Characteristic.new_displayName := "Current Tilt Angle";
     Characteristic.new_UUID := "000000C1-0000-1000-8000-0026BB765291";
     Characteristic.new_props :=
       [Characteristic.Set_format (Some Characteristic.INT);
        Characteristic.Set_unit (Some Characteristic.ARC_DEGREE);
        Characteristic.Set_maxValue (Some 90%float);
        Characteristic.Set_minValue (Some (-90)%float);
        Characteristic.Set_minStep (Some 1%float);
        Characteristic.Set_perms [Characteristic.READ; Characteristic.NOTIFY]] |}.

(** [Characteristic.CurrentVerticalTiltAngle] *)
Definition Characteristic_CurrentVerticalTiltAngle : Characteristic.Ctor :=
  {| Characteristic.type_id := 41;
     Characteristic.static_UUID := Some "0000006E-0000-1000-8000-0026BB765291";
     Characteristic.new_displayName := "Current Vertical Tilt Angle";
     Characteristic.new_UUID := "0000006E-0000-1000-8000-0026BB765291";
     Characteristic.new_props :=
       [Characteristic.Set_format (Some Characteristic.INT);
        Characteristic.Set_unit (Some Characteristic.ARC_DEGREE);
        Characteristic.Set_maxValue (Some 90%float);
        Characteristic.Set_minValue (Some (-90)%float);
        Characteristic.Set_minStep (Some 1%float);
        Characteristic.Set_perms [Characteristic.READ; Characteristic.NOTIFY]] |}.

(** [Characteristic.DigitalZoom] *)
Definition Characteristic_DigitalZoom : Characteristic.Ctor :=
  {| Characteristic.type_id := 42;
     Characteristic.static_UUID := Some "0000011D-0000-1000-8000-0026BB765291";
     Characteristic.new_displayName := "Digital Zoom";
     Characteristic.new_UUID := "0000011D-0000-1000-8000-0026BB765291";
     Characteristic.new_props :=
       [Characteristic.Set_format (Some Characteristic.FLOAT);
        Characteristic.Set_perms
          [Characteristic.READ; Characteristic.WRITE; Characteristic.NOTIFY]] |}.

(** [Characteristic.FilterChangeIndication] *)
Definition Characteristic_FilterChangeIndication : Characteristic.Ctor :=
  {| Characteristic.type_id := 43;
     Characteristic.static_UUID := Some "000000AC-0000-1000-8000-0026BB765291";
     Characteristic.new_displayName := "Filter Change Indication";
     Characteristic.new_UUID := "000000AC-0000-1000-8000-0026BB765291";
     Characteristic.new_props :=
       [Characteristic.Set_format (Some Characteristic.UINT8);
        Characteristic.Set_perms [Characteristic.READ; Characteristic.NOTIFY]] |}.

(** [Characteristic.FilterLifeLevel] *)
Definition Characteristic_FilterLifeLevel : Characteristic.Ctor :=
  {| Characteristic.type_id := 44;
     Characteristic.static_UUID := Some "000000AB-0000-1000-8000-0026BB765291";
     Characteristic.new_displayName := "Filter Life Level";
     Characteristic.new_UUID := "000000AB-0000-1000-8000-0026BB765291";
     Characteristic.new_props :=
       [Characteristic.Set_format (Some Characteristic.FLOAT);
        Characteristic.Set_maxValue (Some 100%float);
        Characteristic.Set_minValue (Some 0%float);
        Characteristic.Set_perms [Characteristic.READ; Characteristic.NOTIFY]] |}.

(** [Characteristic.FirmwareRevision] *)
Definition Characteristic_FirmwareRevision : Characteristic.Ctor :=
  {| Characteristic.type_id := 45;
     Characteristic.static_UUID := Some "00000052-0000-1000-8000-0026BB765291";
     Characteristic.new_displayName := "Firmware Revision";
     Characteristic.new_UUID := "00000052-0000-1000-8000-0026BB765291";
     Characteristic.new_props :=
       [Characteristic.Set_format (Some Characteristic.STRING);
        Characteristic.Set_perms [Characteristic.READ]] |}.

(** [Characteristic.HardwareRevision] *)
Definition Characteristic_HardwareRevision : Characteristic.Ctor :=
  {| Characteristic.type_id := 46;
     Characteristic.static_UUID := Some "00000053-0000-1000-8000-0026BB765291";
     Characteristic.new_displayName := "Hardware Revision";
     Characteristic.new_UUID := "00000053-0000-1000-8000-0026BB765291";
     Characteristic.new_props :=
       [Characteristic.Set_format (Some Characteristic.STRING);
        Characteristic.Set_perms [Characteristic.READ]] |}.

(** [Characteristic.HeatingThresholdTemperature] *)
Definition Characteristic_HeatingThresholdTemperature : Characteristic.Ctor :=
  {| Characteristic.type_id := 47;
     Characteristic.static_UUID := Some "00000012-0000-1000-8000-0026BB765291";
     Characteristic.new_displayName := "Heating Threshold Temperature";
     Characteristic.new_UUID := "00000012-0000-1000-8000-0026BB765291";
     Characteristic.new_props :=
       [Characteristic.Set_format (Some Characteristic.FLOAT);
        Characteristic.Set_unit (Some Characteristic.CELSIUS);
        Characteristic.Set_maxValue (Some 25%float);
        Characteristic.Set_minValue (Some 0%float);
        Characteristic.Set_minStep (Some 0.1%float);
        Characteristic.Set_perms
          [Characteristic.READ; Characteristic.WRITE; Characteristic.NOTIFY]] |}.

(** [Characteristic.HoldPosition] *)
Definition Characteristic_HoldPosition : Characteristic.Ctor :=
  {| Characteristic.type_id := 48;
     Characteristic.static_UUID := Some "0000006F-0000-1000-8000-0026BB765291";
     Characteristic.new_displayName := "Hold Position";
     Characteristic.new_UUID := "0000006F-0000-1000-8000-0026BB765291";
     Characteristic.new_props :=
       [Characteristic.Set_format (Some Characteristic.BOOL);
        Characteristic.Set_perms [Characteristic.WRITE]] |}.

(** [Characteristic.ImageMirroring] *)
Definition Characteristic_ImageMirroring : Characteristic.Ctor :=
  {| Characteristic.type_id := 49;
     Characteristic.static_UUID := Some "0000011F-0000-1000-8000-0026BB765291";
     Characteristic.new_displayName := "Image Mirroring";
     Characteristic.new_UUID := "0000011F-0000-1000-8000-0026BB765291";
     Characteristic.new_props :=
       [Characteristic.Set_format (Some Characteristic.BOOL);
        Characteristic.Set_perms
          [Characteristic.READ; Characteristic.WRITE; Characteristic.NOTIFY]] |}.

(** [Characteristic.ImageRotation] *)
Definition Characteristic_ImageRotation : Characteristic.Ctor :=
  {| Characteristic.type_id := 50;
     Characteristic.static_UUID := Some "0000011E-0000-1000-8000-0026BB765291";
     Characteristic.new_displayName := "Image Rotation";
     Characteristic.new_UUID := "0000011E-0000-1000-8000-0026BB765291";
     Characteristic.new_props :=
       [Characteristic.Set_format (Some Characteristic.FLOAT);
        Characteristic.Set_unit (Some Characteristic.ARC_DEGREE);
        Characteristic.Set_maxValue (Some 270%float);
        Characteristic.Set_minValue (Some 0%float);
        Characteristic.Set_minStep (Some 90%float);
        Characteristic.Set_perms
          [Characteristic.READ; Characteristic.WRITE; Characteristic.NOTIFY]] |}.

(** [Characteristic.LeakDetected] *)
Definition Characteristic_LeakDetected : Characteristic.Ctor :=
  {| Characteristic.type_id := 51;
     Characteristic.static_UUID := Some "00000070-0000-1000-8000-0026BB765291";
     Characteristic.new_displayName := "Leak Detected";
     Characteristic.new_UUID := "00000070-0000-1000-8000-0026BB765291";
     Characteristic.new_props :=
       [Characteristic.Set_format (Some Characteristic.UINT8);
        Characteristic.Set_perms [Characteristic.READ; Characteristic.NOTIFY]] |}.

(** [Characteristic.LockControlPoint] *)
Definition Characteristic_LockControlPoint : Characteristic.Ctor :=
  {| Characteristic.type_id := 52;
     Characteristic.static_UUID := Some "00000019-0000-1000-8000-0026BB765291";
     Characteristic.new_displayName := "Lock Control Point";
     Characteristic.new_UUID := "00000019-0000-1000-8000-0026BB765291";
     Characteristic.new_props :=
       [Characteristic.Set_format (Some Characteristic.TLV8);
        Characteristic.Set_perms [Characteristic.WRITE]] |}.

(** [Characteristic.LockCurrentState] *)
Definition Characteristic_LockCurrentState : Characteristic.Ctor :=
  {| Characteristic.type_id := 53;
     Characteristic.static_UUID := Some "0000001D-0000-1000-8000-0026BB765291";
     Characteristic.new_displayName := "Lock Current State";
     Characteristic.new_UUID := "0000001D-0000-1000-8000-0026BB765291";
     Characteristic.new_props :=
       [Characteristic.Set_format (Some Characteristic.UINT8);
        Characteristic.Set_perms [Characteristic.READ; Characteristic.NOTIFY]] |}.

(** [Characteristic.LockLastKnownAction] *)
Definition Characteristic_LockLastKnownAction : Characteristic.Ctor :=
  {| Characteristic.type_id := 54;
     Characteristic.static_UUID := Some "0000001C-0000-1000-8000-0026BB765291";
     Characteristic.new_displayName := "Lock Last Known Action";
     Characteristic.new_UUID := "0000001C-0000-1000-8000-0026BB765291";
     Characteristic.new_props :=
       [Characteristic.Set_format (Some Characteristic.UINT8);
        Characteristic.Set_perms [Characteristic.READ; Characteristic.NOTIFY]] |}.

(** [Characteristic.LockManagementAutoSecurityTimeout] *)
Definition Characteristic_LockManagementAutoSecurityTimeout : Characteristic.Ctor :=
  {| Characteristic.type_id := 55;
     Characteristic.static_UUID := Some "0000001A-0000-1000-8000-0026BB765291";
     Characteristic.new_displayName := "Lock Management Auto Security Timeout";
     Characteristic.new_UUID := "0000001A-0000-1000-8000-0026BB765291";
     Characteristic.new_props :=
       [Characteristic.Set_format (Some Characteristic.UINT32);
        Characteristic.Set_unit (Some Characteristic.SECONDS);
        Characteristic.Set_maxValue (Some 86400%float);
        Characteristic.Set_minValue (Some 0%float);
        Characteristic.Set_minStep (Some 1%float);
        Characteristic.Set_perms
          [Characteristic.READ; Characteristic.WRITE; Characteristic.NOTIFY]] |}.

(** [Characteristic.LockPhysicalControls] *)
Definition Characteristic_LockPhysicalControls : Characteristic.Ctor :=
  {| Characteristic.type_id := 56;
     Characteristic.static_UUID := Some "000000A7-0000-1000-8000-0026BB765291";
     Characteristic.new_displayName := "Lock Physical Controls";
     Characteristic.new_UUID := "000000A7-0000-1000-8000-0026BB765291";
     Characteristic.new_props :=
       [Characteristic.Set_format (Some Characteristic.UINT8);
        Characteristic.Set_perms
          [Characteristic.READ; Characteristic.WRITE; Characteristic.NOTIFY]] |}.

(** [Characteristic.LockTargetState] *)
Definition Characteristic_LockTargetState : Characteristic.Ctor :=
  {| Characteristic.type_id := 57;
     Characteristic.static_UUID := Some "0000001E-0000-1000-8000-0026BB765291";
     Characteristic.new_displayName := "Lock Target State";
     Characteristic.new_UUID := "0000001E-0000-1000-8000-0026BB765291";
     Characteristic.new_props :=
       [Characteristic.Set_format (Some Characteristic.UINT8);
        Characteristic.Set_perms
          [Characteristic.READ; Characteristic.WRITE; Characteristic.NOTIFY]] |}.

(** [Characteristic.Logs] *)
Definition Characteristic_Logs : Characteristic.Ctor :=
  {| Characteristic.type_id := 58;
     Characteristic.static_UUID := Some "0000001F-0000-1000-8000-0026BB765291";
     Characteristic.new_displayName := "Logs";
     Characteristic.new_UUID := "0000001F-0000-1000-8000-0026BB765291";
     Characteristic.new_props :=
       [Characteristic.Set_format (Some Characteristic.TLV8);
        Characteristic.Set_perms [Characteristic.READ; Characteristic.NOTIFY]] |}.

(** [Characteristic.Manufacturer] *)
Definition Characteristic_Manufacturer : Characteristic.Ctor :=
  {| Characteristic.type_id := 59;
     Characteristic.static_UUID := Some "00000020-0000-1000-8000-0026BB765291";
     Characteristic.new_displayName := "Manufacturer";
     Characteristic.new_UUID := "00000020-0000-1000-8000-0026BB765291";
     Characteristic.new_props :=
       [Characteristic.Set_format (Some Characteristic.STRING);
        Characteristic.Set_perms [Characteristic.READ]] |}.

(** [Characteristic.Model] *)
Definition Characteristic_Model : Characteristic.Ctor :=
  {| Characteristic.type_id := 60;
     Characteristic.static_UUID := Some "00000021-0000-1000-8000-0026BB765291";
     Characteristic.new_displayName := "Model";
     Characteristic.new_UUID := "00000021-0000-1000-8000-0026BB765291";
     Characteristic.new_props :=
       [Characteristic.Set_format (Some Characteristic.STRING);
        Characteristic.Set_perms [Characteristic.READ]] |}.

(** [Characteristic.Mute] *)
Definition Characteristic_Mute : Characteristic.Ctor :=
  {| Characteristic.type_id := 61;
     Characteristic.static_UUID := Some "0000011A-0000-1000-8000-0026BB765291";
     Characteristic.new_displayName := "Mute";
     Characteristic.new_UUID := "0000011A-0000-1000-8000-0026BB765291";
     Characteristic.new_props :=
       [Characteristic.Set_format (Some Characteristic.BOOL);
        Characteristic.Set_perms
          [Characteristic.READ; Characteristic.WRITE; Characteristic.NOTIFY]] |}.

(** [Characteristic.MotionDetected] *)
Definition Characteristic_MotionDetected : Characteristic.Ctor :=
  {| Characteristic.type_id := 62;
     Characteristic.static_UUID := Some "00000022-0000-1000-8000-0026BB765291";
     Characteristic.new_displayName := "Motion Detected";
     Characteristic.new_UUID := "00000022-0000-1000-8000-0026BB765291";
     Characteristic.new_props :=
       [Characteristic.Set_format (Some Characteristic.BOOL);
        Characteristic.Set_perms [Characteristic.READ; Characteristic.NOTIFY]] |}.

(** [Characteristic.NightVision] *)
Definition Characteristic_NightVision : Characteristic.Ctor :=
  {| Characteristic.type_id := 63;
     Characteristic.static_UUID := Some "0000011B-0000-1000-8000-0026BB765291";
     Characteristic.new_displayName := "Night Vision";
     Characteristic.new_UUID := "0000011B-0000-1000-8000-0026BB765291";
     Characteristic.new_props :=
       [Characteristic.Set_format (Some Characteristic.BOOL);
        Characteristic.Set_perms
          [Characteristic.READ; Characteristic.WRITE; Characteristic.NOTIFY]] |}.

(** [Characteristic.NitrogenDioxideDensity] *)
Definition Characteristic_NitrogenDioxideDensity : Characteristic.Ctor :=
  {| Characteristic.type_id := 64;
     Characteristic.static_UUID := Some "000000C4-0000-1000-8000-0026BB765291";
     Characteristic.new_displayName := "Nitrogen Dioxide Density";
     Characteristic.new_UUID := "000000C4-0000-1000-8000-0026BB765291";
     Characteristic.new_props :=
       [Characteristic.Set_format (Some Characteristic.FLOAT);
        Characteristic.Set_maxValue (Some 1000%float);
        Characteristic.Set_minValue (Some 0%float);
        Characteristic.Set_minStep (Some 1%float);
        Characteristic.Set_perms [Characteristic.READ; Characteristic.NOTIFY]] |}.

(** [Characteristic.ObstructionDetected] *)
Definition Characteristic_ObstructionDetected : Characteristic.Ctor :=
  {| Characteristic.type_id := 65;
     Characteristic.static_UUID := Some "00000024-0000-1000-8000-0026BB765291";
     Characteristic.new_displayName := "Obstruction Detected";
     Characteristic.new_UUID := "00000024-0000-1000-8000-0026BB765291";
     Characteristic.new_props :=
       [Characteristic.Set_format (Some Characteristic.BOOL);
        Characteristic.Set_perms [Characteristic.READ; Characteristic.NOTIFY]] |}.

(** [Characteristic.OccupancyDetected] *)
Definition Characteristic_OccupancyDetected : Characteristic.Ctor :=
  {| Characteristic.type_id := 66;
     Characteristic.static_UUID := Some "00000071-0000-1000-8000-0026BB765291";
     Characteristic.new_displayName := "Occupancy Detected";
     Characteristic.new_UUID := "00000071-0000-1000-8000-0026BB765291";
     Characteristic.new_props :=
       [Characteristic.Set_format (Some Characteristic.UINT8);
        Characteristic.Set_perms [Characteristic.READ; Characteristic.NOTIFY]] |}.

(** [Characteristic.OpticalZoom] *)
Definition Characteristic_OpticalZoom : Characteristic.Ctor :=
  {| Characteristic.type_id := 67;
     Characteristic.static_UUID := Some "0000011C-0000-1000-8000-0026BB765291";
     Characteristic.new_displayName := "Optical Zoom";
     Characteristic.new_UUID := "0000011C-0000-1000-8000-0026BB765291";
     Characteristic.new_props :=
       [Characteristic.Set_format (Some Characteristic.FLOAT);
        Characteristic.Set_perms
          [Characteristic.READ; Characteristic.WRITE; Characteristic.NOTIFY]] |}.

(** [Characteristic.OutletInUse] *)
Definition Characteristic_OutletInUse : Characteristic.Ctor :=
  {| Characteristic.type_id := 68;
     Characteristic.static_UUID := Some "00000026-0000-1000-8000-0026BB765291";
     Characteristic.new_displayName := "Outlet In Use";
     Characteristic.new_UUID := "00000026-0000-1000-8000-0026BB765291";
     Characteristic.new_props :=
       [Characteristic.Set_format (Some Characteristic.BOOL);
        Characteristic.Set_perms [Characteristic.READ; Characteristic.NOTIFY]] |}.

(** [Characteristic.OzoneDensity] *)
Definition Characteristic_OzoneDensity : Characteristic.Ctor :=
  {| Characteristic.type_id := 69;
     Characteristic.static_UUID := Some "000000C3-0000-1000-8000-0026BB765291";
     Characteristic.new_displayName := "Ozone Density";
     Characteristic.new_UUID := "000000C3-0000-1000-8000-0026BB765291";
     Characteristic.new_props :=
       [Characteristic.Set_format (Some Characteristic.FLOAT);
        Characteristic.Set_maxValue (Some 1000%float);
        Characteristic.Set_minValue (Some 0%float);
        Characteristic.Set_minStep (Some 1%float);
        Characteristic.Set_perms [Characteristic.READ; Characteristic.NOTIFY]] |}.

(** [Characteristic.PairSetup] *)
Definition Characteristic_PairSetup : Characteristic.Ctor :=
  {| Characteristic.type_id := 70;
     Characteristic.static_UUID := Some "0000004C-0000-1000-8000-0026BB765291";
     Characteristic.new_displayName := "Pair Setup";
     Characteristic.new_UUID := "0000004C-0000-1000-8000-0026BB765291";
     Characteristic.new_props :=
       [Characteristic.Set_format (Some Characteristic.TLV8);
        Characteristic.Set_perms [Characteristic.READ; Characteristic.WRITE]] |}.

(** [Characteristic.PairVerify] *)
Definition Characteristic_PairVerify : Characteristic.Ctor :=
  {| Characteristic.type_id := 71;
     Characteristic.static_UUID := Some "0000004E-0000-1000-8000-0026BB765291";
     Characteristic.new_displayName := "Pair Verify";
     Characteristic.new_UUID := "0000004E-0000-1000-8000-0026BB765291";
     Characteristic.new_props :=
       [Characteristic.Set_format (Some Characteristic.TLV8);
        Characteristic.Set_perms [Characteristic.READ; Characteristic.WRITE]] |}.

(** [Characteristic.PairingFeatures] *)
Definition Characteristic_PairingFeatures : Characteristic.Ctor :=
  {| Characteristic.type_id := 72;
     Characteristic.static_UUID := Some "0000004F-0000-1000-8000-0026BB765291";
     Characteristic.new_displayName := "Pairing Features";
     Characteristic.new_UUID := "0000004F-0000-1000-8000-0026BB765291";
     Characteristic.new_props :=
       [Characteristic.Set_format (Some Characteristic.UINT8);
        Characteristic.Set_perms [Characteristic.READ]] |}.

(** [Characteristic.PairingPairings] *)
Definition Characteristic_PairingPairings : Characteristic.Ctor :=
  {| Characteristic.type_id := 73;
     Characteristic.static_UUID := Some "00000050-0000-1000-8000-0026BB765291";
     Characteristic.new_displayName := "Pairing Pairings";
     Characteristic.new_UUID := "00000050-0000-1000-8000-0026BB765291";
     Characteristic.new_props :=
       [Characteristic.Set_format (Some Characteristic.TLV8);
        Characteristic.Set_perms [Characteristic.READ; Characteristic.WRITE]] |}.

(** [Characteristic.PM10Density] *)
Definition Characteristic_PM10Density : Characteristic.Ctor :=
  {| Characteristic.type_id := 74;
     Characteristic.static_UUID := Some "000000C7-0000-1000-8000-0026BB765291";
     Characteristic.new_displayName := "PM10 Density";
     Characteristic.new_UUID := "000000C7-0000-1000-8000-0026BB765291";
     Characteristic.new_props :=
       [Characteristic.Set_format (Some Characteristic.FLOAT);
        Characteristic.Set_maxValue (Some 1000%float);
        Characteristic.Set_minValue (Some 0%float);
        Characteristic.Set_minStep (Some 1%float);
        Characteristic.Set_perms [Characteristic.READ; Characteristic.NOTIFY]] |}.

(** [Characteristic.PM2_5Density] *)
Definition Characteristic_PM2_5Density : Characteristic.Ctor :=
  {| Characteristic.type_id := 75;
     Characteristic.static_UUID := Some "000000C6-0000-1000-8000-0026BB765291";
     Characteristic.new_displayName := "PM2.5 Density";
     Characteristic.new_UUID := "000000C6-0000-1000-8000-0026BB765291";
     Characteristic.new_props :=
       [Characteristic.Set_format (Some Characteristic.FLOAT);
        Characteristic.Set_maxValue (Some 1000%float);
        Characteristic.Set_minValue (Some 0%float);
        Characteristic.Set_minStep (Some 1%float);
        Characteristic.Set_perms [Characteristic.READ; Characteristic.NOTIFY]] |}.

(** [Characteristic.PositionState] *)
Definition Characteristic_PositionState : Characteristic.Ctor :=
  {| Characteristic.type_id := 76;
     Characteristic.static_UUID := Some "00000072-0000-1000-8000-0026BB765291";
     Characteristic.new_displayName := "Position State";
     Characteristic.new_UUID := "00000072-0000-1000-8000-0026BB765291";
     Characteristic.new_props :=
       [Characteristic.Set_format (Some Characteristic.UINT8);
        Characteristic.Set_perms [Characteristic.READ; Characteristic.NOTIFY]] |}.

(** [Characteristic.ProgrammableSwitchEvent] *)
Definition Characteristic_ProgrammableSwitchEvent : Characteristic.Ctor :=
  {| Characteristic.type_id := 77;
     Characteristic.static_UUID := Some "00000073-0000-1000-8000-0026BB765291";
     Characteristic.new_displayName := "Programmable Switch Event";
     Characteristic.new_UUID := "00000073-0000-1000-8000-0026BB765291";
     Characteristic.new_props :=
       [Characteristic.Set_format (Some Characteristic.UINT8);
        Characteristic.Set_maxValue (Some 1%float);
        Characteristic.Set_minValue (Some 0%float);
        Characteristic.Set_minStep (Some 1%float);
        Characteristic.Set_perms [Characteristic.READ; Characteristic.NOTIFY]] |}.

(** [Characteristic.ProgrammableSwitchOutputState] *)
Definition Characteristic_ProgrammableSwitchOutputState : Characteristic.Ctor :=
  {| Characteristic.type_id := 78;
     Characteristic.static_UUID := Some "00000074-0000-1000-8000-0026BB765291";
     Characteristic.new_displayName := "Programmable Switch Output State";
     Characteristic.new_UUID := "00000074-0000-1000-8000-0026BB765291";
     Characteristic.new_props :=
       [Characteristic.Set_format (Some Characteristic.UINT8);
        Characteristic.Set_maxValue (Some 1%float);
        Characteristic.Set_minValue (Some 0%float);
        Characteristic.Set_minStep (Some 1%float);
        Characteristic.Set_perms
          [Characteristic.READ; Characteristic.WRITE; Characteristic.NOTIFY]] |}.

(** [Characteristic.RelativeHumidityDehumidifierThreshold] *)
Definition Characteristic_RelativeHumidityDehumidifierThreshold : Characteristic.Ctor :=
  {| Characteristic.type_id := 79;
     Characteristic.static_UUID := Some "000000C9-0000-1000-8000-0026BB765291";
     Characteristic.new_displayName := "Relative Humidity Dehumidifier Threshold";
     Characteristic.new_UUID := "000000C9-0000-1000-8000-0026BB765291";
     Characteristic.new_props :=
       [Characteristic.Set_format (Some Characteristic.FLOAT);
        Characteristic.Set_maxValue (Some 100%float);
        Characteristic.Set_minValue (Some 0%float);
        Characteristic.Set_minStep (Some 1%float);
        Characteristic.Set_perms
          [Characteristic.READ; Characteristic.WRITE; Characteristic.NOTIFY]] |}.

(** [Characteristic.RelativeHumidityHumidifierThreshold] *)
Definition Characteristic_RelativeHumidityHumidifierThreshold : Characteristic.Ctor :=
  {| Characteristic.type_id := 80;
     Characteristic.static_UUID := Some "000000CA-0000-1000-8000-0026BB765291";
     Characteristic.new_displayName := "Relative Humidity Humidifier Threshold";
     Characteristic.new_UUID := "000000CA-0000-1000-8000-0026BB765291";
     Characteristic.new_props :=
       [Characteristic.Set_format (Some Characteristic.FLOAT);
        Characteristic.Set_maxValue (Some 100%float);
        Characteristic.Set_minValue (Some 0%float);
        Characteristic.Set_minStep (Some 1%float);
        Characteristic.Set_perms
          [Characteristic.READ; Characteristic.WRITE; Characteristic.NOTIFY]] |}.

(** [Characteristic.ResetFilterIndication] *)
Definition Characteristic_ResetFilterIndication : Characteristic.Ctor :=
  {| Characteristic.type_id := 81;
     Characteristic.static_UUID := Some "000000AD-0000-1000-8000-0026BB765291";
     Characteristic.new_displayName := "Reset Filter Indication";
     Characteristic.new_UUID := "000000AD-0000-1000-8000-0026BB765291";
     Characteristic.new_props :=
       [Characteristic.Set_format (Some Characteristic.UINT8);
        Characteristic.Set_maxValue (Some 1%float);
        Characteristic.Set_minValue (Some 1%float);
        Characteristic.Set_minStep (Some 1%float);
        Characteristic.Set_perms [Characteristic.WRITE]] |}.

(** [Characteristic.RotationDirection] *)
Definition Characteristic_RotationDirection : Characteristic.Ctor :=
  {| Characteristic.type_id := 82;
     Characteristic.static_UUID := Some "00000028-0000-1000-8000-0026BB765291";
     Characteristic.new_displayName := "Rotation Direction";
     Characteristic.new_UUID := "00000028-0000-1000-8000-0026BB765291";
     Characteristic.new_props :=
       [Characteristic.Set_format (Some Characteristic.INT);
        Characteristic.Set_perms
          [Characteristic.READ; Characteristic.WRITE; Characteristic.NOTIFY]] |}.

(** [Characteristic.RotationSpeed] *)
Definition Characteristic_RotationSpeed : Characteristic.Ctor :=
  {| Characteristic.type_id := 83;
     Characteristic.static_UUID := Some "00000029-0000-1000-8000-0026BB765291";
     Characteristic.new_displayName := "Rotation Speed";
     Characteristic.new_UUID := "00000029-0000-1000-8000-0026BB765291";
     Characteristic.new_props :=
       [Characteristic.Set_format (Some Characteristic.FLOAT);
        Characteristic.Set_unit (Some Characteristic.PERCENTAGE);
        Characteristic.Set_maxValue (Some 100%float);
        Characteristic.Set_minValue (Some 0%float);
        Characteristic.Set_minStep (Some 1%float);
        Characteristic.Set_perms
          [Characteristic.READ; Characteristic.WRITE; Characteristic.NOTIFY]] |}.

(** [Characteristic.Saturation] *)
Definition Characteristic_Saturation : Characteristic.Ctor :=
  {| Characteristic.type_id := 84;
     Characteristic.static_UUID := Some "0000002F-0000-1000-8000-0026BB765291";
     Characteristic.new_displayName := "Saturation";
     Characteristic.new_UUID := "0000002F-0000-1000-8000-0026BB765291";
     Characteristic.new_props :=
       [Characteristic.Set_format (Some Characteristic.FLOAT);
        Characteristic.Set_unit (Some Characteristic.PERCENTAGE);
        Characteristic.Set_maxValue (Some 100%float);
        Characteristic.Set_minValue (Some 0%float);
        Characteristic.Set_minStep (Some 1%float);
        Characteristic.Set_perms
          [Characteristic.READ; Characteristic.WRITE; Characteristic.NOTIFY]] |}.

(** [Characteristic.SecuritySystemAlarmType] *)
Definition Characteristic_SecuritySystemAlarmType : Characteristic.Ctor :=
  {| Characteristic.type_id := 85;
     Characteristic.static_UUID := Some "0000008E-0000-1000-8000-0026BB765291";
     Characteristic.new_displayName := "Security System Alarm Type";
     Characteristic.new_UUID := "0000008E-0000-1000-8000-0026BB765291";
     Characteristic.new_props :=
       [Characteristic.Set_format (Some Characteristic.UINT8);
        Characteristic.Set_maxValue (Some 1%float);
        Characteristic.Set_minValue (Some 0%float);
        Characteristic.Set_minStep (Some 1%float);
        Characteristic.Set_perms [Characteristic.READ; Characteristic.NOTIFY]] |}.

(** [Characteristic.SecuritySystemCurrentState] *)
Definition Characteristic_SecuritySystemCurrentState : Characteristic.Ctor :=
  {| Characteristic.type_id := 86;
     Characteristic.static_UUID := Some "00000066-0000-1000-8000-0026BB765291";
     Characteristic.new_displayName := "Security System Current State";
     Characteristic.new_UUID := "00000066-0000-1000-8000-0026BB765291";
     Characteristic.new_props :=
       [Characteristic.Set_format (Some Characteristic.UINT8);
        Characteristic.Set_perms [Characteristic.READ; Characteristic.NOTIFY]] |}.

(** [Characteristic.SecuritySystemTargetState] *)
Definition Characteristic_SecuritySystemTargetState : Characteristic.Ctor :=
  {| Characteristic.type_id := 87;
     Characteristic.static_UUID := Some "00000067-0000-1000-8000-0026BB765291";
     Characteristic.new_displayName := "Security System Target State";
     Characteristic.new_UUID := "00000067-0000-1000-8000-0026BB765291";
     Characteristic.new_props :=
       [Characteristic.Set_format (Some Characteristic.UINT8);
        Characteristic.Set_perms
          [Characteristic.READ; Characteristic.WRITE; Characteristic.NOTIFY]] |}.

(** [Characteristic.SelectedStreamConfiguration] *)
Definition Characteristic_SelectedStreamConfiguration : Characteristic.Ctor :=
  {| Characteristic.type_id := 88;
     Characteristic.static_UUID := Some "00000117-0000-1000-8000-0026BB765291";
     Characteristic.new_displayName := "Selected Stream Configuration";
     Characteristic.new_UUID := "00000117-0000-1000-8000-0026BB765291";
     Characteristic.new_props :=
       [Characteristic.Set_format (Some Characteristic.TLV8);
        Characteristic.Set_perms [Characteristic.READ; Characteristic.WRITE]] |}.

(** [Characteristic.SerialNumber] *)
Definition Characteristic_SerialNumber : Characteristic.Ctor :=
  {| Characteristic.type_id := 89;
     Characteristic.static_UUID := Some "00000030-0000-1000-8000-0026BB765291";
     Characteristic.new_displayName := "Serial Number";
     Characteristic.new_UUID := "00000030-0000-1000-8000-0026BB765291";
     Characteristic.new_props :=
       [Characteristic.Set_format (Some Characteristic.STRING);
        Characteristic.Set_perms [Characteristic.READ]] |}.

(** [Characteristic.SetupEndpoints] *)
Definition Characteristic_SetupEndpoints : Characteristic.Ctor :=
  {| Characteristic.type_id := 90;
     Characteristic.static_UUID := Some "00000118-0000-1000-8000-0026BB765291";
     Characteristic.new_displayName := "Setup Endpoints";
     Characteristic.new_UUID := "00000118-0000-1000-8000-0026BB765291";
     Characteristic.new_props :=
       [Characteristic.Set_format (Some Characteristic.TLV8);
        Characteristic.Set_perms
          [Characteristic.READ; Characteristic.WRITE; Characteristic.NOTIFY]] |}.

(** [Characteristic.SlatType] *)
Definition Characteristic_SlatType : Characteristic.Ctor :=
  {| Characteristic.type_id := 91;
     Characteristic.static_UUID := Some "000000C0-0000-1000-8000-0026BB765291";
     Characteristic.new_displayName := "Slat Type";
     Characteristic.new_UUID := "000000C0-0000-1000-8000-0026BB765291";
     Characteristic.new_props :=
       [Characteristic.Set_format (Some Characteristic.UINT8);
        Characteristic.Set_perms [Characteristic.READ; Characteristic.NOTIFY]] |}.

(** [Characteristic.SmokeDetected] *)
Definition Characteristic_SmokeDetected : Characteristic.Ctor :=
  {| Characteristic.type_id := 92;
     Characteristic.static_UUID := Some "00000076-0000-1000-8000-0026BB765291";
     Characteristic.new_displayName := "Smoke Detected";
     Characteristic.new_UUID := "00000076-0000-1000-8000-0026BB765291";
     Characteristic.new_props :=
       [Characteristic.Set_format (Some Characteristic.UINT8);
        Characteristic.Set_perms [Characteristic.READ; Characteristic.NOTIFY]] |}.

(** [Characteristic.SoftwareRevision] *)
Definition Characteristic_SoftwareRevision : Characteristic.Ctor :=
  {| Characteristic.type_id := 93;
     Characteristic.static_UUID := Some "00000054-0000-1000-8000-0026BB765291";
     Characteristic.new_displayName := "Software Revision";
     Characteristic.new_UUID := "00000054-0000-1000-8000-0026BB765291";
     Characteristic.new_props :=
       [Characteristic.Set_format (Some Characteristic.STRING);
        Characteristic.Set_perms [Characteristic.READ]] |}.

(** [Characteristic.StatusActive] *)
Definition Characteristic_StatusActive : Characteristic.Ctor :=
  {| Characteristic.type_id := 94;
     Characteristic.static_UUID := Some "00000075-0000-1000-8000-0026BB765291";
     Characteristic.new_displayName := "Status Active";
     Characteristic.new_UUID := "00000075-0000-1000-8000-0026BB765291";
     Characteristic.new_props :=
       [Characteristic.Set_format (Some Characteristic.BOOL);
        Characteristic.Set_perms [Characteristic.READ; Characteristic.NOTIFY]] |}.

(** [Characteristic.StatusFault] *)
Definition Characteristic_StatusFault : Characteristic.Ctor :=
  {| Characteristic.type_id := 95;
     Characteristic.static_UUID := Some "00000077-0000-1000-8000-0026BB765291";
     Characteristic.new_displayName := "Status Fault";
     Characteristic.new_UUID := "00000077-0000-1000-8000-0026BB765291";
     Characteristic.new_props :=
       [Characteristic.Set_format (Some Characteristic.UINT8);
        Characteristic.Set_perms [Characteristic.READ; Characteristic.NOTIFY]] |}.

(** [Characteristic.StatusJammed] *)
Definition Characteristic_StatusJammed : Characteristic.Ctor :=
  {| Characteristic.type_id := 96;
     Characteristic.static_UUID := Some "00000078-0000-1000-8000-0026BB765291";
     Characteristic.new_displayName := "Status Jammed";
     Characteristic.new_UUID := "00000078-0000-1000-8000-0026BB765291";
     Characteristic.new_props :=
       [Characteristic.Set_format (Some Characteristic.UINT8);
        Characteristic.Set_perms [Characteristic.READ; Characteristic.NOTIFY]] |}.

(** [Characteristic.StatusLowBattery] *)
Definition Characteristic_StatusLowBattery : Characteristic.Ctor :=
  {| Characteristic.type_id := 97;
     Characteristic.static_UUID := Some "00000079-0000-1000-8000-0026BB765291";
     Characteristic.new_displayName := "Status Low Battery";
     Characteristic.new_UUID := "00000079-0000-1000-8000-0026BB765291";
     Characteristic.new_props :=
       [Characteristic.Set_format (Some Characteristic.UINT8);
        Characteristic.Set_perms [Characteristic.READ; Characteristic.NOTIFY]] |}.

(** [Characteristic.StatusTampered] *)
Definition Characteristic_StatusTampered : Characteristic.Ctor :=
  {| Characteristic.type_id := 98;
     Characteristic.static_UUID := Some "0000007A-0000-1000-8000-0026BB765291";
     Characteristic.new_displayName := "Status Tampered";
     Characteristic.new_UUID := "0000007A-0000-1000-8000-0026BB765291";
     Characteristic.new_props :=
       [Characteristic.Set_format (Some Characteristic.UINT8);
        Characteristic.Set_perms [Characteristic.READ; Characteristic.NOTIFY]] |}.

(** [Characteristic.StreamingStatus] *)
Definition Characteristic_StreamingStatus : Characteristic.Ctor :=
  {| Characteristic.type_id := 99;
     Characteristic.static_UUID := Some "00000120-0000-1000-8000-0026BB765291";
     Characteristic.new_displayName := "Streaming Status";
     Characteristic.new_UUID := "00000120-0000-1000-8000-0026BB765291";
     Characteristic.new_props :=
       [Characteristic.Set_format (Some Characteristic.TLV8);
        Characteristic.Set_perms [Characteristic.READ; Characteristic.NOTIFY]] |}.

(** [Characteristic.SulphurDioxideDensity] *)
Definition Characteristic_SulphurDioxideDensity : Characteristic.Ctor :=
  {| Characteristic.type_id := 100;
     Characteristic.static_UUID := Some "000000C5-0000-1000-8000-0026BB765291";
     Characteristic.new_displayName := "Sulphur Dioxide Density";
     Characteristic.new_UUID := "000000C5-0000-1000-8000-0026BB765291";
     Characteristic.new_props :=
       [Characteristic.Set_format (Some Characteristic.FLOAT);
        Characteristic.Set_maxValue (Some 1000%float);
        Characteristic.Set_minValue (Some 0%float);
        Characteristic.Set_minStep (Some 1%float);
        Characteristic.Set_perms [Characteristic.READ; Characteristic.NOTIFY]] |}.

(** [Characteristic.SupportedAudioStreamConfiguration] *)
Definition Characteristic_SupportedAudioStreamConfiguration : Characteristic.Ctor :=
  {| Characteristic.type_id := 101;
     Characteristic.static_UUID := Some "00000115-0000-1000-8000-0026BB765291";
     Characteristic.new_displayName := "Supported Audio Stream Configuration";
     Characteristic.new_UUID := "00000115-0000-1000-8000-0026BB765291";
     Characteristic.new_props :=
       [Characteristic.Set_format (Some Characteristic.TLV8);
        Characteristic.Set_perms [Characteristic.READ]] |}.

(** [Characteristic.SupportedRTPConfiguration] *)
Definition Characteristic_SupportedRTPConfiguration : Characteristic.Ctor :=
  {| Characteristic.type_id := 102;
     Characteristic.static_UUID := Some "00000116-0000-1000-8000-0026BB765291";
     Characteristic.new_displayName := "Supported RTP Configuration";
     Characteristic.new_UUID := "00000116-0000-1000-8000-0026BB765291";
     Characteristic.new_props :=
       [Characteristic.Set_format (Some Characteristic.TLV8);
        Characteristic.Set_perms [Characteristic.READ]] |}.

(** [Characteristic.SupportedVideoStreamConfiguration] *)
Definition Characteristic_SupportedVideoStreamConfiguration : Characteristic.Ctor :=
  {| Characteristic.type_id := 103;
     Characteristic.static_UUID := Some "00000114-0000-1000-8000-0026BB765291";
     Characteristic.new_displayName := "Supported Video Stream Configuration";
     Characteristic.new_UUID := "00000114-0000-1000-8000-0026BB765291";
     Characteristic.new_props :=
       [Characteristic.Set_format (Some Characteristic.TLV8);
        Characteristic.Set_perms [Characteristic.READ]] |}.

(** [Characteristic.SwingMode] *)
Definition Characteristic_SwingMode : Characteristic.Ctor :=
  {| Characteristic.type_id := 104;
     Characteristic.static_UUID := Some "000000B6-0000-1000-8000-0026BB765291";
     Characteristic.new_displayName := "Swing Mode";
     Characteristic.new_UUID := "000000B6-0000-1000-8000-0026BB765291";
     Characteristic.new_props :=
       [Characteristic.Set_format (Some Characteristic.UINT8);
        Characteristic.Set_perms
          [Characteristic.READ; Characteristic.WRITE; Characteristic.NOTIFY]] |}.

(** [Characteristic.TargetAirPurifierState] *)
Definition Characteristic_TargetAirPurifierState : Characteristic.Ctor :=
  {| Characteristic.type_id := 105;
     Characteristic.static_UUID := Some "000000A8-0000-1000-8000-0026BB765291";
     Characteristic.new_displayName := "Target Air Purifier State";
     Characteristic.new_UUID := "000000A8-0000-1000-8000-0026BB765291";
     Characteristic.new_props :=
       [Characteristic.Set_format (Some Characteristic.UINT8);
        Characteristic.Set_perms
          [Characteristic.READ; Characteristic.WRITE; Characteristic.NOTIFY]] |}.

(** [Characteristic.TargetAirQuality] *)
Definition Characteristic_TargetAirQuality : Characteristic.Ctor :=
  {| Characteristic.type_id := 106;
     Characteristic.static_UUID := Some "000000AE-0000-1000-8000-0026BB765291";
     Characteristic.new_displayName := "Target Air Quality";
     Characteristic.new_UUID := "000000AE-0000-1000-8000-0026BB765291";
     Characteristic.new_props :=
       [Characteristic.Set_format (Some Characteristic.UINT8);
        Characteristic.Set_perms
          [Characteristic.READ; Characteristic.WRITE; Characteristic.NOTIFY]] |}.

(** [Characteristic.TargetDoorState] *)
Definition Characteristic_TargetDoorState : Characteristic.Ctor :=
  {| Characteristic.type_id := 107;
     Characteristic.static_UUID := Some "00000032-0000-1000-8000-0026BB765291";
     Characteristic.new_displayName := "Target Door State";
     Characteristic.new_UUID := "00000032-0000-1000-8000-0026BB765291";
     Characteristic.new_props :=
       [Characteristic.Set_format (Some Characteristic.UINT8);
        Characteristic.Set_perms
          [Characteristic.READ; Characteristic.WRITE; Characteristic.NOTIFY]] |}.

(** [Characteristic.TargetFanState] *)
Definition Characteristic_TargetFanState : Characteristic.Ctor :=
  {| Characteristic.type_id := 108;
     Characteristic.static_UUID := Some "000000BF-0000-1000-8000-0026BB765291";
     Characteristic.new_displayName := "Target Fan State";
     Characteristic.new_UUID := "000000BF-0000-1000-8000-0026BB765291";
     Characteristic.new_props :=
       [Characteristic.Set_format (Some Characteristic.UINT8);
        Characteristic.Set_perms
          [Characteristic.READ; Characteristic.WRITE; Characteristic.NOTIFY]] |}.

(** [Characteristic.TargetHeaterCoolerState] *)
Definition Characteristic_TargetHeaterCoolerState : Characteristic.Ctor :=
  {| Characteristic.type_id := 109;
     Characteristic.static_UUID := Some "000000B2-0000-1000-8000-0026BB765291";
     Characteristic.new_displayName := "Target Heater Cooler State";
     Characteristic.new_UUID := "000000B2-0000-1000-8000-0026BB765291";
     Characteristic.new_props :=
       [Characteristic.Set_format (Some Characteristic.UINT8);
        Characteristic.Set_perms
          [Characteristic.READ; Characteristic.WRITE; Characteristic.NOTIFY]] |}.

(** [Characteristic.TargetHeatingCoolingState] *)
Definition Characteristic_TargetHeatingCoolingState : Characteristic.Ctor :=
  {| Characteristic.type_id := 110;
     Characteristic.static_UUID := Some "00000033-0000-1000-8000-0026BB765291";
     Characteristic.new_displayName := "Target Heating Cooling State";
     Characteristic.new_UUID := "00000033-0000-1000-8000-0026BB765291";
     Characteristic.new_props :=
       [Characteristic.Set_format (Some Characteristic.UINT8);
        Characteristic.Set_perms
          [Characteristic.READ; Characteristic.WRITE; Characteristic.NOTIFY]] |}.

(** [Characteristic.TargetHorizontalTiltAngle] *)
Definition Characteristic_TargetHorizontalTiltAngle : Characteristic.Ctor :=
  {| Characteristic.type_id := 111;
     Characteristic.static_UUID := Some "0000007B-0000-1000-8000-0026BB765291";
     Characteristic.new_displayName := "Target Horizontal Tilt Angle";
     Characteristic.new_UUID := "0000007B-0000-1000-8000-0026BB765291";
     Characteristic.new_props :=
       [Characteristic.Set_format (Some Characteristic.INT);
        Characteristic.Set_unit (Some Characteristic.ARC_DEGREE);
        Characteristic.Set_maxValue (Some 90%float);
        Characteristic.Set_minValue (Some (-90)%float);
        Characteristic.Set_minStep (Some 1%float);
        Characteristic.Set_perms
          [Characteristic.READ; Characteristic.WRITE; Characteristic.NOTIFY]] |}.

(** [Characteristic.TargetHumidifierDehumidifierState] *)
Definition Characteristic_TargetHumidifierDehumidifierState : Characteristic.Ctor :=
  {| Characteristic.type_id := 112;
     Characteristic.static_UUID := Some "000000B4-0000-1000-8000-0026BB765291";
     Characteristic.new_displayName := "Target Humidifier Dehumidifier State";
     Characteristic.new_UUID := "000000B4-0000-1000-8000-0026BB765291";
     Characteristic.new_props :=
       [Characteristic.Set_format (Some Characteristic.UINT8);
        Characteristic.Set_perms
          [Characteristic.READ; Characteristic.WRITE; Characteristic.NOTIFY]] |}.

(** [Characteristic.TargetPosition] *)
Definition Characteristic_TargetPosition : Characteristic.Ctor :=
  {| Characteristic.type_id := 113;
     Characteristic.static_UUID := Some "0000007C-0000-1000-8000-0026BB765291";
     Characteristic.new_displayName := "Target Position";
     Characteristic.new_UUID := "0000007C-0000-1000-8000-0026BB765291";
     Characteristic.new_props :=
       [Characteristic.Set_format (Some Characteristic.UINT8);
        Characteristic.Set_unit (Some Characteristic.PERCENTAGE);
        Characteristic.Set_maxValue (Some 100%float);
        Characteristic.Set_minValue (Some 0%float);
        Characteristic.Set_minStep (Some 1%float);
        Characteristic.Set_perms
          [Characteristic.READ; Characteristic.WRITE; Characteristic.NOTIFY]] |}.

(** [Characteristic.TargetRelativeHumidity] *)
Definition Characteristic_TargetRelativeHumidity : Characteristic.Ctor :=
  {| Characteristic.type_id := 114;
     Characteristic.static_UUID := Some "00000034-0000-1000-8000-0026BB765291";
     Characteristic.new_displayName := "Target Relative Humidity";
     Characteristic.new_UUID := "00000034-0000-1000-8000-0026BB765291";
     Characteristic.new_props :=
       [Characteristic.Set_format (Some Characteristic.FLOAT);
        Characteristic.Set_unit (Some Characteristic.PERCENTAGE);
        Characteristic.Set_maxValue (Some 100%float);
        Characteristic.Set_minValue (Some 0%float);
        Characteristic.Set_minStep (Some 1%float);
        Characteristic.Set_perms
          [Characteristic.READ; Characteristic.WRITE; Characteristic.NOTIFY]] |}.

(** [Characteristic.TargetSlatState] *)
Definition Characteristic_TargetSlatState : Characteristic.Ctor :=
  {| Characteristic.type_id := 115;
     Characteristic.static_UUID := Some "000000BE-0000-1000-8000-0026BB765291";
     Characteristic.new_displayName := "Target Slat State";
     Characteristic.new_UUID := "000000BE-0000-1000-8000-0026BB765291";
     Characteristic.new_props :=
       [Characteristic.Set_format (Some Characteristic.UINT8);
        Characteristic.Set_perms
          [Characteristic.READ; Characteristic.WRITE; Characteristic.NOTIFY]] |}.

(** [Characteristic.TargetTemperature] *)
Definition Characteristic_TargetTemperature : Characteristic.Ctor :=
  {| Characteristic.type_id := 116;
     Characteristic.static_UUID := Some "00000035-0000-1000-8000-0026BB765291";
     Characteristic.new_displayName := "Target Temperature";
     Characteristic.new_UUID := "00000035-0000-1000-8000-0026BB765291";
     Characteristic.new_props :=
       [Characteristic.Set_format (Some Characteristic.FLOAT);
        Characteristic.Set_unit (Some Characteristic.CELSIUS);
        Characteristic.Set_maxValue (Some 38%float);
        Characteristic.Set_minValue (Some 10%float);
        Characteristic.Set_minStep (Some 0.1%float);
        Characteristic.Set_perms
          [Characteristic.READ; Characteristic.WRITE; Characteristic.NOTIFY]] |}.

(** [Characteristic.TargetTiltAngle] *)
Definition Characteristic_TargetTiltAngle : Characteristic.Ctor :=
  {| Characteristic.type_id := 117;
     Characteristic.static_UUID := Some "000000C2-0000-1000-8000-0026BB765291";
     Characteristic.new_displayName := "Target Tilt Angle";
     Characteristic.new_UUID := "000000C2-0000-1000-8000-0026BB765291";
     Characteristic.new_props :=
       [Characteristic.Set_format (Some Characteristic.INT);
        Characteristic.Set_unit (Some Characteristic.ARC_DEGREE);
        Characteristic.Set_maxValue (Some 90%float);
        Characteristic.Set_minValue (Some (-90)%float);
        Characteristic.Set_minStep (Some 1%float);
        Characteristic.Set_perms
          [Characteristic.READ; Characteristic.WRITE; Characteristic.NOTIFY]] |}.

(** [Characteristic.TargetVerticalTiltAngle] *)
Definition Characteristic_TargetVerticalTiltAngle : Characteristic.Ctor :=
  {| Characteristic.type_id := 118;
     Characteristic.static_UUID := Some "0000007D-0000-1000-8000-0026BB765291";
     Characteristic.new_displayName := "Target Vertical Tilt Angle";
     Characteristic.new_UUID := "0000007D-0000-1000-8000-0026BB765291";
     Characteristic.new_props :=
       [Characteristic.Set_format (Some Characteristic.INT);
        Characteristic.Set_unit (Some Characteristic.ARC_DEGREE);
        Characteristic.Set_maxValue (Some 90%float);
        Characteristic.Set_minValue (Some (-90)%float);
        Characteristic.Set_minStep (Some 1%float);
        Characteristic.Set_perms
          [Characteristic.READ; Characteristic.WRITE; Characteristic.NOTIFY]] |}.

(** [Characteristic.TemperatureDisplayUnits] *)
Definition Characteristic_TemperatureDisplayUnits : Characteristic.Ctor :=
  {| Characteristic.type_id := 119;
     Characteristic.static_UUID := Some "00000036-0000-1000-8000-0026BB765291";
     Characteristic.new_displayName := "Temperature Display Units";
     Characteristic.new_UUID := "00000036-0000-1000-8000-0026BB765291";
     Characteristic.new_props :=
       [Characteristic.Set_format (Some Characteristic.UINT8);
        Characteristic.Set_perms
          [Characteristic.READ; Characteristic.WRITE; Characteristic.NOTIFY]] |}.

(** [Characteristic.VOCDensity] *)
Definition Characteristic_VOCDensity : Characteristic.Ctor :=
  {| Characteristic.type_id := 120;
     Characteristic.static_UUID := Some "000000C8-0000-1000-8000-0026BB765291";
     Characteristic.new_displayName := "VOC Density";
     Characteristic.new_UUID := "000000C8-0000-1000-8000-0026BB765291";
     Characteristic.new_props :=
       [Characteristic.Set_format (Some Characteristic.FLOAT);
        Characteristic.Set_maxValue (Some 1000%float);
        Characteristic.Set_minValue (Some 0%float);
        Characteristic.Set_minStep (Some 1%float);
        Characteristic.Set_perms [Characteristic.READ; Characteristic.NOTIFY]] |}.

(** [Characteristic.Volume] *)
Definition Characteristic_Volume : Characteristic.Ctor :=
  {| Characteristic.type_id := 121;
     Characteristic.static_UUID := Some "00000119-0000-1000-8000-0026BB765291";
     Characteristic.new_displayName := "Volume";
     Characteristic.new_UUID := "00000119-0000-1000-8000-0026BB765291";
     Characteristic.new_props :=
       [Characteristic.Set_format (Some Characteristic.FLOAT);
        Characteristic.Set_unit (Some Characteristic.PERCENTAGE);
        Characteristic.Set_maxValue (Some 100%float);
        Characteristic.Set_minValue (Some 0%float);
        Characteristic.Set_minStep (Some 1%float);
        Characteristic.Set_perms
          [Characteristic.READ; Characteristic.WRITE; Characteristic.NOTIFY]] |}.

(** [Characteristic.WaterLevel] *)
Definition Characteristic_WaterLevel : Characteristic.Ctor :=
  {| Characteristic.type_id := 122;
     Characteristic.static_UUID := Some "000000B5-0000-1000-8000-0026BB765291";
     Characteristic.new_displayName := "Water Level";
     Characteristic.new_UUID := "000000B5-0000-1000-8000-0026BB765291";
     Characteristic.new_props :=
       [Characteristic.Set_format (Some Characteristic.FLOAT);
        Characteristic.Set_maxValue (Some 100%float);
        Characteristic.Set_minValue (Some 0%float);
        Characteristic.Set_perms [Characteristic.READ; Characteristic.NOTIFY]] |}.

(** [Characteristic.ConfigureBridgedAccessory] *)
Definition Characteristic_ConfigureBridgedAccessory : Characteristic.Ctor :=
  {| Characteristic.type_id := 123;
     Characteristic.static_UUID := Some "000000A0-0000-1000-8000-0026BB765291";
     Characteristic.new_displayName := "Configure Bridged Accessory";
     Characteristic.new_UUID := "000000A0-0000-1000-8000-0026BB765291";
     Characteristic.new_props :=
       [Characteristic.Set_format (Some Characteristic.TLV8);
        Characteristic.Set_perms [Characteristic.WRITE]] |}.

(** [Characteristic.ConfigureBridgedAccessoryStatus] *)
Definition Characteristic_ConfigureBridgedAccessoryStatus : Characteristic.Ctor :=
  {| Characteristic.type_id := 124;
     Characteristic.static_UUID := Some "0000009D-0000-1000-8000-0026BB765291";
     Characteristic.new_displayName := "Configure Bridged Accessory Status";
     Characteristic.new_UUID := "0000009D-0000-1000-8000-0026BB765291";
     Characteristic.new_props :=
       [Characteristic.Set_format (Some Characteristic.TLV8);
        Characteristic.Set_perms [Characteristic.READ; Characteristic.NOTIFY]] |}.

(** [Characteristic.CurrentTime] *)
Definition Characteristic_CurrentTime : Characteristic.Ctor :=
  {| Characteristic.type_id := 125;
     Characteristic.static_UUID := Some "0000009B-0000-1000-8000-0026BB765291";
     Characteristic.new_displayName := "Current Time";
     Characteristic.new_UUID := "0000009B-0000-1000-8000-0026BB765291";
     Characteristic.new_props :=
       [Characteristic.Set_format (Some Characteristic.STRING);
        Characteristic.Set_perms [Characteristic.READ; Characteristic.WRITE]] |}.

(** [Characteristic.DayoftheWeek] *)
Definition Characteristic_DayoftheWeek : Characteristic.Ctor :=
  {| Characteristic.type_id := 126;
     Characteristic.static_UUID := Some "00000098-0000-1000-8000-0026BB765291";
     Characteristic.new_displayName := "Day of the Week";
     Characteristic.new_UUID := "00000098-0000-1000-8000-0026BB765291";
     Characteristic.new_props :=
       [Characteristic.Set_format (Some Characteristic.UINT8);
        Characteristic.Set_maxValue (Some 7%float);
        Characteristic.Set_minValue (Some 1%float);
        Characteristic.Set_minStep (Some 1%float);
        Characteristic.Set_perms [Characteristic.READ; Characteristic.WRITE]] |}.

(** [Characteristic.DiscoverBridgedAccessories] *)
Definition Characteristic_DiscoverBridgedAccessories : Characteristic.Ctor :=
  {| Characteristic.type_id := 127;
     Characteristic.static_UUID := Some "0000009E-0000-1000-8000-0026BB765291";
     Characteristic.new_displayName := "Discover Bridged Accessories";
     Characteristic.new_UUID := "0000009E-0000-1000-8000-0026BB765291";
     Characteristic.new_props :=
       [Characteristic.Set_format (Some Characteristic.UINT8);
        Characteristic.Set_perms
          [Characteristic.READ; Characteristic.WRITE; Characteristic.NOTIFY]] |}.

(** [Characteristic.DiscoveredBridgedAccessories] *)
Definition Characteristic_DiscoveredBridgedAccessories : Characteristic.Ctor :=
  {| Characteristic.type_id := 128;
     Characteristic.static_UUID := Some "0000009F-0000-1000-8000-0026BB765291";
     Characteristic.new_displayName := "Discovered Bridged Accessories";
     Characteristic.new_UUID := "0000009F-0000-1000-8000-0026BB765291";
     Characteristic.new_props :=
       [Characteristic.Set_format (Some Characteristic.UINT16);
        Characteristic.Set_perms [Characteristic.READ; Characteristic.NOTIFY]] |}.

(** [Characteristic.RelayControlPoint] *)
Definition Characteristic_RelayControlPoint : Characteristic.Ctor :=
  {| Characteristic.type_id := 129;
     Characteristic.static_UUID := Some "0000005E-0000-1000-8000-0026BB765291";
     Characteristic.new_displayName := "Relay Control Point";
     Characteristic.new_UUID := "0000005E-0000-1000-8000-0026BB765291";
     Characteristic.new_props :=
       [Characteristic.Set_format (Some Characteristic.TLV8);
        Characteristic.Set_perms
          [Characteristic.READ; Characteristic.WRITE; Characteristic.NOTIFY]] |}.

(** [Characteristic.RelayEnabled] *)
Definition Characteristic_RelayEnabled : Characteristic.Ctor :=
  {| Characteristic.type_id := 130;
     Characteristic.static_UUID := Some "0000005B-0000-1000-8000-0026BB765291";
     Characteristic.new_displayName := "Relay Enabled";
     Characteristic.new_UUID := "0000005B-0000-1000-8000-0026BB765291";
     Characteristic.new_props :=
       [Characteristic.Set_format (Some Characteristic.BOOL);
        Characteristic.Set_perms
          [Characteristic.READ; Characteristic.WRITE; Characteristic.NOTIFY]] |}.

(** [Characteristic.RelayState] *)
Definition Characteristic_RelayState : Characteristic.Ctor :=
  {| Characteristic.type_id := 131;
     Characteristic.static_UUID := Some "0000005C-0000-1000-8000-0026BB765291";
     Characteristic.new_displayName := "Relay State";
     Characteristic.new_UUID := "0000005C-0000-1000-8000-0026BB765291";
     Characteristic.new_props :=
       [Characteristic.Set_format (Some Characteristic.UINT8);
        Characteristic.Set_perms [Characteristic.READ; Characteristic.NOTIFY]] |}.

(** [Characteristic.TimeUpdate] *)
Definition Characteristic_TimeUpdate : Characteristic.Ctor :=
  {| Characteristic.type_id := 132;
     Characteristic.static_UUID := Some "0000009A-0000-1000-8000-0026BB765291";
     Characteristic.new_displayName := "Time Update";
     Characteristic.new_UUID := "0000009A-0000-1000-8000-0026BB765291";
     Characteristic.new_props :=
       [Characteristic.Set_format (Some Characteristic.BOOL);
        Characteristic.Set_perms [Characteristic.READ; Characteristic.NOTIFY]] |}.

(** [Characteristic.TunnelConnectionTimeout] *)
Definition Characteristic_TunnelConnectionTimeout : Characteristic.Ctor :=
  {| Characteristic.type_id := 133;
     Characteristic.static_UUID := Some "00000061-0000-1000-8000-0026BB765291";
     Characteristic.new_displayName := "Tunnel Connection Timeout ";
     Characteristic.new_UUID := "00000061-0000-1000-8000-0026BB765291";
     Characteristic.new_props :=
       [Characteristic.Set_format (Some Characteristic.UINT32);
        Characteristic.Set_perms
          [Characteristic.WRITE; Characteristic.READ; Characteristic.NOTIFY]] |}.

(** [Characteristic.TunneledAccessoryAdvertising] *)
Definition Characteristic_TunneledAccessoryAdvertising : Characteristic.Ctor :=
  {| Characteristic.type_id := 134;
     Characteristic.static_UUID := Some "00000060-0000-1000-8000-0026BB765291";
     Characteristic.new_displayName := "Tunneled Accessory Advertising";
     Characteristic.new_UUID := "00000060-0000-1000-8000-0026BB765291";
     Characteristic.new_props :=
       [Characteristic.Set_format (Some Characteristic.BOOL);
        Characteristic.Set_perms
          [Characteristic.WRITE; Characteristic.READ; Characteristic.NOTIFY]] |}.

(** [Characteristic.TunneledAccessoryConnected] *)
Definition Characteristic_TunneledAccessoryConnected : Characteristic.Ctor :=
  {| Characteristic.type_id := 135;
     Characteristic.static_UUID := Some "00000059-0000-1000-8000-0026BB765291";
     Characteristic.new_displayName := "Tunneled Accessory Connected";
     Characteristic.new_UUID := "00000059-0000-1000-8000-0026BB765291";
     Characteristic.new_props :=
       [Characteristic.Set_format (Some Characteristic.BOOL);
        Characteristic.Set_perms
          [Characteristic.WRITE; Characteristic.READ; Characteristic.NOTIFY]] |}.

(** [Characteristic.TunneledAccessoryStateNumber] *)
Definition Characteristic_TunneledAccessoryStateNumber : Characteristic.Ctor :=
  {| Characteristic.type_id := 136;
     Characteristic.static_UUID := Some "00000058-0000-1000-8000-0026BB765291";
     Characteristic.new_displayName := "Tunneled Accessory State Number";
     Characteristic.new_UUID := "00000058-0000-1000-8000-0026BB765291";
     Characteristic.new_props :=
       [Characteristic.Set_format (Some Characteristic.FLOAT);
        Characteristic.Set_perms [Characteristic.READ; Characteristic.NOTIFY]] |}.

(** [Characteristic.Version] *)
Definition Characteristic_Version : Characteristic.Ctor :=
  {| Characteristic.type_id := 137;
     Characteristic.static_UUID := Some "00000037-0000-1000-8000-0026BB765291";
     Characteristic.new_displayName := "Version";
     Characteristic.new_UUID := "00000037-0000-1000-8000-0026BB765291";
     Characteristic.new_props :=
       [Characteristic.Set_format (Some Characteristic.STRING);
        Characteristic.Set_perms [Characteristic.READ; Characteristic.NOTIFY]] |}.

(** The constructors of Characteristic.js, in the order of the file. *)
Definition Characteristic_registry : list Characteristic.Ctor :=
  [Characteristic_AccessoryFlags;
   Characteristic_Active;
   Characteristic_AdministratorOnlyAccess;
   Characteristic_AirParticulateDensity;
   Characteristic_AirParticulateSize;
   Characteristic_AirQuality;
   Characteristic_AppMatchingIdentifier;
   Characteristic_AudioFeedback;
   Characteristic_BatteryLevel;
   Characteristic_Brightness;
   Characteristic_CarbonDioxideDetected;
   Characteristic_CarbonDioxideLevel;
   Characteristic_CarbonDioxidePeakLevel;
   Characteristic_CarbonMonoxideDetected;
   Characteristic_CarbonMonoxideLevel;
   Characteristic_CarbonMonoxidePeakLevel;
   Characteristic_ChargingState;
   Characteristic_ContactSensorState;
   Characteristic_CoolingThresholdTemperature;
   Characteristic_CurrentAirPurifierState;
   Characteristic_CurrentAmbientLightLevel;
   Characteristic_CurrentDoorState;
   Characteristic_CurrentFanState;
   Characteristic_CurrentHeaterCoolerState;
   Characteristic_CurrentHeatingCoolingState;
   Characteristic_CurrentHorizontalTiltAngle;
   Characteristic_CurrentHumidifierDehumidifierState;
   Characteristic_CurrentPosition;
   Characteristic_CurrentRelativeHumidity;
   Characteristic_CurrentSlatState;
   Characteristic_CurrentTemperature;
   Characteristic_CurrentTiltAngle;
   Characteristic_CurrentVerticalTiltAngle;
   Characteristic_DigitalZoom;
   Characteristic_FilterChangeIndication;
   Characteristic_FilterLifeLevel;
   Characteristic_FirmwareRevision;
   Characteristic_HardwareRevision;
   Characteristic_HeatingThresholdTemperature;
   Characteristic_HoldPosition;
   Characteristic_Hue;
   Characteristic_Identify;
   Characteristic_ImageMirroring;
   Characteristic_ImageRotation;
   Characteristic_LeakDetected;
   Characteristic_LockControlPoint;
   Characteristic_LockCurrentState;
   Characteristic_LockLastKnownAction;
   Characteristic_LockManagementAutoSecurityTimeout;
   Characteristic_LockPhysicalControls;
   Characteristic_LockTargetState;
   Characteristic_Logs;
   Characteristic_Manufacturer;
   Characteristic_Model;
   Characteristic_Mute;
   Characteristic_MotionDetected;
   Characteristic_Name;
   Characteristic_NightVision;
   Characteristic_NitrogenDioxideDensity;
   Characteristic_ObstructionDetected;
   Characteristic_OccupancyDetected;
   Characteristic_On;
   Characteristic_OpticalZoom;
   Characteristic_OutletInUse;
   Characteristic_OzoneDensity;
   Characteristic_PairSetup;
   Characteristic_PairVerify;
   Characteristic_PairingFeatures;
   Characteristic_PairingPairings;
   Characteristic_PM10Density;
   Characteristic_PM2_5Density;
   Characteristic_PositionState;
   Characteristic_ProgrammableSwitchEvent;
   Characteristic_ProgrammableSwitchOutputState;
   Characteristic_RelativeHumidityDehumidifierThreshold;
   Characteristic_RelativeHumidityHumidifierThreshold;
   Characteristic_ResetFilterIndication;
   Characteristic_RotationDirection;
   Characteristic_RotationSpeed;
   Characteristic_Saturation;
   Characteristic_SecuritySystemAlarmType;
   Characteristic_SecuritySystemCurrentState;
   Characteristic_SecuritySystemTargetState;
   Characteristic_SelectedStreamConfiguration;
   Characteristic_SerialNumber;
   Characteristic_SetupEndpoints;
   Characteristic_SlatType;
   Characteristic_SmokeDetected;
   Characteristic_SoftwareRevision;
   Characteristic_StatusActive;
   Characteristic_StatusFault;
   Characteristic_StatusJammed;
   Characteristic_StatusLowBattery;
   Characteristic_StatusTampered;
   Characteristic_StreamingStatus;
   Characteristic_SulphurDioxideDensity;
   Characteristic_SupportedAudioStreamConfiguration;
   Characteristic_SupportedRTPConfiguration;
   Characteristic_SupportedVideoStreamConfiguration;
   Characteristic_SwingMode;
   Characteristic_TargetAirPurifierState;
   Characteristic_TargetAirQuality;
   Characteristic_TargetDoorState;
   Characteristic_TargetFanState;
   Characteristic_TargetHeaterCoolerState;
   Characteristic_TargetHeatingCoolingState;
   Characteristic_TargetHorizontalTiltAngle;
   Characteristic_TargetHumidifierDehumidifierState;
   Characteristic_TargetPosition;
   Characteristic_TargetRelativeHumidity;
   Characteristic_TargetSlatState;
   Characteristic_TargetTemperature;
   Characteristic_TargetTiltAngle;
   Characteristic_TargetVerticalTiltAngle;
   Characteristic_TemperatureDisplayUnits;
   Characteristic_VOCDensity;
   Characteristic_Volume;
   Characteristic_WaterLevel;
   Characteristic_AccessoryIdentifier;
   Characteristic_Category;
   Characteristic_ConfigureBridgedAccessory;
   Characteristic_ConfigureBridgedAccessoryStatus;
   Characteristic_CurrentTime;
   Characteristic_DayoftheWeek;
   Characteristic_DiscoverBridgedAccessories;
   Characteristic_DiscoveredBridgedAccessories;
   Characteristic_LinkQuality;
   Characteristic_Reachable;
   Characteristic_RelayControlPoint;
   Characteristic_RelayEnabled;
   Characteristic_RelayState;
   Characteristic_TimeUpdate;
   Characteristic_TunnelConnectionTimeout;
   Characteristic_TunneledAccessoryAdvertising;
   Characteristic_TunneledAccessoryConnected;
   Characteristic_TunneledAccessoryStateNumber;
   Characteristic_Version].

(** The constructors of lib/Service.js, in the order of the file.
    [Service.Lightbulb] is not among them: it names
    [Characteristic.ColorTemperature], which Characteristic.js does not
    define. *)

(** [Service.AccessoryInformation] *)
Definition Service_AccessoryInformation : ServiceType.t :=
  {| ServiceType.type_id := 3;
     ServiceType.static_UUID := Some "0000003E-0000-1000-8000-0026BB765291";
     ServiceType.new_UUID := "0000003E-0000-1000-8000-0026BB765291";
     ServiceType.required :=
       [Characteristic_Identify; Characteristic_Manufacturer;
        Characteristic_Model; Characteristic_Name; Characteristic_SerialNumber];
     ServiceType.optional :=
       [Characteristic_FirmwareRevision; Characteristic_HardwareRevision;
        Characteristic_SoftwareRevision; Characteristic_AccessoryFlags;
        Characteristic_AppMatchingIdentifier] |}.

(** [Service.AirPurifier] *)
Definition Service_AirPurifier : ServiceType.t :=
  {| ServiceType.type_id := 4;
     ServiceType.static_UUID := Some "000000BB-0000-1000-8000-0026BB765291";
     ServiceType.new_UUID := "000000BB-0000-1000-8000-0026BB765291";
     ServiceType.required :=
       [Characteristic_Active; Characteristic_CurrentAirPurifierState;
        Characteristic_TargetAirPurifierState];
     ServiceType.optional :=
       [Characteristic_LockPhysicalControls; Characteristic_Name;
        Characteristic_SwingMode; Characteristic_RotationSpeed] |}.

(** [Service.AirQualitySensor] *)
Definition Service_AirQualitySensor : ServiceType.t :=
  {| ServiceType.type_id := 5;
     ServiceType.static_UUID := Some "0000008D-0000-1000-8000-0026BB765291";
     ServiceType.new_UUID := "0000008D-0000-1000-8000-0026BB765291";
     ServiceType.required :=
       [Characteristic_AirQuality];
     ServiceType.optional :=
       [Characteristic_StatusActive; Characteristic_StatusFault;
        Characteristic_StatusTampered; Characteristic_StatusLowBattery;
        Characteristic_Name; Characteristic_OzoneDensity;
        Characteristic_NitrogenDioxideDensity;
        Characteristic_SulphurDioxideDensity; Characteristic_PM2_5Density;
        Characteristic_PM10Density; Characteristic_VOCDensity;
        Characteristic_CarbonMonoxideLevel; Characteristic_CarbonDioxideLevel] |}.

(** [Service.BatteryService] *)
Definition Service_BatteryService : ServiceType.t :=
  {| ServiceType.type_id := 6;
     ServiceType.static_UUID := Some "00000096-0000-1000-8000-0026BB765291";
     ServiceType.new_UUID := "00000096-0000-1000-8000-0026BB765291";
     ServiceType.required :=
       [Characteristic_BatteryLevel; Characteristic_ChargingState;
        Characteristic_StatusLowBattery];
     ServiceType.optional :=
       [Characteristic_Name] |}.

(** [Service.CameraControl] *)
Definition Service_CameraControl : ServiceType.t :=
  {| ServiceType.type_id := 7;
     ServiceType.static_UUID := Some "00000111-0000-1000-8000-0026BB765291";
     ServiceType.new_UUID := "00000111-0000-1000-8000-0026BB765291";
     ServiceType.required :=
       [Characteristic_On];
     ServiceType.optional :=
       [Characteristic_CurrentHorizontalTiltAngle;
        Characteristic_CurrentVerticalTiltAngle;
        Characteristic_TargetHorizontalTiltAngle;
        Characteristic_TargetVerticalTiltAngle; Characteristic_NightVision;
        Characteristic_OpticalZoom; Characteristic_DigitalZoom;
        Characteristic_ImageRotation; Characteristic_ImageMirroring;
        Characteristic_Name] |}.

(** [Service.CameraRTPStreamManagement] *)
Definition Service_CameraRTPStreamManagement : ServiceType.t :=
  {| ServiceType.type_id := 8;
     ServiceType.static_UUID := Some "00000110-0000-1000-8000-0026BB765291";
     ServiceType.new_UUID := "00000110-0000-1000-8000-0026BB765291";
     ServiceType.required :=
       [Characteristic_SupportedVideoStreamConfiguration;
        Characteristic_SupportedAudioStreamConfiguration;
        Characteristic_SupportedRTPConfiguration;
        Characteristic_SelectedStreamConfiguration;
        Characteristic_StreamingStatus; Characteristic_SetupEndpoints];
     ServiceType.optional :=
       [Characteristic_Name] |}.

(** [Service.CarbonDioxideSensor] *)
Definition Service_CarbonDioxideSensor : ServiceType.t :=
  {| ServiceType.type_id := 9;
     ServiceType.static_UUID := Some "00000097-0000-1000-8000-0026BB765291";
     ServiceType.new_UUID := "00000097-0000-1000-8000-0026BB765291";
     ServiceType.required :=
       [Characteristic_CarbonDioxideDetected];
     ServiceType.optional :=
       [Characteristic_StatusActive; Characteristic_StatusFault;
        Characteristic_StatusLowBattery; Characteristic_StatusTampered;
        Characteristic_CarbonDioxideLevel;
        Characteristic_CarbonDioxidePeakLevel; Characteristic_Name] |}.

(** [Service.CarbonMonoxideSensor] *)
Definition Service_CarbonMonoxideSensor : ServiceType.t :=
  {| ServiceType.type_id := 10;
     ServiceType.static_UUID := Some "0000007F-0000-1000-8000-0026BB765291";
     ServiceType.new_UUID := "0000007F-0000-1000-8000-0026BB765291";
     ServiceType.required :=
       [Characteristic_CarbonMonoxideDetected];
     ServiceType.optional :=
       [Characteristic_StatusActive; Characteristic_StatusFault;
        Characteristic_StatusLowBattery; Characteristic_StatusTampered;
        Characteristic_CarbonMonoxideLevel;
        Characteristic_CarbonMonoxidePeakLevel; Characteristic_Name] |}.

(** [Service.ContactSensor] *)
Definition Service_ContactSensor : ServiceType.t :=
  {| ServiceType.type_id := 11;
     ServiceType.static_UUID := Some "00000080-0000-1000-8000-0026BB765291";
     ServiceType.new_UUID := "00000080-0000-1000-8000-0026BB765291";
     ServiceType.required :=
       [Characteristic_ContactSensorState];
     ServiceType.optional :=
       [Characteristic_StatusActive; Characteristic_StatusFault;
        Characteristic_StatusTampered; Characteristic_StatusLowBattery;
        Characteristic_Name] |}.

(** [Service.Door] *)
Definition Service_Door : ServiceType.t :=
  {| ServiceType.type_id := 12;
     ServiceType.static_UUID := Some "00000081-0000-1000-8000-0026BB765291";
     ServiceType.new_UUID := "00000081-0000-1000-8000-0026BB765291";
     ServiceType.required :=
       [Characteristic_CurrentPosition; Characteristic_PositionState;
        Characteristic_TargetPosition];
     ServiceType.optional :=
       [Characteristic_HoldPosition; Characteristic_ObstructionDetected;
        Characteristic_Name] |}.

(** [Service.Doorbell] *)
Definition Service_Doorbell : ServiceType.t :=
  {| ServiceType.type_id := 13;
     ServiceType.static_UUID := Some "00000121-0000-1000-8000-0026BB765291";
     ServiceType.new_UUID := "00000121-0000-1000-8000-0026BB765291";
     ServiceType.required :=
       [Characteristic_ProgrammableSwitchEvent];
     ServiceType.optional :=
       [Characteristic_Brightness; Characteristic_Volume; Characteristic_Name] |}.

(** [Service.Fan] *)
Definition Service_Fan : ServiceType.t :=
  {| ServiceType.type_id := 14;
     ServiceType.static_UUID := Some "00000040-0000-1000-8000-0026BB765291";
     ServiceType.new_UUID := "00000040-0000-1000-8000-0026BB765291";
     ServiceType.required :=
       [Characteristic_On];
     ServiceType.optional :=
       [Characteristic_RotationDirection; Characteristic_RotationSpeed;
        Characteristic_Name] |}.

(** [Service.Fanv2] *)
Definition Service_Fanv2 : ServiceType.t :=
  {| ServiceType.type_id := 15;
     ServiceType.static_UUID := Some "000000B7-0000-1000-8000-0026BB765291";
     ServiceType.new_UUID := "000000B7-0000-1000-8000-0026BB765291";
     ServiceType.required :=
       [Characteristic_Active];
     ServiceType.optional :=
       [Characteristic_CurrentFanState; Characteristic_TargetFanState;
        Characteristic_LockPhysicalControls; Characteristic_Name;
        Characteristic_RotationDirection; Characteristic_RotationSpeed;
        Characteristic_SwingMode] |}.

(** [Service.FilterMaintenance] *)
Definition Service_FilterMaintenance : ServiceType.t :=
  {| ServiceType.type_id := 16;
     ServiceType.static_UUID := Some "000000BA-0000-1000-8000-0026BB765291";
     ServiceType.new_UUID := "000000BA-0000-1000-8000-0026BB765291";
     ServiceType.required :=
       [Characteristic_FilterChangeIndication];
     ServiceType.optional :=
       [Characteristic_FilterLifeLevel; Characteristic_ResetFilterIndication;
        Characteristic_Name] |}.

(** [Service.GarageDoorOpener] *)
Definition Service_GarageDoorOpener : ServiceType.t :=
  {| ServiceType.type_id := 17;
     ServiceType.static_UUID := Some "00000041-0000-1000-8000-0026BB765291";
     ServiceType.new_UUID := "00000041-0000-1000-8000-0026BB765291";
     ServiceType.required :=
       [Characteristic_CurrentDoorState; Characteristic_TargetDoorState;
        Characteristic_ObstructionDetected];
     ServiceType.optional :=
       [Characteristic_LockCurrentState; Characteristic_LockTargetState;
        Characteristic_Name] |}.

(** [Service.HeaterCooler] *)
Definition Service_HeaterCooler : ServiceType.t :=
  {| ServiceType.type_id := 18;
     ServiceType.static_UUID := Some "000000BC-0000-1000-8000-0026BB765291";
     ServiceType.new_UUID := "000000BC-0000-1000-8000-0026BB765291";
     ServiceType.required :=
       [Characteristic_Active; Characteristic_CurrentHeaterCoolerState;
        Characteristic_TargetHeaterCoolerState;
        Characteristic_CurrentTemperature];
     ServiceType.optional :=
       [Characteristic_LockPhysicalControls; Characteristic_Name;
        Characteristic_SwingMode; Characteristic_CoolingThresholdTemperature;
        Characteristic_HeatingThresholdTemperature;
        Characteristic_TemperatureDisplayUnits; Characteristic_RotationSpeed] |}.

(** [Service.HumidifierDehumidifier] *)
Definition Service_HumidifierDehumidifier : ServiceType.t :=
  {| ServiceType.type_id := 19;
     ServiceType.static_UUID := Some "000000BD-0000-1000-8000-0026BB765291";
     ServiceType.new_UUID := "000000BD-0000-1000-8000-0026BB765291";
     ServiceType.required :=
       [Characteristic_CurrentRelativeHumidity;
        Characteristic_CurrentHumidifierDehumidifierState;
        Characteristic_TargetHumidifierDehumidifierState; Characteristic_Active];
     ServiceType.optional :=
       [Characteristic_LockPhysicalControls; Characteristic_Name;
        Characteristic_SwingMode; Characteristic_WaterLevel;
        Characteristic_RelativeHumidityDehumidifierThreshold;
        Characteristic_RelativeHumidityHumidifierThreshold;
        Characteristic_RotationSpeed] |}.

(** [Service.HumiditySensor] *)
Definition Service_HumiditySensor : ServiceType.t :=
  {| ServiceType.type_id := 20;
     ServiceType.static_UUID := Some "00000082-0000-1000-8000-0026BB765291";
     ServiceType.new_UUID := "00000082-0000-1000-8000-0026BB765291";
     ServiceType.required :=
       [Characteristic_CurrentRelativeHumidity];
     ServiceType.optional :=
       [Characteristic_StatusActive; Characteristic_StatusFault;
        Characteristic_StatusTampered; Characteristic_StatusLowBattery;
        Characteristic_Name] |}.

(** [Service.LeakSensor] *)
Definition Service_LeakSensor : ServiceType.t :=
  {| ServiceType.type_id := 21;
     ServiceType.static_UUID := Some "00000083-0000-1000-8000-0026BB765291";
     ServiceType.new_UUID := "00000083-0000-1000-8000-0026BB765291";
     ServiceType.required :=
       [Characteristic_LeakDetected];
     ServiceType.optional :=
       [Characteristic_StatusActive; Characteristic_StatusFault;
        Characteristic_StatusTampered; Characteristic_StatusLowBattery;
        Characteristic_Name] |}.

(** [Service.LightSensor] *)
Definition Service_LightSensor : ServiceType.t :=
  {| ServiceType.type_id := 22;
     ServiceType.static_UUID := Some "00000084-0000-1000-8000-0026BB765291";
     ServiceType.new_UUID := "00000084-0000-1000-8000-0026BB765291";
     ServiceType.required :=
       [Characteristic_CurrentAmbientLightLevel];
     ServiceType.optional :=
       [Characteristic_StatusActive; Characteristic_StatusFault;
        Characteristic_StatusTampered; Characteristic_StatusLowBattery;
        Characteristic_Name] |}.

(** [Service.LockManagement] *)
Definition Service_LockManagement : ServiceType.t :=
  {| ServiceType.type_id := 23;
     ServiceType.static_UUID := Some "00000044-0000-1000-8000-0026BB765291";
     ServiceType.new_UUID := "00000044-0000-1000-8000-0026BB765291";
     ServiceType.required :=
       [Characteristic_LockControlPoint; Characteristic_Version];
     ServiceType.optional :=
       [Characteristic_Logs; Characteristic_AudioFeedback;
        Characteristic_LockManagementAutoSecurityTimeout;
        Characteristic_AdministratorOnlyAccess;
        Characteristic_LockLastKnownAction; Characteristic_CurrentDoorState;
        Characteristic_MotionDetected; Characteristic_Name] |}.

(** [Service.LockMechanism] *)
Definition Service_LockMechanism : ServiceType.t :=
  {| ServiceType.type_id := 24;
     ServiceType.static_UUID := Some "00000045-0000-1000-8000-0026BB765291";
     ServiceType.new_UUID := "00000045-0000-1000-8000-0026BB765291";
     ServiceType.required :=
       [Characteristic_LockCurrentState; Characteristic_LockTargetState];
     ServiceType.optional :=
       [Characteristic_Name] |}.

(** [Service.Microphone] *)
Definition Service_Microphone : ServiceType.t :=
  {| ServiceType.type_id := 25;
     ServiceType.static_UUID := Some "00000112-0000-1000-8000-0026BB765291";
     ServiceType.new_UUID := "00000112-0000-1000-8000-0026BB765291";
     ServiceType.required :=
       [Characteristic_Mute];
     ServiceType.optional :=
       [Characteristic_Volume; Characteristic_Name] |}.

(** [Service.MotionSensor] *)
Definition Service_MotionSensor : ServiceType.t :=
  {| ServiceType.type_id := 26;
     ServiceType.static_UUID := Some "00000085-0000-1000-8000-0026BB765291";
     ServiceType.new_UUID := "00000085-0000-1000-8000-0026BB765291";
     ServiceType.required :=
       [Characteristic_MotionDetected];
     ServiceType.optional :=
       [Characteristic_StatusActive; Characteristic_StatusFault;
        Characteristic_StatusTampered; Characteristic_StatusLowBattery;
        Characteristic_Name] |}.

(** [Service.OccupancySensor] *)
Definition Service_OccupancySensor : ServiceType.t :=
  {| ServiceType.type_id := 27;
     ServiceType.static_UUID := Some "00000086-0000-1000-8000-0026BB765291";
     ServiceType.new_UUID := "00000086-0000-1000-8000-0026BB765291";
     ServiceType.required :=
       [Characteristic_OccupancyDetected];
     ServiceType.optional :=
       [Characteristic_StatusActive; Characteristic_StatusFault;
        Characteristic_StatusTampered; Characteristic_StatusLowBattery;
        Characteristic_Name] |}.

(** [Service.Outlet] *)
Definition Service_Outlet : ServiceType.t :=
  {| ServiceType.type_id := 28;
     ServiceType.static_UUID := Some "00000047-0000-1000-8000-0026BB765291";
     ServiceType.new_UUID := "00000047-0000-1000-8000-0026BB765291";
     ServiceType.required :=
       [Characteristic_On; Characteristic_OutletInUse];
     ServiceType.optional :=
       [Characteristic_Name] |}.

(** [Service.SecuritySystem] *)
Definition Service_SecuritySystem : ServiceType.t :=
  {| ServiceType.type_id := 29;
     ServiceType.static_UUID := Some "0000007E-0000-1000-8000-0026BB765291";
     ServiceType.new_UUID := "0000007E-0000-1000-8000-0026BB765291";
     ServiceType.required :=
       [Characteristic_SecuritySystemCurrentState;
        Characteristic_SecuritySystemTargetState];
     ServiceType.optional :=
       [Characteristic_StatusFault; Characteristic_StatusTampered;
        Characteristic_SecuritySystemAlarmType; Characteristic_Name] |}.

(** [Service.Slat] *)
Definition Service_Slat : ServiceType.t :=
  {| ServiceType.type_id := 30;
     ServiceType.static_UUID := Some "000000B9-0000-1000-8000-0026BB765291";
     ServiceType.new_UUID := "000000B9-0000-1000-8000-0026BB765291";
     ServiceType.required :=
       [Characteristic_SlatType; Characteristic_CurrentSlatState];
     ServiceType.optional :=
       [Characteristic_Name; Characteristic_CurrentTiltAngle;
        Characteristic_TargetTiltAngle; Characteristic_SwingMode] |}.

(** [Service.SmokeSensor] *)
Definition Service_SmokeSensor : ServiceType.t :=
  {| ServiceType.type_id := 31;
     ServiceType.static_UUID := Some "00000087-0000-1000-8000-0026BB765291";
     ServiceType.new_UUID := "00000087-0000-1000-8000-0026BB765291";
     ServiceType.required :=
       [Characteristic_SmokeDetected];
     ServiceType.optional :=
       [Characteristic_StatusActive; Characteristic_StatusFault;
        Characteristic_StatusTampered; Characteristic_StatusLowBattery;
        Characteristic_Name] |}.

(** [Service.Speaker] *)
Definition Service_Speaker : ServiceType.t :=
  {| ServiceType.type_id := 32;
     ServiceType.static_UUID := Some "00000113-0000-1000-8000-0026BB765291";
     ServiceType.new_UUID := "00000113-0000-1000-8000-0026BB765291";
     ServiceType.required :=
       [Characteristic_Mute];
     ServiceType.optional :=
       [Characteristic_Volume; Characteristic_Name] |}.

(** [Service.StatefulProgrammableSwitch] *)
Definition Service_StatefulProgrammableSwitch : ServiceType.t :=
  {| ServiceType.type_id := 33;
     ServiceType.static_UUID := Some "00000088-0000-1000-8000-0026BB765291";
     ServiceType.new_UUID := "00000088-0000-1000-8000-0026BB765291";
     ServiceType.required :=
       [Characteristic_ProgrammableSwitchEvent;
        Characteristic_ProgrammableSwitchOutputState];
     ServiceType.optional :=
       [Characteristic_Name] |}.

(** [Service.StatelessProgrammableSwitch] *)
Definition Service_StatelessProgrammableSwitch : ServiceType.t :=
  {| ServiceType.type_id := 34;
     ServiceType.static_UUID := Some "00000089-0000-1000-8000-0026BB765291";
     ServiceType.new_UUID := "00000089-0000-1000-8000-0026BB765291";
     ServiceType.required :=
       [Characteristic_ProgrammableSwitchEvent];
     ServiceType.optional :=
       [Characteristic_Name] |}.

(** [Service.Switch] *)
Definition Service_Switch : ServiceType.t :=
  {| ServiceType.type_id := 35;
     ServiceType.static_UUID := Some "00000049-0000-1000-8000-0026BB765291";
     ServiceType.new_UUID := "00000049-0000-1000-8000-0026BB765291";
     ServiceType.required :=
       [Characteristic_On];
     ServiceType.optional :=
       [Characteristic_Name] |}.

(** [Service.TemperatureSensor] *)
Definition Service_TemperatureSensor : ServiceType.t :=
  {| ServiceType.type_id := 36;
     ServiceType.static_UUID := Some "0000008A-0000-1000-8000-0026BB765291";
     ServiceType.new_UUID := "0000008A-0000-1000-8000-0026BB765291";
     ServiceType.required :=
       [Characteristic_CurrentTemperature];
     ServiceType.optional :=
       [Characteristic_StatusActive; Characteristic_StatusFault;
        Characteristic_StatusLowBattery; Characteristic_StatusTampered;
        Characteristic_Name] |}.

(** [Service.Thermostat] *)
Definition Service_Thermostat : ServiceType.t :=
  {| ServiceType.type_id := 37;
     ServiceType.static_UUID := Some "0000004A-0000-1000-8000-0026BB765291";
     ServiceType.new_UUID := "0000004A-0000-1000-8000-0026BB765291";
     ServiceType.required :=
       [Characteristic_CurrentHeatingCoolingState;
        Characteristic_TargetHeatingCoolingState;
        Characteristic_CurrentTemperature; Characteristic_TargetTemperature;
        Characteristic_TemperatureDisplayUnits];
     ServiceType.optional :=
       [Characteristic_CurrentRelativeHumidity;
        Characteristic_TargetRelativeHumidity;
        Characteristic_CoolingThresholdTemperature;
        Characteristic_HeatingThresholdTemperature; Characteristic_Name] |}.

(** [Service.Window] *)
Definition Service_Window : ServiceType.t :=
  {| ServiceType.type_id := 38;
     ServiceType.static_UUID := Some "0000008B-0000-1000-8000-0026BB765291";
     ServiceType.new_UUID := "0000008B-0000-1000-8000-0026BB765291";
     ServiceType.required :=
       [Characteristic_CurrentPosition; Characteristic_TargetPosition;
        Characteristic_PositionState];
     ServiceType.optional :=
       [Characteristic_HoldPosition; Characteristic_ObstructionDetected;
        Characteristic_Name] |}.

(** [Service.WindowCovering] *)
Definition Service_WindowCovering : ServiceType.t :=
  {| ServiceType.type_id := 39;
     ServiceType.static_UUID := Some "0000008C-0000-1000-8000-0026BB765291";
     ServiceType.new_UUID := "0000008C-0000-1000-8000-0026BB765291";
     ServiceType.required :=
       [Characteristic_CurrentPosition; Characteristic_TargetPosition;
        Characteristic_PositionState];
     ServiceType.optional :=
       [Characteristic_HoldPosition; Characteristic_TargetHorizontalTiltAngle;
        Characteristic_TargetVerticalTiltAngle;
        Characteristic_CurrentHorizontalTiltAngle;
        Characteristic_CurrentVerticalTiltAngle;
        Characteristic_ObstructionDetected; Characteristic_Name] |}.

(** [Service.BridgeConfiguration] *)
Definition Service_BridgeConfiguration : ServiceType.t :=
  {| ServiceType.type_id := 40;
     ServiceType.static_UUID := Some "000000A1-0000-1000-8000-0026BB765291";
     ServiceType.new_UUID := "000000A1-0000-1000-8000-0026BB765291";
     ServiceType.required :=
       [Characteristic_ConfigureBridgedAccessoryStatus;
        Characteristic_DiscoverBridgedAccessories;
        Characteristic_DiscoveredBridgedAccessories;
        Characteristic_ConfigureBridgedAccessory];
     ServiceType.optional :=
       [Characteristic_Name] |}.

(** [Service.Pairing] *)
Definition Service_Pairing : ServiceType.t :=
  {| ServiceType.type_id := 41;
     ServiceType.static_UUID := Some "00000055-0000-1000-8000-0026BB765291";
     ServiceType.new_UUID := "00000055-0000-1000-8000-0026BB765291";
     ServiceType.required :=
       [Characteristic_PairSetup; Characteristic_PairVerify;
        Characteristic_PairingFeatures; Characteristic_PairingPairings];
     ServiceType.optional :=
       [] |}.

(** [Service.ProtocolInformation] *)
Definition Service_ProtocolInformation : ServiceType.t :=
  {| ServiceType.type_id := 42;
     ServiceType.static_UUID := Some "000000A2-0000-1000-8000-0026BB765291";
     ServiceType.new_UUID := "000000A2-0000-1000-8000-0026BB765291";
     ServiceType.required :=
       [Characteristic_Version];
     ServiceType.optional :=
       [] |}.

(** [Service.Relay] *)
Definition Service_Relay : ServiceType.t :=
  {| ServiceType.type_id := 43;
     ServiceType.static_UUID := Some "0000005A-0000-1000-8000-0026BB765291";
     ServiceType.new_UUID := "0000005A-0000-1000-8000-0026BB765291";
     ServiceType.required :=
       [Characteristic_RelayEnabled; Characteristic_RelayState;
        Characteristic_RelayControlPoint];
     ServiceType.optional :=
       [] |}.

(** [Service.TimeInformation] *)
Definition Service_TimeInformation : ServiceType.t :=
  {| ServiceType.type_id := 44;
     ServiceType.static_UUID := Some "00000099-0000-1000-8000-0026BB765291";
     ServiceType.new_UUID := "00000099-0000-1000-8000-0026BB765291";
     ServiceType.required :=
       [Characteristic_CurrentTime; Characteristic_DayoftheWeek;
        Characteristic_TimeUpdate];
     ServiceType.optional :=
       [Characteristic_Name] |}.

(** [Service.TunneledBTLEAccessoryService] *)
Definition Service_TunneledBTLEAccessoryService : ServiceType.t :=
  {| ServiceType.type_id := 45;
     ServiceType.static_UUID := Some "00000056-0000-1000-8000-0026BB765291";
     ServiceType.new_UUID := "00000056-0000-1000-8000-0026BB765291";
     ServiceType.required :=
       [Characteristic_Name; Characteristic_AccessoryIdentifier;
        Characteristic_TunneledAccessoryStateNumber;
        Characteristic_TunneledAccessoryConnected;
        Characteristic_TunneledAccessoryAdvertising;
        Characteristic_TunnelConnectionTimeout];
     ServiceType.optional :=
       [] |}.

Definition Service_registry : list ServiceType.t :=
  [Service_AccessoryInformation;
   Service_AirPurifier;
   Service_AirQualitySensor;
   Service_BatteryService;
   Service_CameraControl;
   Service_CameraRTPStreamManagement;
   Service_CarbonDioxideSensor;
   Service_CarbonMonoxideSensor;
   Service_ContactSensor;
   Service_Door;
   Service_Doorbell;
   Service_Fan;
   Service_Fanv2;
   Service_FilterMaintenance;
   Service_GarageDoorOpener;
   Service_HeaterCooler;
   Service_HumidifierDehumidifier;
   Service_HumiditySensor;
   Service_LeakSensor;
   Service_LightSensor;
   Service_LockManagement;
   Service_LockMechanism;
   Service_Microphone;
   Service_MotionSensor;
   Service_OccupancySensor;
   Service_Outlet;
   Service_SecuritySystem;
   Service_Slat;
   Service_SmokeSensor;
   Service_Speaker;
   Service_StatefulProgrammableSwitch;
   Service_StatelessProgrammableSwitch;
   Service_Switch;
   Service_TemperatureSensor;
   Service_Thermostat;
   Service_Window;
   Service_WindowCovering;
   Service_BridgeConfiguration;
   Service_BridgingState;
   Service_Pairing;
   Service_ProtocolInformation;
   Service_Relay;
   Service_TimeInformation;
   Service_TunneledBTLEAccessoryService].

(** ** What the further properties are stated with *)

(** [opt && opt.omitValues] *)
Definition omits (opt : option Options) : bool :=
  match opt with
  | Some o => truthy (omitValues o)
  | None => false
  end.

(** Every byte is below 128. *)
Fixpoint is_ascii (s : string) : bool :=
  match s with
  | EmptyString => true
  | String a t => (byte a <? 128)%N && is_ascii t
  end.

(** Every byte is a decimal digit. *)
Fixpoint all_digits (s : string) : bool :=
  match s with
  | EmptyString => true
  | String a t => is_digit a && all_digits t
  end.

(** A character at which the expression of [decimalPlaces] matches
    nothing but the empty string: any but the point and the letter of the
    exponent. *)
Definition starts_no_match (a : ascii) : bool :=
  negb (Ascii.eqb a "." || Ascii.eqb a "e" || Ascii.eqb a "E").

(** No character of [s] is one of those. *)
Fixpoint no_match_inside (s : string) : bool :=
  match s with
  | EmptyString => true
  | String a t => starts_no_match a && no_match_inside t
  end.

(** The constructor makes a default that has no identity of its own. *)
Definition scalar_type (ty : Characteristic.Ctor) : Prop :=
  allocates_default (Characteristic.props (fresh_cell ty)) = false.

(** The UUIDs of the cells of a list, place by place. *)
Definition UUIDs_of (w : World) (l : list loc) : list (option string) :=
  map (fun c => Characteristic.UUID <$> cells w !! c) l.

(** "you cannot have two Characteristics with the same UUID in the same
    Service": the active cells of the Service are objects of the store,
    and no two places of the list hold the same UUID. *)
Definition unique_UUIDs (w : World) (this : loc) : Prop :=
  match services w !! this with
  | Some sv =>
    Forall (fun c => is_Some (cells w !! c)) (Service.characteristics sv)
    /\ NoDup (UUIDs_of w (Service.characteristics sv))
  | None => False
  end.

(** The first character of a string of well-formed UTF-8, and what follows
    it: one to four bytes, as [utf8_decode] accepts them. *)
Inductive first_char : string -> string -> Prop :=
| first_1 b t : (byte b <? 128)%N = true -> first_char (String b t) t
| first_2 b1 b2 t lo hi :
    lead_info b1 = Some (1, lo, hi) -> in_range lo hi b2 = true ->
    first_char (String b1 (String b2 t)) t
| first_3 b1 b2 b3 t lo hi :
    lead_info b1 = Some (2, lo, hi) -> in_range lo hi b2 = true -> is_cont b3 = true ->
    first_char (String b1 (String b2 (String b3 t))) t
| first_4 b1 b2 b3 b4 t lo hi :
    lead_info b1 = Some (3, lo, hi) -> in_range lo hi b2 = true -> is_cont b3 = true ->
    is_cont b4 = true ->
    first_char (String b1 (String b2 (String b3 (String b4 t)))) t.

(** [maxValue] is not below [minValue], when both are set. *)
Definition bounds_ordered (p : Characteristic.Props) : bool :=
  match Characteristic.minValue p, Characteristic.maxValue p with
  | Some lo, Some hi => negb (PrimFloat.ltb hi lo)
  | _, _ => true
  end.

(** The value is a number within the bounds that are set, or there are no
    bounds. *)
Definition within_bounds (p : Characteristic.Props) (v : jsval) : bool :=
  match v with
  | JNum x =>
    match Characteristic.minValue p with
    | Some lo => negb (PrimFloat.ltb x lo)
    | None => true
    end
    && match Characteristic.maxValue p with
       | Some hi => negb (PrimFloat.ltb hi x)
       | None => true
       end
  | _ =>
    match Characteristic.minValue p, Characteristic.maxValue p with
    | None, None => true
    | _, _ => false
    end
  end.

(** What is checked of a constructor of Characteristic.js: its static UUID
    is the UUID of its instances, its format is neither [array] nor
    [dictionary], its bounds are in order and hold the value of a new
    instance. *)
Definition well_registered (ty : Characteristic.Ctor) : bool :=
  let c := fresh_cell ty in
  static_UUID_is ty (Characteristic.new_UUID ty)
  && negb (allocates_default (Characteristic.props c))
  && bounds_ordered (Characteristic.props c)
  && within_bounds (Characteristic.props c) (Characteristic.value c).

(** What is checked of a constructor of lib/Service.js: its UUID is not
    empty and is its static UUID, no two of its required types have the
    same UUID, and all its types are well registered. *)
Definition Service_well_registered (ty : ServiceType.t) : bool :=
  negb (String.eqb (ServiceType.new_UUID ty) "")
  && match ServiceType.static_UUID ty with
     | Some u => String.eqb u (ServiceType.new_UUID ty)
     | None => false
     end
  && bool_decide (NoDup (map Characteristic.new_UUID (ServiceType.required ty)))
  && forallb well_registered (ServiceType.required ty ++ ServiceType.optional ty).

(** ** More examples *)

(** A host that prints two numbers as Node does: 0.25 and 2^-20. *)
Definition example_runtime_printing : JSRuntime :=
  {| StringToNumber := fun _ => nan;
     ObjectToNumber := fun _ => nan;
     parseInt := fun v => match v with JNum x => x | _ => nan end;
     parseFloat := fun v => match v with JNum x => x | _ => nan end;
     Math_round := fun x => x;
     Math_pow := fun _ _ => 1%float;
     NumberToString :=
       fun x => if PrimFloat.eqb x 0.25 then "0.25"
                else if PrimFloat.eqb x 0x1p-20 then "9.5367431640625e-7"
                else "1";
     Buffer_of_nonstring := fun _ => None |}.

(** "Name", after [updateValue] of a name of 70 letters. *)
Definition example_Label : Characteristic.t :=
  Characteristic.with_value (JStr (repeat_string 70 "a")) (fresh_cell Characteristic_Name).

(** The example store with that cell at 14. *)
Definition example_store_labelled : World :=
  with_cells (<[14 := example_Label]> (cells example_store)) example_store.

(** An [identifierCache] that knows "On" and "Brightness". *)
Definition example_identifierCache : IdentifierCache :=
  fun _ _ _ characteristicUUID =>
    match characteristicUUID with
    | None => JNum 8
    | Some u =>
      if String.eqb u "00000025-0000-1000-8000-0026BB765291" then JNum 9
      else if String.eqb u "00000008-0000-1000-8000-0026BB765291" then JNum 10
      else JNum 11
    end.

(** * Properties *)

Open Scope list_scope.

Section Proofs.
Context `{JSRuntime}.
Import Characteristic.

(** *** [toHAP] *)

Lemma readonly_ret {A} (a : A) : readonly (ret a).
Proof. intros w. reflexivity. Qed.

Lemma readonly_throw {A} (e : Exn) : readonly (@throw A e).
Proof. intros w. reflexivity. Qed.

Lemma readonly_bind {A B} (m : M A) (k : A -> M B) :
  readonly m -> (forall a, readonly (k a)) -> readonly (bind m k).
Proof.
  intros Hm Hk w. unfold bind. specialize (Hm w).
  destruct (m w) as [[a|e] w1]; simpl in Hm; subst w1.
  - apply Hk.
  - reflexivity.
Qed.

Lemma readonly_get_cell c : readonly (get_cell c).
Proof. intros w. unfold get_cell. destruct (cells w !! c); reflexivity. Qed.

Lemma readonly_Buffer_new v : readonly (Buffer_new v).
Proof.
  unfold Buffer_new. destruct v; try apply readonly_ret;
    destruct (Buffer_of_nonstring _); auto using readonly_ret, readonly_throw.
Qed.

Lemma readonly_toHAP_maxLen p v hap : readonly (toHAP_maxLen p v hap).
Proof.
  unfold toHAP_maxLen.
  destruct (format p) as [[]|]; try apply readonly_ret.
  apply readonly_bind; [apply readonly_Buffer_new|].
  intros str. destruct (256 <? _)%nat; [apply readonly_ret|].
  destruct (64 <? _)%nat; apply readonly_ret.
Qed.

Lemma readonly_toHAP this opt : readonly (Characteristic_toHAP this opt).
Proof.
  unfold Characteristic_toHAP.
  apply readonly_bind; [apply readonly_get_cell|]. intros ch.
  apply readonly_bind; [apply readonly_toHAP_maxLen|]. intros hap.
  apply readonly_ret.
Qed.

Lemma has_READ_elem p : has_READ p = true <-> READ ∈ perms p.
Proof.
  unfold has_READ. rewrite existsb_exists. split.
  - intros [q [Hin Hq]]. destruct q; try discriminate. by apply list_elem_of_In.
  - intros Hin. exists READ. split; [by apply list_elem_of_In | reflexivity].
Qed.

(** A run of [toHAP] that returns, taken apart. *)
Lemma toHAP_Ok this opt w hap w' :
  Characteristic_toHAP this opt w = (Ok hap, w') ->
  exists ch hap0,
    cells w !! this = Some ch /\
    toHAP_maxLen (props ch) (toHAP_coerce (props ch) (toHAP_constrain (props ch) (value ch)))
      (toHAP_object ch (toHAP_coerce (props ch) (toHAP_constrain (props ch) (value ch)))) w
    = (Ok hap0, w) /\
    hap = toHAP_omit (props ch) opt hap0 /\ w' = w.
Proof.
  unfold Characteristic_toHAP, bind, get_cell. intros Hrun.
  destruct (cells w !! this) as [ch|] eqn:Hc; [|discriminate].
  pose proof (readonly_toHAP_maxLen (props ch)
     (toHAP_coerce (props ch) (toHAP_constrain (props ch) (value ch)))
     (toHAP_object ch (toHAP_coerce (props ch) (toHAP_constrain (props ch) (value ch)))) w) as Hro.
  destruct (toHAP_maxLen _ _ _ w) as [[hap0|e] w1] eqn:E; simpl in Hro; subst w1; [|discriminate].
  unfold ret in Hrun. injection Hrun as <- <-.
  exists ch, hap0. split; [reflexivity|]. split; [exact E|]. split; reflexivity.
Qed.

Lemma toHAP_omit_unreadable p opt hap :
  has_READ p = false -> toHAP_omit p opt hap !! "value" = None.
Proof.
  intros Hr. unfold toHAP_omit. rewrite Hr. simpl.
  destruct opt as [o|]; [destruct (truthy (omitValues o))|];
    rewrite ?lookup_delete_eq; reflexivity.
Qed.

(** C4. For a cell whose permissions do not contain READ, the object that
    [toHAP] returns has no "value" key, whatever the cached value and
    whatever the options. *)
Theorem toHAP_unreadable_has_no_value this ch opt w hap w' :
  cells w !! this = Some ch ->
  READ ∉ perms (props ch) ->
  Characteristic_toHAP this opt w = (Ok hap, w') ->
  hap !! "value" = None.
Proof.
  intros Hc Hperm Hrun.
  apply toHAP_Ok in Hrun as (ch' & hap0 & Hc' & _ & -> & _).
  rewrite Hc in Hc'. injection Hc' as <-.
  apply toHAP_omit_unreadable.
  destruct (has_READ (props ch)) eqn:E; [|reflexivity].
  apply has_READ_elem in E. contradiction.
Qed.

(** *** The order of the doubles *)

Lemma SFltb_trans a b c : SFltb a b = true -> SFltb b c = true -> SFltb a c = true.
Proof.
  unfold SFltb, SFcompare.
  destruct a as [sa|sa| |sa ma ea], b as [sb|sb| |sb mb eb], c as [sc|sc| |sc mc ec];
    try discriminate; try reflexivity;
    repeat match goal with s : bool |- _ => destruct s end;
    try discriminate; try reflexivity; auto.
  all: rewrite ?Pos.compare_cont_spec; unfold Pos.switch_Eq.
  all: destruct (Z.compare_spec ea eb), (Z.compare_spec eb ec), (Z.compare_spec ea ec);
       try lia; try discriminate; try reflexivity; subst.
  all: destruct (Pos.compare_spec ma mb), (Pos.compare_spec mb mc), (Pos.compare_spec ma mc);
       simpl; try lia; try discriminate; try reflexivity.
Qed.

Lemma ltb_trans a b c :
  (a <? b)%float = true -> (b <? c)%float = true -> (a <? c)%float = true.
Proof. rewrite !FloatAxioms.ltb_spec. apply SFltb_trans. Qed.

Lemma constrain_below p v lo hi :
  minValue p = Some lo -> maxValue p = Some hi -> (hi <? lo)%float = false ->
  js_lt v lo = true -> toHAP_constrain p v = JNum lo.
Proof.
  intros Hlo Hhi Hord Hlt. unfold toHAP_constrain. rewrite Hlo, Hhi, Hlt.
  unfold js_gt. simpl. by rewrite Hord.
Qed.

Lemma constrain_above p v lo hi :
  minValue p = Some lo -> maxValue p = Some hi -> (hi <? lo)%float = false ->
  js_gt v hi = true -> toHAP_constrain p v = JNum hi.
Proof.
  intros Hlo Hhi Hord Hgt. unfold toHAP_constrain. rewrite Hlo, Hhi.
  destruct (js_lt v lo) eqn:Hlt.
  - unfold js_lt, js_gt in *. rewrite (ltb_trans _ _ _ Hgt Hlt) in Hord. discriminate.
  - by rewrite Hgt.
Qed.

Lemma constrain_inside p v lo hi :
  minValue p = Some lo -> maxValue p = Some hi ->
  js_lt v lo = false -> js_gt v hi = false -> toHAP_constrain p v = v.
Proof.
  intros Hlo Hhi Hlt Hgt. unfold toHAP_constrain. by rewrite Hlo, Hhi, Hlt, Hgt.
Qed.

Lemma toHAP_object_value ch v : toHAP_object ch v !! "value" = Some (HVal v).
Proof.
  unfold toHAP_object.
  destruct (minStep _), (minValue _), (maxValue _), (unit _),
    (nonempty (validValues _)), (nonempty (validValueRanges _) && _);
    by simplify_map_eq.
Qed.

Lemma toHAP_object_maxLen ch v : toHAP_object ch v !! "maxLen" = None.
Proof.
  unfold toHAP_object.
  destruct (minStep _), (minValue _), (maxValue _), (unit _),
    (nonempty (validValues _)), (nonempty (validValueRanges _) && _);
    by simplify_map_eq.
Qed.

Lemma toHAP_omit_value p opt hap x :
  toHAP_omit p opt hap !! "value" = Some x -> hap !! "value" = Some x.
Proof.
  unfold toHAP_omit.
  destruct (negb (has_READ p)), opt as [o|]; [destruct (truthy (omitValues o))| |destruct (truthy (omitValues o))|];
    rewrite ?lookup_delete_eq; try discriminate; auto.
Qed.

Lemma toHAP_omit_other p opt hap k :
  k <> "value" -> toHAP_omit p opt hap !! k = hap !! k.
Proof.
  intros Hk. unfold toHAP_omit.
  destruct (negb (has_READ p)), opt as [o|]; [destruct (truthy (omitValues o))| |destruct (truthy (omitValues o))|];
    by rewrite ?lookup_delete_ne.
Qed.

Lemma toHAP_omit_readable p hap :
  has_READ p = true -> toHAP_omit p None hap = hap.
Proof. intros Hr. unfold toHAP_omit. by rewrite Hr. Qed.

Lemma toHAP_maxLen_not_string p v hap w :
  format p <> Some STRING -> toHAP_maxLen p v hap w = (Ok hap, w).
Proof.
  intros Hf. unfold toHAP_maxLen. destruct (format p) as [[]|]; try reflexivity. contradiction.
Qed.

(** [toHAP] returns whenever the format is not [string], and for a
    [string] whenever the value it serializes is one. *)
Lemma toHAP_returns this ch opt w :
  cells w !! this = Some ch ->
  format (props ch) <> Some STRING
  \/ (exists s, toHAP_constrain (props ch) (value ch) = JStr s) ->
  exists hap, Characteristic_toHAP this opt w = (Ok hap, w).
Proof.
  intros Hc Hwhy. unfold Characteristic_toHAP, bind, get_cell. rewrite Hc.
  destruct Hwhy as [Hf|[s Hs]]; [rewrite toHAP_maxLen_not_string by done; by eexists|].
  destruct (format (props ch)) as [f|] eqn:Hf;
    [|rewrite toHAP_maxLen_not_string by (rewrite Hf; done); by eexists].
  destruct f;
    try (rewrite toHAP_maxLen_not_string by (rewrite Hf; done); by eexists).
  unfold toHAP_coerce, toHAP_maxLen. rewrite Hf, Hs. unfold Buffer_new, bind, ret.
  destruct (256 <? String.length s)%nat; [by eexists|].
  destruct (64 <? String.length s)%nat; by eexists.
Qed.

(** C1, amended.  For a cell whose props set [minValue] and [maxValue]
    with [maxValue] not below [minValue]: a cached value below
    [minValue] is replaced by [minValue], one above [maxValue] by
    [maxValue], one within the bounds is left as it is; and the "value"
    of the projection, when the format is not [string] and the key is
    there, is the format coercion of that constrained value. *)
Theorem toHAP_clamps_into_ordered_bounds this ch lo hi :
  minValue (props ch) = Some lo ->
  maxValue (props ch) = Some hi ->
  (hi <? lo)%float = false ->
  (js_lt (value ch) lo = true -> toHAP_constrain (props ch) (value ch) = JNum lo) /\
  (js_gt (value ch) hi = true -> toHAP_constrain (props ch) (value ch) = JNum hi) /\
  (js_lt (value ch) lo = false -> js_gt (value ch) hi = false ->
   toHAP_constrain (props ch) (value ch) = value ch) /\
  (forall opt w hap w' x,
     cells w !! this = Some ch ->
     Characteristic_toHAP this opt w = (Ok hap, w') ->
     format (props ch) <> Some STRING ->
     hap !! "value" = Some x ->
     x = HVal (toHAP_coerce (props ch) (toHAP_constrain (props ch) (value ch)))).
Proof.
  intros Hlo Hhi Hord. repeat split.
  - by apply (constrain_below _ _ lo hi).
  - by apply (constrain_above _ _ lo hi).
  - by apply (constrain_inside _ _ lo hi).
  - intros opt w hap w' x Hc Hrun Hf Hx.
    apply toHAP_Ok in Hrun as (ch' & hap0 & Hc' & Hlen & -> & _).
    rewrite Hc in Hc'. injection Hc' as <-.
    rewrite toHAP_maxLen_not_string in Hlen by done. injection Hlen as <-.
    apply toHAP_omit_value in Hx. rewrite toHAP_object_value in Hx. congruence.
Qed.

(** *** The cached value and the 'change' event *)

Lemma with_trace_with_trace t1 t2 w : with_trace t2 (with_trace t1 w) = with_trace t2 w.
Proof. reflexivity. Qed.

Lemma with_trace_id w : with_trace (trace w) w = w.
Proof. by destruct w. Qed.

Lemma log_spec e w : log e w = (Ok tt, with_trace (trace w ++ [e]) w).
Proof. reflexivity. Qed.

Lemma call_if_spec cb args w :
  call_if cb args w = (Ok tt, with_trace (trace w ++ call_events cb args) w).
Proof.
  destruct cb; simpl; [reflexivity|]. unfold ret. by rewrite app_nil_r, with_trace_id.
Qed.

Lemma for_each_log {A} (l : list A) (g : A -> list Event) (f : A -> M void) w :
  (forall x w, f x w = (Ok tt, with_trace (trace w ++ g x) w)) ->
  for_each l f w = (Ok tt, with_trace (trace w ++ flat_map g l) w).
Proof.
  intros Hf. revert w. induction l as [|x l IH]; intros w; simpl.
  - unfold ret. by rewrite app_nil_r, with_trace_id.
  - unfold bind. rewrite Hf, IH. simpl. by rewrite <- app_assoc.
Qed.

Lemma emit_change_spec this ch o n ctx w :
  cells w !! this = Some ch ->
  emit_change this o n ctx w
  = (Ok tt, with_trace (trace w ++ change_events ch this o n ctx) w).
Proof.
  intros Hc. unfold emit_change, bind, get_cell. rewrite Hc, log_spec.
  rewrite (for_each_log _
     (fun l => match l with
               | BubbleToService s => [EmitCharacteristicChange s this o n ctx]
               | _ => []
               end)).
  - simpl. unfold change_events. by rewrite <- app_assoc.
  - intros [f|s|b|b] w0; try reflexivity; unfold ret; by rewrite app_nil_r, with_trace_id.
Qed.

Lemma store_and_notify_spec this ch v cb args ctx w :
  cells w !! this = Some ch ->
  store_and_notify this v cb args ctx w
  = (Ok tt,
     with_trace (trace w ++ call_events cb args
                 ++ (if strict_eq (value ch) v then []
                     else change_events ch this (value ch) v ctx))
       (with_cells (<[this := with_value v ch]> (cells w)) w)).
Proof.
  intros Hc. unfold store_and_notify, bind, get_cell, put_cell. rewrite Hc.
  rewrite call_if_spec. simpl.
  destruct (strict_eq (value ch) v); simpl.
  - unfold ret. by rewrite app_nil_r.
  - erewrite emit_change_spec; [|simpl; apply lookup_insert_eq].
    simpl. by rewrite <- app_assoc.
Qed.

Lemma default_fill_keep this v w : nullish v = false -> default_fill this v w = (Ok v, w).
Proof. intros Hn. unfold default_fill. by rewrite Hn. Qed.

Lemma default_fill_scalar this ch v w :
  cells w !! this = Some ch -> nullish v = true -> allocates_default (props ch) = false ->
  default_fill this v w = (Ok (scalar_default (props ch)), w).
Proof.
  intros Hc Hn Ha. unfold default_fill, Characteristic_getDefaultValue, bind, get_cell.
  rewrite Hn, Hc. unfold allocates_default, scalar_default in *.
  destruct (format (props ch)) as [[]|]; try reflexivity; discriminate.
Qed.

Lemma float_truthy_self x : float_truthy x = true -> PrimFloat.eqb x x = true.
Proof.
  unfold float_truthy, PrimFloat.is_nan. destruct (PrimFloat.eqb x x); [done|].
  rewrite orb_true_r. discriminate.
Qed.

Lemma scalar_default_self p : strict_eq (scalar_default p) (scalar_default p) = true.
Proof.
  assert (strict_eq (JNum (minValue_or_0 p)) (JNum (minValue_or_0 p)) = true) as Hnum.
  { unfold minValue_or_0. simpl. destruct (minValue p) as [x|]; [|reflexivity].
    destruct (float_truthy x) eqn:E; [by apply float_truthy_self | reflexivity]. }
  unfold scalar_default. destruct (format p) as [[]|]; try exact Hnum; reflexivity.
Qed.

Lemma filter_call_events c cb args : List.filter (is_change_of c) (call_events cb args) = [].
Proof. by destruct cb. Qed.

Lemma filter_change_events c ch o n ctx :
  List.filter (is_change_of c) (change_events ch c o n ctx) = [EmitChange c o n ctx].
Proof.
  unfold change_events. simpl. rewrite Nat.eqb_refl. f_equal.
  induction (listeners_of "change" (listeners ch)) as [|l ls IH]; [reflexivity|].
  simpl. rewrite List.filter_app, IH, app_nil_r. by destruct l.
Qed.

Lemma updateValue_spec this ch x v cb ctx w :
  cells w !! this = Some ch ->
  default_fill this x w = (Ok v, w) ->
  Characteristic_updateValue this x cb ctx w
  = (Ok this,
     with_trace (trace w ++ call_events cb []
                 ++ (if strict_eq (value ch) v then []
                     else change_events ch this (value ch) v ctx))
       (with_cells (<[this := with_value v ch]> (cells w)) w)).
Proof.
  intros Hc Hfill. unfold Characteristic_updateValue, bind. rewrite Hfill.
  by rewrite (store_and_notify_spec this ch).
Qed.

(** C9, amended.  Let [x] be a value other than NaN, and let the stored
    value [v] be [x], or the default of the format when [x] is null or
    undefined (the format then being neither [array] nor [dictionary]).
    Two calls of [updateValue(x)] in succession: the first emits one
    'change' event, with the old cached value and [v], when the old value
    is not [===] to [v], and none otherwise; the second emits none. *)
Theorem updateValue_twice this ch x cb ctx w :
  cells w !! this = Some ch ->
  strict_eq x x = true ->
  (nullish x = true -> allocates_default (props ch) = false) ->
  let v := if nullish x then scalar_default (props ch) else x in
  exists w1 w2,
    Characteristic_updateValue this x cb ctx w = (Ok this, w1) /\
    Characteristic_updateValue this x cb ctx w1 = (Ok this, w2) /\
    changes_since w w1 this
    = (if strict_eq (value ch) v then [] else [EmitChange this (value ch) v ctx]) /\
    changes_since w1 w2 this = [] /\
    value <$> cells w2 !! this = Some v.
Proof.
  intros Hc Hx Hfmt v.
  assert (forall w0 ch0, cells w0 !! this = Some ch0 -> props ch0 = props ch ->
                         default_fill this x w0 = (Ok v, w0)) as Hfill.
  { intros w0 ch0 Hc0 Hp. unfold v. destruct (nullish x) eqn:Hn.
    - rewrite <- Hp. apply default_fill_scalar; [done..|]. rewrite Hp. by apply Hfmt.
    - by apply default_fill_keep. }
  assert (strict_eq v v = true) as Hv.
  { unfold v. destruct (nullish x); [apply scalar_default_self | done]. }
  eexists _, _. split; [apply (updateValue_spec this ch x v); eauto|].
  split; [apply (updateValue_spec this (with_value v ch) x v);
          [simpl; apply lookup_insert_eq | apply (Hfill _ (with_value v ch));
           [simpl; apply lookup_insert_eq | reflexivity]]|].
  unfold changes_since. simpl. rewrite !drop_app_length, !List.filter_app, !filter_call_events.
  rewrite Hv. simpl. split; [|split; [reflexivity|]].
  - destruct (strict_eq (value ch) v); [reflexivity|]. by rewrite filter_change_events.
  - by rewrite !lookup_insert_eq.
Qed.

(** *** Overrides and latches *)

Lemma getValue_override this ch cb ctx conn w :
  cells w !! this = Some ch ->
  listeners_of "get" (listeners ch) <> [] ->
  Characteristic_getValue this cb ctx conn w
  = (Ok tt,
     with_trace (trace w ++ [EmitGet this (next w) ctx conn])
       (with_latches (<[next w := {| called := false; body := GetK this cb ctx |}]> (latches w))
          (with_next (S (next w)) w))).
Proof.
  intros Hc Hl. unfold Characteristic_getValue, bind, get_cell. rewrite Hc.
  destruct (listeners_of "get" (listeners ch)); [done|]. reflexivity.
Qed.

Lemma setValue_override this ch v cb ctx conn w :
  cells w !! this = Some ch ->
  listeners_of "set" (listeners ch) <> [] ->
  Characteristic_setValue this v cb ctx conn w
  = (Ok this,
     with_trace (trace w ++ [EmitSet this v (next w) ctx conn])
       (with_latches (<[next w := {| called := false; body := SetK this v cb ctx |}]> (latches w))
          (with_next (S (next w)) w))).
Proof.
  intros Hc Hl. unfold Characteristic_setValue, bind, get_cell. rewrite Hc.
  destruct (listeners_of "set" (listeners ch)); [done|]. reflexivity.
Qed.

Lemma run_continuation_error f err nv w :
  truthy err = true ->
  run_continuation f err nv w
  = (Ok tt, with_trace (trace w ++ call_events (callback_of f) [err]) w).
Proof.
  intros He. destruct f; simpl; unfold getValue_resolved, setValue_resolved;
    rewrite He; apply call_if_spec.
Qed.

Lemma Latch_call_error k f err nv w :
  latches w !! k = Some {| called := false; body := f |} ->
  truthy err = true ->
  Latch_call k err nv w
  = (Ok tt,
     with_trace (trace w ++ call_events (callback_of f) [err])
       (with_latches (<[k := {| called := true; body := f |}]> (latches w)) w)).
Proof.
  intros Hk He. unfold Latch_call. rewrite Hk. simpl.
  by rewrite run_continuation_error.
Qed.

(** C2. For a cell with an override for reading (for writing), [getValue]
    ([setValue]) hands a latch to the override; when the override calls
    it with an error, that is with a first argument that is truthy, the
    callback of the caller is called with that same error and nothing
    else happens: the cells are what they were before the request and no
    event is emitted.  The last part says the same of a latch that is
    still pending in any later store. *)
Theorem override_error_is_passed_on this ch cb ctx conn err nv w :
  cells w !! this = Some ch ->
  truthy err = true ->
  (listeners_of "get" (listeners ch) <> [] ->
   exists k w1 w2,
     Characteristic_getValue this cb ctx conn w = (Ok tt, w1) /\
     latches w1 !! k = Some {| called := false; body := GetK this cb ctx |} /\
     trace w1 = (trace w ++ [EmitGet this k ctx conn])%list /\
     Latch_call k err nv w1 = (Ok tt, w2) /\
     cells w2 = cells w /\
     trace w2 = (trace w1 ++ call_events cb [err])%list) /\
  (forall v,
   listeners_of "set" (listeners ch) <> [] ->
   exists k w1 w2,
     Characteristic_setValue this v cb ctx conn w = (Ok this, w1) /\
     latches w1 !! k = Some {| called := false; body := SetK this v cb ctx |} /\
     trace w1 = (trace w ++ [EmitSet this v k ctx conn])%list /\
     Latch_call k err nv w1 = (Ok tt, w2) /\
     cells w2 = cells w /\
     trace w2 = (trace w1 ++ call_events cb [err])%list) /\
  (forall k f w',
   latches w' !! k = Some {| called := false; body := f |} ->
   callback_of f = cb ->
   exists w2,
     Latch_call k err nv w' = (Ok tt, w2) /\
     cells w2 = cells w' /\
     trace w2 = (trace w' ++ call_events cb [err])%list).
Proof.
  intros Hc He. split; [|split].
  - intros Hl. eexists (next w), _, _.
    split; [by apply (getValue_override this ch)|].
    split; [simpl; apply lookup_insert_eq|].
    split; [reflexivity|].
    split; [apply Latch_call_error; [simpl; apply lookup_insert_eq | done]|].
    split; reflexivity.
  - intros v Hl. eexists (next w), _, _.
    split; [by apply (setValue_override this ch)|].
    split; [simpl; apply lookup_insert_eq|].
    split; [reflexivity|].
    split; [apply Latch_call_error; [simpl; apply lookup_insert_eq | done]|].
    split; reflexivity.
  - intros k f w' Hk <-. eexists.
    split; [by apply Latch_call_error|]. split; reflexivity.
Qed.

Lemma count_calls_app a b : count_calls (a ++ b) = count_calls a + count_calls b.
Proof. unfold count_calls. by rewrite List.filter_app, length_app. Qed.

Lemma adds_calls_ret {A} n (a : A) : adds_calls n (ret a).
Proof. intros w. exists []. simpl. rewrite app_nil_r. split; [done | unfold count_calls; simpl; lia]. Qed.

Lemma adds_calls_throw {A} n e : adds_calls n (@throw A e).
Proof. intros w. exists []. simpl. rewrite app_nil_r. split; [done | unfold count_calls; simpl; lia]. Qed.

Lemma adds_calls_bind {A B} n1 n2 (m : M A) (k : A -> M B) :
  adds_calls n1 m -> (forall a, adds_calls n2 (k a)) -> adds_calls (n1 + n2) (bind m k).
Proof.
  intros Hm Hk w. unfold bind. destruct (Hm w) as (e1 & Ht1 & Hn1).
  destruct (m w) as [[a|e] w1]; simpl in Ht1.
  - destruct (Hk a w1) as (e2 & Ht2 & Hn2). exists (e1 ++ e2).
    rewrite Ht2, Ht1, <- app_assoc, count_calls_app. split; [done | lia].
  - exists e1. simpl. split; [done | lia].
Qed.

Lemma adds_calls_le {A} n n' (m : M A) : n <= n' -> adds_calls n m -> adds_calls n' m.
Proof. intros Hle Hm w. destruct (Hm w) as (e & ? & ?). exists e. split; [done | lia]. Qed.

Lemma adds_calls_get_cell c : adds_calls 0 (get_cell c).
Proof.
  intros w. exists []. unfold get_cell. rewrite app_nil_r.
  destruct (cells w !! c); simpl; split; done.
Qed.

Lemma adds_calls_put_cell c ch : adds_calls 0 (put_cell c ch).
Proof. intros w. exists []. simpl. rewrite app_nil_r. split; done. Qed.

Lemma adds_calls_alloc : adds_calls 0 alloc.
Proof. intros w. exists []. simpl. rewrite app_nil_r. split; done. Qed.

Lemma adds_calls_log e : is_call e = false -> adds_calls 0 (log e).
Proof. intros He w. exists [e]. simpl. split; [done|]. unfold count_calls. simpl. by rewrite He. Qed.

Lemma adds_calls_call_if cb args : adds_calls 1 (call_if cb args).
Proof.
  intros w. rewrite call_if_spec. exists (call_events cb args). simpl.
  split; [done|]. destruct cb; unfold count_calls; simpl; lia.
Qed.

Lemma adds_calls_for_each {A} (l : list A) (f : A -> M void) :
  (forall x, adds_calls 0 (f x)) -> adds_calls 0 (for_each l f).
Proof.
  intros Hf. induction l as [|x l IH]; simpl.
  - apply adds_calls_ret.
  - apply (adds_calls_bind 0 0); [apply Hf | intros _; apply IH].
Qed.

Lemma adds_calls_default_fill this v : adds_calls 0 (default_fill this v).
Proof.
  unfold default_fill, Characteristic_getDefaultValue.
  destruct (nullish v); [|apply adds_calls_ret].
  apply (adds_calls_bind 0 0); [apply adds_calls_get_cell|]. intros ch.
  destruct (format (props ch)) as [[]|]; try apply adds_calls_ret;
    (apply (adds_calls_bind 0 0); [apply adds_calls_alloc | intros; apply adds_calls_ret]).
Qed.

Lemma adds_calls_emit_change this o n ctx : adds_calls 0 (emit_change this o n ctx).
Proof.
  unfold emit_change.
  apply (adds_calls_bind 0 0); [apply adds_calls_get_cell|]. intros ch.
  apply (adds_calls_bind 0 0); [by apply adds_calls_log|]. intros _.
  apply adds_calls_for_each. intros []; try apply adds_calls_ret. by apply adds_calls_log.
Qed.

Lemma adds_calls_store_and_notify this v cb args ctx :
  adds_calls 1 (store_and_notify this v cb args ctx).
Proof.
  unfold store_and_notify.
  apply (adds_calls_bind 0 1); [apply adds_calls_get_cell|]. intros ch.
  apply (adds_calls_bind 0 1); [apply adds_calls_put_cell|]. intros _.
  apply (adds_calls_bind 1 0); [apply adds_calls_call_if|]. intros _.
  destruct (negb _); [apply adds_calls_emit_change | apply adds_calls_ret].
Qed.

Lemma adds_calls_run_continuation f err nv : adds_calls 1 (run_continuation f err nv).
Proof.
  destruct f; simpl; unfold getValue_resolved, setValue_resolved;
    (destruct (truthy err); [apply adds_calls_call_if|]);
    (apply (adds_calls_bind 0 1); [apply adds_calls_default_fill|]); intros v;
    apply adds_calls_store_and_notify.
Qed.

Lemma keeps_latches_ret {A} (a : A) : keeps_latches (ret a).
Proof. by intros w. Qed.

Lemma keeps_latches_bind {A B} (m : M A) (k : A -> M B) :
  keeps_latches m -> (forall a, keeps_latches (k a)) -> keeps_latches (bind m k).
Proof.
  intros Hm Hk w. unfold bind. specialize (Hm w).
  destruct (m w) as [[a|e] w1]; simpl in *; [by rewrite Hk | done].
Qed.

Lemma keeps_latches_get_cell c : keeps_latches (get_cell c).
Proof. intros w. unfold get_cell. by destruct (cells w !! c). Qed.

Lemma keeps_latches_call_if cb args : keeps_latches (call_if cb args).
Proof. intros w. by destruct cb. Qed.

Lemma keeps_latches_for_each {A} (l : list A) (f : A -> M void) :
  (forall x, keeps_latches (f x)) -> keeps_latches (for_each l f).
Proof.
  intros Hf. induction l as [|x l IH]; simpl; [apply keeps_latches_ret|].
  apply keeps_latches_bind; [apply Hf | intros _; apply IH].
Qed.

Lemma keeps_latches_default_fill this v : keeps_latches (default_fill this v).
Proof.
  unfold default_fill, Characteristic_getDefaultValue.
  destruct (nullish v); [|apply keeps_latches_ret].
  apply keeps_latches_bind; [apply keeps_latches_get_cell|]. intros ch.
  destruct (format (props ch)) as [[]|]; try apply keeps_latches_ret;
    (apply keeps_latches_bind; [by intros w | intros; apply keeps_latches_ret]).
Qed.

Lemma keeps_latches_store_and_notify this v cb args ctx :
  keeps_latches (store_and_notify this v cb args ctx).
Proof.
  unfold store_and_notify.
  apply keeps_latches_bind; [apply keeps_latches_get_cell|]. intros ch.
  apply keeps_latches_bind; [by intros w|]. intros _.
  apply keeps_latches_bind; [apply keeps_latches_call_if|]. intros _.
  destruct (negb _); [|apply keeps_latches_ret].
  unfold emit_change.
  apply keeps_latches_bind; [apply keeps_latches_get_cell|]. intros ch'.
  apply keeps_latches_bind; [by intros w|]. intros _.
  apply keeps_latches_for_each. intros []; try apply keeps_latches_ret. by intros w.
Qed.

Lemma keeps_latches_run_continuation f err nv : keeps_latches (run_continuation f err nv).
Proof.
  destruct f; simpl; unfold getValue_resolved, setValue_resolved;
    (destruct (truthy err); [apply keeps_latches_call_if|]);
    (apply keeps_latches_bind; [apply keeps_latches_default_fill|]); intros v;
    apply keeps_latches_store_and_notify.
Qed.

Lemma Latch_call_spent k err nv w : spent k w -> snd (Latch_call k err nv w) = w.
Proof.
  unfold spent, Latch_call. destruct (latches w !! k) as [l|]; [|done].
  by intros ->.
Qed.

Lemma Latch_call_spends k err nv w : spent k (snd (Latch_call k err nv w)).
Proof.
  unfold spent, Latch_call. destruct (latches w !! k) as [l|] eqn:Hk; simpl; [|by rewrite Hk].
  destruct (called l) eqn:Hl; simpl; [by rewrite Hk|].
  rewrite keeps_latches_run_continuation. simpl. by rewrite lookup_insert_eq.
Qed.

Lemma resolve_all_spent k rs w : spent k w -> resolve_all k rs w = w.
Proof.
  intros Hs. induction rs as [|[e v] rs IH]; simpl; [done|].
  by rewrite Latch_call_spent.
Qed.

Lemma resolve_all_first k r rs w : resolve_all k (r :: rs) w = resolve_all k [r] w.
Proof. destruct r as [e v]. simpl. apply resolve_all_spent, Latch_call_spends. Qed.

Lemma adds_calls_Latch_call k err nv : adds_calls 1 (Latch_call k err nv).
Proof.
  intros w. unfold Latch_call. destruct (latches w !! k) as [l|].
  - destruct (called l).
    + exists []. simpl. rewrite app_nil_r. split; [done | unfold count_calls; simpl; lia].
    + apply (adds_calls_run_continuation (body l) err nv
               (with_latches (<[k := {| called := true; body := body l |}]> (latches w)) w)).
  - exists []. simpl. rewrite app_nil_r. split; [done | unfold count_calls; simpl; lia].
Qed.

Lemma resolve_all_calls k rs w :
  count_calls (trace (resolve_all k rs w)) <= S (count_calls (trace w)).
Proof.
  destruct rs as [|[e v] rs]; [simpl; lia|].
  rewrite resolve_all_first. simpl.
  destruct (adds_calls_Latch_call k e v w) as (evs & -> & Hn).
  rewrite count_calls_app. lia.
Qed.

(** C7. For a request made of a cell with an override, whatever the
    override does with the latch it was given: every call of the latch
    after the first leaves the store as it is (no call of the callback,
    no change of a cell, no event), and the callback is called at most
    once in all.  The first call leaves the latch spent, and in any store
    a call of a spent latch does nothing. *)
Theorem latched_callback_fires_at_most_once this ch cb ctx conn w :
  cells w !! this = Some ch ->
  (listeners_of "get" (listeners ch) <> [] ->
   exists k w1,
     Characteristic_getValue this cb ctx conn w = (Ok tt, w1) /\
     trace w1 = (trace w ++ [EmitGet this k ctx conn])%list /\
     (forall r rs, resolve_all k (r :: rs) w1 = resolve_all k [r] w1) /\
     (forall rs, count_calls (trace (resolve_all k rs w1)) <= S (count_calls (trace w))) /\
     (forall err nv, spent k (snd (Latch_call k err nv w1)))) /\
  (forall v,
   listeners_of "set" (listeners ch) <> [] ->
   exists k w1,
     Characteristic_setValue this v cb ctx conn w = (Ok this, w1) /\
     trace w1 = (trace w ++ [EmitSet this v k ctx conn])%list /\
     (forall r rs, resolve_all k (r :: rs) w1 = resolve_all k [r] w1) /\
     (forall rs, count_calls (trace (resolve_all k rs w1)) <= S (count_calls (trace w))) /\
     (forall err nv, spent k (snd (Latch_call k err nv w1)))) /\
  (forall k w' err nv, spent k w' -> snd (Latch_call k err nv w') = w').
Proof.
  intros Hc. split; [|split].
  - intros Hl. eexists (next w), _.
    split; [by apply (getValue_override this ch)|].
    split; [reflexivity|]. split; [intros; apply resolve_all_first|].
    split; [|intros; apply Latch_call_spends].
    intros rs. etrans; [apply resolve_all_calls|]. simpl.
    rewrite count_calls_app. unfold count_calls at 2. simpl. lia.
  - intros v Hl. eexists (next w), _.
    split; [by apply (setValue_override this ch)|].
    split; [reflexivity|]. split; [intros; apply resolve_all_first|].
    split; [|intros; apply Latch_call_spends].
    intros rs. etrans; [apply resolve_all_calls|]. simpl.
    rewrite count_calls_app. unfold count_calls at 2. simpl. lia.
  - intros k w' err nv. apply Latch_call_spent.
Qed.

(** *** Services *)

Lemma check_UUID_conflict_throws uuid l w e ex :
  e ∈ l -> cells w !! e = Some ex -> Characteristic.UUID ex = uuid ->
  exists err, check_UUID_conflict uuid l w = (Throw err, w).
Proof.
  intros Hin Hc Hu. unfold check_UUID_conflict.
  induction l as [|x l IH]; [by apply not_elem_of_nil in Hin|].
  simpl. unfold bind at 1. unfold bind at 1, get_cell.
  destruct (cells w !! x) as [xc|] eqn:Hx; [|eauto].
  destruct (String.eqb (Characteristic.UUID xc) uuid) eqn:Heq; [unfold throw; eauto|].
  unfold ret. apply elem_of_cons in Hin as [->|Hin].
  - rewrite Hc in Hx. injection Hx as <-. rewrite Hu, String.eqb_refl in Heq. discriminate.
  - by apply IH.
Qed.

Lemma check_UUID_conflict_ok uuid l w :
  (forall e, e ∈ l -> exists ex, cells w !! e = Some ex /\ Characteristic.UUID ex <> uuid) ->
  check_UUID_conflict uuid l w = (Ok tt, w).
Proof.
  intros Hall. unfold check_UUID_conflict.
  induction l as [|x l IH]; [reflexivity|].
  simpl. unfold bind at 1. unfold bind at 1, get_cell.
  destruct (Hall x) as (xc & -> & Hne); [by left|].
  destruct (String.eqb_spec (Characteristic.UUID xc) uuid); [done|].
  unfold ret. apply IH. intros e He. apply Hall. by right.
Qed.

Lemma addCharacteristic_instance_conflict this sv c new e ex w :
  services w !! this = Some sv ->
  cells w !! c = Some new ->
  e ∈ Service.characteristics sv ->
  cells w !! e = Some ex ->
  Characteristic.UUID ex = Characteristic.UUID new ->
  exists err, Service_addCharacteristic this (Instance c) w = (Throw err, w).
Proof.
  intros Hs Hc Hin He Hu.
  destruct (check_UUID_conflict_throws _ _ w e ex Hin He Hu) as [err Herr].
  exists err. unfold Service_addCharacteristic, bind, ret, get_service, get_cell.
  by rewrite Hs, Hc, Herr.
Qed.

Lemma getDefaultValue_spec this ch w :
  cells w !! this = Some ch ->
  exists v n,
    Characteristic_getDefaultValue this w = (Ok v, with_next n w) /\ next w <= n.
Proof.
  intros Hc. unfold Characteristic_getDefaultValue, bind, get_cell, alloc, ret. rewrite Hc.
  destruct (Characteristic.format _) as [[]|]; simpl;
    try (eexists _, (next w); split; [by destruct w | lia]);
    eexists _, (S (next w)); (split; [reflexivity | lia]).
Qed.

(** What [new ty()] does to the store. *)
Lemma construct_spec ty w :
  exists ch n,
    Characteristic_construct ty w
    = (Ok (next w), with_next n (with_cells (<[next w := ch]> (cells w)) w)) /\
    next w < n /\
    Characteristic.displayName ch = Characteristic.new_displayName ty /\
    Characteristic.UUID ch = Characteristic.new_UUID ty /\
    Characteristic.props ch
    = fold_left Characteristic.assign (Characteristic.new_props ty) Characteristic.default_props /\
    Characteristic.listeners ch = [] /\
    Characteristic.classes ch = [Characteristic.type_id ty; Characteristic_id].
Proof.
  unfold Characteristic_construct, bind at 1.
  unfold Characteristic_new, bind, alloc, put_cell, ret. simpl.
  unfold Characteristic_setProps, bind, get_cell, put_cell, ret. simpl.
  rewrite lookup_insert_eq. simpl. rewrite insert_insert_eq.
  match goal with |- context [Characteristic_getDefaultValue _ ?w0] =>
    destruct (getDefaultValue_spec (next w) _ w0 (lookup_insert_eq _ _ _)) as (v & n & -> & Hn)
  end.
  simpl in *. rewrite lookup_insert_eq. simpl. rewrite insert_insert_eq.
  eexists _, n. split; [reflexivity|]. repeat split; try reflexivity. lia.
Qed.

Lemma addCharacteristic_constructor_conflict this sv ty e ex w :
  services w !! this = Some sv ->
  e ∈ Service.characteristics sv ->
  cells w !! e = Some ex ->
  Characteristic.UUID ex = Characteristic.new_UUID ty ->
  cells_below_next w ->
  exists err w',
    Service_addCharacteristic this (Constructor ty) w = (Throw err, w') /\
    services w' = services w.
Proof.
  intros Hs Hin He Hu Hwf.
  destruct (construct_spec ty w) as (ch & n & Hnew & _ & _ & Hch & _).
  assert (e <> next w) as Hne by (apply Hwf in He; lia).
  destruct (check_UUID_conflict_throws (Characteristic.UUID ch) (Service.characteristics sv)
              (with_next n (with_cells (<[next w := ch]> (cells w)) w)) e ex Hin)
    as [err Herr].
  { simpl. by rewrite lookup_insert_ne. }
  { congruence. }
  exists err. eexists.
  unfold Service_addCharacteristic, bind at 1. rewrite Hnew.
  unfold bind, get_service, get_cell. simpl. rewrite Hs. simpl.
  rewrite lookup_insert_eq. simpl in *. rewrite Herr.
  split; reflexivity.
Qed.

Lemma find_cell_readonly f l w : snd (find_cell f l w) = w.
Proof.
  induction l as [|c l IH]; [reflexivity|].
  simpl. unfold bind, get_cell. destruct (cells w !! c) as [ch|]; [|reflexivity].
  destruct (f ch); [reflexivity | apply IH].
Qed.

Lemma find_cell_skip f l1 l2 w :
  (forall c, c ∈ l1 -> exists ch, cells w !! c = Some ch /\ f ch = false) ->
  find_cell f (l1 ++ l2) w = find_cell f l2 w.
Proof.
  intros Hall. induction l1 as [|c l1 IH]; [reflexivity|].
  simpl. unfold bind, get_cell.
  destruct (Hall c) as (ch & -> & ->); [by left|].
  apply IH. intros c' Hc'. apply Hall. by right.
Qed.

Lemma find_cell_none f l w :
  (forall c, c ∈ l -> exists ch, cells w !! c = Some ch /\ f ch = false) ->
  find_cell f l w = (Ok None, w).
Proof. intros Hall. rewrite <- (app_nil_r l). by rewrite find_cell_skip. Qed.

Lemma find_cell_some f l w c ch :
  (forall c, c ∈ l -> is_Some (cells w !! c)) ->
  c ∈ l -> cells w !! c = Some ch -> f ch = true ->
  exists c', find_cell f l w = (Ok (Some c'), w).
Proof.
  intros Hall Hin Hc Hf. induction l as [|x l IH]; [by apply not_elem_of_nil in Hin|].
  simpl. unfold bind, get_cell.
  destruct (Hall x) as [xc Hx]; [by left|]. rewrite Hx.
  destruct (f xc) eqn:Hfx; [by eexists|].
  apply elem_of_cons in Hin as [->|Hin]; [congruence|].
  apply IH; [|done]. intros c' Hc'. apply Hall. by right.
Qed.

Lemma removeCharacteristic_absent this sv c w :
  services w !! this = Some sv ->
  c ∉ Service.characteristics sv ->
  Service_removeCharacteristic this c w = (Ok tt, w).
Proof.
  intros Hs Hnin. unfold Service_removeCharacteristic, bind, get_service. rewrite Hs.
  assert (index_where (Nat.eqb c) (Service.characteristics sv) = None) as ->; [|reflexivity].
  induction (Service.characteristics sv) as [|x l IH]; [reflexivity|].
  simpl. apply not_elem_of_cons in Hnin as [Hne Hnin].
  destruct (Nat.eqb_spec c x); [done|]. by rewrite IH.
Qed.

Lemma instanceof_constructed ch ty :
  Characteristic.classes ch = [Characteristic.type_id ty; Characteristic_id] ->
  selects (ByType ty) ch = true.
Proof. intros Hcl. unfold selects, instanceof. rewrite Hcl. simpl. by rewrite Nat.eqb_refl. Qed.

Lemma selects_UUID ty ch :
  Characteristic.static_UUID ty = Some (Characteristic.new_UUID ty) ->
  selects (ByType ty) ch = false ->
  Characteristic.UUID ch <> Characteristic.new_UUID ty.
Proof.
  intros Hst Hsel Heq. unfold selects, static_UUID_is in Hsel. rewrite Hst, Heq in Hsel.
  rewrite String.eqb_refl, orb_true_r in Hsel. discriminate.
Qed.

Lemma map_m_last {A B} (f : A -> M B) l x w ys w' :
  (forall a w, snd (f a w) = w) ->
  map_m f (l ++ [x]) w = (Ok ys, w') ->
  exists y, f x w = (Ok y, w) /\ last ys = Some y.
Proof.
  intros Hro. revert ys. induction l as [|a l IH]; intros ys; simpl; unfold bind, ret.
  - pose proof (Hro x w) as Hx. destruct (f x w) as [[y|e] wx]; simpl in Hx; subst wx; [|done].
    intros [= <- <-]. by exists y.
  - pose proof (Hro a w) as Ha. destruct (f a w) as [[b|e] wa]; simpl in Ha; subst wa; [|done].
    destruct (map_m f (l ++ [x]) w) as [[zs|e] wz] eqn:Hz; [|done].
    intros [= <- <-]. destruct (IH zs eq_refl) as (y & Hy & Hlast).
    exists y. split; [done|]. destruct zs; [done|]. exact Hlast.
Qed.

Lemma addCharacteristic_constructor_ok this sv ty w :
  services w !! this = Some sv ->
  cells_below_next w ->
  (forall e, e ∈ Service.characteristics sv ->
     exists ex, cells w !! e = Some ex /\ Characteristic.UUID ex <> Characteristic.new_UUID ty) ->
  exists ch w1,
    Service_addCharacteristic this (Constructor ty) w = (Ok (next w), w1) /\
    cells w1 = <[next w := ch]> (cells w) /\
    services w1
    = <[this := Service.with_characteristics (Service.characteristics sv ++ [next w]) sv]>
        (services w) /\
    Characteristic.classes ch = [Characteristic.type_id ty; Characteristic_id].
Proof.
  intros Hs Hwf Hall.
  destruct (construct_spec ty w) as (ch & n & Hnew & _ & _ & Hu & _ & _ & Hcl).
  exists (Characteristic.with_listeners
            (Characteristic.listeners ch ++ [("change", BubbleToService this)]) ch).
  eexists.
  unfold Service_addCharacteristic, bind at 1. rewrite Hnew.
  unfold bind at 1, get_service. simpl. rewrite Hs.
  unfold bind at 1, get_cell. simpl. rewrite lookup_insert_eq.
  unfold bind at 1. rewrite check_UUID_conflict_ok.
  - unfold Characteristic_on, bind, get_cell, put_cell, put_service, log, ret. simpl.
    rewrite lookup_insert_eq. simpl. rewrite insert_insert_eq.
    split; [reflexivity|]. simpl. repeat split. exact Hcl.
  - intros e He. destruct (Hall e He) as (ex & Hex & Hne).
    exists ex. simpl. split; [|congruence].
    rewrite lookup_insert_ne; [done|]. apply Hwf in Hex. lia.
Qed.

(** C8, amended.  For a selector that is a constructor of the registry
    (its static UUID is the UUID of its instances): when no active cell
    matches and an optional template does, [getCharacteristic] makes a
    new instance, appends it to the active cells and returns it;
    afterwards the same lookup returns that cell and changes nothing, and
    the projection of the cell is the last of the "characteristics" of
    the projection of the Service. *)
Theorem getCharacteristic_promotes_by_type this sv ty t tch w :
  services w !! this = Some sv ->
  cells_below_next w ->
  Characteristic.static_UUID ty = Some (Characteristic.new_UUID ty) ->
  (forall c, c ∈ Service.characteristics sv ->
     exists ch, cells w !! c = Some ch /\ selects (ByType ty) ch = false) ->
  (forall c, c ∈ Service.optionalCharacteristics sv -> is_Some (cells w !! c)) ->
  t ∈ Service.optionalCharacteristics sv ->
  cells w !! t = Some tch ->
  selects (ByType ty) tch = true ->
  exists c w1 sv1,
    Service_getCharacteristic this (ByType ty) w = (Ok (Some c), w1) /\
    (c ∉ Service.characteristics sv) /\
    services w1 !! this = Some sv1 /\
    Service.characteristics sv1 = Service.characteristics sv ++ [c] /\
    Service_getCharacteristic this (ByType ty) w1 = (Ok (Some c), w1) /\
    (forall opt sh w2,
       Service_toHAP this opt w1 = (Ok sh, w2) ->
       exists h, Characteristic_toHAP c opt w1 = (Ok h, w1) /\
                 last (hap_characteristics sh) = Some h).
Proof.
  intros Hs Hwf Hst Hact Hopt Hin Ht Hsel.
  destruct (addCharacteristic_constructor_ok this sv ty w Hs Hwf) as (ch & w1 & Hadd & Hc1 & Hs1 & Hcl).
  { intros e He. destruct (Hact e He) as (ex & Hex & Hf). exists ex.
    split; [done|]. by apply (selects_UUID ty). }
  destruct (find_cell_some (selects (ByType ty)) _ w t tch Hopt Hin Ht Hsel) as [t' Hfind].
  assert (forall c, c ∈ Service.characteristics sv ->
            exists ch0, cells w1 !! c = Some ch0 /\ selects (ByType ty) ch0 = false) as Hact1.
  { intros c Hc. destruct (Hact c Hc) as (ex & Hex & Hf). exists ex. split; [|done].
    rewrite Hc1, lookup_insert_ne; [done|]. apply Hwf in Hex. lia. }
  exists (next w), w1, (Service.with_characteristics (Service.characteristics sv ++ [next w]) sv).
  split; [|split; [|split; [|split; [|split]]]].
  - unfold Service_getCharacteristic, bind, get_service. rewrite Hs.
    rewrite find_cell_none by done. rewrite Hfind.
    unfold bind in Hadd. by rewrite Hadd.
  - intros Hc. destruct (Hact _ Hc) as (ex & Hex & _). apply Hwf in Hex. lia.
  - by rewrite Hs1, lookup_insert_eq.
  - reflexivity.
  - unfold Service_getCharacteristic, bind, get_service. rewrite Hs1, lookup_insert_eq. simpl.
    rewrite find_cell_skip by done. simpl. unfold bind, get_cell.
    rewrite Hc1, lookup_insert_eq.
    pose proof (instanceof_constructed ch ty Hcl) as Hnew. unfold selects in Hnew.
    by rewrite Hnew.
  - intros opt sh w2 Hhap. unfold Service_toHAP, bind, get_service in Hhap.
    rewrite Hs1, lookup_insert_eq in Hhap. simpl in Hhap.
    destruct (map_m _ _ w1) as [[ys|e] wy] eqn:Hm; [|done].
    injection Hhap as <- <-. simpl.
    apply (map_m_last _ _ _ _ _ _ (fun a => readonly_toHAP a opt) Hm).
Qed.

(** *** Bridges *)

Lemma check_bridged_UUID_conflict_throws uuid l w e ex :
  e ∈ l -> accessories w !! e = Some ex -> Accessory.UUID ex = uuid ->
  exists err, check_bridged_UUID_conflict uuid l w = (Throw err, w).
Proof.
  intros Hin Hc Hu. unfold check_bridged_UUID_conflict.
  induction l as [|x l IH]; [by apply not_elem_of_nil in Hin|].
  simpl. unfold bind at 1. unfold bind at 1, get_accessory.
  destruct (accessories w !! x) as [xc|] eqn:Hx; [|eauto].
  destruct (String.eqb (Accessory.UUID xc) uuid) eqn:Heq; [unfold throw; eauto|].
  unfold ret. apply elem_of_cons in Hin as [->|Hin].
  - rewrite Hc in Hx. injection Hx as <-. rewrite Hu, String.eqb_refl in Heq. discriminate.
  - by apply IH.
Qed.

Lemma addBridgedAccessory_refused this br a ac deferUpdate w :
  accessories w !! this = Some br ->
  accessories w !! a = Some ac ->
  Accessory._isBridge ac = true
  \/ (exists e ex, e ∈ Accessory.bridgedAccessories br /\
                   accessories w !! e = Some ex /\
                   Accessory.UUID ex = Accessory.UUID ac) ->
  exists err, Bridge_addBridgedAccessory this a deferUpdate w = (Throw err, w).
Proof.
  intros Hb Ha Hwhy. unfold Bridge_addBridgedAccessory, bind at 1, get_accessory at 1.
  rewrite Ha. destruct (Accessory._isBridge ac) eqn:Hbr; [unfold throw; eauto|].
  destruct Hwhy as [|(e & ex & Hin & He & Hu)]; [done|].
  destruct (check_bridged_UUID_conflict_throws _ _ w e ex Hin He Hu) as [err Herr].
  exists err. unfold bind at 1, get_accessory at 1. rewrite Hb.
  unfold bind at 1. by rewrite Herr.
Qed.

Lemma find_bridged_absent uuid l w :
  (forall e ex, e ∈ l -> accessories w !! e = Some ex -> Accessory.UUID ex <> uuid) ->
  find_bridged uuid l w = (Ok None, w)
  \/ exists err, find_bridged uuid l w = (Throw err, w).
Proof.
  intros Hall. induction l as [|x l IH]; [by left|].
  simpl. unfold bind, get_accessory.
  destruct (accessories w !! x) as [xc|] eqn:Hx; [|right; eexists; reflexivity].
  destruct (String.eqb_spec (Accessory.UUID xc) uuid) as [Heq|_].
  { exfalso. apply (Hall x xc); [by left | done | done]. }
  assert (forall e ex, e ∈ l -> accessories w !! e = Some ex -> Accessory.UUID ex <> uuid)
    as Hall' by (intros e ex He; apply Hall; by right).
  destruct (IH Hall') as [->|[err ->]];
    [left; reflexivity | right; eexists; reflexivity].
Qed.

Lemma removeBridgedAccessory_refused this br a ac deferUpdate w :
  accessories w !! this = Some br ->
  accessories w !! a = Some ac ->
  Accessory._isBridge ac = true
  \/ (forall e ex, e ∈ Accessory.bridgedAccessories br ->
                   accessories w !! e = Some ex ->
                   Accessory.UUID ex <> Accessory.UUID ac) ->
  exists err, Bridge_removeBridgedAccessory this a deferUpdate w = (Throw err, w).
Proof.
  intros Hb Ha Hwhy. unfold Bridge_removeBridgedAccessory, bind at 1, get_accessory at 1.
  rewrite Ha. destruct (Accessory._isBridge ac) eqn:Hbr; [unfold throw; eauto|].
  destruct Hwhy as [|Hall]; [done|].
  unfold bind at 1, get_accessory at 1. rewrite Hb. unfold bind at 1.
  destruct (find_bridged_absent _ _ w Hall) as [->|[err ->]]; unfold throw; eauto.
Qed.

(** C5. [addCharacteristic] of a cell, given as an object or as a
    constructor, whose UUID is that of a cell of the Service throws and
    leaves the Service as it was; [addBridgedAccessory] of an Accessory
    that is a Bridge, or whose UUID is that of a child, throws and leaves
    the whole store as it was. *)
Theorem duplicate_UUID_is_refused w :
  (forall this sv c new e ex,
     services w !! this = Some sv ->
     cells w !! c = Some new ->
     e ∈ Service.characteristics sv ->
     cells w !! e = Some ex ->
     Characteristic.UUID ex = Characteristic.UUID new ->
     exists err, Service_addCharacteristic this (Instance c) w = (Throw err, w)) /\
  (forall this sv ty e ex,
     cells_below_next w ->
     services w !! this = Some sv ->
     e ∈ Service.characteristics sv ->
     cells w !! e = Some ex ->
     Characteristic.UUID ex = Characteristic.new_UUID ty ->
     exists err w',
       Service_addCharacteristic this (Constructor ty) w = (Throw err, w') /\
       services w' = services w) /\
  (forall this br a ac deferUpdate,
     accessories w !! this = Some br ->
     accessories w !! a = Some ac ->
     Accessory._isBridge ac = true
     \/ (exists e ex, e ∈ Accessory.bridgedAccessories br /\
                      accessories w !! e = Some ex /\
                      Accessory.UUID ex = Accessory.UUID ac) ->
     exists err, Bridge_addBridgedAccessory this a deferUpdate w = (Throw err, w)).
Proof.
  split; [|split].
  - intros. by eapply addCharacteristic_instance_conflict.
  - intros. by eapply addCharacteristic_constructor_conflict.
  - intros. by eapply addBridgedAccessory_refused.
Qed.

(** C6, amended.  [removeCharacteristic] of a cell that is not in the
    Service returns normally and changes nothing; [removeBridgedAccessory]
    of an Accessory that is a Bridge, or whose UUID is that of no child,
    throws and leaves the whole store as it was. *)
Theorem removing_an_absent_member w :
  (forall this sv c,
     services w !! this = Some sv ->
     c ∉ Service.characteristics sv ->
     Service_removeCharacteristic this c w = (Ok tt, w)) /\
  (forall this br a ac deferUpdate,
     accessories w !! this = Some br ->
     accessories w !! a = Some ac ->
     Accessory._isBridge ac = true
     \/ (forall e ex, e ∈ Accessory.bridgedAccessories br ->
                      accessories w !! e = Some ex ->
                      Accessory.UUID ex <> Accessory.UUID ac) ->
     exists err, Bridge_removeBridgedAccessory this a deferUpdate w = (Throw err, w)).
Proof.
  split.
  - intros. by eapply removeCharacteristic_absent.
  - intros. by eapply removeBridgedAccessory_refused.
Qed.

End Proofs.

(** *** Strings *)

Section Strings.
Context `{JSRuntime}.
Import Characteristic.

Lemma length_substring_0 n s :
  String.length (substring 0 n s) = Nat.min n (String.length s).
Proof.
  revert s. induction n as [|n IH]; intros [|a s]; simpl; try reflexivity.
  by rewrite IH.
Qed.

(** The part of C3 that holds: what [toHAP] does with a string of [len]
    bytes, for a cell that can be read.  Above 256 bytes the value is the
    decoding of the first 256 bytes, which is those 256 bytes when they
    end with a whole character. *)
Lemma toHAP_string_lengths this ch s w :
  cells w !! this = Some ch ->
  format (props ch) = Some STRING ->
  toHAP_constrain (props ch) (value ch) = JStr s ->
  has_READ (props ch) = true ->
  exists hap,
    Characteristic_toHAP this None w = (Ok hap, w) /\
    (256 < String.length s ->
     hap !! "value" = Some (HVal (JStr (utf8_decode (substring 0 256 s)))) /\
     hap !! "maxLen" = Some (HVal (JNum 256)) /\
     (utf8_decode (substring 0 256 s) = substring 0 256 s ->
      String.length (utf8_decode (substring 0 256 s)) = 256)) /\
    (64 < String.length s <= 256 ->
     hap !! "value" = Some (HVal (JStr s)) /\
     hap !! "maxLen" = Some (HVal (JNum (float_of_nat (String.length s))))) /\
    (String.length s <= 64 ->
     hap !! "value" = Some (HVal (JStr s)) /\ hap !! "maxLen" = None).
Proof.
  intros Hc Hf Hv Hr.
  unfold Characteristic_toHAP, bind, get_cell. rewrite Hc.
  unfold toHAP_coerce, toHAP_maxLen. rewrite Hf, Hv.
  unfold Buffer_new, bind, ret.
  destruct (256 <? String.length s)%nat eqn:H256.
  - rewrite toHAP_omit_readable by done. eexists. split; [reflexivity|].
    apply Nat.ltb_lt in H256. split; [|split; intros; lia].
    intros _. split; [|split].
    + rewrite lookup_insert_ne by done. by rewrite lookup_insert_eq.
    + by rewrite lookup_insert_eq.
    + intros ->. rewrite length_substring_0. lia.
  - apply Nat.ltb_ge in H256.
    destruct (64 <? String.length s)%nat eqn:H64.
    + rewrite toHAP_omit_readable by done. eexists. split; [reflexivity|].
      apply Nat.ltb_lt in H64. split; [intros; lia|]. split; [|intros; lia].
      intros _. split.
      * rewrite lookup_insert_ne by done. apply toHAP_object_value.
      * by rewrite lookup_insert_eq.
    + rewrite toHAP_omit_readable by done. eexists. split; [reflexivity|].
      apply Nat.ltb_ge in H64. split; [intros; lia|]. split; [intros; lia|].
      intros _. split; [apply toHAP_object_value | apply toHAP_object_maxLen].
Qed.
End Strings.

(** *** The examples *)

Lemma example_store_below_next : cells_below_next example_store.
Proof. unfold cells_below_next. refine (bool_decide_unpack _ _). vm_compute. exact I. Defined.

(** C3, at an input on which the code departs from it.  The cell "Name" of
    the example store holds 259 bytes, the 256th being the first byte of
    a two-byte character.  [toHAP] sets [maxLen] to 256 and emits the 255
    letters followed by U+FFFD: 258 bytes, not 256. *)
Theorem toHAP_truncation_splits_a_character :
  exists hap s,
    @Characteristic_toHAP example_runtime 4 None example_store = (Ok hap, example_store) /\
    String.length long_name = 259 /\
    hap !! "maxLen" = Some (HVal (JNum 256)) /\
    hap !! "value" = Some (HVal (JStr s)) /\
    s = (repeat_string 255 "a" ++ REPLACEMENT)%string /\
    String.length s = 258.
Proof.
  eexists _, _. split; [reflexivity|]. split; [reflexivity|]. split; [reflexivity|].
  split; [reflexivity|]. split; [vm_compute; reflexivity|]. vm_compute. reflexivity.
Qed.

(** C10. [toHAP] writes nothing: the store it leaves is the store it was
    given, so that the cached value, the props, the display name, the
    UUID and the iid of the cell are what they were, whether it returns
    or throws. *)
Theorem toHAP_leaves_the_store `{JSRuntime} this opt w :
  snd (Characteristic_toHAP this opt w) = w.
Proof.
  unfold Characteristic_toHAP, bind, get_cell.
  destruct (cells w !! this) as [ch|]; [|reflexivity].
  match goal with |- context [toHAP_maxLen ?p ?v ?h w] =>
    pose proof (readonly_toHAP_maxLen p v h w) as Hro;
    destruct (toHAP_maxLen p v h w) as [[hap|e] w1]
  end; simpl in *; congruence.
Qed.

(** "Brightness" holds 150 and is bounded by 0 and 100. *)
Lemma toHAP_clamps_into_ordered_bounds_witness :
  Characteristic.minValue (Characteristic.props example_Brightness) = Some 0%float /\
  Characteristic.maxValue (Characteristic.props example_Brightness) = Some 100%float /\
  (100 <? 0)%float = false /\
  @js_gt example_runtime (Characteristic.value example_Brightness) 100 = true /\
  @toHAP_constrain example_runtime (Characteristic.props example_Brightness)
    (Characteristic.value example_Brightness) = JNum 100.
Proof.
  split; [reflexivity|]. split; [reflexivity|]. split; [reflexivity|].
  split; [reflexivity|].
  apply (proj1 (proj2 (@toHAP_clamps_into_ordered_bounds example_runtime 2
                         example_Brightness 0 100 eq_refl eq_refl eq_refl))).
  reflexivity.
Defined.

(** C1 as it is stated fails on bounds that are the wrong way round, also
    for a cell that can be read and has no format to coerce to: with
    [minValue] 10 and [maxValue] 5, the cached value 0 is below
    [minValue] and is serialized as 5. *)
Lemma toHAP_inverted_bounds_counterexample :
  ~ (forall (rt : JSRuntime) (w : World) (this : loc) (ch : Characteristic.t)
            (lo hi : float) (hap : gmap string hapval) (w' : World),
       cells w !! this = Some ch ->
       Characteristic.format (Characteristic.props ch) = None ->
       has_READ (Characteristic.props ch) = true ->
       Characteristic.minValue (Characteristic.props ch) = Some lo ->
       Characteristic.maxValue (Characteristic.props ch) = Some hi ->
       @js_lt rt (Characteristic.value ch) lo = true ->
       @Characteristic_toHAP rt this None w = (Ok hap, w') ->
       hap !! "value" = Some (HVal (JNum lo))).
Proof.
  intros Hclaim.
  assert (exists hap,
            @Characteristic_toHAP example_runtime 13 None example_store
            = (Ok hap, example_store)
            /\ hap !! "value" = Some (HVal (JNum 5))) as (hap & Hrun & Hval).
  { eexists. split; reflexivity. }
  pose proof (Hclaim example_runtime example_store 13 example_inverted 10%float 5%float
                hap example_store eq_refl eq_refl eq_refl eq_refl eq_refl eq_refl Hrun)
    as Hmin.
  rewrite Hval in Hmin.
  apply (f_equal (fun o => match o with
                           | Some (HVal (JNum x)) => PrimFloat.eqb x 5
                           | _ => false
                           end)) in Hmin.
  vm_compute in Hmin. discriminate.
Qed.

(** The override of "On" answers a read with the error "offline". *)
Lemma override_error_is_passed_on_witness :
  cells example_store !! 1 = Some example_On /\
  truthy (JStr "offline") = true /\
  listeners_of "get" (Characteristic.listeners example_On) <> [] /\
  exists k w1 w2,
    Characteristic_getValue 1 (Some 42) JNull JNull example_store = (Ok tt, w1) /\
    latches w1 !! k = Some {| called := false; body := GetK 1 (Some 42) JNull |} /\
    trace w1 = trace example_store ++ [EmitGet 1 k JNull JNull] /\
    Latch_call k (JStr "offline") JUndefined w1 = (Ok tt, w2) /\
    cells w2 = cells example_store /\
    trace w2 = trace w1 ++ call_events (Some 42) [JStr "offline"].
Proof.
  split; [reflexivity|]. split; [reflexivity|].
  assert (listeners_of "get" (Characteristic.listeners example_On) <> []) as Hl
    by (vm_compute; discriminate).
  split; [exact Hl|].
  exact (proj1 (override_error_is_passed_on 1 example_On (Some 42) JNull JNull
                  (JStr "offline") JUndefined example_store eq_refl eq_refl) Hl).
Defined.

(** "Identify" has the permission to write only. *)
Lemma toHAP_unreadable_has_no_value_witness :
  cells example_store !! 3 = Some example_Identify /\
  (Characteristic.READ ∉ Characteristic.perms (Characteristic.props example_Identify)) /\
  exists hap,
    @Characteristic_toHAP example_runtime 3 None example_store = (Ok hap, example_store) /\
    hap !! "value" = None.
Proof.
  assert (Characteristic.READ ∉ Characteristic.perms (Characteristic.props example_Identify))
    as Hp.
  { vm_compute. intros Hin. apply list_elem_of_singleton in Hin. discriminate. }
  split; [reflexivity|]. split; [exact Hp|].
  eexists. split; [reflexivity|].
  apply (@toHAP_unreadable_has_no_value example_runtime 3 example_Identify None
           example_store _ example_store eq_refl Hp).
  reflexivity.
Defined.

(** A second "On" for the Lightbulb; a second Accessory "lamp" for the
    Bridge. *)
Lemma duplicate_UUID_is_refused_witness :
  (services example_store !! 5 = Some example_Lightbulb /\
   cells example_store !! 7 = Some example_On' /\
   (1 ∈ Service.characteristics example_Lightbulb) /\
   cells example_store !! 1 = Some example_On /\
   Characteristic.UUID example_On = Characteristic.UUID example_On' /\
   exists err, Service_addCharacteristic 5 (Instance 7) example_store
               = (Throw err, example_store)) /\
  (accessories example_store !! 8 = Some (example_accessory "Bridge" "bridge" true [9]) /\
   accessories example_store !! 11 = Some (example_accessory "Lamp again" "lamp" false []) /\
   accessories example_store !! 9 = Some (example_accessory "Lamp" "lamp" false []) /\
   exists err, Bridge_addBridgedAccessory 8 11 JUndefined example_store
               = (Throw err, example_store)).
Proof.
  assert (1 ∈ Service.characteristics example_Lightbulb) as Hin by (vm_compute; left).
  split.
  - split; [reflexivity|]. split; [reflexivity|]. split; [exact Hin|].
    split; [reflexivity|]. split; [reflexivity|].
    exact (proj1 (duplicate_UUID_is_refused example_store) 5 example_Lightbulb 7
             example_On' 1 example_On eq_refl eq_refl Hin eq_refl eq_refl).
  - split; [reflexivity|]. split; [reflexivity|]. split; [reflexivity|].
    apply (proj2 (proj2 (duplicate_UUID_is_refused example_store))
             8 (example_accessory "Bridge" "bridge" true [9])
             11 (example_accessory "Lamp again" "lamp" false []) JUndefined
             eq_refl eq_refl).
    right. exists 9, (example_accessory "Lamp" "lamp" false []).
    split; [vm_compute; left|]. split; reflexivity.
Defined.

(** "Identify" is not in the Lightbulb; "fan" is not a child of the
    Bridge. *)
Lemma removing_an_absent_member_witness :
  (services example_store !! 5 = Some example_Lightbulb /\
   (3 ∉ Service.characteristics example_Lightbulb) /\
   Service_removeCharacteristic 5 3 example_store = (Ok tt, example_store)) /\
  (accessories example_store !! 8 = Some (example_accessory "Bridge" "bridge" true [9]) /\
   accessories example_store !! 12 = Some (example_accessory "Fan" "fan" false []) /\
   exists err, Bridge_removeBridgedAccessory 8 12 JUndefined example_store
               = (Throw err, example_store)).
Proof.
  assert (3 ∉ Service.characteristics example_Lightbulb) as Hnin.
  { vm_compute. intros Hin. repeat (apply elem_of_cons in Hin as [Hin|Hin]; [discriminate|]).
    by apply not_elem_of_nil in Hin. }
  split.
  - split; [reflexivity|]. split; [exact Hnin|].
    exact (proj1 (removing_an_absent_member example_store) 5 example_Lightbulb 3
             eq_refl Hnin).
  - split; [reflexivity|]. split; [reflexivity|].
    apply (proj2 (removing_an_absent_member example_store)
             8 (example_accessory "Bridge" "bridge" true [9])
             12 (example_accessory "Fan" "fan" false []) JUndefined eq_refl eq_refl).
    right. intros e ex Hin Hex.
    apply list_elem_of_singleton in Hin. subst e.
    vm_compute in Hex. injection Hex as <-. vm_compute. discriminate.
Defined.

(** C6 as it is stated fails for a Service: [removeCharacteristic] of a
    cell that is not in it does not throw. *)
Lemma removeCharacteristic_absent_counterexample :
  ~ (forall (w : World) (this : loc) (sv : Service.t) (c : loc),
       services w !! this = Some sv ->
       c ∉ Service.characteristics sv ->
       exists err, Service_removeCharacteristic this c w = (Throw err, w)).
Proof.
  intros Hclaim.
  destruct (Hclaim example_store 5 example_Lightbulb 3 eq_refl) as [err Herr].
  - vm_compute. intros Hin.
    repeat (apply elem_of_cons in Hin as [Hin|Hin]; [discriminate|]).
    by apply not_elem_of_nil in Hin.
  - vm_compute in Herr. discriminate.
Qed.

(** A read of "On", which has an override. *)
Lemma latched_callback_fires_at_most_once_witness :
  cells example_store !! 1 = Some example_On /\
  listeners_of "get" (Characteristic.listeners example_On) <> [] /\
  exists k w1,
    Characteristic_getValue 1 (Some 42) JNull JNull example_store = (Ok tt, w1) /\
    trace w1 = trace example_store ++ [EmitGet 1 k JNull JNull] /\
    (forall r rs, resolve_all k (r :: rs) w1 = resolve_all k [r] w1) /\
    (forall rs, count_calls (trace (resolve_all k rs w1))
                <= S (count_calls (trace example_store))) /\
    (forall err nv, spent k (snd (Latch_call k err nv w1))).
Proof.
  assert (listeners_of "get" (Characteristic.listeners example_On) <> []) as Hl
    by (vm_compute; discriminate).
  split; [reflexivity|]. split; [exact Hl|].
  exact (proj1 (latched_callback_fires_at_most_once 1 example_On (Some 42) JNull JNull
                  example_store eq_refl) Hl).
Defined.

(** [getCharacteristic(Characteristic.Hue)] on the Lightbulb. *)
Lemma getCharacteristic_promotes_by_type_witness :
  services example_store !! 5 = Some example_Lightbulb /\
  cells_below_next example_store /\
  Characteristic.static_UUID Characteristic_Hue
  = Some (Characteristic.new_UUID Characteristic_Hue) /\
  (6 ∈ Service.optionalCharacteristics example_Lightbulb) /\
  cells example_store !! 6 = Some example_Hue /\
  selects (ByType Characteristic_Hue) example_Hue = true /\
  exists c w1 sv1,
    Service_getCharacteristic 5 (ByType Characteristic_Hue) example_store
    = (Ok (Some c), w1) /\
    (c ∉ Service.characteristics example_Lightbulb) /\
    services w1 !! 5 = Some sv1 /\
    Service.characteristics sv1 = Service.characteristics example_Lightbulb ++ [c] /\
    Service_getCharacteristic 5 (ByType Characteristic_Hue) w1 = (Ok (Some c), w1) /\
    (forall opt sh w2,
       @Service_toHAP example_runtime 5 opt w1 = (Ok sh, w2) ->
       exists h, @Characteristic_toHAP example_runtime c opt w1 = (Ok h, w1) /\
                 last (hap_characteristics sh) = Some h).
Proof.
  assert (6 ∈ Service.optionalCharacteristics example_Lightbulb) as Hin
    by (vm_compute; left).
  split; [reflexivity|]. split; [exact example_store_below_next|].
  split; [reflexivity|]. split; [exact Hin|]. split; [reflexivity|]. split; [reflexivity|].
  apply (@getCharacteristic_promotes_by_type example_runtime 5 example_Lightbulb
           Characteristic_Hue 6 example_Hue example_store
           eq_refl example_store_below_next eq_refl).
  - intros c Hc. vm_compute in Hc.
    apply elem_of_cons in Hc as [->|Hc]; [eexists; split; reflexivity|].
    apply list_elem_of_singleton in Hc as ->. eexists. split; reflexivity.
  - intros c Hc. vm_compute in Hc. apply list_elem_of_singleton in Hc as ->.
    eexists. reflexivity.
  - exact Hin.
  - reflexivity.
  - reflexivity.
Defined.

(** C8 as it is stated fails for a display name: [getCharacteristic("Hue")]
    on the Lightbulb, whose template "Hue" matches, returns undefined. *)
Lemma getCharacteristic_by_name_counterexample :
  ~ (forall (w : World) (this : loc) (sv : Service.t) (name : Selector)
            (t : loc) (tch : Characteristic.t),
       services w !! this = Some sv ->
       (forall c, c ∈ Service.characteristics sv ->
          exists ch, cells w !! c = Some ch /\ selects name ch = false) ->
       t ∈ Service.optionalCharacteristics sv ->
       cells w !! t = Some tch ->
       selects name tch = true ->
       exists c w1, Service_getCharacteristic this name w = (Ok (Some c), w1)).
Proof.
  intros Hclaim.
  destruct (Hclaim example_store 5 example_Lightbulb (ByName "Hue") 6 example_Hue eq_refl)
    as (c & w1 & Hrun).
  - intros c Hc. vm_compute in Hc.
    apply elem_of_cons in Hc as [->|Hc]; [eexists; split; reflexivity|].
    apply list_elem_of_singleton in Hc as ->. eexists. split; reflexivity.
  - vm_compute. left.
  - reflexivity.
  - reflexivity.
  - vm_compute in Hrun. discriminate.
Qed.

(** [updateValue(true)] twice on "On", which holds false. *)
Lemma updateValue_twice_witness :
  cells example_store !! 1 = Some example_On /\
  strict_eq (JBool true) (JBool true) = true /\
  exists w1 w2,
    Characteristic_updateValue 1 (JBool true) None JNull example_store = (Ok 1, w1) /\
    Characteristic_updateValue 1 (JBool true) None JNull w1 = (Ok 1, w2) /\
    changes_since example_store w1 1 = [EmitChange 1 (JBool false) (JBool true) JNull] /\
    changes_since w1 w2 1 = [] /\
    Characteristic.value <$> cells w2 !! 1 = Some (JBool true).
Proof.
  split; [reflexivity|]. split; [reflexivity|].
  apply (updateValue_twice 1 example_On (JBool true) None JNull example_store
           eq_refl eq_refl).
  discriminate.
Defined.

(** C9 as it is stated fails for NaN, which is not [===] to itself: the
    second [updateValue(NaN)] emits a 'change' event too. *)
Lemma updateValue_NaN_counterexample :
  ~ (forall (w : World) (this : loc) (ch : Characteristic.t) (x : jsval)
            (callback : option fn) (context : jsval),
       cells w !! this = Some ch ->
       exists w1 w2,
         Characteristic_updateValue this x callback context w = (Ok this, w1) /\
         Characteristic_updateValue this x callback context w1 = (Ok this, w2) /\
         changes_since w1 w2 this = []).
Proof.
  intros Hclaim.
  destruct (Hclaim example_store 1 example_On (JNum nan) None JNull eq_refl)
    as (w1 & w2 & Hrun1 & Hrun2 & Hnone).
  apply (f_equal snd) in Hrun1, Hrun2. simpl in Hrun1, Hrun2. subst w1 w2.
  vm_compute in Hnone. discriminate.
Qed.


(** After the promotion of "Hue" the projection of the Lightbulb has three
    Characteristics, the last being "Hue". *)
Example promoted_Hue_is_serialized :
  let r := Service_getCharacteristic 5 (ByType Characteristic_Hue) example_store in
  fst r = Ok (Some 20) /\
  match fst (@Service_toHAP example_runtime 5 None (snd r)) with
  | Ok sh =>
    length (hap_characteristics sh) = 3 /\
    (last (hap_characteristics sh) ≫= (.!! "type"))
    = Some (HVal (JStr "00000013-0000-1000-8000-0026BB765291")) /\
    (last (hap_characteristics sh) ≫= (.!! "value")) = Some (HVal (JNum 0))
  | Throw _ => False
  end.
Proof. vm_compute. repeat split; reflexivity. Qed.

(** * Further properties *)

Section FurtherCharacteristics.
Context `{JSRuntime}.
Import Characteristic.

(** *** Blind writes *)

Lemma setValue_blind_is_updateValue this ch v cb ctx conn w :
  cells w !! this = Some ch ->
  listeners_of "set" (listeners ch) = [] ->
  Characteristic_setValue this v cb ctx conn w = Characteristic_updateValue this v cb ctx w.
Proof.
  intros Hc Hl. unfold Characteristic_setValue, Characteristic_updateValue, bind, get_cell.
  rewrite Hc, Hl.
  destruct (default_fill this v w) as [[v'|e] w1]; [|reflexivity].
  destruct (store_and_notify this v' cb [] ctx w1) as [[[]|e] w2]; reflexivity.
Qed.




(** *** An override that answers without an error *)

(** X2.  When an override answers without an error, that is with a first
    argument that is falsy, the function it was given stores a value,
    calls the callback and emits 'change' when the value is not [===] to
    the cached one.  For a read the value is the one the override gave,
    or the default when it gave none, and the callback gets [(null,
    value)]; for a write it is the value that was requested, whatever the
    override passed, and the callback gets no argument.  (The format is
    neither [array] nor [dictionary].) *)
Theorem override_success_stores_and_notifies this ch cb ctx err nv x w :
  cells w !! this = Some ch ->
  truthy err = false ->
  allocates_default (props ch) = false ->
  let fill := fun y => if nullish y then scalar_default (props ch) else y in
  run_continuation (GetK this cb ctx) err nv w
  = (Ok tt,
     with_trace (trace w ++ call_events cb [JNull; fill nv]
                 ++ (if strict_eq (value ch) (fill nv) then []
                     else change_events ch this (value ch) (fill nv) ctx))
       (with_cells (<[this := with_value (fill nv) ch]> (cells w)) w)) /\
  run_continuation (SetK this x cb ctx) err nv w
  = (Ok tt,
     with_trace (trace w ++ call_events cb []
                 ++ (if strict_eq (value ch) (fill x) then []
                     else change_events ch this (value ch) (fill x) ctx))
       (with_cells (<[this := with_value (fill x) ch]> (cells w)) w)).
Proof.
  intros Hc He Ha fill.
  assert (forall y, default_fill this y w = (Ok (fill y), w)) as Hfill.
  { intros y. unfold fill. destruct (nullish y) eqn:Hy.
    - by apply default_fill_scalar.
    - by apply default_fill_keep. }
  split; simpl; unfold getValue_resolved, setValue_resolved; rewrite He; unfold bind;
    rewrite Hfill; by apply store_and_notify_spec.
Qed.

(** *** Reading the cache *)



(** *** The bounds *)

Lemma SFltb_irrefl a : SFltb a a = false.
Proof.
  unfold SFltb. destruct a as [[]|[]| |[] m e]; simpl; try reflexivity;
    rewrite Z.compare_refl, Pos.compare_refl; reflexivity.
Qed.

Lemma ltb_irrefl x : PrimFloat.ltb x x = false.
Proof. rewrite FloatAxioms.ltb_spec. apply SFltb_irrefl. Qed.

Lemma ToNumber_JNum x : ToNumber (JNum x) = x.
Proof. reflexivity. Qed.

Ltac ltb_done :=
  simpl in *;
  try match goal with
      | E : PrimFloat.ltb ?a ?a = true |- _ => rewrite ltb_irrefl in E; discriminate
      | E1 : PrimFloat.ltb ?a ?b = true, E2 : PrimFloat.ltb ?a ?b = false |- _ =>
        rewrite E1 in E2; discriminate
      end;
  try reflexivity; try assumption; try apply ltb_irrefl.

(** X4.  The value [toHAP] has constrained is never above [maxValue];
    it is never below [minValue] when [maxValue] is unset or is not below
    [minValue]; and constraining it again changes nothing. *)
Theorem toHAP_constrain_bounds p v :
  let r := toHAP_constrain p v in
  (forall hi, maxValue p = Some hi -> js_gt r hi = false) /\
  (forall lo, minValue p = Some lo ->
     (forall hi, maxValue p = Some hi -> PrimFloat.ltb hi lo = false) ->
     js_lt r lo = false) /\
  toHAP_constrain p r = r.
Proof.
  unfold toHAP_constrain, js_lt, js_gt.
  destruct (minValue p) as [lo|], (maxValue p) as [hi|]; simpl.
  - destruct (PrimFloat.ltb (ToNumber v) lo) eqn:E1; simpl;
      [destruct (PrimFloat.ltb hi lo) eqn:E2 | destruct (PrimFloat.ltb hi (ToNumber v)) eqn:E2];
      simpl; rewrite ?ltb_irrefl, ?E1, ?E2; simpl; rewrite ?ltb_irrefl, ?E1, ?E2; simpl;
      (split; [intros ? [= <-]|split; [intros ? [= <-] Hord; specialize (Hord _ eq_refl)|]]);
      ltb_done.
    destruct (PrimFloat.ltb hi lo) eqn:E3; simpl; rewrite ?E3, ?ltb_irrefl; reflexivity.
  - destruct (PrimFloat.ltb (ToNumber v) lo) eqn:E1; simpl; rewrite ?ltb_irrefl, ?E1;
      (split; [intros ? [=]|split; [intros ? [= <-] _|]]); ltb_done.
  - destruct (PrimFloat.ltb hi (ToNumber v)) eqn:E1; simpl; rewrite ?ltb_irrefl, ?E1;
      (split; [intros ? [= <-]|split; [intros ? [=]|]]); ltb_done.
  - split; [intros ? [=]|split; [intros ? [=]|]]; reflexivity.
Qed.

(** *** The default value and the lower bound *)

Lemma SFltb_zero_falsy a :
  SFeqb a (S754_zero false) = true \/ SFeqb a a = false -> SFltb (S754_zero false) a = false.
Proof.
  unfold SFeqb, SFltb. destruct a as [[]|[]| |[] m e]; simpl; try reflexivity;
    intros [Hz|Hn]; try discriminate.
  all: rewrite Z.compare_refl, Pos.compare_refl in Hn; discriminate.
Qed.

Lemma ltb_zero_falsy x : float_truthy x = false -> PrimFloat.ltb 0 x = false.
Proof.
  unfold float_truthy, PrimFloat.is_nan. intros Hx. apply negb_false_iff in Hx.
  rewrite FloatAxioms.ltb_spec. change (Prim2SF 0) with (S754_zero false).
  apply SFltb_zero_falsy. rewrite !FloatAxioms.eqb_spec in Hx.
  change (Prim2SF 0) with (S754_zero false) in Hx.
  apply orb_true_iff in Hx as [Hz|Hn]; [by left|right]. by apply negb_true_iff in Hn.
Qed.

(** X5.  With a [minValue], the default of a numeric format is never
    below it: [getDefaultValue] returns [minValue] itself, or 0 when
    [minValue] is 0 or NaN. *)
Theorem default_is_not_below_minValue this ch lo w :
  cells w !! this = Some ch ->
  minValue (props ch) = Some lo ->
  exists v w',
    Characteristic_getDefaultValue this w = (Ok v, w') /\
    forall x, v = JNum x ->
      js_lt v lo = false /\ x = (if float_truthy lo then lo else 0%float).
Proof.
  intros Hc Hlo.
  assert (js_lt (JNum (minValue_or_0 (props ch))) lo = false
          /\ minValue_or_0 (props ch) = (if float_truthy lo then lo else 0%float)) as Hnum.
  { unfold js_lt, minValue_or_0. rewrite Hlo. simpl.
    destruct (float_truthy lo) eqn:E; split; try reflexivity;
      [apply ltb_irrefl | by apply ltb_zero_falsy]. }
  unfold Characteristic_getDefaultValue, bind, get_cell. rewrite Hc.
  destruct (format (props ch)) as [[]|]; eexists _, _; (split; [reflexivity|]);
    intros x [= <-]; exact Hnum.
Qed.

(** *** [setProps] *)


(** *** The keys of the projection *)

Lemma lookup_opt_insert {A V} (o : option A) (f : A -> V) (k k' : string) (m : gmap string V) :
  k <> k' ->
  (match o with Some x => <[k := f x]> m | None => m end) !! k' = m !! k'.
Proof. intros Hk. destruct o; [by rewrite lookup_insert_ne|reflexivity]. Qed.

Lemma lookup_opt_insert_eq {A V} (o : option A) (f : A -> V) (k : string) (m : gmap string V) :
  m !! k = None ->
  (match o with Some x => <[k := f x]> m | None => m end) !! k = f <$> o.
Proof. intros Hk. destruct o; [by rewrite lookup_insert_eq|done]. Qed.

Lemma lookup_if_insert {V} (b : bool) (x : V) (k k' : string) (m : gmap string V) :
  k <> k' ->
  (if b then <[k := x]> m else m) !! k' = m !! k'.
Proof. intros Hk. destruct b; [by rewrite lookup_insert_ne|reflexivity]. Qed.

Lemma lookup_if_insert_eq {V} (b : bool) (x : V) (k : string) (m : gmap string V) :
  m !! k = None ->
  (if b then <[k := x]> m else m) !! k = if b then Some x else None.
Proof. intros Hk. destruct b; [by rewrite lookup_insert_eq|done]. Qed.

Ltac object_key :=
  unfold toHAP_object;
  repeat first
    [ rewrite lookup_opt_insert by done
    | rewrite lookup_if_insert by done
    | rewrite lookup_insert_ne by done ].

Lemma toHAP_object_fixed ch v :
  toHAP_object ch v !! "iid" = Some (HVal (iid ch)) /\
  toHAP_object ch v !! "type" = Some (HVal (JStr (UUID ch))) /\
  toHAP_object ch v !! "description" = Some (HVal (JStr (displayName ch))) /\
  toHAP_object ch v !! "perms" = Some (HArr (map (fun q => JStr (Perm_str q)) (perms (props ch)))) /\
  toHAP_object ch v !! "format"
  = Some (HVal (match format (props ch) with Some f => JStr (Format_str f) | None => JNull end)).
Proof.
  repeat split; object_key; by rewrite ?lookup_insert_eq.
Qed.

Lemma toHAP_object_optional ch v :
  toHAP_object ch v !! "unit" = (fun u => HVal (JStr (Unit_str u))) <$> unit (props ch) /\
  toHAP_object ch v !! "minValue" = (fun x => HVal (JNum x)) <$> minValue (props ch) /\
  toHAP_object ch v !! "maxValue" = (fun x => HVal (JNum x)) <$> maxValue (props ch) /\
  toHAP_object ch v !! "minStep" = (fun x => HVal (JNum x)) <$> minStep (props ch) /\
  toHAP_object ch v !! "valid-values"
  = (if nonempty (validValues (props ch))
     then Some (HArr (map JNum (default [] (validValues (props ch))))) else None) /\
  toHAP_object ch v !! "valid-values-range"
  = (if nonempty (validValueRanges (props ch))
        && Nat.even (length (default [] (validValueRanges (props ch))))
     then Some (HArr (map JNum (default [] (validValueRanges (props ch))))) else None).
Proof.
  repeat split; object_key;
    first [ rewrite lookup_opt_insert_eq; [reflexivity|]
          | rewrite lookup_if_insert_eq; [reflexivity|] ];
    object_key; done.
Qed.

Lemma toHAP_maxLen_other p v hap w hap0 w' k :
  toHAP_maxLen p v hap w = (Ok hap0, w') ->
  k <> "value" -> k <> "maxLen" -> hap0 !! k = hap !! k.
Proof.
  unfold toHAP_maxLen. intros Hrun Hv Hm.
  destruct (format p) as [[]|]; try (injection Hrun as <- _; reflexivity).
  unfold bind in Hrun. destruct (Buffer_new v w) as [[str|e] w1]; [|discriminate].
  destruct (256 <? _)%nat; [|destruct (64 <? _)%nat]; injection Hrun as <- _;
    by rewrite ?lookup_insert_ne.
Qed.

Lemma toHAP_maxLen_value p v hap w hap0 w' :
  toHAP_maxLen p v hap w = (Ok hap0, w') ->
  is_Some (hap !! "value") -> is_Some (hap0 !! "value").
Proof.
  unfold toHAP_maxLen. intros Hrun Hv.
  destruct (format p) as [[]|]; try (injection Hrun as <- _; exact Hv).
  unfold bind in Hrun. destruct (Buffer_new v w) as [[str|e] w1]; [|discriminate].
  destruct (256 <? _)%nat; [|destruct (64 <? _)%nat]; injection Hrun as <- _;
    rewrite ?lookup_insert_ne by done; rewrite ?lookup_insert_eq; eauto.
Qed.

(** X7.  The object [toHAP] returns has a "value" key exactly when the
    permissions contain READ and the option [omitValues] is not truthy. *)
Theorem toHAP_value_key this ch opt w hap w' :
  cells w !! this = Some ch ->
  Characteristic_toHAP this opt w = (Ok hap, w') ->
  (is_Some (hap !! "value") <-> (READ ∈ perms (props ch)) /\ omits opt = false).
Proof.
  intros Hc Hrun.
  apply toHAP_Ok in Hrun as (ch' & hap0 & Hc' & Hlen & -> & _).
  rewrite Hc in Hc'. injection Hc' as <-.
  apply toHAP_maxLen_value in Hlen; [|rewrite toHAP_object_value; eauto].
  rewrite <- has_READ_elem. unfold toHAP_omit, omits.
  destruct (has_READ (props ch)); simpl;
    (destruct opt as [o|]; [destruct (truthy (omitValues o))|]);
    rewrite ?lookup_delete_eq; split; try done;
    try (intros [? ?]; discriminate); try (intros [? [=]]); intros [? ?]; done.
Qed.

(** X8.  What [toHAP] reports beside the value: "iid", "type",
    "description", "perms" and "format" always, from the cell as it is;
    "unit", "minValue", "maxValue" and "minStep" exactly when they are
    set, as they are set; "valid-values" when the list is not empty, and
    "valid-values-range" when the list is not empty and of even
    length. *)
Theorem toHAP_metadata this ch opt w hap w' :
  cells w !! this = Some ch ->
  Characteristic_toHAP this opt w = (Ok hap, w') ->
  let p := props ch in
  hap !! "iid" = Some (HVal (iid ch)) /\
  hap !! "type" = Some (HVal (JStr (UUID ch))) /\
  hap !! "description" = Some (HVal (JStr (displayName ch))) /\
  hap !! "perms" = Some (HArr (map (fun q => JStr (Perm_str q)) (perms p))) /\
  hap !! "format"
  = Some (HVal (match format p with Some f => JStr (Format_str f) | None => JNull end)) /\
  hap !! "unit" = (fun u => HVal (JStr (Unit_str u))) <$> unit p /\
  hap !! "minValue" = (fun x => HVal (JNum x)) <$> minValue p /\
  hap !! "maxValue" = (fun x => HVal (JNum x)) <$> maxValue p /\
  hap !! "minStep" = (fun x => HVal (JNum x)) <$> minStep p /\
  hap !! "valid-values"
  = (if nonempty (validValues p)
     then Some (HArr (map JNum (default [] (validValues p)))) else None) /\
  hap !! "valid-values-range"
  = (if nonempty (validValueRanges p) && Nat.even (length (default [] (validValueRanges p)))
     then Some (HArr (map JNum (default [] (validValueRanges p)))) else None).
Proof.
  intros Hc Hrun p.
  apply toHAP_Ok in Hrun as (ch' & hap0 & Hc' & Hlen & -> & _).
  rewrite Hc in Hc'. injection Hc' as <-.
  rewrite !toHAP_omit_other by done.
  rewrite !(toHAP_maxLen_other _ _ _ _ _ _ _ Hlen) by done.
  match goal with |- context [toHAP_object ch ?v] =>
    destruct (toHAP_object_fixed ch v) as (? & ? & ? & ? & ?);
    destruct (toHAP_object_optional ch v) as (? & ? & ? & ? & ? & ?)
  end.
  repeat split; assumption.
Qed.


(** *** Strings of one-byte characters *)

Lemma utf8_decode_ascii s : is_ascii s = true -> utf8_decode s = s.
Proof.
  induction s as [|a s IH]; intros Hs; [reflexivity|].
  simpl in Hs. apply andb_true_iff in Hs as [Ha Ht].
  cbn [utf8_decode]. rewrite Ha. f_equal. by apply IH.
Qed.

Lemma is_ascii_substring n s : is_ascii s = true -> is_ascii (substring 0 n s) = true.
Proof.
  revert s. induction n as [|n IH]; intros [|a s] Hs; try reflexivity.
  simpl in *. apply andb_true_iff in Hs as [Ha Ht]. rewrite Ha. simpl. by apply IH.
Qed.

Lemma substring_0_all n s : String.length s <= n -> substring 0 n s = s.
Proof.
  revert s. induction n as [|n IH]; intros [|a s] Hs; simpl in *; try reflexivity; try lia.
  f_equal. apply IH. lia.
Qed.

(** X10.  For a cell of format [string] that can be read and holds a
    string of one-byte characters: the "value" is the first 256 bytes of
    the string, which is the whole of it up to 256 bytes; "maxLen" is 256
    above 256 bytes, the length above 64 bytes, and absent below. *)
Theorem toHAP_ascii_string this ch s w :
  cells w !! this = Some ch ->
  format (props ch) = Some STRING ->
  toHAP_constrain (props ch) (value ch) = JStr s ->
  has_READ (props ch) = true ->
  is_ascii s = true ->
  exists hap,
    Characteristic_toHAP this None w = (Ok hap, w) /\
    hap !! "value" = Some (HVal (JStr (substring 0 256 s))) /\
    String.length (substring 0 256 s) = Nat.min 256 (String.length s) /\
    (String.length s <= 256 -> substring 0 256 s = s) /\
    hap !! "maxLen"
    = (if (256 <? String.length s)%nat then Some (HVal (JNum 256))
       else if (64 <? String.length s)%nat
            then Some (HVal (JNum (float_of_nat (String.length s))))
            else None).
Proof.
  intros Hc Hf Hv Hr Hs.
  destruct (toHAP_string_lengths this ch s w Hc Hf Hv Hr) as (hap & Hrun & Hbig & Hmid & Hsmall).
  exists hap. split; [exact Hrun|].
  rewrite (utf8_decode_ascii (substring 0 256 s)) in Hbig by by apply is_ascii_substring.
  split; [|split; [apply length_substring_0|split; [apply substring_0_all|]]].
  - destruct (Nat.le_gt_cases (String.length s) 256) as [Hle|Hgt].
    + rewrite substring_0_all by done.
      destruct (Nat.le_gt_cases (String.length s) 64) as [Hle'|Hgt'].
      * by apply Hsmall.
      * by apply Hmid.
    + by apply Hbig.
  - destruct (256 <? String.length s)%nat eqn:E256.
    + apply Nat.ltb_lt in E256. by apply Hbig.
    + apply Nat.ltb_ge in E256. destruct (64 <? String.length s)%nat eqn:E64.
      * apply Nat.ltb_lt in E64. by apply Hmid.
      * apply Nat.ltb_ge in E64. by apply Hsmall.
Qed.

(** *** Strings that are well-formed UTF-8 *)

Lemma lead_info_count b n lo hi : lead_info b = Some (n, lo, hi) -> n = 1 \/ n = 2 \/ n = 3.
Proof.
  unfold lead_info.
  repeat match goal with |- context [if ?c then _ else _] => destruct c end;
    intros [= <- _ _]; auto.
Qed.

Lemma lead_info_not_ascii b i : lead_info b = Some i -> (byte b <? 128)%N = false.
Proof.
  unfold lead_info. destruct (byte b <? 194)%N eqn:E; [discriminate|]. intros _.
  apply N.ltb_ge in E. apply N.ltb_ge. lia.
Qed.

Lemma decode_1 b t : (byte b <? 128)%N = true -> utf8_decode (String b t) = String b (utf8_decode t).
Proof. intros Hb. cbn [utf8_decode]. by rewrite Hb. Qed.

Lemma decode_2 b1 b2 t lo hi :
  lead_info b1 = Some (1, lo, hi) -> in_range lo hi b2 = true ->
  utf8_decode (String b1 (String b2 t)) = String b1 (String b2 (utf8_decode t)).
Proof.
  intros Hl Hr. cbn [utf8_decode]. rewrite (lead_info_not_ascii _ _ Hl), Hl, Hr. reflexivity.
Qed.

Lemma decode_3 b1 b2 b3 t lo hi :
  lead_info b1 = Some (2, lo, hi) -> in_range lo hi b2 = true -> is_cont b3 = true ->
  utf8_decode (String b1 (String b2 (String b3 t)))
  = String b1 (String b2 (String b3 (utf8_decode t))).
Proof.
  intros Hl Hr Hc. cbn [utf8_decode]. rewrite (lead_info_not_ascii _ _ Hl), Hl, Hr, Hc.
  reflexivity.
Qed.

Lemma decode_4 b1 b2 b3 b4 t lo hi :
  lead_info b1 = Some (3, lo, hi) -> in_range lo hi b2 = true -> is_cont b3 = true ->
  is_cont b4 = true ->
  utf8_decode (String b1 (String b2 (String b3 (String b4 t))))
  = String b1 (String b2 (String b3 (String b4 (utf8_decode t)))).
Proof.
  intros Hl Hr Hc Hc'. cbn [utf8_decode].
  rewrite (lead_info_not_ascii _ _ Hl), Hl, Hr, Hc, Hc'. reflexivity.
Qed.

(** A sequence cut short is one U+FFFD. *)
Lemma decode_cut_1 b i : lead_info b = Some i -> utf8_decode (String b "") = REPLACEMENT.
Proof.
  intros Hl. cbn [utf8_decode]. rewrite (lead_info_not_ascii _ _ Hl), Hl.
  by destruct i as [[n lo] hi].
Qed.

Lemma decode_cut_2 b1 b2 n lo hi :
  lead_info b1 = Some (S (S n), lo, hi) -> in_range lo hi b2 = true ->
  utf8_decode (String b1 (String b2 "")) = REPLACEMENT.
Proof.
  intros Hl Hr. cbn [utf8_decode]. rewrite (lead_info_not_ascii _ _ Hl), Hl, Hr. reflexivity.
Qed.

Lemma decode_cut_3 b1 b2 b3 lo hi :
  lead_info b1 = Some (3, lo, hi) -> in_range lo hi b2 = true -> is_cont b3 = true ->
  utf8_decode (String b1 (String b2 (String b3 ""))) = REPLACEMENT.
Proof.
  intros Hl Hr Hc. cbn [utf8_decode]. rewrite (lead_info_not_ascii _ _ Hl), Hl, Hr, Hc.
  reflexivity.
Qed.

Lemma replacement_head b t s :
  (REPLACEMENT ++ s)%string = String b t ->
  b = ascii_of_N 239 /\ t = (String (ascii_of_N 191) (String (ascii_of_N 189) s)).
Proof. unfold REPLACEMENT. simpl. intros [= <- <-]. done. Qed.

Lemma well_formed_inv b1 t1 :
  utf8_decode (String b1 t1) = String b1 t1 ->
  exists t, first_char (String b1 t1) t /\ utf8_decode t = t.
Proof.
  intros Hd. destruct (byte b1 <? 128)%N eqn:Ha.
  { rewrite decode_1 in Hd by done. injection Hd as Hd. exists t1. split; [by constructor|done]. }
  cbn [utf8_decode] in Hd. rewrite Ha in Hd.
  destruct (lead_info b1) as [[[n lo] hi]|] eqn:Hl.
  2: { apply replacement_head in Hd as [-> _]. vm_compute in Hl. discriminate. }
  destruct t1 as [|b2 t2]; [discriminate|].
  destruct (in_range lo hi b2) eqn:Hr; simpl in Hd.
  2: { apply replacement_head in Hd as [-> Ht]. vm_compute in Hl.
       assert (lo = 128%N /\ hi = 191%N) as [-> ->] by (split; congruence).
       assert (b2 = ascii_of_N 191) as -> by congruence.
       vm_compute in Hr. discriminate. }
  destruct (lead_info_count _ _ _ _ Hl) as [-> | [-> | ->]].
  - injection Hd as Hd. exists t2. split; [by econstructor|done].
  - destruct t2 as [|b3 t3].
    { cbv iota beta in Hd. unfold REPLACEMENT in Hd. discriminate Hd. }
    destruct (is_cont b3) eqn:Hc; simpl in Hd.
    2: { apply replacement_head in Hd as [-> Ht].
         assert (b3 = ascii_of_N 189) as -> by congruence.
         vm_compute in Hc. discriminate. }
    injection Hd as Hd. exists t3. split; [by econstructor|done].
  - destruct t2 as [|b3 t3].
    { cbv iota beta in Hd. unfold REPLACEMENT in Hd. discriminate Hd. }
    destruct (is_cont b3) eqn:Hc; simpl in Hd.
    2: { apply replacement_head in Hd as [-> _]. vm_compute in Hl. discriminate. }
    destruct t3 as [|b4 t4].
    { cbv iota beta in Hd. unfold REPLACEMENT in Hd.
      assert (b1 = ascii_of_N 239) as -> by congruence. vm_compute in Hl. discriminate. }
    destruct (is_cont b4) eqn:Hc'; simpl in Hd.
    2: { apply replacement_head in Hd as [-> _]. vm_compute in Hl. discriminate. }
    injection Hd as Hd. exists t4. split; [by econstructor|done].
Qed.

Lemma decode_prefix_bound m : forall s n,
  String.length s <= m ->
  utf8_decode s = s ->
  String.length (utf8_decode (substring 0 n s)) <= n + 2.
Proof.
  induction m as [|m IH]; intros s n Hm Hd.
  { destruct s; [|simpl in Hm; lia]. destruct n; simpl; lia. }
  destruct s as [|b1 t1]; [destruct n; simpl; lia|].
  destruct (well_formed_inv _ _ Hd) as (t & Hfirst & Ht).
  inversion Hfirst as [? ? Hb | ? ? ? ? ? Hl Hr | ? ? ? ? ? ? Hl Hr Hc | ? ? ? ? ? ? ? Hl Hr Hc Hc'];
    subst.
  - destruct n as [|n]; [simpl; lia|].
    change (substring 0 (S n) (String b1 t)) with (String b1 (substring 0 n t)).
    rewrite decode_1 by done. simpl in *. specialize (IH t n ltac:(lia) Ht). lia.
  - destruct n as [|[|n]]; [simpl; lia| |].
    + change (substring 0 1 (String b1 (String b2 t))) with (String b1 "").
      rewrite (decode_cut_1 _ _ Hl). simpl. lia.
    + change (substring 0 (S (S n)) (String b1 (String b2 t)))
        with (String b1 (String b2 (substring 0 n t))).
      rewrite (decode_2 _ _ _ _ _ Hl Hr). simpl in *. specialize (IH t n ltac:(lia) Ht). lia.
  - destruct n as [|[|[|n]]]; [simpl; lia| | |].
    + change (substring 0 1 (String b1 (String b2 (String b3 t)))) with (String b1 "").
      rewrite (decode_cut_1 _ _ Hl). simpl. lia.
    + change (substring 0 2 (String b1 (String b2 (String b3 t))))
        with (String b1 (String b2 "")).
      rewrite (decode_cut_2 _ _ _ _ _ Hl Hr). simpl. lia.
    + change (substring 0 (S (S (S n))) (String b1 (String b2 (String b3 t))))
        with (String b1 (String b2 (String b3 (substring 0 n t)))).
      rewrite (decode_3 _ _ _ _ _ _ Hl Hr Hc). simpl in *.
      specialize (IH t n ltac:(lia) Ht). lia.
  - destruct n as [|[|[|[|n]]]]; [simpl; lia| | | |].
    + change (substring 0 1 (String b1 (String b2 (String b3 (String b4 t)))))
        with (String b1 "").
      rewrite (decode_cut_1 _ _ Hl). simpl. lia.
    + change (substring 0 2 (String b1 (String b2 (String b3 (String b4 t)))))
        with (String b1 (String b2 "")).
      rewrite (decode_cut_2 _ _ _ _ _ Hl Hr). simpl. lia.
    + change (substring 0 3 (String b1 (String b2 (String b3 (String b4 t)))))
        with (String b1 (String b2 (String b3 ""))).
      rewrite (decode_cut_3 _ _ _ _ _ Hl Hr Hc). simpl. lia.
    + change (substring 0 (S (S (S (S n)))) (String b1 (String b2 (String b3 (String b4 t)))))
        with (String b1 (String b2 (String b3 (String b4 (substring 0 n t))))).
      rewrite (decode_4 _ _ _ _ _ _ _ Hl Hr Hc Hc'). simpl in *.
      specialize (IH t n ltac:(lia) Ht). lia.
Qed.

(** X11.  For a cell of format [string] that can be read and holds
    well-formed UTF-8: the "value" [toHAP] emits has at most 258 bytes,
    and is the string itself up to 256 bytes.  (A character cut in two
    at byte 256 becomes one U+FFFD, of three bytes.) *)
Theorem toHAP_string_is_at_most_258_bytes this ch s w :
  cells w !! this = Some ch ->
  format (props ch) = Some STRING ->
  toHAP_constrain (props ch) (value ch) = JStr s ->
  has_READ (props ch) = true ->
  utf8_decode s = s ->
  exists hap t,
    Characteristic_toHAP this None w = (Ok hap, w) /\
    hap !! "value" = Some (HVal (JStr t)) /\
    String.length t <= 258 /\
    (String.length s <= 256 -> t = s).
Proof.
  intros Hc Hf Hv Hr Hs.
  destruct (toHAP_string_lengths this ch s w Hc Hf Hv Hr) as (hap & Hrun & Hbig & Hmid & Hsmall).
  destruct (Nat.le_gt_cases (String.length s) 256) as [Hle|Hgt].
  - exists hap, s. split; [exact Hrun|].
    split; [|split; [lia|done]].
    destruct (Nat.le_gt_cases (String.length s) 64) as [Hle'|Hgt'].
    + by apply Hsmall.
    + by apply Hmid.
  - exists hap, (utf8_decode (substring 0 256 s)). split; [exact Hrun|].
    split; [by apply Hbig|]. split; [|lia].
    apply (decode_prefix_bound (String.length s) s 256); [lia|done].
Qed.

(** *** [decimalPlaces] *)

Lemma span_digits_app d r :
  all_digits d = true ->
  match r with String a _ => is_digit a = false | EmptyString => True end ->
  span_digits (d ++ r)%string = (d, r).
Proof.
  intros Hd Hr. induction d as [|a d IH]; simpl in *.
  - destruct r as [|a r]; [reflexivity|]. simpl. by rewrite Hr.
  - apply andb_true_iff in Hd as [Ha Hd]. rewrite Ha, IH by done. reflexivity.
Qed.

Lemma span_digits_all d : all_digits d = true -> span_digits d = (d, "").
Proof.
  intros Hd. induction d as [|a d IH]; simpl in *; [reflexivity|].
  apply andb_true_iff in Hd as [Ha Hd]. by rewrite Ha, IH.
Qed.

Lemma match_here_skip a t : starts_no_match a = true -> match_here (String a t) = None.
Proof.
  intros Ha. destruct a as [[] [] [] [] [] [] [] []]; try discriminate Ha; reflexivity.
Qed.

Lemma regexp_match_skip pre s :
  no_match_inside pre = true -> regexp_match (pre ++ s)%string = regexp_match s.
Proof.
  intros Hp. induction pre as [|a pre IH]; [reflexivity|].
  simpl in Hp. apply andb_true_iff in Hp as [Ha Hp].
  change (String a pre ++ s)%string with (String a (pre ++ s)%string).
  cbn [regexp_match]. rewrite match_here_skip by done. by apply IH.
Qed.

Lemma is_digit_no_e a : is_digit a = true -> Ascii.eqb a "e" || Ascii.eqb a "E" = false.
Proof.
  intros Ha. destruct a as [[] [] [] [] [] [] [] []]; try discriminate Ha; reflexivity.
Qed.

Lemma eqb_empty_false a d : String.eqb (String a d) "" = false.
Proof. reflexivity. Qed.

(** The exponent, tried where it starts. *)
Lemma match_exponent g1 sg ex :
  sg = "" \/ sg = "+" \/ sg = "-" ->
  all_digits ex = true -> ex <> "" ->
  (let '(sign, t') :=
     match (sg ++ ex)%string with
     | String "+" u => ("+", u)
     | String "-" u => ("-", u)
     | _ => ("", (sg ++ ex)%string)
     end in
   let (d, r) := span_digits t' in
   if negb (String.eqb d "") && String.eqb r "" then Some (g1, Some (sign ++ d)%string) else None)
  = Some (g1 : option string, Some (sg ++ ex)%string).
Proof.
  intros Hsg Hex Hne. destruct ex as [|a ex]; [done|].
  destruct Hsg as [-> | [-> | ->]].
  - simpl in Hex. apply andb_true_iff in Hex as [Ha Hex].
    change ("" ++ String a ex)%string with (String a ex).
    assert (span_digits (String a ex) = (String a ex, "")) as Hsp
        by (apply span_digits_all; simpl; by rewrite Ha, Hex).
    destruct a as [[] [] [] [] [] [] [] []]; try discriminate Ha;
      cbv zeta iota beta; rewrite Hsp; reflexivity.
  - change ("+" ++ String a ex)%string with (String "+" (String a ex)). cbv zeta iota beta.
    rewrite span_digits_all by done. reflexivity.
  - change ("-" ++ String a ex)%string with (String "-" (String a ex)). cbv zeta iota beta.
    rewrite span_digits_all by done. reflexivity.
Qed.

Lemma append_empty_r s : (s ++ "")%string = s.
Proof.
  induction s as [|a s IH]; [reflexivity|].
  change (String a (s ++ "")%string = String a s). by rewrite IH.
Qed.

Lemma match_here_exponent sg ex :
  sg = "" \/ sg = "+" \/ sg = "-" ->
  all_digits ex = true -> ex <> "" ->
  match_here ("e" ++ sg ++ ex)%string = Some (None, Some (sg ++ ex)%string).
Proof.
  intros Hsg Hex Hne. change ("e" ++ sg ++ ex)%string with (String "e" (sg ++ ex)%string).
  unfold match_here. cbv zeta iota beta.
  change (Ascii.eqb "e" "e" || Ascii.eqb "e" "E") with true. cbv iota.
  by apply match_exponent.
Qed.

Lemma match_here_fraction frac :
  all_digits frac = true -> frac <> "" ->
  match_here ("." ++ frac)%string = Some (Some frac, None).
Proof.
  intros Hf Hne. change ("." ++ frac)%string with (String "." frac).
  unfold match_here. rewrite span_digits_all by done.
  destruct frac as [|a frac]; [done|]. reflexivity.
Qed.

Lemma match_here_fraction_exponent frac sg ex :
  all_digits frac = true -> frac <> "" ->
  sg = "" \/ sg = "+" \/ sg = "-" ->
  all_digits ex = true -> ex <> "" ->
  match_here ("." ++ frac ++ "e" ++ sg ++ ex)%string
  = Some (Some frac, Some (sg ++ ex)%string).
Proof.
  intros Hf Hne Hsg Hex Hne'.
  change ("." ++ frac ++ "e" ++ sg ++ ex)%string
    with (String "." (frac ++ String "e" (sg ++ ex))%string).
  unfold match_here. rewrite span_digits_app by done.
  destruct frac as [|a frac]; [done|]. rewrite eqb_empty_false.
  cbv zeta iota beta.
  change (Ascii.eqb "e" "e" || Ascii.eqb "e" "E") with true. cbv iota.
  by apply match_exponent.
Qed.

(** X12.  [decimalPlaces] reads the text of the number: 0 without a
    fraction and without an exponent; the number of digits of the
    fraction; that number less the exponent, and never less than 0, when
    there is an exponent.  ([pre] stands for what comes before: a sign
    and digits, or a word like NaN or Infinity.) *)
Theorem decimalPlaces_reads_the_text num pre frac sg ex :
  no_match_inside pre = true ->
  all_digits frac = true -> frac <> "" ->
  sg = "" \/ sg = "+" \/ sg = "-" ->
  all_digits ex = true -> ex <> "" ->
  (NumberToString num = pre -> decimalPlaces num = 0%Z) /\
  (NumberToString num = (pre ++ "." ++ frac)%string ->
   decimalPlaces num = Z.of_nat (String.length frac)) /\
  (NumberToString num = (pre ++ "e" ++ sg ++ ex)%string ->
   decimalPlaces num = Z.max 0 (- signed_value (sg ++ ex)%string)) /\
  (NumberToString num = (pre ++ "." ++ frac ++ "e" ++ sg ++ ex)%string ->
   decimalPlaces num
   = Z.max 0 (Z.of_nat (String.length frac) - signed_value (sg ++ ex)%string)).
Proof.
  intros Hp Hf Hne Hsg Hex Hne'. unfold decimalPlaces.
  repeat split; intros ->.
  - rewrite <- (append_empty_r pre), regexp_match_skip by done. reflexivity.
  - rewrite regexp_match_skip by done.
    assert (regexp_match ("." ++ frac)%string = (Some frac, None)) as ->.
    { change ("." ++ frac)%string with (String "." frac). cbn [regexp_match].
      change (String "." frac) with ("." ++ frac)%string.
      by rewrite match_here_fraction. }
    lia.
  - rewrite regexp_match_skip by done.
    assert (regexp_match ("e" ++ sg ++ ex)%string = (None, Some (sg ++ ex)%string)) as ->.
    { change ("e" ++ sg ++ ex)%string with (String "e" (sg ++ ex)%string). cbn [regexp_match].
      change (String "e" (sg ++ ex)%string) with ("e" ++ sg ++ ex)%string.
      by rewrite match_here_exponent. }
    reflexivity.
  - rewrite regexp_match_skip by done.
    assert (regexp_match ("." ++ frac ++ "e" ++ sg ++ ex)%string
            = (Some frac, Some (sg ++ ex)%string)) as ->.
    { change ("." ++ frac ++ "e" ++ sg ++ ex)%string
        with (String "." (frac ++ "e" ++ sg ++ ex)%string). cbn [regexp_match].
      change (String "." (frac ++ "e" ++ sg ++ ex)%string)
        with ("." ++ frac ++ "e" ++ sg ++ ex)%string.
      by rewrite match_here_fraction_exponent. }
    reflexivity.
Qed.

(** *** The registries *)

Lemma within_bounds_constrain p v : within_bounds p v = true -> toHAP_constrain p v = v.
Proof.
  unfold within_bounds, toHAP_constrain, js_lt, js_gt.
  destruct v as [| | |x| |]; destruct (minValue p) as [lo|], (maxValue p) as [hi|];
    try discriminate; try reflexivity; simpl; intros Hb.
  - apply andb_true_iff in Hb as [Hlo Hhi]. apply negb_true_iff in Hlo, Hhi.
    rewrite Hlo. simpl. by rewrite Hhi.
  - apply andb_true_iff in Hb as [Hlo _]. apply negb_true_iff in Hlo. by rewrite Hlo.
  - apply negb_true_iff in Hb. by rewrite Hb.
Qed.

Lemma well_registered_scalar ty : well_registered ty = true -> scalar_type ty.
Proof.
  unfold well_registered, scalar_type. intros Hw.
  apply andb_true_iff in Hw as [Hw _]. apply andb_true_iff in Hw as [Hw _].
  apply andb_true_iff in Hw as [_ Hsc]. by apply negb_true_iff in Hsc.
Qed.

Lemma well_registered_spec ty :
  well_registered ty = true ->
  static_UUID ty = Some (new_UUID ty) /\
  scalar_type ty /\
  (forall lo hi,
     minValue (props (fresh_cell ty)) = Some lo ->
     maxValue (props (fresh_cell ty)) = Some hi ->
     PrimFloat.ltb hi lo = false) /\
  toHAP_constrain (props (fresh_cell ty)) (value (fresh_cell ty)) = value (fresh_cell ty).
Proof.
  intros Hw. pose proof (well_registered_scalar ty Hw) as Hscalar.
  unfold well_registered in Hw.
  apply andb_true_iff in Hw as [Hw Hin]. apply andb_true_iff in Hw as [Hw Hord].
  apply andb_true_iff in Hw as [Hst Hsc].
  split; [|split; [|split]].
  - unfold static_UUID_is in Hst. destruct (static_UUID ty) as [u|]; [|discriminate].
    apply String.eqb_eq in Hst. by subst u.
  - exact Hscalar.
  - intros lo hi Hlo Hhi. unfold bounds_ordered in Hord. rewrite Hlo, Hhi in Hord.
    by apply negb_true_iff in Hord.
  - by apply within_bounds_constrain.
Qed.

Lemma Characteristic_registry_checked : forallb well_registered Characteristic_registry = true.
Proof. vm_compute. reflexivity. Qed.

(** X13.  Every constructor of Characteristic.js has its static UUID equal
    to the UUID of its instances, a format that is neither [array] nor
    [dictionary], bounds in order, and a new instance whose value the
    constraints of [toHAP] leave as it is; no two of the 137 have the
    same UUID. *)
Theorem registry_of_Characteristics :
  (forall ty, ty ∈ Characteristic_registry ->
     static_UUID ty = Some (new_UUID ty) /\
     scalar_type ty /\
     (forall lo hi,
        minValue (props (fresh_cell ty)) = Some lo ->
        maxValue (props (fresh_cell ty)) = Some hi ->
        PrimFloat.ltb hi lo = false) /\
     toHAP_constrain (props (fresh_cell ty)) (value (fresh_cell ty))
     = value (fresh_cell ty)) /\
  NoDup (map new_UUID Characteristic_registry) /\
  NoDup (map type_id Characteristic_registry) /\
  length Characteristic_registry = 137.
Proof.
  split; [|split; [|split]].
  - intros ty Hin. apply well_registered_spec.
    pose proof Characteristic_registry_checked as Hall.
    rewrite forallb_forall in Hall. apply Hall. by apply list_elem_of_In.
  - refine (bool_decide_unpack _ _). vm_compute. exact I.
  - refine (bool_decide_unpack _ _). vm_compute. exact I.
  - reflexivity.
Qed.
End FurtherCharacteristics.

Section FurtherServices.
Context `{JSRuntime}.

(** *** Lookups in a Service *)

Lemma find_cell_found f l w c :
  find_cell f l w = (Ok (Some c), w) ->
  c ∈ l /\ exists ch, cells w !! c = Some ch /\ f ch = true.
Proof.
  induction l as [|x l IH]; simpl; [discriminate|].
  unfold bind, get_cell. destruct (cells w !! x) as [xc|] eqn:Hx; [|discriminate].
  destruct (f xc) eqn:Hf.
  - intros [= <-]. split; [by left|]. eauto.
  - intros Hrun. destruct (IH Hrun) as [Hin Hch]. split; [by right | done].
Qed.

Lemma find_cell_total f l w :
  (forall c, c ∈ l -> is_Some (cells w !! c)) ->
  exists r, find_cell f l w = (Ok r, w).
Proof.
  intros Hall. induction l as [|x l IH]; simpl; [by eexists|].
  unfold bind, get_cell. destruct (Hall x) as [xc ->]; [by left|].
  destruct (f xc); [by eexists|]. apply IH. intros c Hc. apply Hall. by right.
Qed.

Lemma find_cell_misses f l w c ch :
  find_cell f l w = (Ok None, w) -> c ∈ l -> cells w !! c = Some ch -> f ch = false.
Proof.
  induction l as [|x l IH]; simpl; [intros _ Hin; by apply not_elem_of_nil in Hin|].
  unfold bind, get_cell. destruct (cells w !! x) as [xc|] eqn:Hx; [|discriminate].
  destruct (f xc) eqn:Hf; [discriminate|].
  intros Hrun Hin Hc. apply elem_of_cons in Hin as [->|Hin]; [congruence|]. by apply IH.
Qed.

(** X14.  [testCharacteristic] changes nothing.  When it answers [true],
    [getCharacteristic] returns a cell of the Service that matches and
    changes nothing; when it answers [false], no cell of the Service
    matches, and [getCharacteristic] by name returns undefined. *)
Theorem testCharacteristic_agrees_with_getCharacteristic this sv name w :
  services w !! this = Some sv ->
  (forall c, c ∈ Service.characteristics sv -> is_Some (cells w !! c)) ->
  exists b,
    Service_testCharacteristic this name w = (Ok b, w) /\
    (b = true ->
     exists c ch,
       Service_getCharacteristic this name w = (Ok (Some c), w) /\
       c ∈ Service.characteristics sv /\
       cells w !! c = Some ch /\ selects name ch = true) /\
    (b = false ->
     (forall c ch, c ∈ Service.characteristics sv -> cells w !! c = Some ch ->
                   selects name ch = false) /\
     forall n, name = ByName n -> Service_getCharacteristic this name w = (Ok None, w)).
Proof.
  intros Hs Hall.
  destruct (find_cell_total (selects name) _ w Hall) as [r Hfind].
  unfold Service_testCharacteristic, Service_getCharacteristic, bind, get_service.
  rewrite Hs, Hfind. destruct r as [c|]; simpl.
  - exists true. split; [reflexivity|]. split; [|discriminate].
    intros _. destruct (find_cell_found _ _ _ _ Hfind) as (Hin & ch & Hc & Hsel).
    exists c, ch. done.
  - exists false. split; [reflexivity|]. split; [discriminate|].
    intros _. split.
    + intros c ch. by apply find_cell_misses.
    + by intros n ->.
Qed.

(** *** [setCharacteristic] and [updateCharacteristic] *)

Lemma getCharacteristic_None this name w w' :
  Service_getCharacteristic this name w = (Ok None, w') -> w' = w.
Proof.
  unfold Service_getCharacteristic, bind, get_service. intros Hrun.
  destruct (services w !! this) as [sv|]; [|discriminate].
  pose proof (find_cell_readonly (selects name) (Service.characteristics sv) w) as Hro.
  destruct (find_cell _ _ w) as [[[c|]|e] w1]; simpl in Hro; subst w1; try discriminate.
  destruct name as [n|ty]; [by injection Hrun|].
  pose proof (find_cell_readonly (selects (ByType ty)) (Service.optionalCharacteristics sv) w)
    as Hro.
  destruct (find_cell _ _ w) as [[[t|]|e] w1]; simpl in Hro; subst w1; try discriminate.
  - destruct (Service_addCharacteristic this (Constructor ty) w) as [[c|e] w1]; discriminate.
  - by injection Hrun.
Qed.

(** X15.  When [getCharacteristic] finds nothing, it has changed nothing,
    and [setCharacteristic] and [updateCharacteristic] throw a TypeError
    and change nothing.  When it finds a cell that has no 'set' listener,
    the two do the same. *)
Theorem setCharacteristic_of_a_missing_cell this name v w :
  (forall w', Service_getCharacteristic this name w = (Ok None, w') ->
     w' = w /\
     Service_setCharacteristic this name v w
     = (Throw (TypeError "Cannot read property 'setValue' of undefined"), w) /\
     Service_updateCharacteristic this name v w
     = (Throw (TypeError "Cannot read property 'updateValue' of undefined"), w)) /\
  (forall c w1 ch,
     Service_getCharacteristic this name w = (Ok (Some c), w1) ->
     cells w1 !! c = Some ch ->
     listeners_of "set" (Characteristic.listeners ch) = [] ->
     Service_setCharacteristic this name v w = Service_updateCharacteristic this name v w).
Proof.
  split.
  - intros w' Hget. pose proof (getCharacteristic_None _ _ _ _ Hget) as Hw. subst w'.
    split; [reflexivity|].
    unfold Service_setCharacteristic, Service_updateCharacteristic, bind. rewrite Hget.
    split; reflexivity.
  - intros c w1 ch Hget Hc Hl.
    unfold Service_setCharacteristic, Service_updateCharacteristic, bind at 1 3.
    rewrite Hget. unfold bind.
    by rewrite (setValue_blind_is_updateValue c ch).
Qed.

(** *** Adding a cell and removing it *)

Lemma addCharacteristic_instance_ok this sv c ch w :
  services w !! this = Some sv ->
  cells w !! c = Some ch ->
  (forall e, e ∈ Service.characteristics sv ->
     exists ex, cells w !! e = Some ex /\ Characteristic.UUID ex <> Characteristic.UUID ch) ->
  Service_addCharacteristic this (Instance c) w
  = (Ok c,
     with_trace (trace w ++ [EmitConfigurationChange this])
       (with_services
          (<[this := Service.with_characteristics (Service.characteristics sv ++ [c]) sv]>
             (services w))
          (with_cells
             (<[c := Characteristic.with_listeners
                       (Characteristic.listeners ch ++ [("change", BubbleToService this)]) ch]>
                (cells w)) w))).
Proof.
  intros Hs Hc Hall.
  unfold Service_addCharacteristic, bind at 1, ret at 1.
  unfold bind at 1, get_service. rewrite Hs.
  unfold bind at 1, get_cell. rewrite Hc.
  unfold bind at 1. rewrite check_UUID_conflict_ok by done.
  unfold Characteristic_on, bind, get_cell, put_cell, put_service, log, ret. rewrite Hc.
  reflexivity.
Qed.

Lemma index_where_first c l1 l2 :
  c ∉ l1 -> index_where (Nat.eqb c) (l1 ++ c :: l2) = Some (length l1).
Proof.
  intros Hnin. induction l1 as [|x l1 IH]; simpl; [by rewrite Nat.eqb_refl|].
  apply not_elem_of_cons in Hnin as [Hne Hnin].
  destruct (Nat.eqb_spec c x); [done|]. by rewrite IH.
Qed.

Lemma splice1_middle {A} (l1 : list A) x l2 : splice1 (length l1) (l1 ++ x :: l2) = l1 ++ l2.
Proof.
  unfold splice1. rewrite take_app_length. f_equal.
  replace (S (length l1)) with (length l1 + 1) by lia.
  rewrite <- drop_drop, drop_app_length. reflexivity.
Qed.

(** [removeCharacteristic] of a cell of the Service. *)
Lemma removeCharacteristic_present this sv l1 c l2 ch w :
  services w !! this = Some sv ->
  Service.characteristics sv = l1 ++ c :: l2 ->
  c ∉ l1 ->
  cells w !! c = Some ch ->
  Service_removeCharacteristic this c w
  = (Ok tt,
     with_trace (trace w ++ [EmitConfigurationChange this])
       (with_cells (<[c := Characteristic.with_listeners [] ch]> (cells w))
          (with_services (<[this := Service.with_characteristics (l1 ++ l2) sv]> (services w))
             w))).
Proof.
  intros Hs Hl Hnin Hc.
  unfold Service_removeCharacteristic, bind at 1, get_service. rewrite Hs, Hl.
  rewrite index_where_first by done. rewrite splice1_middle.
  unfold Characteristic_removeAllListeners, bind, get_cell, put_cell, put_service, log, ret.
  cbn [cells services with_trace with_services with_cells trace].
  rewrite Hc. reflexivity.
Qed.

(** X16.  [addCharacteristic] of a cell whose UUID is new to the Service
    appends it and puts one 'change' listener on it; [removeCharacteristic]
    then gives the Service its old cells back and leaves the cell with no
    listener at all, those it had before it was added included.  Each of
    the two emits 'service-configurationChange'; no other cell changes. *)
Theorem addCharacteristic_then_removeCharacteristic this sv c ch w :
  services w !! this = Some sv ->
  cells w !! c = Some ch ->
  (forall e, e ∈ Service.characteristics sv ->
     exists ex, cells w !! e = Some ex /\ Characteristic.UUID ex <> Characteristic.UUID ch) ->
  exists w1 w2,
    Service_addCharacteristic this (Instance c) w = (Ok c, w1) /\
    Characteristic.listeners <$> cells w1 !! c
    = Some (Characteristic.listeners ch ++ [("change", BubbleToService this)]) /\
    Service.characteristics <$> services w1 !! this = Some (Service.characteristics sv ++ [c]) /\
    Service_removeCharacteristic this c w1 = (Ok tt, w2) /\
    services w2 !! this = Some sv /\
    cells w2 !! c = Some (Characteristic.with_listeners [] ch) /\
    (forall c', c' <> c -> cells w2 !! c' = cells w !! c') /\
    trace w2 = trace w ++ [EmitConfigurationChange this; EmitConfigurationChange this].
Proof.
  intros Hs Hc Hall.
  assert (c ∉ Service.characteristics sv) as Hnin.
  { intros Hin. destruct (Hall c Hin) as (ex & Hex & Hne). congruence. }
  eexists _, _. split; [by apply addCharacteristic_instance_ok|].
  cbn [cells services with_trace with_services with_cells].
  rewrite !lookup_insert_eq. split; [reflexivity|]. split; [reflexivity|].
  split.
  { eapply (removeCharacteristic_present this _ (Service.characteristics sv) c []);
      [apply lookup_insert_eq | reflexivity | done | apply lookup_insert_eq]. }
  cbn [cells services with_trace with_services with_cells trace
       Service.with_characteristics Service.characteristics].
  rewrite !insert_insert_eq, !lookup_insert_eq, app_nil_r.
  split; [by destruct sv|]. split; [by destruct ch|].
  split; [intros c' Hne; by rewrite lookup_insert_ne|].
  by rewrite <- app_assoc.
Qed.

(** *** The changes a Service relays *)

Lemma listeners_of_app event ls1 ls2 :
  listeners_of event (ls1 ++ ls2) = listeners_of event ls1 ++ listeners_of event ls2.
Proof. unfold listeners_of. by rewrite List.filter_app, map_app. Qed.

Lemma change_events_snoc ch this c o n ctx :
  change_events
    (Characteristic.with_listeners
       (Characteristic.listeners ch ++ [("change", BubbleToService this)]) ch) c o n ctx
  = change_events ch c o n ctx ++ [EmitCharacteristicChange this c o n ctx].
Proof.
  unfold change_events. simpl. rewrite listeners_of_app, flat_map_app. reflexivity.
Qed.

(** X17.  A change of a cell that was added to a Service is emitted by the
    cell and then, as 'characteristic-change', by the Service; once the
    cell is removed, by the cell only. *)
Theorem Service_relays_the_changes_of_its_cells this sv c ch x cb ctx w :
  services w !! this = Some sv ->
  cells w !! c = Some ch ->
  (forall e, e ∈ Service.characteristics sv ->
     exists ex, cells w !! e = Some ex /\ Characteristic.UUID ex <> Characteristic.UUID ch) ->
  nullish x = false ->
  strict_eq (Characteristic.value ch) x = false ->
  exists w1 w2 w3 w4,
    Service_addCharacteristic this (Instance c) w = (Ok c, w1) /\
    Characteristic_updateValue c x cb ctx w1 = (Ok c, w2) /\
    trace w2
    = trace w1 ++ call_events cb []
      ++ change_events ch c (Characteristic.value ch) x ctx
      ++ [EmitCharacteristicChange this c (Characteristic.value ch) x ctx] /\
    Service_removeCharacteristic this c w1 = (Ok tt, w3) /\
    Characteristic_updateValue c x cb ctx w3 = (Ok c, w4) /\
    trace w4
    = trace w3 ++ call_events cb [] ++ [EmitChange c (Characteristic.value ch) x ctx].
Proof.
  intros Hs Hc Hall Hx Hne.
  assert (c ∉ Service.characteristics sv) as Hnin.
  { intros Hin. destruct (Hall c Hin) as (ex & Hex & Hu). congruence. }
  eexists _, _, _, _.
  split; [by apply addCharacteristic_instance_ok|].
  split; [eapply updateValue_spec; [simpl; apply lookup_insert_eq | by apply default_fill_keep]|].
  split; [simpl; rewrite Hne, change_events_snoc; reflexivity|].
  split.
  { eapply (removeCharacteristic_present this _ (Service.characteristics sv) c []);
      [simpl; apply lookup_insert_eq | reflexivity | done | simpl; apply lookup_insert_eq]. }
  split; [eapply updateValue_spec; [simpl; apply lookup_insert_eq | by apply default_fill_keep]|].
  simpl. rewrite Hne. reflexivity.
Qed.

(** *** [_sideloadCharacteristics] *)

Lemma setup_loop this l : forall w,
  (forall c, c ∈ l -> is_Some (cells w !! c)) ->
  exists w',
    for_each l (Service__setupCharacteristic this) w = (Ok tt, w') /\
    services w' = services w /\ trace w' = trace w /\ next w' = next w /\
    (forall (c : loc) ch, cells w !! c = Some ch ->
       cells w' !! c
       = Some (Characteristic.with_listeners
                 (Characteristic.listeners ch
                  ++ replicate (length (List.filter (Nat.eqb c) l))
                       ("change", BubbleToService this)) ch)).
Proof.
  induction l as [|x l IH]; intros w Hall.
  - exists w. split; [reflexivity|]. repeat split; try done.
    intros c ch Hc. simpl. rewrite app_nil_r. by destruct ch.
  - destruct (Hall x) as [xc Hx]; [by left|].
    cbn [for_each]. unfold bind at 1. unfold Service__setupCharacteristic at 1.
    unfold bind at 1. unfold Characteristic_on at 1. unfold bind at 1, get_cell at 1.
    rewrite Hx. unfold bind at 1, put_cell at 1. cbn [ret].
    match goal with |- context [for_each _ _ ?w1] => set (w1' := w1) end.
    destruct (IH w1') as (w' & Hrun & Hsv & Htr & Hn & Hcells).
    { intros c Hc. unfold w1'. simpl. destruct (decide (c = x)) as [->|Hne].
      - rewrite lookup_insert_eq. by eexists.
      - rewrite lookup_insert_ne by done. apply Hall. by right. }
    exists w'. split; [exact Hrun|]. repeat split; try done.
    intros c ch Hc. unfold w1' in Hcells. simpl in Hcells. simpl.
    destruct (decide (c = x)) as [Heq|Hne].
    + subst c. rewrite Hx in Hc. injection Hc as <-. rewrite Nat.eqb_refl.
      rewrite (Hcells x _ (lookup_insert_eq _ _ _)). simpl.
      by rewrite <- app_assoc.
    + rewrite (proj2 (Nat.eqb_neq c x) Hne).
      rewrite (Hcells c ch) by (by rewrite lookup_insert_ne). reflexivity.
Qed.

(** X18.  [_sideloadCharacteristics] makes the list it is given the cells
    of the Service, as it is given: no UUID is compared and no event is
    emitted.  Each cell of the list gets one 'change' listener for every
    place it has in the list. *)
Theorem sideloadCharacteristics_does_not_check this sv l w :
  services w !! this = Some sv ->
  (forall c, c ∈ l -> is_Some (cells w !! c)) ->
  exists w',
    Service__sideloadCharacteristics this l w = (Ok tt, w') /\
    services w' = <[this := Service.with_characteristics l sv]> (services w) /\
    trace w' = trace w /\
    (forall (c : loc) ch, cells w !! c = Some ch ->
       cells w' !! c
       = Some (Characteristic.with_listeners
                 (Characteristic.listeners ch
                  ++ replicate (length (List.filter (Nat.eqb c) l))
                       ("change", BubbleToService this)) ch)).
Proof.
  intros Hs Hall.
  destruct (setup_loop this l w Hall) as (w1 & Hrun & Hsv & Htr & Hn & Hcells).
  unfold Service__sideloadCharacteristics. unfold bind at 1. rewrite Hrun.
  unfold bind, get_service, put_service. rewrite Hsv, Hs.
  eexists. split; [reflexivity|]. simpl. rewrite Hsv. repeat split; done.
Qed.

(** *** The projection of a Service *)

Lemma map_m_Forall2 {A B} (f : A -> M B) l w ys w' :
  (forall a w, snd (f a w) = w) ->
  map_m f l w = (Ok ys, w') ->
  w' = w /\ Forall2 (fun x y => f x w = (Ok y, w)) l ys.
Proof.
  intros Hro. revert ys. induction l as [|a l IH]; intros ys; simpl; unfold bind, ret.
  - intros [= <- <-]. split; [reflexivity | constructor].
  - pose proof (Hro a w) as Ha. destruct (f a w) as [[b|e] wa] eqn:Hfa; simpl in Ha; subst wa;
      [|done].
    destruct (map_m f l w) as [[zs|e] wz] eqn:Hz; [|done].
    intros [= <- <-]. destruct (IH zs eq_refl) as [-> Hall].
    split; [reflexivity|]. by constructor.
Qed.

Lemma map_m_returns {A B} (f : A -> M B) l w :
  (forall a, a ∈ l -> exists b, f a w = (Ok b, w)) ->
  exists ys, map_m f l w = (Ok ys, w).
Proof.
  intros Hall. induction l as [|a l IH]; simpl; [by eexists|].
  unfold bind, ret. destruct (Hall a) as [b ->]; [by left|].
  destruct IH as [ys ->]; [intros x Hx; apply Hall; by right|]. by eexists.
Qed.

(** X19.  The projection of a Service holds its iid, its UUID and the
    projections of its active cells, one for each and in their order; an
    optional template has none.  "primary" is there exactly when
    [isPrimaryService] is not undefined.  The store is left as it was,
    and the call returns whenever [toHAP] of every active cell does. *)
Theorem Service_toHAP_lists_the_active_cells this sv opt w :
  services w !! this = Some sv ->
  (forall sh w',
     Service_toHAP this opt w = (Ok sh, w') ->
     w' = w /\
     Forall2 (fun c h => Characteristic_toHAP c opt w = (Ok h, w))
       (Service.characteristics sv) (hap_characteristics sh) /\
     hap_iid sh = Service.iid sv /\
     hap_type sh = Service.UUID sv /\
     (hap_primary sh = None <-> Service.isPrimaryService sv = JUndefined)) /\
  ((forall c, c ∈ Service.characteristics sv ->
      exists h, Characteristic_toHAP c opt w = (Ok h, w)) ->
   exists sh, Service_toHAP this opt w = (Ok sh, w)).
Proof.
  intros Hs.
  assert (Service_toHAP this opt w
          = (let! characteristicsHAP :=
               map_m (fun c => Characteristic_toHAP c opt) (Service.characteristics sv) in
             ret {| hap_iid := Service.iid sv;
                    hap_type := Service.UUID sv;
                    hap_characteristics := characteristicsHAP;
                    hap_primary :=
                      match Service.isPrimaryService sv with
                      | JUndefined => None
                      | v => Some v
                      end |}) w) as ->.
  { unfold Service_toHAP. unfold bind at 1, get_service. by rewrite Hs. }
  unfold bind. split.
  - intros sh w' Hrun.
    destruct (map_m _ _ w) as [[ys|e] wy] eqn:Hm; [|done].
    apply map_m_Forall2 in Hm as [-> Hall]; [|intros a w0; apply readonly_toHAP].
    injection Hrun as <- <-. simpl. repeat split; try done.
    all: destruct (Service.isPrimaryService sv); done.
  - intros Hall.
    destruct (map_m_returns (fun c => Characteristic_toHAP c opt) _ w Hall) as [ys ->].
    by eexists.
Qed.

(** *** The constructor of a Service *)

Lemma construct_scalar ty w :
  allocates_default (Characteristic.props (fresh_cell ty)) = false ->
  Characteristic_construct ty w
  = (Ok (next w), with_next (S (next w)) (with_cells (<[next w := fresh_cell ty]> (cells w)) w)).
Proof.
  intros Ha.
  unfold Characteristic_construct, bind at 1.
  unfold Characteristic_new, bind, alloc, put_cell, ret. simpl.
  unfold Characteristic_setProps, bind, get_cell, put_cell, ret. simpl.
  rewrite lookup_insert_eq. simpl. rewrite insert_insert_eq.
  unfold Characteristic_getDefaultValue, bind, get_cell. simpl. rewrite lookup_insert_eq.
  unfold allocates_default in Ha. simpl in *.
  unfold fresh_cell, scalar_default.
  destruct (Characteristic.format _) as [[]|]; try discriminate Ha; unfold ret; simpl;
    rewrite lookup_insert_eq; simpl; rewrite insert_insert_eq; reflexivity.
Qed.

Lemma addCharacteristic_constructor_fresh this sv ty w :
  services w !! this = Some sv ->
  allocates_default (Characteristic.props (fresh_cell ty)) = false ->
  (forall e, e ∈ Service.characteristics sv ->
     e <> next w /\
     exists ex, cells w !! e = Some ex /\ Characteristic.UUID ex <> Characteristic.new_UUID ty) ->
  Service_addCharacteristic this (Constructor ty) w
  = (Ok (next w),
     with_trace (trace w ++ [EmitConfigurationChange this])
       (with_services
          (<[this := Service.with_characteristics (Service.characteristics sv ++ [next w]) sv]>
             (services w))
          (with_next (S (next w))
             (with_cells
                (<[next w := Characteristic.with_listeners [("change", BubbleToService this)]
                               (fresh_cell ty)]> (cells w)) w)))).
Proof.
  intros Hs Ha Hall.
  unfold Service_addCharacteristic, bind at 1. rewrite construct_scalar by done.
  unfold bind at 1, get_service. cbn [services with_next with_cells]. rewrite Hs.
  unfold bind at 1, get_cell. cbn [cells with_next with_cells]. rewrite lookup_insert_eq.
  unfold bind at 1. rewrite check_UUID_conflict_ok.
  - unfold Characteristic_on, bind, get_cell, put_cell, put_service, log, ret.
    cbn [cells with_next with_cells]. rewrite lookup_insert_eq.
    cbn [cells with_next with_cells]. rewrite insert_insert_eq. reflexivity.
  - intros e He. destruct (Hall e He) as (Hne & ex & Hex & Hu).
    exists ex. cbn [cells with_next with_cells]. by rewrite lookup_insert_ne.
Qed.

Lemma truthy_not_empty d : truthy d = true -> strict_eq (JStr "") d = false /\ nullish d = false.
Proof.
  destruct d as [| | | |s|]; try done. simpl. intros Hs. split; [|reflexivity].
  destruct s; [done|reflexivity].
Qed.

Lemma Service_new_unnamed displayName UUID subtype chain w :
  UUID <> "" -> truthy displayName = false ->
   Service_new displayName UUID subtype chain w
   = (Ok (next w),
      with_next (S (next w))
        (with_services
           (<[next w := {| Service.displayName := displayName; Service.UUID := UUID;
                           Service.subtype := subtype; Service.iid := JNull;
                           Service.characteristics := [];
                           Service.optionalCharacteristics := [];
                           Service.isPrimaryService := JUndefined;
                           Service.classes := chain |}]> (services w)) w)).
Proof.
  intros Hu Ht. unfold Service_new. destruct (String.eqb_spec UUID ""); [done|].
  unfold bind, alloc, put_service, ret. rewrite Ht. reflexivity.
Qed.

Lemma Service_new_named displayName UUID subtype chain w :
  UUID <> "" -> truthy displayName = true ->
   exists w',
     Service_new displayName UUID subtype chain w = (Ok (next w), w') /\
     services w'
     = <[next w := {| Service.displayName := displayName; Service.UUID := UUID;
                      Service.subtype := subtype; Service.iid := JNull;
                      Service.characteristics := [S (next w)];
                      Service.optionalCharacteristics := [];
                      Service.isPrimaryService := JUndefined;
                      Service.classes := chain |}]> (services w) /\
     cells w'
     = <[S (next w) :=
           Characteristic.with_value displayName
             (Characteristic.with_listeners [("change", BubbleToService (next w))]
                (fresh_cell Characteristic_Name))]> (cells w) /\
     next w' = S (S (next w)) /\
     trace w'
     = trace w ++ [EmitConfigurationChange (next w);
                   EmitChange (S (next w)) (JStr "") displayName JUndefined;
                   EmitCharacteristicChange (next w) (S (next w)) (JStr "") displayName
                     JUndefined].
Proof.
  intros Hu Ht. unfold Service_new. destruct (String.eqb_spec UUID ""); [done|].
  destruct (truthy_not_empty _ Ht) as [Hne Hnn].
  rewrite Ht.
  unfold bind at 1, alloc. unfold bind at 1, put_service. unfold bind at 1.
  unfold bind at 1. unfold bind at 1.
  unfold Service_getCharacteristic at 1, bind at 1, get_service.
  cbn [services with_services with_next]. rewrite lookup_insert_eq.
  cbn [Service.characteristics Service.optionalCharacteristics find_cell ret].
  unfold bind at 1. cbn [find_cell ret]. unfold bind at 1. cbn [ret].
  erewrite addCharacteristic_constructor_fresh;
    [|cbn [services with_services with_next]; apply lookup_insert_eq
     |reflexivity
     |intros e He; by apply not_elem_of_nil in He].
  cbn [next with_services with_next Service.characteristics Service.with_characteristics
       app cells services trace].
  unfold bind at 1.
  erewrite setValue_blind_is_updateValue;
    [|cbn [cells with_trace with_services with_next with_cells]; apply lookup_insert_eq
     |reflexivity].
  erewrite updateValue_spec;
    [|cbn [cells with_trace with_services with_next with_cells]; apply lookup_insert_eq
     |by apply default_fill_keep].
  eexists. split; [reflexivity|].
  cbn [cells services trace next with_trace with_services with_next with_cells
       Characteristic.value Characteristic.with_listeners fresh_cell].
  rewrite !insert_insert_eq.
  split; [reflexivity|]. split; [reflexivity|]. split; [reflexivity|].
  change (strict_eq (scalar_default _) displayName) with (strict_eq (JStr "") displayName).
  rewrite Hne. rewrite <- app_assoc. reflexivity.
Qed.

(** X20.  [new Service(displayName, UUID, subtype)] throws for an empty
    UUID and changes nothing.  Without a display name it makes a Service
    with no cells and emits nothing.  With one it makes a Service whose
    only cell is a new "Name" that holds the display name, and emits
    'service-configurationChange', the 'change' of that cell and the
    'characteristic-change' of the Service. *)
Theorem Service_new_names_itself displayName UUID subtype chain w :
  (UUID = "" ->
   Service_new displayName UUID subtype chain w
   = (Throw (Error "Services must be created with a valid UUID."), w)) /\
  (UUID <> "" -> truthy displayName = false ->
   Service_new displayName UUID subtype chain w
   = (Ok (next w),
      with_next (S (next w))
        (with_services
           (<[next w := {| Service.displayName := displayName; Service.UUID := UUID;
                           Service.subtype := subtype; Service.iid := JNull;
                           Service.characteristics := [];
                           Service.optionalCharacteristics := [];
                           Service.isPrimaryService := JUndefined;
                           Service.classes := chain |}]> (services w)) w))) /\
  (UUID <> "" -> truthy displayName = true ->
   exists w',
     Service_new displayName UUID subtype chain w = (Ok (next w), w') /\
     services w'
     = <[next w := {| Service.displayName := displayName; Service.UUID := UUID;
                      Service.subtype := subtype; Service.iid := JNull;
                      Service.characteristics := [S (next w)];
                      Service.optionalCharacteristics := [];
                      Service.isPrimaryService := JUndefined;
                      Service.classes := chain |}]> (services w) /\
     cells w'
     = <[S (next w) :=
           Characteristic.with_value displayName
             (Characteristic.with_listeners [("change", BubbleToService (next w))]
                (fresh_cell Characteristic_Name))]> (cells w) /\
     next w' = S (S (next w)) /\
     trace w'
     = trace w ++ [EmitConfigurationChange (next w);
                   EmitChange (S (next w)) (JStr "") displayName JUndefined;
                   EmitCharacteristicChange (next w) (S (next w)) (JStr "") displayName
                     JUndefined]).
Proof.
  split; [|split].
  - intros ->. reflexivity.
  - apply Service_new_unnamed.
  - apply Service_new_named.
Qed.

(** *** The constructors of the registry of Services *)

Lemma required_loop this tys : forall sv w,
  services w !! this = Some sv ->
  Forall scalar_type tys ->
  NoDup (map Characteristic.new_UUID tys) ->
  (forall e, e ∈ Service.characteristics sv ->
     e < next w /\
     exists ex, cells w !! e = Some ex /\
                Characteristic.UUID ex ∉ map Characteristic.new_UUID tys) ->
  exists w',
    for_each tys (fun c => let! _ := Service_addCharacteristic this (Constructor c) in ret tt) w
    = (Ok tt, w') /\
    services w'
    = <[this := Service.with_characteristics
                  (Service.characteristics sv ++ seq (next w) (length tys)) sv]> (services w) /\
    next w' = next w + length tys /\
    (forall i cty, tys !! i = Some cty ->
       cells w' !! (next w + i)
       = Some (Characteristic.with_listeners [("change", BubbleToService this)]
                 (fresh_cell cty))) /\
    (forall l, l < next w -> cells w' !! l = cells w !! l) /\
    trace w' = trace w ++ replicate (length tys) (EmitConfigurationChange this).
Proof.
  induction tys as [|ty tys IH]; intros sv w Hs Hsc Hnd Hall.
  - exists w. simpl. split; [reflexivity|].
    split; [rewrite app_nil_r; destruct sv; simpl; by rewrite insert_id|].
    split; [lia|]. split; [intros i cty; by rewrite lookup_nil|].
    split; [done|]. by rewrite app_nil_r.
  - apply Forall_cons in Hsc as [Hty Hsc]. simpl in Hnd. apply NoDup_cons in Hnd as [Hnin Hnd].
    cbn [for_each]. unfold bind at 1. unfold bind at 1.
    rewrite (addCharacteristic_constructor_fresh this sv ty w Hs Hty).
    2: { intros e He. destruct (Hall e He) as (Hlt & ex & Hex & Hu).
         split; [lia|]. exists ex. split; [done|]. intros Heq. apply Hu. rewrite Heq.
         simpl. by left. }
    cbn [ret].
    match goal with |- context [for_each _ _ ?w1] => set (w1' := w1) end.
    destruct (IH (Service.with_characteristics (Service.characteristics sv ++ [next w]) sv) w1')
      as (w' & Hrun & Hsv & Hnext & Hcells & Hold & Htr).
    + unfold w1'. simpl. apply lookup_insert_eq.
    + done.
    + done.
    + intros e He. simpl in He. unfold w1'. simpl.
      apply elem_of_app in He as [He|He].
      * destruct (Hall e He) as (Hlt & ex & Hex & Hu). split; [lia|].
        exists ex. split; [rewrite lookup_insert_ne; [done|lia]|].
        intros Hin. apply Hu. simpl. by right.
      * apply list_elem_of_singleton in He as ->. split; [lia|].
        eexists. split; [apply lookup_insert_eq|]. exact Hnin.
    + exists w'. split; [exact Hrun|]. unfold w1' in *. simpl in *.
      split; [rewrite Hsv, insert_insert_eq; f_equal; destruct sv; simpl;
              by rewrite <- app_assoc|].
      split; [lia|].
      split; [|split].
      * intros [|i] cty Hi; simpl in Hi.
        -- injection Hi as <-. rewrite Nat.add_0_r, Hold by lia. apply lookup_insert_eq.
        -- rewrite <- Hcells with (i := i) by done. f_equal. lia.
      * intros l Hl. rewrite Hold by lia. rewrite lookup_insert_ne; [done|lia].
      * rewrite Htr, <- app_assoc. reflexivity.
Qed.

Lemma optional_loop this tys : forall sv w,
  services w !! this = Some sv ->
  Forall scalar_type tys ->
  exists w',
    for_each tys (fun c => Service_addOptionalCharacteristic this (Constructor c)) w
    = (Ok tt, w') /\
    services w'
    = <[this := Service.with_optionalCharacteristics
                  (Service.optionalCharacteristics sv ++ seq (next w) (length tys)) sv]>
        (services w) /\
    next w' = next w + length tys /\
    (forall i cty, tys !! i = Some cty -> cells w' !! (next w + i) = Some (fresh_cell cty)) /\
    (forall l, l < next w -> cells w' !! l = cells w !! l) /\
    trace w' = trace w.
Proof.
  induction tys as [|ty tys IH]; intros sv w Hs Hsc.
  - exists w. simpl. split; [reflexivity|].
    split; [rewrite app_nil_r; destruct sv; simpl; by rewrite insert_id|].
    split; [lia|]. split; [intros i cty; by rewrite lookup_nil|]. done.
  - apply Forall_cons in Hsc as [Hty Hsc].
    cbn [for_each]. unfold bind at 1.
    unfold Service_addOptionalCharacteristic at 1. unfold bind at 1.
    rewrite construct_scalar by done.
    unfold bind at 1, get_service. cbn [services with_next with_cells]. rewrite Hs.
    unfold put_service. cbn [services with_next with_cells].
    match goal with |- context [for_each _ _ ?w1] => set (w1' := w1) end.
    destruct (IH (Service.with_optionalCharacteristics
                    (Service.optionalCharacteristics sv ++ [next w]) sv) w1')
      as (w' & Hrun & Hsv & Hnext & Hcells & Hold & Htr).
    + unfold w1'. simpl. apply lookup_insert_eq.
    + done.
    + exists w'. split; [exact Hrun|]. unfold w1' in *. simpl in *.
      split; [rewrite Hsv, insert_insert_eq; f_equal; destruct sv; simpl;
              by rewrite <- app_assoc|].
      split; [lia|].
      split; [|split].
      * intros [|i] cty Hi; simpl in Hi.
        -- injection Hi as <-. rewrite Nat.add_0_r, Hold by lia. apply lookup_insert_eq.
        -- rewrite <- Hcells with (i := i) by done. f_equal. lia.
      * intros l Hl. rewrite Hold by lia. rewrite lookup_insert_ne; [done|lia].
      * exact Htr.
Qed.

Lemma Service_construct_unnamed ty displayName subtype w :
  truthy displayName = false ->
  ServiceType.new_UUID ty <> "" ->
  NoDup (map Characteristic.new_UUID (ServiceType.required ty)) ->
  Forall scalar_type (ServiceType.required ty ++ ServiceType.optional ty) ->
  let this := next w in
  let n := length (ServiceType.required ty) in
  exists w',
    Service_construct ty displayName subtype w = (Ok this, w') /\
    services w' !! this
    = Some {| Service.displayName := displayName;
              Service.UUID := ServiceType.new_UUID ty;
              Service.subtype := subtype;
              Service.iid := JNull;
              Service.characteristics := seq (S this) n;
              Service.optionalCharacteristics :=
                seq (S this + n) (length (ServiceType.optional ty));
              Service.isPrimaryService := JUndefined;
              Service.classes := [ServiceType.type_id ty; Service_id] |} /\
    (forall i cty, ServiceType.required ty !! i = Some cty ->
       cells w' !! (S this + i)
       = Some (Characteristic.with_listeners [("change", BubbleToService this)]
                 (fresh_cell cty))) /\
    (forall i cty, ServiceType.optional ty !! i = Some cty ->
       cells w' !! (S this + n + i) = Some (fresh_cell cty)) /\
    (forall l, l <= this -> cells w' !! l = cells w !! l) /\
    trace w' = trace w ++ replicate n (EmitConfigurationChange this).
Proof.
  intros Ht Hu Hnd Hsc this n. subst this n.
  apply Forall_app in Hsc as [Hreq Hopt].
  pose proof (Service_new_unnamed displayName (ServiceType.new_UUID ty) subtype
                [ServiceType.type_id ty; Service_id] w Hu Ht) as Hnew.
  match type of Hnew with _ = (_, with_next _ (with_services (<[_ := ?s]> _) _)) =>
    set (sv0 := s) in * end.
  match type of Hnew with _ = (_, ?w1) => set (w0 := w1) in * end.
  destruct (required_loop (next w) (ServiceType.required ty) sv0 w0) as
    (w1 & Hrun1 & Hsv1 & Hnext1 & Hcells1 & Hold1 & Htr1).
  { unfold w0. simpl. apply lookup_insert_eq. }
  { done. }
  { done. }
  { intros e He. by apply not_elem_of_nil in He. }
  destruct (optional_loop (next w) (ServiceType.optional ty)
              (Service.with_characteristics
                 (Service.characteristics sv0 ++ seq (next w0) (length (ServiceType.required ty)))
                 sv0) w1) as
    (w2 & Hrun2 & Hsv2 & Hnext2 & Hcells2 & Hold2 & Htr2).
  { rewrite Hsv1. apply lookup_insert_eq. }
  { done. }
  exists w2. split.
  { unfold Service_construct. unfold bind at 1. rewrite Hnew. cbv beta iota.
    unfold bind at 1. rewrite Hrun1. cbv beta iota.
    unfold bind at 1. rewrite Hrun2. reflexivity. }
  unfold w0, sv0 in *. simpl in *.
  split; [rewrite Hsv2, lookup_insert_eq, Hnext1; reflexivity|].
  split; [|split; [|split]].
  - intros i cty Hi. rewrite Hold2.
    + by apply Hcells1.
    + apply lookup_lt_Some in Hi. lia.
  - intros i cty Hi. rewrite <- (Hcells2 i cty Hi). f_equal. lia.
  - intros l Hl. rewrite Hold2 by lia. rewrite Hold1 by lia. reflexivity.
  - by rewrite Htr2, Htr1.
Qed.

(** X21.  A constructor of the shape of those of lib/Service.js, called
    without a display name: when no two of its required types have the
    same UUID (and no format is [array] or [dictionary]), it returns a
    new Service whose cells are new instances of the required types, in
    their order, each with its 'change' listener, and whose optional
    templates are new instances of the optional types; it emits one
    'service-configurationChange' for each required type and touches no
    object that was there before. *)
Theorem Service_construct_without_a_name ty displayName subtype w :
  truthy displayName = false ->
  ServiceType.new_UUID ty <> "" ->
  NoDup (map Characteristic.new_UUID (ServiceType.required ty)) ->
  Forall scalar_type (ServiceType.required ty ++ ServiceType.optional ty) ->
  let this := next w in
  let n := length (ServiceType.required ty) in
  exists w',
    Service_construct ty displayName subtype w = (Ok this, w') /\
    services w' !! this
    = Some {| Service.displayName := displayName;
              Service.UUID := ServiceType.new_UUID ty;
              Service.subtype := subtype;
              Service.iid := JNull;
              Service.characteristics := seq (S this) n;
              Service.optionalCharacteristics :=
                seq (S this + n) (length (ServiceType.optional ty));
              Service.isPrimaryService := JUndefined;
              Service.classes := [ServiceType.type_id ty; Service_id] |} /\
    (forall i cty, ServiceType.required ty !! i = Some cty ->
       cells w' !! (S this + i)
       = Some (Characteristic.with_listeners [("change", BubbleToService this)]
                 (fresh_cell cty))) /\
    (forall i cty, ServiceType.optional ty !! i = Some cty ->
       cells w' !! (S this + n + i) = Some (fresh_cell cty)) /\
    (forall l, l <= this -> cells w' !! l = cells w !! l) /\
    trace w' = trace w ++ replicate n (EmitConfigurationChange this).
Proof. intros Ht Hu Hnd Hsc. by apply Service_construct_unnamed. Qed.

Lemma check_UUID_conflict_cases uuid l w :
  check_UUID_conflict uuid l w = (Ok tt, w)
  \/ exists err, check_UUID_conflict uuid l w = (Throw err, w).
Proof.
  unfold check_UUID_conflict. induction l as [|x l IH]; [by left|].
  destruct (cells w !! x) as [xc|] eqn:Hx.
  - destruct (String.eqb (Characteristic.UUID xc) uuid) eqn:E.
    + right. eexists. cbn [for_each]. unfold bind at 1. unfold bind at 1.
      unfold get_cell at 1. rewrite Hx, E. reflexivity.
    + destruct IH as [IH|[err IH]]; [left|right; exists err];
        cbn [for_each]; unfold bind at 1; unfold bind at 1; unfold get_cell at 1;
        rewrite Hx, E; exact IH.
  - right. eexists. cbn [for_each]. unfold bind at 1. unfold bind at 1.
    unfold get_cell at 1. rewrite Hx. reflexivity.
Qed.

(** [addCharacteristic] of a constructor throws, or appends the new
    object. *)
Lemma addCharacteristic_constructor_cases this sv ty w :
  services w !! this = Some sv ->
  (exists err w', Service_addCharacteristic this (Constructor ty) w = (Throw err, w'))
  \/ (exists w1,
        Service_addCharacteristic this (Constructor ty) w = (Ok (next w), w1) /\
        services w1 !! this
        = Some (Service.with_characteristics (Service.characteristics sv ++ [next w]) sv) /\
        (forall l, l <> next w -> cells w1 !! l = cells w !! l) /\
        next w < next w1).
Proof.
  intros Hs.
  destruct (construct_spec ty w) as (ch & n & Hnew & Hn & _).
  destruct (check_UUID_conflict_cases (Characteristic.UUID ch) (Service.characteristics sv)
              (with_next n (with_cells (<[next w := ch]> (cells w)) w))) as [Hchk|[err Hchk]].
  - right. eexists. split.
    { unfold Service_addCharacteristic, bind at 1. rewrite Hnew.
      unfold bind at 1, get_service. simpl. rewrite Hs.
      unfold bind at 1, get_cell. simpl. rewrite lookup_insert_eq.
      unfold bind at 1. rewrite Hchk.
      unfold Characteristic_on, bind, get_cell, put_cell, put_service, log, ret. simpl.
      rewrite lookup_insert_eq. reflexivity. }
    simpl. split; [apply lookup_insert_eq|]. split; [|done].
    intros l Hl. rewrite insert_insert_eq. by rewrite lookup_insert_ne.
  - left. exists err. eexists.
    unfold Service_addCharacteristic, bind at 1. rewrite Hnew.
    unfold bind at 1, get_service. simpl. rewrite Hs.
    unfold bind at 1, get_cell. simpl. rewrite lookup_insert_eq.
    unfold bind at 1. rewrite Hchk. reflexivity.
Qed.

Lemma addCharacteristic_constructor_clash this sv ty e ex w :
  services w !! this = Some sv ->
  e ∈ Service.characteristics sv ->
  e <> next w ->
  cells w !! e = Some ex ->
  Characteristic.UUID ex = Characteristic.new_UUID ty ->
  exists err w', Service_addCharacteristic this (Constructor ty) w = (Throw err, w').
Proof.
  intros Hs Hin Hne He Hu.
  destruct (construct_spec ty w) as (ch & n & Hnew & _ & _ & Hch & _).
  destruct (check_UUID_conflict_throws (Characteristic.UUID ch) (Service.characteristics sv)
              (with_next n (with_cells (<[next w := ch]> (cells w)) w)) e ex Hin)
    as [err Herr].
  { simpl. by rewrite lookup_insert_ne. }
  { congruence. }
  exists err. eexists.
  unfold Service_addCharacteristic, bind at 1. rewrite Hnew.
  unfold bind, get_service, get_cell. simpl. rewrite Hs. simpl.
  rewrite lookup_insert_eq. simpl in *. rewrite Herr. reflexivity.
Qed.

Lemma required_loop_clash this uuid cty tys : forall sv w e ex,
  services w !! this = Some sv ->
  e ∈ Service.characteristics sv -> e < next w ->
  cells w !! e = Some ex -> Characteristic.UUID ex = uuid ->
  cty ∈ tys -> Characteristic.new_UUID cty = uuid ->
  exists err w',
    for_each tys (fun c => let! _ := Service_addCharacteristic this (Constructor c) in ret tt) w
    = (Throw err, w').
Proof.
  induction tys as [|ty tys IH]; intros sv w e ex Hs Hin Hlt He Hu Hc Hcu;
    [by apply not_elem_of_nil in Hc|].
  cbn [for_each]. unfold bind at 1. unfold bind at 1.
  destruct (decide (Characteristic.new_UUID ty = uuid)) as [Heq|Hne].
  - destruct (addCharacteristic_constructor_clash this sv ty e ex w) as (err & w' & ->);
      try done; [lia|congruence|]. by eexists _, _.
  - apply elem_of_cons in Hc as [->|Hc]; [done|].
    destruct (addCharacteristic_constructor_cases this sv ty w Hs)
      as [(err & w' & ->)|(w1 & -> & Hs1 & Hold & Hn)]; [by eexists _, _|].
    cbn [ret].
    apply (IH _ w1 e ex Hs1); try done.
    + simpl. apply elem_of_app. by left.
    + lia.
    + rewrite Hold; [done|lia].
Qed.

(** X22.  A constructor that lists a type with the UUID of "Name" among
    its required types throws when it is given a display name: the
    Service has made its own "Name" by then. *)
Theorem Service_construct_with_a_name_twice ty cty displayName subtype w :
  truthy displayName = true ->
  ServiceType.new_UUID ty <> "" ->
  cty ∈ ServiceType.required ty ->
  Characteristic.new_UUID cty = Characteristic.new_UUID Characteristic_Name ->
  exists err w', Service_construct ty displayName subtype w = (Throw err, w').
Proof.
  intros Ht Hu Hin Hc.
  destruct (Service_new_named displayName (ServiceType.new_UUID ty) subtype
              [ServiceType.type_id ty; Service_id] w Hu Ht)
    as (w0 & Hrun & Hsv & Hcells & Hnext & _).
  destruct (required_loop_clash (next w) (Characteristic.new_UUID Characteristic_Name)
              cty (ServiceType.required ty) _ w0 (S (next w)) _
              ltac:(rewrite Hsv; apply lookup_insert_eq)
              ltac:(simpl; by left)
              ltac:(lia)
              ltac:(rewrite Hcells; apply lookup_insert_eq)
              eq_refl Hin Hc) as (err & w' & Hloop).
  exists err, w'.
  unfold Service_construct. unfold bind at 1. rewrite Hrun. cbv beta iota.
  unfold bind at 1. rewrite Hloop. reflexivity.
Qed.

(** *** No two cells of a Service with the same UUID *)

Lemma check_UUID_conflict_passed uuid l w w' :
  check_UUID_conflict uuid l w = (Ok tt, w') ->
  forall e, e ∈ l -> exists ex, cells w !! e = Some ex /\ Characteristic.UUID ex <> uuid.
Proof.
  unfold check_UUID_conflict. induction l as [|x l IH]; intros Hrun e He;
    [by apply not_elem_of_nil in He|].
  cbn [for_each] in Hrun. unfold bind at 1 in Hrun. unfold bind at 1 in Hrun.
  unfold get_cell at 1 in Hrun.
  destruct (cells w !! x) as [xc|] eqn:Hx; [|discriminate].
  destruct (String.eqb_spec (Characteristic.UUID xc) uuid) as [|Hne]; [discriminate|].
  apply elem_of_cons in He as [->|He]; [eauto|]. by apply IH.
Qed.

Lemma UUIDs_of_ext w w' l :
  (forall c, c ∈ l -> Characteristic.UUID <$> cells w' !! c = Characteristic.UUID <$> cells w !! c) ->
  UUIDs_of w' l = UUIDs_of w l.
Proof.
  intros Hext. unfold UUIDs_of. apply map_ext_in. intros c Hc. apply Hext.
  by apply list_elem_of_In.
Qed.

Lemma UUIDs_of_elem w l u :
  Some u ∈ UUIDs_of w l ->
  exists e ex, e ∈ l /\ cells w !! e = Some ex /\ Characteristic.UUID ex = u.
Proof.
  unfold UUIDs_of. intros Hin. apply list_elem_of_In, in_map_iff in Hin as (e & He & Hin).
  apply list_elem_of_In in Hin. destruct (cells w !! e) as [ex|] eqn:Hex; [|discriminate].
  injection He as <-. eauto.
Qed.

Lemma UUIDs_of_app w l k : UUIDs_of w (l ++ k) = UUIDs_of w l ++ UUIDs_of w k.
Proof. unfold UUIDs_of. apply map_app. Qed.

Lemma unique_UUIDs_snoc w w' this sv l c ch :
  Forall (fun c => is_Some (cells w !! c)) l ->
  NoDup (UUIDs_of w l) ->
  (forall e, e ∈ l -> Characteristic.UUID <$> cells w' !! e = Characteristic.UUID <$> cells w !! e) ->
  (forall e, e ∈ l -> exists ex, cells w !! e = Some ex /\
                                 Characteristic.UUID ex <> Characteristic.UUID ch) ->
  cells w' !! c = Some ch ->
  services w' !! this = Some (Service.with_characteristics (l ++ [c]) sv) ->
  unique_UUIDs w' this.
Proof.
  intros Hall Hnd Hext Hpass Hc Hs. unfold unique_UUIDs. rewrite Hs. simpl. split.
  - apply Forall_app. split.
    + apply Forall_forall. intros e He. rewrite Forall_forall in Hall.
      specialize (Hext e He). destruct (Hall e He) as [ex Hex]. rewrite Hex in Hext.
      destruct (cells w' !! e); [by eexists|discriminate].
    + constructor; [by eexists|constructor].
  - rewrite UUIDs_of_app, (UUIDs_of_ext w w' l Hext). apply NoDup_app.
    split; [done|]. split; [|unfold UUIDs_of; simpl; apply NoDup_singleton].
    intros x Hx Hin. unfold UUIDs_of in Hin. simpl in Hin. rewrite Hc in Hin. simpl in Hin.
    apply list_elem_of_singleton in Hin. subst x.
    apply UUIDs_of_elem in Hx as (e & ex & He & Hex & Hu).
    destruct (Hpass e He) as (ex' & Hex' & Hne). congruence.
Qed.

Lemma addCharacteristic_instance_keeps this sv c0 c w w' :
  services w !! this = Some sv ->
  cells_below_next w -> unique_UUIDs w this ->
  Service_addCharacteristic this (Instance c0) w = (Ok c, w') ->
  unique_UUIDs w' this /\ cells_below_next w'.
Proof.
  intros Hs Hwf Huniq Hrun. unfold unique_UUIDs in Huniq. rewrite Hs in Huniq.
  destruct Huniq as [Hall Hnd].
  unfold Service_addCharacteristic in Hrun. unfold bind at 1, ret at 1 in Hrun.
  unfold bind at 1, get_service in Hrun. rewrite Hs in Hrun.
  unfold bind at 1, get_cell at 1 in Hrun.
  destruct (cells w !! c0) as [ch|] eqn:Hc; [|discriminate].
  unfold bind at 1 in Hrun.
  destruct (check_UUID_conflict_cases (Characteristic.UUID ch) (Service.characteristics sv) w)
    as [Hchk|[err Hchk]]; rewrite Hchk in Hrun; [|discriminate].
  pose proof (check_UUID_conflict_passed _ _ _ _ Hchk) as Hpass.
  unfold Characteristic_on, bind, get_cell, put_cell, put_service, log, ret in Hrun.
  rewrite Hc in Hrun. injection Hrun as <- <-.
  split.
  - eapply (unique_UUIDs_snoc w _ this sv (Service.characteristics sv) c0
              (Characteristic.with_listeners _ ch)); try done.
    + intros e He. simpl. destruct (decide (e = c0)) as [->|Hne].
      * by rewrite lookup_insert_eq, Hc.
      * by rewrite lookup_insert_ne.
    + simpl. apply lookup_insert_eq.
    + simpl. apply lookup_insert_eq.
  - unfold cells_below_next in *. simpl. apply map_Forall_insert_2; [|done].
    by apply (Hwf c0 ch).
Qed.

Lemma addCharacteristic_constructor_keeps this sv ty c w w' :
  services w !! this = Some sv ->
  cells_below_next w -> unique_UUIDs w this ->
  Service_addCharacteristic this (Constructor ty) w = (Ok c, w') ->
  unique_UUIDs w' this /\ cells_below_next w'.
Proof.
  intros Hs Hwf Huniq Hrun. unfold unique_UUIDs in Huniq. rewrite Hs in Huniq.
  destruct Huniq as [Hall Hnd].
  destruct (construct_spec ty w) as (ch & n & Hnew & Hn & _).
  unfold Service_addCharacteristic in Hrun. unfold bind at 1 in Hrun. rewrite Hnew in Hrun.
  unfold bind at 1, get_service in Hrun. simpl in Hrun. rewrite Hs in Hrun.
  unfold bind at 1, get_cell at 1 in Hrun. simpl in Hrun. rewrite lookup_insert_eq in Hrun.
  unfold bind at 1 in Hrun.
  match type of Hrun with context [check_UUID_conflict ?u ?l ?w0] =>
    destruct (check_UUID_conflict_cases u l w0) as [Hchk|[err Hchk]]
  end; rewrite Hchk in Hrun; [|discriminate].
  pose proof (check_UUID_conflict_passed _ _ _ _ Hchk) as Hpass. simpl in Hpass.
  unfold Characteristic_on, bind, get_cell, put_cell, put_service, log, ret in Hrun.
  simpl in Hrun. rewrite lookup_insert_eq in Hrun. injection Hrun as <- <-.
  assert (forall e, e ∈ Service.characteristics sv -> e <> next w) as Hfresh.
  { intros e He. rewrite Forall_forall in Hall. destruct (Hall e He) as [ex Hex].
    apply Hwf in Hex. lia. }
  split.
  - eapply (unique_UUIDs_snoc w _ this sv (Service.characteristics sv) (next w)
              (Characteristic.with_listeners _ ch)); try done.
    + intros e He. simpl. rewrite insert_insert_eq. rewrite lookup_insert_ne; [done|].
      intros Heq. by apply (Hfresh e).
    + intros e He. destruct (Hpass e He) as (ex & Hex & Hne).
      rewrite lookup_insert_ne in Hex by (intros Heq; by apply (Hfresh e)).
      exists ex. split; [done|]. exact Hne.
    + simpl. apply lookup_insert_eq.
    + simpl. apply lookup_insert_eq.
  - unfold cells_below_next in *. simpl. rewrite insert_insert_eq.
    apply map_Forall_insert_2; [lia|].
    intros l x Hl. apply Hwf in Hl. simpl in *. lia.
Qed.

Lemma index_where_elem c l i : index_where (Nat.eqb c) l = Some i -> c ∈ l.
Proof.
  revert i. induction l as [|x l IH]; intros i; simpl; [discriminate|].
  destruct (Nat.eqb_spec c x) as [->|Hne]; [intros _; by left|].
  destruct (index_where (Nat.eqb c) l) as [j|]; [|discriminate].
  intros _. right. by apply (IH j).
Qed.

Lemma splice1_sublist {A} i (l : list A) : splice1 i l `sublist_of` l.
Proof.
  unfold splice1. rewrite <- (take_drop i l) at 3.
  apply sublist_app; [done|]. replace (S i) with (i + 1) by lia. rewrite <- drop_drop.
  apply sublist_drop.
Qed.

Lemma removeCharacteristic_keeps this sv c w w' :
  services w !! this = Some sv ->
  cells_below_next w -> unique_UUIDs w this ->
  Service_removeCharacteristic this c w = (Ok tt, w') ->
  unique_UUIDs w' this /\ cells_below_next w'.
Proof.
  intros Hs Hwf Huniq Hrun. pose proof Huniq as Huniq0.
  unfold unique_UUIDs in Huniq. rewrite Hs in Huniq. destruct Huniq as [Hall Hnd].
  unfold Service_removeCharacteristic in Hrun. unfold bind at 1, get_service in Hrun.
  rewrite Hs in Hrun.
  destruct (index_where (Nat.eqb c) (Service.characteristics sv)) as [i|] eqn:Hi.
  2: { injection Hrun as <-. done. }
  apply index_where_elem in Hi. rewrite Forall_forall in Hall.
  destruct (Hall c Hi) as [ch Hc].
  unfold Characteristic_removeAllListeners, bind, get_cell, put_cell, put_service, log, ret
    in Hrun. simpl in Hrun. rewrite Hc in Hrun. injection Hrun as <-.
  assert (forall e, Characteristic.UUID <$> <[c := Characteristic.with_listeners [] ch]> (cells w) !! e
                    = Characteristic.UUID <$> cells w !! e) as Hext.
  { intros e. destruct (decide (e = c)) as [->|Hne].
    - by rewrite lookup_insert_eq, Hc.
    - by rewrite lookup_insert_ne. }
  split.
  - unfold unique_UUIDs. simpl. rewrite lookup_insert_eq. simpl. split.
    + apply Forall_forall. intros e He.
      assert (e ∈ Service.characteristics sv) as He'.
      { eapply elem_of_sublist; [exact He|apply splice1_sublist]. }
      destruct (Hall e He') as [ex Hex]. specialize (Hext e). rewrite Hex in Hext.
      destruct (_ !! e); [by eexists|discriminate].
    + rewrite (UUIDs_of_ext w) by (intros e _; apply Hext).
      eapply sublist_NoDup; [exact Hnd|unfold UUIDs_of].
      apply (fmap_sublist (fun c0 => Characteristic.UUID <$> cells w !! c0)), splice1_sublist.
  - unfold cells_below_next in *. simpl. apply map_Forall_insert_2; [|done].
    by apply (Hwf c ch).
Qed.

Lemma getCharacteristic_keeps this sv name r w w' :
  services w !! this = Some sv ->
  cells_below_next w -> unique_UUIDs w this ->
  Service_getCharacteristic this name w = (Ok r, w') ->
  unique_UUIDs w' this /\ cells_below_next w'.
Proof.
  intros Hs Hwf Huniq Hrun.
  unfold Service_getCharacteristic in Hrun. unfold bind at 1, get_service in Hrun.
  rewrite Hs in Hrun. unfold bind at 1 in Hrun.
  pose proof (find_cell_readonly (selects name) (Service.characteristics sv) w) as Hro.
  destruct (find_cell _ _ w) as [[[c|]|e] w1]; simpl in Hro; subst w1; try discriminate.
  { injection Hrun as <- <-. done. }
  destruct name as [n|ty]; [injection Hrun as <- <-; done|].
  unfold bind at 1 in Hrun.
  pose proof (find_cell_readonly (selects (ByType ty)) (Service.optionalCharacteristics sv) w)
    as Hro.
  destruct (find_cell _ _ w) as [[[t|]|e] w1]; simpl in Hro; subst w1; try discriminate.
  2: { injection Hrun as <- <-. done. }
  unfold bind at 1 in Hrun.
  destruct (Service_addCharacteristic this (Constructor ty) w) as [[c|e] w1] eqn:Hadd;
    [|discriminate].
  injection Hrun as <- <-. by eapply addCharacteristic_constructor_keeps.
Qed.

(** X23.  "You cannot have two Characteristics with the same UUID in the
    same Service": [addCharacteristic], [removeCharacteristic] and
    [getCharacteristic], whenever they return, leave the active cells of
    the Service with UUIDs that differ two by two (and every cell below
    the next free location). *)
Theorem Service_keeps_UUIDs_unique this w :
  unique_UUIDs w this ->
  cells_below_next w ->
  (forall arg c w',
     Service_addCharacteristic this arg w = (Ok c, w') ->
     unique_UUIDs w' this /\ cells_below_next w') /\
  (forall c w',
     Service_removeCharacteristic this c w = (Ok tt, w') ->
     unique_UUIDs w' this /\ cells_below_next w') /\
  (forall name r w',
     Service_getCharacteristic this name w = (Ok r, w') ->
     unique_UUIDs w' this /\ cells_below_next w').
Proof.
  intros Huniq Hwf. pose proof Huniq as Hsv. unfold unique_UUIDs in Hsv.
  destruct (services w !! this) as [sv|] eqn:Hs; [|done].
  split; [|split].
  - intros [c0|ty] c w' Hrun.
    + by eapply addCharacteristic_instance_keeps.
    + by eapply addCharacteristic_constructor_keeps.
  - intros c w' Hrun. by eapply removeCharacteristic_keeps.
  - intros name r w' Hrun. by eapply getCharacteristic_keeps.
Qed.

(** *** Instance IDs *)

Lemma assignID_loop cache name uuid subtype l : forall w,
  (forall c, c ∈ l -> is_Some (cells w !! c)) ->
  exists w',
    for_each l (fun c => Characteristic__assignID c cache name uuid subtype) w = (Ok tt, w') /\
    services w' = services w /\ trace w' = trace w /\ next w' = next w /\
    (forall c ch, cells w !! c = Some ch ->
       cells w' !! c
       = Some (if bool_decide (c ∈ l)
               then Characteristic.with_iid
                      (cache name uuid subtype (Some (Characteristic.UUID ch))) ch
               else ch)).
Proof.
  induction l as [|x l IH]; intros w Hall.
  - exists w. split; [reflexivity|]. repeat split; try done.
  - destruct (Hall x) as [xc Hx]; [by left|].
    cbn [for_each]. unfold bind at 1. unfold Characteristic__assignID at 1.
    unfold bind at 1, get_cell at 1. rewrite Hx. unfold put_cell.
    match goal with |- context [for_each _ _ ?w1] => set (w1' := w1) end.
    destruct (IH w1') as (w' & Hrun & Hsv & Htr & Hn & Hcells).
    { intros c Hc. unfold w1'. simpl. destruct (decide (c = x)) as [->|Hne].
      - rewrite lookup_insert_eq. by eexists.
      - rewrite lookup_insert_ne by done. apply Hall. by right. }
    exists w'. split; [exact Hrun|]. repeat split; try done.
    intros c ch Hc. unfold w1' in Hcells. simpl in Hcells.
    destruct (decide (c = x)) as [->|Hne].
    + rewrite Hx in Hc. injection Hc as <-.
      rewrite (Hcells x _ (lookup_insert_eq _ _ _)).
      rewrite (bool_decide_eq_true_2 (x ∈ x :: l)) by by left.
      by destruct (bool_decide (x ∈ l)).
    + rewrite (Hcells c ch) by (by rewrite lookup_insert_ne).
      destruct (bool_decide (c ∈ l)) eqn:E.
      * apply bool_decide_eq_true in E. rewrite bool_decide_eq_true_2; [done|by right].
      * apply bool_decide_eq_false in E. rewrite bool_decide_eq_false_2; [done|].
        intros Hin. apply elem_of_cons in Hin as [|]; done.
Qed.

(** X24.  [_assignIDs] gives the Service the iid 1 when it is the
    Accessory Information service and the iid of the cache otherwise,
    gives every active cell the iid the cache holds for its UUID, and
    leaves the other cells alone.  Afterwards [getCharacteristicByIID]
    finds a cell by its iid, provided that iid is [===] to itself and to
    the iid of no other cell of the Service. *)
Theorem assignIDs_then_getCharacteristicByIID this sv cache name w :
  services w !! this = Some sv ->
  (forall c, c ∈ Service.characteristics sv -> is_Some (cells w !! c)) ->
  let id := fun ch : Characteristic.t =>
    cache name (Service.UUID sv) (Service.subtype sv) (Some (Characteristic.UUID ch)) in
  exists w1,
    Service__assignIDs this cache name w = (Ok tt, w1) /\
    Service.iid <$> services w1 !! this
    = Some (if String.eqb (Service.UUID sv) "0000003E-0000-1000-8000-0026BB765291"
            then JNum 1
            else cache name (Service.UUID sv) (Service.subtype sv) None) /\
    (forall c ch, c ∈ Service.characteristics sv -> cells w !! c = Some ch ->
       cells w1 !! c = Some (Characteristic.with_iid (id ch) ch)) /\
    (forall c ch, c ∉ Service.characteristics sv -> cells w !! c = Some ch ->
       cells w1 !! c = Some ch) /\
    (forall c ch,
       c ∈ Service.characteristics sv -> cells w !! c = Some ch ->
       strict_eq (id ch) (id ch) = true ->
       (forall c' ch', c' ∈ Service.characteristics sv -> cells w !! c' = Some ch' ->
                       strict_eq (id ch') (id ch) = true -> c' = c) ->
       Service_getCharacteristicByIID this (id ch) w1 = (Ok (Some c), w1)).
Proof.
  intros Hs Hall id.
  destruct (assignID_loop cache name (Service.UUID sv) (Service.subtype sv)
              (Service.characteristics sv)
              (with_services
                 (<[this := Service.with_iid
                              (if String.eqb (Service.UUID sv) "0000003E-0000-1000-8000-0026BB765291"
                               then JNum 1
                               else cache name (Service.UUID sv) (Service.subtype sv) None) sv]>
                    (services w)) w))
    as (w1 & Hrun & Hsv & Htr & Hn & Hcells); [exact Hall|].
  simpl in Hsv.
  assert (forall c ch, c ∈ Service.characteristics sv -> cells w !! c = Some ch ->
            cells w1 !! c = Some (Characteristic.with_iid (id ch) ch)) as Hin.
  { intros c ch Hc Hch. rewrite (Hcells c ch Hch). by rewrite bool_decide_eq_true_2. }
  exists w1. split; [|split; [|split; [|split]]].
  - unfold Service__assignIDs. unfold bind at 1, get_service. rewrite Hs.
    unfold bind at 1, put_service. exact Hrun.
  - by rewrite Hsv, lookup_insert_eq.
  - exact Hin.
  - intros c ch Hc Hch. rewrite (Hcells c ch Hch). by rewrite bool_decide_eq_false_2.
  - intros c ch Hc Hch Hrefl Hinj.
    unfold Service_getCharacteristicByIID, bind, get_service.
    rewrite Hsv, lookup_insert_eq. simpl.
    destruct (find_cell_some (fun ch0 => strict_eq (Characteristic.iid ch0) (id ch))
                (Service.characteristics sv) w1 c _
                ltac:(intros c' Hc'; destruct (Hall c' Hc') as [ch' Hch'];
                      rewrite (Hin c' ch' Hc' Hch'); by eexists)
                Hc (Hin c ch Hc Hch) Hrefl) as [c' Hfind].
    rewrite Hfind. destruct (find_cell_found _ _ _ _ Hfind) as (Hc' & ch1 & Hch1 & Hf).
    destruct (Hall c' Hc') as [ch' Hch']. rewrite (Hin c' ch' Hc' Hch') in Hch1.
    injection Hch1 as <-. simpl in Hf. by rewrite (Hinj c' ch' Hc' Hch' Hf).
Qed.

Lemma Service_registry_checked : forallb Service_well_registered Service_registry = true.
Proof. vm_compute. reflexivity. Qed.

Lemma Service_well_registered_spec ty :
  Service_well_registered ty = true ->
  ServiceType.new_UUID ty <> "" /\
  ServiceType.static_UUID ty = Some (ServiceType.new_UUID ty) /\
  NoDup (map Characteristic.new_UUID (ServiceType.required ty)) /\
  Forall scalar_type (ServiceType.required ty ++ ServiceType.optional ty).
Proof.
  unfold Service_well_registered. intros Hw.
  apply andb_true_iff in Hw as [Hw Hall]. apply andb_true_iff in Hw as [Hw Hnd].
  apply andb_true_iff in Hw as [Hu Hst].
  split; [|split; [|split]].
  - apply negb_true_iff in Hu. by apply String.eqb_neq in Hu.
  - destruct (ServiceType.static_UUID ty) as [u|]; [|discriminate].
    apply String.eqb_eq in Hst. by subst u.
  - by apply bool_decide_eq_true in Hnd.
  - apply Forall_forall. intros cty Hin. rewrite forallb_forall in Hall.
    apply list_elem_of_In in Hin. by apply well_registered_scalar, Hall.
Qed.

(** X25.  Every constructor of lib/Service.js but [Service.Lightbulb] has
    its static UUID equal to the UUID of its instances and, called
    without a display name, returns a new Service with that UUID whose
    cells are new instances of its required types, in their order; no
    two of the 44 have the same UUID. *)
Theorem registry_of_Services :
  (forall ty, ty ∈ Service_registry ->
     ServiceType.static_UUID ty = Some (ServiceType.new_UUID ty) /\
     forall subtype w,
     exists w' sv,
       Service_construct ty JUndefined subtype w = (Ok (next w), w') /\
       services w' !! next w = Some sv /\
       Service.UUID sv = ServiceType.new_UUID ty /\
       Service.characteristics sv = seq (S (next w)) (length (ServiceType.required ty)) /\
       Service.optionalCharacteristics sv
       = seq (S (next w) + length (ServiceType.required ty))
           (length (ServiceType.optional ty)) /\
       (forall i cty, ServiceType.required ty !! i = Some cty ->
          cells w' !! (S (next w) + i)
          = Some (Characteristic.with_listeners [("change", BubbleToService (next w))]
                    (fresh_cell cty)))) /\
  NoDup (map ServiceType.new_UUID Service_registry) /\
  length Service_registry = 44.
Proof.
  split; [|split].
  - intros ty Hin.
    pose proof Service_registry_checked as Hall. rewrite forallb_forall in Hall.
    apply list_elem_of_In in Hin.
    destruct (Service_well_registered_spec ty (Hall ty Hin)) as (Hu & Hst & Hnd & Hsc).
    split; [exact Hst|]. intros subtype w.
    destruct (Service_construct_unnamed ty JUndefined subtype w eq_refl Hu Hnd Hsc)
      as (w' & Hrun & Hsv & Hreq & _).
    eexists w', _. split; [exact Hrun|]. split; [exact Hsv|]. simpl.
    repeat split; try reflexivity. exact Hreq.
  - refine (bool_decide_unpack _ _). vm_compute. exact I.
  - reflexivity.
Qed.
End FurtherServices.

Section FurtherBridges.
Context `{JSRuntime}.

(** *** Removing a child of a Bridge *)

Lemma find_bridged_first uuid l1 e l2 ex w :
  (forall x, x ∈ l1 -> exists xc, accessories w !! x = Some xc /\ Accessory.UUID xc <> uuid) ->
  accessories w !! e = Some ex -> Accessory.UUID ex = uuid ->
  find_bridged uuid (l1 ++ e :: l2) w = (Ok (Some (length l1)), w).
Proof.
  intros Hall He Hu. induction l1 as [|x l1 IH]; simpl.
  - unfold bind, get_accessory. rewrite He, Hu, String.eqb_refl. reflexivity.
  - unfold bind at 1, get_accessory at 1.
    destruct (Hall x) as (xc & -> & Hne); [by left|].
    destruct (String.eqb_spec (Accessory.UUID xc) uuid); [done|].
    unfold bind. rewrite IH; [reflexivity|]. intros y Hy. apply Hall. by right.
Qed.

(** X26.  [removeBridgedAccessory], with the update deferred, removes the
    first child that has the UUID of the Accessory it is given, whether
    or not that child is the Accessory itself, and removes all listeners
    of the Accessory it is given. *)
Theorem removeBridgedAccessory_matches_by_UUID this br a ac l1 e l2 ex deferUpdate w :
  accessories w !! this = Some br ->
  accessories w !! a = Some ac ->
  Accessory._isBridge ac = false ->
  this <> a ->
  Accessory.bridgedAccessories br = l1 ++ e :: l2 ->
  (forall x, x ∈ l1 ->
     exists xc, accessories w !! x = Some xc /\ Accessory.UUID xc <> Accessory.UUID ac) ->
  accessories w !! e = Some ex ->
  Accessory.UUID ex = Accessory.UUID ac ->
  truthy deferUpdate = true ->
  Bridge_removeBridgedAccessory this a deferUpdate w
  = (Ok tt,
     with_accessories
       (<[a := Accessory.with_listeners [] ac]>
          (<[this := Accessory.with_bridgedAccessories (l1 ++ l2) br]> (accessories w))) w).
Proof.
  intros Hb Ha Hnb Hne Hl Hall He Hu Hd.
  unfold Bridge_removeBridgedAccessory. unfold bind at 1, get_accessory at 1. rewrite Ha, Hnb.
  unfold bind at 1, get_accessory at 1. rewrite Hb. unfold bind at 1.
  rewrite Hl, (find_bridged_first _ l1 e l2 ex w Hall He Hu).
  rewrite splice1_middle.
  unfold Accessory_removeAllListeners, bind, get_accessory, put_accessory, ret. simpl.
  rewrite lookup_insert_ne by done. rewrite Ha, Hd. reflexivity.
Qed.

(** *** The bulk operations of a Bridge *)

Lemma for_each_stops {A} (f : A -> M void) l1 a l2 w w1 err w2 :
  for_each l1 f w = (Ok tt, w1) ->
  f a w1 = (Throw err, w2) ->
  for_each (l1 ++ a :: l2) f w = (Throw err, w2).
Proof.
  revert w. induction l1 as [|x l1 IH]; intros w; simpl.
  - intros [= <-] Hf. unfold bind. by rewrite Hf.
  - unfold bind. destruct (f x w) as [[[]|e] wx]; [|discriminate].
    intros Hrest Hf. by apply IH.
Qed.

Lemma find_bridged_readonly uuid l w : snd (find_bridged uuid l w) = w.
Proof.
  induction l as [|x l IH]; [reflexivity|].
  simpl. unfold bind at 1, get_accessory at 1.
  destruct (accessories w !! x) as [xc|]; [|reflexivity].
  destruct (String.eqb _ _); [reflexivity|].
  unfold bind. destruct (find_bridged uuid l w) as [[r|e] w1]; exact IH.
Qed.

Lemma removeBridgedAccessory_throws this a deferUpdate w err w' :
  Bridge_removeBridgedAccessory this a deferUpdate w = (Throw err, w') -> w' = w.
Proof.
  unfold Bridge_removeBridgedAccessory. unfold bind at 1, get_accessory at 1.
  destruct (accessories w !! a) as [ac|] eqn:Ha; [|by intros [= _ <-]].
  destruct (Accessory._isBridge ac); [by intros [= _ <-]|].
  unfold bind at 1, get_accessory at 1.
  destruct (accessories w !! this) as [br|] eqn:Hb; [|by intros [= _ <-]].
  unfold bind at 1.
  pose proof (find_bridged_readonly (Accessory.UUID ac) (Accessory.bridgedAccessories br) w)
    as Hro.
  destruct (find_bridged _ _ w) as [[[i|]|e] w1]; simpl in Hro; subst w1;
    try by intros [= _ <-].
  unfold Accessory_removeAllListeners, Accessory__updateConfiguration, bind, get_accessory,
    put_accessory, log, ret. simpl.
  destruct (decide (this = a)) as [->|Hne].
  - rewrite lookup_insert_eq. destruct (negb (truthy deferUpdate)); discriminate.
  - rewrite lookup_insert_ne by done. rewrite Ha.
    destruct (negb (truthy deferUpdate)); discriminate.
Qed.

(** X27.  The bulk operations of a Bridge stop at the first Accessory that
    is refused and throw its error: what was done for the Accessories
    before it stays done, and the configuration is not recomputed.  A
    removal that throws has changed nothing. *)
Theorem bulk_changes_of_a_Bridge_are_not_atomic this l1 a l2 w w1 err w2 :
  (for_each l1 (fun x => Bridge_removeBridgedAccessory this x (JBool true)) w = (Ok tt, w1) ->
   Bridge_removeBridgedAccessory this a (JBool true) w1 = (Throw err, w2) ->
   w2 = w1 /\
   Bridge_removeBridgedAccessories this (l1 ++ a :: l2) w = (Throw err, w1)) /\
  (for_each l1 (fun x => let! _ := Bridge_addBridgedAccessory this x (JBool true) in ret tt) w
   = (Ok tt, w1) ->
   Bridge_addBridgedAccessory this a (JBool true) w1 = (Throw err, w2) ->
   Bridge_addBridgedAccessories this (l1 ++ a :: l2) w = (Throw err, w2)).
Proof.
  split; intros Hpre Hfail.
  - pose proof (removeBridgedAccessory_throws _ _ _ _ _ _ Hfail) as ->.
    split; [reflexivity|].
    unfold Bridge_removeBridgedAccessories. unfold bind at 1.
    by rewrite (for_each_stops _ l1 a l2 w w1 err w1 Hpre Hfail).
  - unfold Bridge_addBridgedAccessories. unfold bind at 1.
    rewrite (for_each_stops _ l1 a l2 w w1 err w2 Hpre); [reflexivity|].
    unfold bind. by rewrite Hfail.
Qed.
End FurtherBridges.

(** *** The examples, continued *)


(** The override of "On" answers a read with [true], and a write without
    a value. *)
Lemma override_success_stores_and_notifies_witness :
  cells example_store !! 1 = Some example_On /\
  truthy JNull = false /\
  allocates_default (Characteristic.props example_On) = false /\
  exists w1 w2,
    run_continuation (GetK 1 (Some 42) JNull) JNull (JBool true) example_store = (Ok tt, w1) /\
    Characteristic.value <$> cells w1 !! 1 = Some (JBool true) /\
    run_continuation (SetK 1 (JBool true) (Some 42) JNull) JNull JUndefined example_store
    = (Ok tt, w2) /\
    Characteristic.value <$> cells w2 !! 1 = Some (JBool true).
Proof.
  split; [reflexivity|]. split; [reflexivity|]. split; [reflexivity|].
  destruct (override_success_stores_and_notifies 1 example_On (Some 42) JNull JNull
              (JBool true) (JBool true) example_store eq_refl eq_refl eq_refl) as [Hget _].
  destruct (override_success_stores_and_notifies 1 example_On (Some 42) JNull JNull
              JUndefined (JBool true) example_store eq_refl eq_refl eq_refl) as [_ Hset].
  eexists _, _. split; [exact Hget|]. split; [reflexivity|].
  split; [exact Hset|]. reflexivity.
Defined.


(** "Brightness", with the values left out. *)
Lemma toHAP_value_key_witness :
  exists hap,
    cells example_store !! 2 = Some example_Brightness /\
    @Characteristic_toHAP example_runtime 2 (Some {| omitValues := JBool true |}) example_store
    = (Ok hap, example_store) /\
    (is_Some (hap !! "value")
     <-> (Characteristic.READ ∈ Characteristic.perms (Characteristic.props example_Brightness))
         /\ omits (Some {| omitValues := JBool true |}) = false).
Proof.
  eexists. split; [reflexivity|]. split; [reflexivity|].
  apply (@toHAP_value_key example_runtime 2 example_Brightness
           (Some {| omitValues := JBool true |}) example_store _ example_store eq_refl).
  reflexivity.
Defined.

(** "Brightness" is a percentage between 0 and 100. *)
Lemma toHAP_metadata_witness :
  exists hap,
    cells example_store !! 2 = Some example_Brightness /\
    @Characteristic_toHAP example_runtime 2 None example_store = (Ok hap, example_store) /\
    hap !! "unit" = Some (HVal (JStr "percentage")) /\
    hap !! "maxValue" = Some (HVal (JNum 100)) /\
    hap !! "valid-values" = None.
Proof.
  eexists. split; [reflexivity|]. split; [reflexivity|].
  pose proof (@toHAP_metadata example_runtime 2 example_Brightness None example_store _
                example_store eq_refl eq_refl) as Hm.
  destruct Hm as (_ & _ & _ & _ & _ & Hunit & _ & Hmax & _ & Hvalid & _).
  split; [exact Hunit|]. split; [exact Hmax|]. exact Hvalid.
Defined.


(** A name of 70 letters. *)
Lemma toHAP_ascii_string_witness :
  cells example_store_labelled !! 14 = Some example_Label /\
  Characteristic.format (Characteristic.props example_Label) = Some Characteristic.STRING /\
  @toHAP_constrain example_runtime (Characteristic.props example_Label)
    (Characteristic.value example_Label) = JStr (repeat_string 70 "a") /\
  has_READ (Characteristic.props example_Label) = true /\
  is_ascii (repeat_string 70 "a") = true /\
  exists hap,
    @Characteristic_toHAP example_runtime 14 None example_store_labelled
    = (Ok hap, example_store_labelled) /\
    hap !! "value" = Some (HVal (JStr (substring 0 256 (repeat_string 70 "a")))) /\
    hap !! "maxLen" = Some (HVal (JNum (float_of_nat 70))).
Proof.
  split; [reflexivity|]. split; [reflexivity|]. split; [reflexivity|].
  split; [reflexivity|]. split; [vm_compute; reflexivity|].
  destruct (@toHAP_ascii_string example_runtime 14 example_Label (repeat_string 70 "a")
              example_store_labelled eq_refl eq_refl eq_refl eq_refl eq_refl)
    as (hap & Hrun & Hvalue & _ & _ & HmaxLen).
  exists hap. split; [exact Hrun|]. split; [exact Hvalue|]. exact HmaxLen.
Defined.

(** The name of 259 bytes is well-formed. *)
Lemma toHAP_string_is_at_most_258_bytes_witness :
  cells example_store !! 4 = Some example_Name /\
  Characteristic.format (Characteristic.props example_Name) = Some Characteristic.STRING /\
  @toHAP_constrain example_runtime (Characteristic.props example_Name)
    (Characteristic.value example_Name) = JStr long_name /\
  has_READ (Characteristic.props example_Name) = true /\
  utf8_decode long_name = long_name /\
  exists hap t,
    @Characteristic_toHAP example_runtime 4 None example_store = (Ok hap, example_store) /\
    hap !! "value" = Some (HVal (JStr t)) /\
    String.length t <= 258 /\
    (String.length long_name <= 256 -> t = long_name).
Proof.
  assert (utf8_decode long_name = long_name) as Hwf by (vm_compute; reflexivity).
  split; [reflexivity|]. split; [reflexivity|]. split; [reflexivity|].
  split; [reflexivity|]. split; [exact Hwf|].
  exact (@toHAP_string_is_at_most_258_bytes example_runtime 4 example_Name long_name
           example_store eq_refl eq_refl eq_refl eq_refl Hwf).
Defined.

(** 2^-20 is printed as 9.5367431640625e-7: thirteen digits and seven
    places. *)
Lemma decimalPlaces_reads_the_text_witness :
  no_match_inside "9" = true /\
  all_digits "5367431640625" = true /\
  "5367431640625" <> "" /\
  ("-" = "" \/ "-" = "+" \/ "-" = "-") /\
  all_digits "7" = true /\
  "7" <> "" /\
  @NumberToString example_runtime_printing 0x1p-20
  = ("9" ++ "." ++ "5367431640625" ++ "e" ++ "-" ++ "7")%string /\
  @decimalPlaces example_runtime_printing 0x1p-20 = 20%Z.
Proof.
  assert ("5367431640625" <> "") as Hf by discriminate.
  assert ("7" <> "") as He by discriminate.
  assert ("-" = "" \/ "-" = "+" \/ "-" = "-") as Hs by (right; right; reflexivity).
  split; [reflexivity|]. split; [reflexivity|]. split; [exact Hf|]. split; [exact Hs|].
  split; [reflexivity|]. split; [exact He|]. split; [reflexivity|].
  rewrite (proj2 (proj2 (proj2
             (@decimalPlaces_reads_the_text example_runtime_printing 0x1p-20
                "9" "5367431640625" "-" "7" eq_refl eq_refl Hf Hs eq_refl He))) eq_refl).
  reflexivity.
Defined.

(** The custom cell has a [minValue] of 10. *)
Lemma default_is_not_below_minValue_witness :
  cells example_store !! 13 = Some example_inverted /\
  Characteristic.minValue (Characteristic.props example_inverted) = Some 10%float /\
  exists v w',
    Characteristic_getDefaultValue 13 example_store = (Ok v, w') /\
    forall x, v = JNum x ->
      @js_lt example_runtime v 10 = false /\ x = (if float_truthy 10 then 10%float else 0%float).
Proof.
  split; [reflexivity|]. split; [reflexivity|].
  exact (@default_is_not_below_minValue example_runtime 13 example_inverted 10%float
           example_store eq_refl eq_refl).
Defined.


(** "Brightness" is a cell of the Lightbulb. *)
Lemma testCharacteristic_agrees_with_getCharacteristic_witness :
  services example_store !! 5 = Some example_Lightbulb /\
  (forall c, c ∈ Service.characteristics example_Lightbulb ->
             is_Some (cells example_store !! c)) /\
  exists b,
    Service_testCharacteristic 5 (ByType Characteristic_Brightness) example_store
    = (Ok b, example_store) /\
    (b = true ->
     exists c ch,
       Service_getCharacteristic 5 (ByType Characteristic_Brightness) example_store
       = (Ok (Some c), example_store) /\
       c ∈ Service.characteristics example_Lightbulb /\
       cells example_store !! c = Some ch /\
       selects (ByType Characteristic_Brightness) ch = true) /\
    (b = false ->
     (forall c ch, c ∈ Service.characteristics example_Lightbulb ->
                   cells example_store !! c = Some ch ->
                   selects (ByType Characteristic_Brightness) ch = false) /\
     forall n, ByType Characteristic_Brightness = ByName n ->
               Service_getCharacteristic 5 (ByType Characteristic_Brightness) example_store
               = (Ok None, example_store)).
Proof.
  assert (forall c, c ∈ Service.characteristics example_Lightbulb ->
                    is_Some (cells example_store !! c)) as Hall.
  { intros c Hc. simpl in Hc.
    repeat (apply elem_of_cons in Hc as [->|Hc]; [by eexists|]).
    by apply not_elem_of_nil in Hc. }
  split; [reflexivity|]. split; [exact Hall|].
  exact (testCharacteristic_agrees_with_getCharacteristic 5 example_Lightbulb
           (ByType Characteristic_Brightness) example_store eq_refl Hall).
Defined.

(** The Lightbulb has no cell by the name of "Hue". *)
Lemma setCharacteristic_of_a_missing_cell_witness :
  Service_getCharacteristic 5 (ByName "Hue") example_store = (Ok None, example_store) /\
  Service_setCharacteristic 5 (ByName "Hue") (JNum 120) example_store
  = (Throw (TypeError "Cannot read property 'setValue' of undefined"), example_store).
Proof.
  assert (Service_getCharacteristic 5 (ByName "Hue") example_store = (Ok None, example_store))
    as Hget by reflexivity.
  split; [exact Hget|].
  exact (proj1 (proj2 (proj1 (setCharacteristic_of_a_missing_cell 5 (ByName "Hue") (JNum 120)
                                example_store) example_store Hget))).
Defined.

Lemma example_Identify_is_new_to_the_Lightbulb :
  forall e, e ∈ Service.characteristics example_Lightbulb ->
    exists ex, cells example_store !! e = Some ex /\
               Characteristic.UUID ex <> Characteristic.UUID example_Identify.
Proof.
  intros e He. simpl in He.
  apply elem_of_cons in He as [->|He]; [exists example_On; split; [reflexivity|discriminate]|].
  apply elem_of_cons in He as [->|He];
    [exists example_Brightness; split; [reflexivity|discriminate]|].
  by apply not_elem_of_nil in He.
Defined.

(** "Identify" is added to the Lightbulb and removed again. *)
Lemma addCharacteristic_then_removeCharacteristic_witness :
  services example_store !! 5 = Some example_Lightbulb /\
  cells example_store !! 3 = Some example_Identify /\
  (forall e, e ∈ Service.characteristics example_Lightbulb ->
     exists ex, cells example_store !! e = Some ex /\
                Characteristic.UUID ex <> Characteristic.UUID example_Identify) /\
  exists w1 w2,
    Service_addCharacteristic 5 (Instance 3) example_store = (Ok 3, w1) /\
    Service_removeCharacteristic 5 3 w1 = (Ok tt, w2) /\
    services w2 !! 5 = Some example_Lightbulb /\
    cells w2 !! 3 = Some (Characteristic.with_listeners [] example_Identify).
Proof.
  split; [reflexivity|]. split; [reflexivity|].
  split; [exact example_Identify_is_new_to_the_Lightbulb|].
  destruct (addCharacteristic_then_removeCharacteristic 5 example_Lightbulb 3 example_Identify
              example_store eq_refl eq_refl example_Identify_is_new_to_the_Lightbulb)
    as (w1 & w2 & Hadd & _ & _ & Hrem & Hsv & Hcell & _).
  exists w1, w2. split; [exact Hadd|]. split; [exact Hrem|]. split; [exact Hsv|]. exact Hcell.
Defined.

(** "Identify" changes from [false] to [true], in the Lightbulb and out
    of it. *)
Lemma Service_relays_the_changes_of_its_cells_witness :
  services example_store !! 5 = Some example_Lightbulb /\
  cells example_store !! 3 = Some example_Identify /\
  (forall e, e ∈ Service.characteristics example_Lightbulb ->
     exists ex, cells example_store !! e = Some ex /\
                Characteristic.UUID ex <> Characteristic.UUID example_Identify) /\
  nullish (JBool true) = false /\
  strict_eq (Characteristic.value example_Identify) (JBool true) = false /\
  exists w1 w2 w3 w4,
    Service_addCharacteristic 5 (Instance 3) example_store = (Ok 3, w1) /\
    Characteristic_updateValue 3 (JBool true) None JNull w1 = (Ok 3, w2) /\
    trace w2
    = trace w1 ++ [EmitChange 3 (JBool false) (JBool true) JNull;
                   EmitCharacteristicChange 5 3 (JBool false) (JBool true) JNull] /\
    Service_removeCharacteristic 5 3 w1 = (Ok tt, w3) /\
    Characteristic_updateValue 3 (JBool true) None JNull w3 = (Ok 3, w4) /\
    trace w4 = trace w3 ++ [EmitChange 3 (JBool false) (JBool true) JNull].
Proof.
  split; [reflexivity|]. split; [reflexivity|].
  split; [exact example_Identify_is_new_to_the_Lightbulb|].
  split; [reflexivity|]. split; [reflexivity|].
  exact (Service_relays_the_changes_of_its_cells 5 example_Lightbulb 3 example_Identify
           (JBool true) None JNull example_store eq_refl eq_refl
           example_Identify_is_new_to_the_Lightbulb eq_refl eq_refl).
Defined.

(** The projection of the Lightbulb: "On" and "Brightness", not "Hue". *)
Lemma Service_toHAP_lists_the_active_cells_witness :
  services example_store !! 5 = Some example_Lightbulb /\
  exists sh,
    @Service_toHAP example_runtime 5 None example_store = (Ok sh, example_store) /\
    Forall2 (fun c h => @Characteristic_toHAP example_runtime c None example_store
                        = (Ok h, example_store))
      [1; 2] (hap_characteristics sh) /\
    hap_type sh = "00000043-0000-1000-8000-0026BB765291".
Proof.
  split; [reflexivity|].
  destruct (@Service_toHAP_lists_the_active_cells example_runtime 5 example_Lightbulb None
              example_store eq_refl) as [Hshape Hreturns].
  destruct Hreturns as [sh Hrun].
  { intros c Hc. simpl in Hc.
    repeat (apply elem_of_cons in Hc as [->|Hc]; [eexists; reflexivity|]).
    by apply not_elem_of_nil in Hc. }
  destruct (Hshape sh example_store Hrun) as (_ & Hcells & _ & Htype & _).
  exists sh. split; [exact Hrun|]. split; [exact Hcells|]. exact Htype.
Defined.

(** [new Service('Lamp', uuid)] *)
Lemma Service_new_names_itself_witness :
  "00000043-0000-1000-8000-0026BB765291" <> "" /\
  truthy (JStr "Lamp") = true /\
  exists w',
    Service_new (JStr "Lamp") "00000043-0000-1000-8000-0026BB765291" JUndefined [Service_id]
      example_store = (Ok 20, w') /\
    Service.characteristics <$> services w' !! 20 = Some [21] /\
    Characteristic.value <$> cells w' !! 21 = Some (JStr "Lamp").
Proof.
  assert ("00000043-0000-1000-8000-0026BB765291" <> "") as Hu by discriminate.
  split; [exact Hu|]. split; [reflexivity|].
  destruct (proj2 (proj2 (Service_new_names_itself (JStr "Lamp")
                            "00000043-0000-1000-8000-0026BB765291" JUndefined [Service_id]
                            example_store)) Hu eq_refl)
    as (w' & Hrun & Hsv & Hcells & _).
  exists w'. split; [exact Hrun|].
  split.
  - exact (eq_trans (f_equal (fun m => Service.characteristics <$> m !! 20) Hsv) eq_refl).
  - exact (eq_trans (f_equal (fun m => Characteristic.value <$> m !! 21) Hcells) eq_refl).
Defined.

Lemma BridgingState_is_well_formed :
  NoDup (map Characteristic.new_UUID (ServiceType.required Service_BridgingState)) /\
  Forall scalar_type
    (ServiceType.required Service_BridgingState ++ ServiceType.optional Service_BridgingState).
Proof.
  split.
  - refine (bool_decide_unpack _ _). vm_compute. exact I.
  - repeat constructor.
Defined.

(** [new Service.BridgingState()] *)
Lemma Service_construct_without_a_name_witness :
  truthy JUndefined = false /\
  ServiceType.new_UUID Service_BridgingState <> "" /\
  NoDup (map Characteristic.new_UUID (ServiceType.required Service_BridgingState)) /\
  Forall scalar_type
    (ServiceType.required Service_BridgingState ++ ServiceType.optional Service_BridgingState) /\
  exists w',
    Service_construct Service_BridgingState JUndefined JUndefined example_store = (Ok 20, w') /\
    Service.characteristics <$> services w' !! 20 = Some [21; 22; 23; 24] /\
    Service.optionalCharacteristics <$> services w' !! 20 = Some [25] /\
    cells w' !! 22
    = Some (Characteristic.with_listeners [("change", BubbleToService 20)]
              (fresh_cell Characteristic_LinkQuality)).
Proof.
  assert (ServiceType.new_UUID Service_BridgingState <> "") as Hu by discriminate.
  destruct BridgingState_is_well_formed as [Hnd Hsc].
  split; [reflexivity|]. split; [exact Hu|]. split; [exact Hnd|]. split; [exact Hsc|].
  destruct (Service_construct_without_a_name Service_BridgingState JUndefined JUndefined
              example_store eq_refl Hu Hnd Hsc) as (w' & Hrun & Hsv & Hreq & _).
  exists w'. split; [exact Hrun|].
  split; [exact (f_equal (fmap Service.characteristics) Hsv)|].
  split; [exact (f_equal (fmap Service.optionalCharacteristics) Hsv)|].
  exact (Hreq 1 Characteristic_LinkQuality eq_refl).
Defined.

(** [new Service.AccessoryInformation('Lamp')] *)
Lemma Service_construct_with_a_name_twice_witness :
  truthy (JStr "Lamp") = true /\
  ServiceType.new_UUID Service_AccessoryInformation <> "" /\
  (Characteristic_Name ∈ ServiceType.required Service_AccessoryInformation) /\
  Characteristic.new_UUID Characteristic_Name = Characteristic.new_UUID Characteristic_Name /\
  exists err w',
    Service_construct Service_AccessoryInformation (JStr "Lamp") JUndefined example_store
    = (Throw err, w').
Proof.
  assert (ServiceType.new_UUID Service_AccessoryInformation <> "") as Hu by discriminate.
  assert (Characteristic_Name ∈ ServiceType.required Service_AccessoryInformation) as Hin.
  { simpl. do 3 right. left. }
  split; [reflexivity|]. split; [exact Hu|]. split; [exact Hin|]. split; [reflexivity|].
  exact (Service_construct_with_a_name_twice Service_AccessoryInformation Characteristic_Name
           (JStr "Lamp") JUndefined example_store eq_refl Hu Hin eq_refl).
Defined.

Lemma example_Lightbulb_has_unique_UUIDs : unique_UUIDs example_store 5.
Proof.
  unfold unique_UUIDs. change (services example_store !! 5) with (Some example_Lightbulb).
  split.
  - repeat constructor; by eexists.
  - refine (bool_decide_unpack _ _). vm_compute. exact I.
Defined.

(** The Lightbulb, after [getCharacteristic(Characteristic.Hue)]. *)
Lemma Service_keeps_UUIDs_unique_witness :
  unique_UUIDs example_store 5 /\
  cells_below_next example_store /\
  let run := Service_getCharacteristic 5 (ByType Characteristic_Hue) example_store in
  run = (Ok (Some 20), snd run) /\
  unique_UUIDs (snd run) 5 /\ cells_below_next (snd run).
Proof.
  split; [exact example_Lightbulb_has_unique_UUIDs|].
  split; [exact example_store_below_next|].
  assert (Service_getCharacteristic 5 (ByType Characteristic_Hue) example_store
          = (Ok (Some 20),
             snd (Service_getCharacteristic 5 (ByType Characteristic_Hue) example_store)))
    as Hrun by (vm_compute; reflexivity).
  split; [exact Hrun|].
  exact (proj2 (proj2 (Service_keeps_UUIDs_unique 5 example_store
                         example_Lightbulb_has_unique_UUIDs example_store_below_next))
           (ByType Characteristic_Hue) (Some 20) _ Hrun).
Defined.

(** The identifiers of the Lightbulb. *)
Lemma assignIDs_then_getCharacteristicByIID_witness :
  services example_store !! 5 = Some example_Lightbulb /\
  (forall c, c ∈ Service.characteristics example_Lightbulb ->
             is_Some (cells example_store !! c)) /\
  exists w1,
    Service__assignIDs 5 example_identifierCache "lamp" example_store = (Ok tt, w1) /\
    Service.iid <$> services w1 !! 5 = Some (JNum 8) /\
    cells w1 !! 2 = Some (Characteristic.with_iid (JNum 10) example_Brightness) /\
    Service_getCharacteristicByIID 5 (JNum 10) w1 = (Ok (Some 2), w1).
Proof.
  assert (forall c, c ∈ Service.characteristics example_Lightbulb ->
                    is_Some (cells example_store !! c)) as Hall.
  { intros c Hc. simpl in Hc.
    repeat (apply elem_of_cons in Hc as [->|Hc]; [by eexists|]).
    by apply not_elem_of_nil in Hc. }
  split; [reflexivity|]. split; [exact Hall|].
  destruct (assignIDs_then_getCharacteristicByIID 5 example_Lightbulb example_identifierCache
              "lamp" example_store eq_refl Hall) as (w1 & Hrun & Hiid & Hin & _ & Hfind).
  assert (2 ∈ Service.characteristics example_Lightbulb) as H2 by (simpl; right; left).
  exists w1. split; [exact Hrun|]. split; [exact Hiid|].
  split; [exact (Hin 2 example_Brightness H2 eq_refl)|].
  apply (Hfind 2 example_Brightness H2 eq_refl eq_refl).
  intros c' ch' Hc' Hch' Heq. simpl in Hc'.
  apply elem_of_cons in Hc' as [->|Hc'].
  - assert (ch' = example_On) as -> by (apply (inj Some); rewrite <- Hch'; reflexivity).
    vm_compute in Heq. discriminate.
  - apply elem_of_cons in Hc' as [->|Hc']; [reflexivity|]. by apply not_elem_of_nil in Hc'.
Defined.

(** The Lightbulb is given "Identify" as its only cell. *)
Lemma sideloadCharacteristics_does_not_check_witness :
  services example_store !! 5 = Some example_Lightbulb /\
  (forall c, c ∈ [3] -> is_Some (cells example_store !! c)) /\
  exists w',
    Service__sideloadCharacteristics 5 [3] example_store = (Ok tt, w') /\
    services w' = <[5 := Service.with_characteristics [3] example_Lightbulb]>
                    (services example_store) /\
    trace w' = trace example_store.
Proof.
  assert (forall c, c ∈ [3] -> is_Some (cells example_store !! c)) as Hall.
  { intros c Hc. apply list_elem_of_singleton in Hc as ->. by eexists. }
  split; [reflexivity|]. split; [exact Hall|].
  destruct (sideloadCharacteristics_does_not_check 5 example_Lightbulb [3] example_store
              eq_refl Hall) as (w' & Hrun & Hsv & Htr & _).
  exists w'. split; [exact Hrun|]. split; [exact Hsv|]. exact Htr.
Defined.

(** The Bridge is asked to remove "Lamp again", which it never held: it
    lets go of "Lamp", which has the same UUID. *)
Lemma removeBridgedAccessory_matches_by_UUID_witness :
  accessories example_store !! 8 = Some (example_accessory "Bridge" "bridge" true [9]) /\
  accessories example_store !! 11 = Some (example_accessory "Lamp again" "lamp" false []) /\
  Accessory._isBridge (example_accessory "Lamp again" "lamp" false []) = false /\
  8 <> 11 /\
  Accessory.bridgedAccessories (example_accessory "Bridge" "bridge" true [9]) = [] ++ 9 :: [] /\
  (forall x, x ∈ @nil loc ->
     exists xc, accessories example_store !! x = Some xc /\
                Accessory.UUID xc
                <> Accessory.UUID (example_accessory "Lamp again" "lamp" false [])) /\
  accessories example_store !! 9 = Some (example_accessory "Lamp" "lamp" false []) /\
  Accessory.UUID (example_accessory "Lamp" "lamp" false [])
  = Accessory.UUID (example_accessory "Lamp again" "lamp" false []) /\
  truthy (JBool true) = true /\
  Bridge_removeBridgedAccessory 8 11 (JBool true) example_store
  = (Ok tt,
     with_accessories
       (<[11 := Accessory.with_listeners [] (example_accessory "Lamp again" "lamp" false [])]>
          (<[8 := Accessory.with_bridgedAccessories ([] ++ [])
                    (example_accessory "Bridge" "bridge" true [9])]>
             (accessories example_store))) example_store).
Proof.
  assert (8 <> 11) as Hne by discriminate.
  assert (forall x, x ∈ @nil loc ->
            exists xc, accessories example_store !! x = Some xc /\
                       Accessory.UUID xc
                       <> Accessory.UUID (example_accessory "Lamp again" "lamp" false []))
    as Hall by (intros x Hx; by apply not_elem_of_nil in Hx).
  split; [reflexivity|]. split; [reflexivity|]. split; [reflexivity|]. split; [exact Hne|].
  split; [reflexivity|]. split; [exact Hall|]. split; [reflexivity|]. split; [reflexivity|].
  split; [reflexivity|].
  exact (removeBridgedAccessory_matches_by_UUID 8 (example_accessory "Bridge" "bridge" true [9])
           11 (example_accessory "Lamp again" "lamp" false []) [] 9 []
           (example_accessory "Lamp" "lamp" false []) (JBool true) example_store
           eq_refl eq_refl eq_refl Hne eq_refl Hall eq_refl eq_refl eq_refl).
Defined.

(** The Bridge is asked to remove "Lamp" and "Fan": it lets go of "Lamp"
    and throws at "Fan". *)
Lemma bulk_changes_of_a_Bridge_are_not_atomic_witness :
  let w1 := snd (Bridge_removeBridgedAccessory 8 9 (JBool true) example_store) in
  let err := Error "Cannot find the bridged Accessory to remove." in
  for_each [9] (fun x => Bridge_removeBridgedAccessory 8 x (JBool true)) example_store
  = (Ok tt, w1) /\
  Bridge_removeBridgedAccessory 8 12 (JBool true) w1 = (Throw err, w1) /\
  Bridge_removeBridgedAccessories 8 ([9] ++ 12 :: []) example_store = (Throw err, w1) /\
  Accessory.bridgedAccessories <$> accessories w1 !! 8 = Some [].
Proof.
  intros w1 err.
  assert (for_each [9] (fun x => Bridge_removeBridgedAccessory 8 x (JBool true)) example_store
          = (Ok tt, w1)) as Hpre by (vm_compute; reflexivity).
  assert (Bridge_removeBridgedAccessory 8 12 (JBool true) w1 = (Throw err, w1)) as Hfail
    by (vm_compute; reflexivity).
  split; [exact Hpre|]. split; [exact Hfail|].
  split; [|vm_compute; reflexivity].
  exact (proj2 (proj1 (bulk_changes_of_a_Bridge_are_not_atomic 8 [9] 12 [] example_store w1
                         err w1) Hpre Hfail)).
Defined.
